(* ===== verification/_CoqProject ===== *)
-Q . S2P
Prelude.v
JsValue.v
Effects.v
Foreign.v
Http.v
Reference.v
Config.v
Validate.v
AuthMw.v
AuthRoutes.v
Base64.v
JsonPrint.v
JsonParse.v
JsonNumber.v
JsonRoundTrip.v
ContentRoutes.v
RpcRoutes.v
App.v
AppSafety.v
Concurrency.v
AuthFlow.v
Accounts.v
Validation.v
Content.v
Node.v
Jsx.v
Api.v
ClientTypes.v
NewsletterForm.v
Calendar.v
StatsPanel.v
Hologram.v
Page.v
Service.v
Linearize.v
Refinement.v
Routes.v
Wire.v
EndToEnd.v
ClientCalls.v
Site.v
StatsContract.v
Contract.v
TypedClient.v
Scenery.v
Entry.v
