(* ===== verification/Prelude.v ===== *)
(** * Hylium web services: a verification development

    The repository holds the web side of the Hylium coin: an Express back end
    (backend/src) that manages accounts, a newsletter, a contact form, a list
    of downloads and a guarded proxy to the node, and a React site
    (website/src) that talks to it.  This library models both and proves what
    makes them correct.

    ** The parts and the files that model them

    Every file name below is relative to src/.

    - [JsValue], [JsonPrint], [JsonParse], [JsonNumber], [JsonRoundTrip],
      [Base64], [Calendar]: what the
      program takes from JavaScript.  Values, truthiness, property access and
      exceptions; strings as their UTF-8 bytes; numbers as binary64;
      [parseInt], [toISOString], [JSON.stringify], [JSON.parse] and the Base64
      encoding of a [Buffer].
    - [Effects]: an asynchronous function is a finite tree ([prog], [M]) whose
      nodes are calls to foreign code and accesses to module state.  [exec]
      gives its executions under arbitrary answers, [run] its execution in an
      environment ([Env]), [shuffle] the interleavings of several executions,
      [replays] the run of a trace against the shared state.
    - [Foreign], [Http]: the laws that are relied on in Prisma, zod, bcryptjs,
      jsonwebtoken, the clock and Express, as classes; [Foreign] also has the
      database schema (backend/prisma/schema.prisma).  [PrismaUp] adds what
      holds while the database is up: which queries succeed.  [Reference] is an
      executable environment and an Express that satisfy the laws: it shows
      that they are consistent and is what the concrete runs use.
    - [Config] (backend/src/config/index.ts), [Validate] and [AuthMw]
      (backend/src/middleware/validate.ts, auth.ts), [AuthRoutes]
      (backend/src/routes/auth.ts), [ContentRoutes] (routes/newsletter.ts,
      contact.ts and downloads.ts, one module each), [RpcRoutes]
      (routes/rpc.ts and stats.ts), [App] (backend/src/index.ts): one
      definition per handler and middleware, with every call, guard and early
      return of the source, and the application as the list of its layers.
      The packages that supply middleware are the class [Packages].
    - [Jsx], [Api] and [ClientTypes] (website/src/services/api.ts, its calls and
      its types), [NewsletterForm]
      (components/Newsletter.tsx), [StatsPanel] (components/Stats.tsx),
      [Hologram] (components/Scene3D.tsx), [Page] (App.tsx, Navbar.tsx,
      Hero.tsx, Features.tsx, Roadmap.tsx, Footer.tsx): the element tree of
      every component as a function of its state, and the components with
      effects as step relations over their state, the requests in flight and
      the timers.
    - [Service]: an abstract specification of the server, with atomic calls on
      members, subscribers, an inbox and a catalogue.
    - [Site]: all components of the page as one machine, against the laws
      ([BackendLaws]) it relies on in the calls to its server.  [Scenery]
      (components/Scene.tsx, ParticlesBackground.tsx, TrustFooter.tsx): the
      components the site keeps but does not show.  [Entry]: where the two
      programs start (website/index.html and main.tsx, [app.listen]).
    - [Wire]: a request as it arrives, with its Content-Type and its bytes, and
      the laws ([WireLaws]) of the packages in front of the routes: helmet and
      cors pass a request on, the limiter answers 429, [express.json] reads
      bodies of the type application/json up to 10240 bytes, and
      [express.urlencoded] leaves other types alone.
    - [Routes], [EndToEnd], [ClientCalls], [StatsContract], [Contract],
      [TypedClient]: the site and the server composed over a wire, one call at a
      time and as two concurrent systems.

    ** What the theorems show

    - [AppSafety]: for every request and whatever foreign code answers, one
      response and no unhandled rejection; downloads are written only after a
      verified administrator's token; the node is called only with listed
      methods.  One induction over the layers ([app_policy]) carries the
      handlers' executions to the application for any [Policy].
    - [Concurrency], [Validation]: invariants of the tables through every
      interleaving of any number of requests; the validation middleware runs a
      handler exactly on accepted bodies.
    - [AuthFlow], [Accounts]: the outcomes of registration, login and refresh,
      exactly which one when the database is up, the round trips between them with any traffic in between, the
      separation of access and refresh tokens and their expiry.
    - [Content], [Node]: the outcomes of the other handlers, the life of a
      download, the cache of the statistics and its 30 seconds, the proxy and
      the configuration.
    - [Linearize], [Refinement]: every interleaving of requests has the
      responses and the final state of some order of atomic calls of
      [Service].
    - [NewsletterForm], [StatsPanel], [Hologram], [Page], [Api]: the form comes
      back to rest, which figures the panel shows and when it polls, what the
      scene shows, where the links lead, what a call of the client resolves to.
    - [Calendar], [JsonParse], [JsonNumber], [JsonRoundTrip]: lemmas that check
      the models of the built-ins: the date arithmetic is the Gregorian
      calendar; [JSON.parse] decides every text and reads back what
      [JSON.stringify] wrote, printed numbers included.
    - [EndToEnd], [ClientCalls]: a subscription from the form to the database
      and back, the statistics from the node to the panel, a message to the
      inbox (or, if the request is too long, to an error), the list of downloads
      to the client.
    - [Site], [StatsContract], [Contract]: under the laws the page can be
      rendered in every state it reaches; the server discharges them, through
      every interleaving, as long as the node reports numbers; so the two
      together never go down.  A difficulty that is no number goes through the
      server to the page and takes it down.  A JSON body that cannot be read is
      answered 500.
    - [TypedClient]: what a call of the client resolves to has the type the
      client declares, except for missing checksums of downloads.
    - [Scenery], [Entry]: the particle buffers are filled exactly; the client
      finds the server if it listens on port 3001.

    ** Bounds and fuel

    Handlers are finite trees and need no fuel.  [JSON_parse] has twice the
    length of the text and two more; [JSON_parse_terminates] shows that more
    makes no difference.  [skip_space] has the length of its string and drops
    a character in each round.  Printing a number tries at most 17 digits,
    which identify every binary64 value, and looks for the decimal exponent
    from an estimate (the binary exponent times log10 2) that is two or three
    below it, with fuel four.

    ** What is not modelled

    The HTTP parsing (a HEAD request is routed like a GET, and what is sent
    back without a body is not modelled) and the state of express-rate-limit,
    helmet and cors (parameters with laws); form-encoded bodies, which the site
    does not send; the preflight requests of the browser; React, the DOM, three.js and framer-motion, which
    take the element trees; the trigonometric functions, which the language
    leaves to the implementation (a parameter); backend/dist, the compiler's
    output for backend/src, the same program without its types; the settings of
    the build tools; and the C++ node, a separate program behind JSON-RPC. *)

From stdpp Require Export base list strings option gmap sorting pretty.
From Stdlib Require Export ZArith Lia Ascii.
From Stdlib Require String.
Export String.StringSyntax.

(** ** Scope and notations *)

Declare Scope hyl_scope.
Delimit Scope hyl_scope with hyl.
Open Scope string_scope.
Open Scope list_scope.

#[export] Set Warnings "-clear-no-such-hyp".

(** ** Tactics *)

(** Break every conjunction and existential of the context, then substitute. *)
Ltac unpack :=
  repeat match goal with
  | H : _ ∧ _ |- _ => destruct H
  | H : ∃ _, _ |- _ => destruct H
  end; simplify_eq/=.

Create HintDb hyl discriminated.

(** ** Generic lemmas *)

Section generic.
Context {A : Type}.
Implicit Types l : list A.

Lemma Forall_snoc (P : A → Prop) l x : Forall P (l ++ [x]) ↔ Forall P l ∧ P x.
Proof. rewrite Forall_app, Forall_singleton. done. Qed.
End generic.

Lemma string_app_nil_l (s : string) : "" +:+ s = s.
Proof. reflexivity. Qed.

Lemma string_app_nil_r (s : string) : s +:+ "" = s.
Proof. induction s as [|a s IH]; [done|]. exact (f_equal (String a) IH). Qed.

Lemma string_app_assoc (s1 s2 s3 : string) : s1 +:+ (s2 +:+ s3) = (s1 +:+ s2) +:+ s3.
Proof. induction s1 as [|a s IH]; [done|]. exact (f_equal (String a) IH). Qed.
