(* ===== verification/JsValue.v ===== *)
(** * JavaScript values and the built-ins the program uses

    What the TypeScript sources take from the language: values, truthiness,
    property access, the [||] and [?.] operators, exceptions as values, and
    the string built-ins [startsWith], [split], [toLowerCase], [join],
    [parseInt].

    A JavaScript string is represented by its UTF-8 bytes.  Prefix tests,
    splitting at an ASCII character, concatenation and equality agree with the
    UTF-16 view; [utf16_length] computes [.length] from the bytes.  A number
    is an IEEE 754 binary64 value ([spec_float] at precision 53). *)

From S2P Require Import Prelude.
From Stdlib Require Export SpecFloat.

(** ** Numbers *)

Abbreviation num := spec_float (only parsing).

(** The Number closest to an integer (ties to even). *)
Definition num_of_Z (z : Z) : num := binary_normalize 53 1024 z 0 false.

#[export] Instance num_eq_dec : EqDecision num.
Proof. solve_decision. Defined.

(** ** Values *)

Unset Elimination Schemes.
Inductive jsval :=
| JUndef
| JNull
| JBool (b : bool)
| JNum (n : num)
| JStr (s : string)
| JDate (ms : Z)
| JArr (l : list jsval)
| JObj (o : list (string * jsval)).
Set Elimination Schemes.

(** An object's own properties, in property order. *)
Abbreviation jsobj := (list (string * jsval)).

Section jsval_induction.
Variable P : jsval → Prop.
Hypothesis P_undef : P JUndef.
Hypothesis P_null : P JNull.
Hypothesis P_bool : ∀ b, P (JBool b).
Hypothesis P_num : ∀ n, P (JNum n).
Hypothesis P_str : ∀ s, P (JStr s).
Hypothesis P_date : ∀ t, P (JDate t).
Hypothesis P_arr : ∀ l, Forall P l → P (JArr l).
Hypothesis P_obj : ∀ o, Forall (λ kv, P kv.2) o → P (JObj o).

Fixpoint jsval_ind (v : jsval) : P v :=
  match v with
  | JUndef => P_undef
  | JNull => P_null
  | JBool b => P_bool b
  | JNum n => P_num n
  | JStr s => P_str s
  | JDate t => P_date t
  | JArr l =>
      P_arr l ((fix go l : Forall P l :=
        match l with
        | [] => Forall_nil_2 _
        | x :: l' => Forall_cons_2 _ _ _ (jsval_ind x) (go l')
        end) l)
  | JObj o =>
      P_obj o ((fix go o : Forall (λ kv, P kv.2) o :=
        match o with
        | [] => Forall_nil_2 _
        | kv :: o' => Forall_cons_2 (λ kv, P kv.2) _ _ (jsval_ind kv.2) (go o')
        end) o)
  end.
End jsval_induction.

(** Structural equality test; it is what the reference interpretation of the
    foreign packages compares stored values with. *)
Fixpoint jsval_eqb (v w : jsval) : bool :=
  match v, w with
  | JUndef, JUndef | JNull, JNull => true
  | JBool a, JBool b => Bool.eqb a b
  | JNum a, JNum b => bool_decide (a = b)
  | JStr a, JStr b => String.eqb a b
  | JDate a, JDate b => Z.eqb a b
  | JArr l, JArr k =>
      (fix go l k := match l, k with
       | [], [] => true
       | x :: l', y :: k' => jsval_eqb x y && go l' k'
       | _, _ => false
       end) l k
  | JObj l, JObj k =>
      (fix go l k := match l, k with
       | [], [] => true
       | (a, x) :: l', (b, y) :: k' => String.eqb a b && jsval_eqb x y && go l' k'
       | _, _ => false
       end) l k
  | _, _ => false
  end.

Lemma jsval_eqb_eq v w : jsval_eqb v w = true ↔ v = w.
Proof.
  revert w. induction v as [| |b|n|s|t|l IH|o IH] using jsval_ind; intros w;
    destruct w as [| |b'|n'|s'|t'|l'|o']; simpl; try done.
  - rewrite Bool.eqb_true_iff. naive_solver.
  - rewrite bool_decide_eq_true. naive_solver.
  - rewrite String.eqb_eq. naive_solver.
  - rewrite Z.eqb_eq. naive_solver.
  - revert l'. induction IH as [|x l Hx _ IHl]; intros [|y l']; try done.
    rewrite andb_true_iff, Hx, IHl. split; [by intros [-> [= ->]]|by intros [= -> ->]].
  - revert o'. induction IH as [|[a x] l Hx _ IHl]; intros [|[b y] l']; try done.
    simpl in Hx. rewrite !andb_true_iff, Hx, IHl, String.eqb_eq.
    split; [by intros [[-> ->] [= ->]]|by intros [= -> -> ->]].
Qed.

#[export] Instance jsval_eq_dec : EqDecision jsval.
Proof.
  intros v w. destruct (jsval_eqb v w) eqn:E.
  - left. by apply jsval_eqb_eq.
  - right. intros ->. by rewrite (proj2 (jsval_eqb_eq w w) eq_refl) in E.
Defined.

(** ** Exceptions and results *)

Record issue := Issue { issue_path : list string; issue_message : string }.

(** What a [catch] clause can see: a TypeError of the language, the errors the
    program itself creates ([new Error(msg)]), a ZodError (recognised with
    [instanceof]) and an opaque error of a foreign package. *)
Inductive exn :=
| ETypeError (what : string)
| EError (msg : jsval)
| EZod (errors : list issue)
| EForeign (who : string).

Inductive result (A : Type) :=
| Ok (a : A)
| Throw (e : exn).
Arguments Ok {_} _.
Arguments Throw {_} _.

(** ** Truthiness, [||], property access *)

Definition truthy (v : jsval) : bool :=
  match v with
  | JUndef | JNull => false
  | JBool b => b
  | JNum (S754_zero _) | JNum S754_nan => false
  | JNum _ => true
  | JStr s => negb (String.eqb s "")
  | JDate _ | JArr _ | JObj _ => true
  end.

Definition js_or (a b : jsval) : jsval := if truthy a then a else b.

(** Own-property lookup. *)
Fixpoint assoc {A} (k : string) (o : list (string * A)) : option A :=
  match o with
  | [] => None
  | (k', v) :: o' => if String.eqb k k' then Some v else assoc k o'
  end.

(** [v.k] for a name [k] that no built-in prototype defines: a TypeError on
    [undefined] and [null], [undefined] on every other non-object. *)
Definition prop (v : jsval) (k : string) : result jsval :=
  match v with
  | JUndef | JNull => Throw (ETypeError ("Cannot read properties: " +:+ k))
  | JObj o => Ok (default JUndef (assoc k o))
  | _ => Ok JUndef
  end.

(** [v?.k] *)
Definition opt_prop (v : jsval) (k : string) : jsval :=
  match v with
  | JObj o => default JUndef (assoc k o)
  | _ => JUndef
  end.

#[global] Arguments prop : simpl never.
#[global] Arguments js_or : simpl never.

(** ** Strings *)

Definition startsWith (s pre : string) : bool := String.prefix pre s.

(** What follows a prefix. *)
Fixpoint strip (pre s : string) : option string :=
  match pre, s with
  | EmptyString, _ => Some s
  | String a pre', String b s' => if Ascii.eqb a b then strip pre' s' else None
  | _, EmptyString => None
  end.

(** [s.split(c)] for a one-character separator: never empty. *)
Fixpoint split (c : ascii) (s : string) : list string :=
  match s with
  | EmptyString => [EmptyString]
  | String a s' =>
      if Ascii.eqb a c then EmptyString :: split c s'
      else match split c s' with
           | w :: ws => String a w :: ws
           | [] => [String a EmptyString]
           end
  end.

(** [l.join(sep)] *)
Fixpoint join (sep : string) (l : list string) : string :=
  match l with
  | [] => ""
  | [s] => s
  | s :: l' => s +:+ sep +:+ join sep l'
  end.

(** [.length]: one code unit per code point, two above U+FFFF.  A UTF-8
    continuation byte counts 0, a lead byte of four counts 2. *)
Fixpoint utf16_length (s : string) : nat :=
  match s with
  | EmptyString => 0
  | String a s' =>
      let b := nat_of_ascii a in
      (if b <? 128 then 1 else if b <? 192 then 0 else if b <? 240 then 1 else 2)
      + utf16_length s'
  end%nat.

Definition is_upper (a : ascii) : bool :=
  let n := nat_of_ascii a in (65 <=? n)%nat && (n <=? 90)%nat.

Definition lower_ascii (a : ascii) : ascii :=
  if is_upper a then ascii_of_nat (nat_of_ascii a + 32) else a.

(** [toLowerCase]: ASCII letters, and the two code points outside ASCII whose
    lower case starts with an ASCII letter: U+212A KELVIN SIGN (bytes E2 84
    AA, lower case "k") and U+0130 (bytes C4 B0, lower case "i" followed by
    U+0307, bytes CC 87).  Every other code point outside ASCII has a lower
    case outside ASCII; it is left as it is, which no comparison with an ASCII
    string can observe. *)
Fixpoint toLowerCase (s : string) : string :=
  match s with
  | EmptyString => EmptyString
  | String "226" (String "132" (String "170" s')) => String "k" (toLowerCase s')
  | String "196" (String "176" s') =>
      String "i" (String "204" (String "135" (toLowerCase s')))
  | String a s' => String (lower_ascii a) (toLowerCase s')
  end%char.

(** ** Integers in decimal *)

Definition is_digit (a : ascii) : bool :=
  let n := nat_of_ascii a in (48 <=? n)%nat && (n <=? 57)%nat.

Definition digit_val (a : ascii) : Z := Z.of_nat (nat_of_ascii a) - 48.

(** The longest prefix of digits, and its value. *)
Fixpoint digits (s : string) (acc : option Z) : option Z :=
  match s with
  | String a s' =>
      if is_digit a then digits s' (Some (default 0 acc * 10 + digit_val a)%Z)
      else acc
  | EmptyString => acc
  end.

Definition is_space (a : ascii) : bool :=
  let n := nat_of_ascii a in (n =? 32)%nat || ((9 <=? n) && (n <=? 13))%nat.

Fixpoint trim_start (s : string) : string :=
  match s with
  | String a s' => if is_space a then trim_start s' else s
  | EmptyString => s
  end.

(** [parseInt(s, 10)]: leading (ASCII) white space, an optional sign, the
    longest digit prefix; NaN when there is no digit. *)
Definition parseInt (s : string) : num :=
  let '(neg, body) :=
    match trim_start s with
    | String "-" r => (true, r)
    | String "+" r => (false, r)
    | r => (false, r)
    end%char in
  match digits body None with
  | None => S754_nan
  | Some z => if neg then SFopp (num_of_Z z) else num_of_Z z
  end.

Definition num_string (z : Z) : string :=
  match z with
  | Z0 => "0"
  | Zpos p => pretty (N.pos p)
  | Zneg p => "-" +:+ pretty (N.pos p)
  end.

(** ** Examples *)

Example split_bearer : split " " "Bearer a b" = ["Bearer"; "a"; "b"].
Proof. reflexivity. Qed.

Example lower_mixed : toLowerCase "GetBlockCount" = "getblockcount".
Proof. reflexivity. Qed.

Example parseInt_prefix : parseInt " 3001abc" = num_of_Z 3001.
Proof. vm_compute. reflexivity. Qed.

Example parseInt_nan : parseInt "abc" = S754_nan.
Proof. reflexivity. Qed.

(** ** Lemmas *)

Lemma strip_app pre s : strip pre (pre +:+ s) = Some s.
Proof. induction pre as [|a pre IH]; [done|]. simpl. by rewrite Ascii.eqb_refl. Qed.

Lemma split_not_nil c s : split c s ≠ [].
Proof. destruct s; simpl; repeat case_match; done. Qed.

Lemma join_split c s : join (String c EmptyString) (split c s) = s.
Proof.
  induction s as [|a s IH]; [done|]. simpl.
  destruct (Ascii.eqb_spec a c) as [->|Hne].
  - destruct (split c s) eqn:E; [by apply split_not_nil in E|]. simpl in *. by rewrite IH.
  - destruct (split c s) as [|w ws] eqn:E; [by apply split_not_nil in E|].
    rewrite <- IH. by destruct ws.
Qed.

Lemma assoc_elem {A} k (v : A) o : assoc k o = Some v → (k, v) ∈ o.
Proof.
  induction o as [|[k' v'] o IH]; simpl; [done|].
  destruct (String.eqb_spec k k') as [->|]; intros; simplify_eq; set_solver.
Qed.

Lemma js_or_l a b : truthy a = true → js_or a b = a.
Proof. unfold js_or. by intros ->. Qed.

Lemma js_or_truthy a b : truthy b = true → truthy (js_or a b) = true.
Proof. unfold js_or. by destruct (truthy a) eqn:?. Qed.
