(* ===== verification/Effects.v ===== *)
(** * Effects: calls to foreign code, programs, traces

    An asynchronous function of the back end is a [prog]: a tree whose nodes
    are the calls it makes to code outside the repository (Prisma, bcryptjs,
    jsonwebtoken, zod, [fetch], the clock) and its accesses to the module
    state it shares with other requests, and whose branches are the possible
    answers.  [exec] gives its executions under arbitrary answers, [run] its
    execution in an environment, and [shuffle] the interleavings of several
    executions.  Programs are finite trees, so every function modelled this
    way returns whatever the answers are. *)

From S2P Require Import Prelude JsValue.

(** ** Data exchanged with foreign code *)

(** The Prisma models (backend/prisma/schema.prisma). *)
Inductive model := MUser | MNewsletter | MDownload | MContact.

#[export] Instance model_eq_dec : EqDecision model.
Proof. solve_decision. Defined.

(** Schema expressions built with zod's combinators; [None] is zod's own
    default message. *)
Inductive check :=
| CEmail (msg : string)
| CUrl
| CMin (n : nat) (msg : option string)
| CMax (n : nat).

Unset Elimination Schemes.
Inductive schema :=
| ZString (checks : list check)
| ZEnum (values : list string)
| ZAny
| ZArray (elt : schema)
| ZOptional (s : schema)
| ZDefault (s : schema) (v : jsval)
| ZObject (fields : list (string * schema)).
Set Elimination Schemes.

(** The second argument of [fetch]. *)
Record fetch_init := FetchInit {
  fi_method : string;
  fi_headers : list (string * string);
  fi_body : option string;
}.

(** A [Response]: its [ok] flag and what its body parses to as JSON. *)
Record http_response := HttpResponse {
  resp_ok : bool;
  resp_body : result jsval;
}.

(** The module variable [statsCache] of backend/src/routes/stats.ts. *)
Record stats_cache := StatsCache { data : jsobj; timestamp : Z }.

(** ** Operations *)

Inductive op :=
| DbFindUnique (m : model) (wh : jsobj) (select : option (list string))
| DbFindMany (m : model) (orderBy : list (string * string))
| DbCreate (m : model) (dat : jsobj)
| DbDelete (m : model) (wh : jsobj)
| BcryptHash (pw : jsval) (rounds : Z)
| BcryptCompare (pw hash : jsval)
| JwtSign (payload : jsobj) (secret expiresIn : string)
| JwtVerify (token : jsval) (secret : string)
| ZodParse (s : schema) (v : jsval)
| Fetch (url : string) (init : fetch_init)
| RespJson (r : http_response)
| ForeignCall (who : string) (arg : jsval)
| DateNow
| ConsoleError (label : string) (e : exn)
| UnhandledRejection (e : exn)
| CacheGet
| CacheSet (c : stats_cache)
| Respond (status : Z) (body : jsval).

Definition reply (o : op) : Type :=
  match o with
  | DbFindUnique _ _ _ | DbFindMany _ _ | DbCreate _ _ | DbDelete _ _
  | BcryptHash _ _ | BcryptCompare _ _ | JwtSign _ _ _ | JwtVerify _ _
  | ZodParse _ _ | RespJson _ | ForeignCall _ _ => result jsval
  | Fetch _ _ => result http_response
  | DateNow => Z
  | CacheGet => option stats_cache
  | ConsoleError _ _ | UnhandledRejection _ | CacheSet _ | Respond _ _ => unit
  end.

Inductive event := Ev (o : op) (x : reply o).
Abbreviation trace := (list event).

(** ** Programs *)

(** [Both p q k] runs [p] and [q] concurrently and continues with both results
    ([Promise.all] on two promises that do not reject). *)
Inductive prog (A : Type) : Type :=
| Ret (a : A)
| Vis (o : op) (k : reply o → prog A)
| Both {X Y : Type} (p : prog X) (q : prog Y) (k : X → Y → prog A).
Arguments Ret {_} _.
Arguments Vis {_} _ _.
Arguments Both {_ _ _} _ _ _.

Fixpoint pbind {A B} (p : prog A) (f : A → prog B) : prog B :=
  match p with
  | Ret a => f a
  | Vis o k => Vis o (λ x, pbind (k x) f)
  | Both p q k => Both p q (λ x y, pbind (k x y) f)
  end.

(** Programs that may throw, with stdpp's monad notation. *)
Definition M (A : Type) : Type := prog (result A).

#[export] Instance M_ret : MRet M := λ A a, Ret (Ok a).
#[export] Instance M_bind : MBind M := λ A B f m,
  pbind m (λ r, match r with Ok a => f a | Throw e => Ret (Throw e) end).

Definition try_catch {A} (m : M A) (h : exn → M A) : M A :=
  pbind m (λ r, match r with Ok a => Ret (Ok a) | Throw e => h e end).

(** A built-in that may throw, and a program that cannot. *)
Definition of_result {A} (r : result A) : M A := Ret r.
Definition lift {A} (p : prog A) : M A := pbind p (λ a, Ret (Ok a)).

Definition findUnique m wh sel : M jsval := Vis (DbFindUnique m wh sel) Ret.
Definition findMany m ord : M jsval := Vis (DbFindMany m ord) Ret.
Definition create m dat : M jsval := Vis (DbCreate m dat) Ret.
Definition db_delete m wh : M jsval := Vis (DbDelete m wh) Ret.
Definition bcrypt_hash pw n : M jsval := Vis (BcryptHash pw n) Ret.
Definition bcrypt_compare pw h : M jsval := Vis (BcryptCompare pw h) Ret.
Definition jwt_sign p s e : M jsval := Vis (JwtSign p s e) Ret.
Definition jwt_verify t s : M jsval := Vis (JwtVerify t s) Ret.
Definition zod_parse s v : M jsval := Vis (ZodParse s v) Ret.
Definition fetch url init : M http_response := Vis (Fetch url init) Ret.
Definition resp_json r : M jsval := Vis (RespJson r) Ret.
Definition date_now : M Z := Vis DateNow (λ t, Ret (Ok t)).
Definition console_error l e : M unit := Vis (ConsoleError l e) (λ _, Ret (Ok tt)).
Definition cache_get : M (option stats_cache) := Vis CacheGet (λ c, Ret (Ok c)).
Definition cache_set c : M unit := Vis (CacheSet c) (λ _, Ret (Ok tt)).
(** [res.status(st).json(body)]; [res.json(body)] has status 200. *)
Definition respond st body : M unit := Vis (Respond st body) (λ _, Ret (Ok tt)).

(** ** Interleavings *)

Inductive shuffle : list trace → trace → Prop :=
| shuffle_done ts : Forall (λ t, t = []) ts → shuffle ts []
| shuffle_step ts1 e t ts2 u :
    shuffle (ts1 ++ t :: ts2) u → shuffle (ts1 ++ (e :: t) :: ts2) (e :: u).

(** ** Executions under arbitrary answers *)

Fixpoint exec {A} (p : prog A) (t : trace) (a : A) : Prop :=
  match p with
  | Ret a' => t = [] ∧ a = a'
  | Vis o k => ∃ x t', t = Ev o x :: t' ∧ exec (k x) t' a
  | Both p q k => ∃ t1 t2 t12 t3 x y,
      exec p t1 x ∧ exec q t2 y ∧ shuffle [t1; t2] t12 ∧
      t = t12 ++ t3 ∧ exec (k x y) t3 a
  end.

(** ** Execution in an environment *)

(** How foreign code answers and evolves. *)
Class Env := {
  world : Type;
  handle : ∀ o, world → reply o * world;
}.

Section system.
Context `{E : Env}.

(** The state of the running server: its own module variable and whatever
    the foreign code keeps. *)
Record sys := Sys { cache : option stats_cache; ext : world }.

Definition perform (o : op) (s : sys) : reply o * sys :=
  match o as o return reply o * sys with
  | CacheGet => (cache s, s)
  | CacheSet c => (tt, Sys (Some c) (ext s))
  | o => let '(x, w) := handle o (ext s) in (x, Sys (cache s) w)
  end.

Fixpoint run {A} (p : prog A) (s : sys) : A * trace * sys :=
  match p with
  | Ret a => (a, [], s)
  | Vis o k =>
      let '(x, s1) := perform o s in
      let '(a, t, s2) := run (k x) s1 in (a, Ev o x :: t, s2)
  | Both p q k =>
      let '(x, t1, s1) := run p s in
      let '(y, t2, s2) := run q s1 in
      let '(a, t3, s3) := run (k x y) s2 in (a, t1 ++ t2 ++ t3, s3)
  end.

(** A trace whose answers are those of the environment. *)
Fixpoint replays (s : sys) (t : trace) (s' : sys) : Prop :=
  match t with
  | [] => s' = s
  | Ev o x :: t' => (perform o s).1 = x ∧ replays (perform o s).2 t' s'
  end.
End system.
Arguments sys : clear implicits.
Arguments sys E : rename.

(** ** Lemmas *)

Lemma exec_pbind {A B} (p : prog A) (f : A → prog B) t b :
  exec (pbind p f) t b ↔ ∃ a t1 t2, t = t1 ++ t2 ∧ exec p t1 a ∧ exec (f a) t2 b.
Proof.
  revert t b. induction p as [A a|A o k IH|A X Y p IHp q IHq k IH]; intros t b; simpl.
  - split; [intros H; by exists a, [], t|]. by intros (?&?&?&->&[-> ->]&?).
  - split.
    + intros (x & t' & -> & (a & t1 & t2 & -> & ? & ?)%IH).
      exists a, (Ev o x :: t1), t2. split_and!; [done|by exists x, t1|done].
    + intros (a & t1 & t2 & -> & (x & t' & -> & ?) & ?).
      exists x, (t' ++ t2). split; [done|]. apply IH. by exists a, t', t2.
  - split.
    + intros (t1&t2&t12&t3&x&y&?&?&?&->&(a & u1 & u2 & -> & ? & ?)%IH).
      exists a, (t12 ++ u1), u2. rewrite (assoc_L (++)). split_and!; [done| |done].
      by exists t1, t2, t12, u1, x, y.
    + intros (a & u1 & u2 & -> & (t1&t2&t12&t3&x&y&?&?&?&->&?) & ?).
      exists t1, t2, t12, (t3 ++ u2), x, y. rewrite (assoc_L (++)).
      split_and!; try done. apply IH. by exists a, t3, u2.
Qed.

Lemma exec_bind {A B} (m : M A) (f : A → M B) t r :
  exec (x ← m; f x) t r ↔
  (∃ a t1 t2, t = t1 ++ t2 ∧ exec m t1 (Ok a) ∧ exec (f a) t2 r) ∨
  (∃ e, r = Throw e ∧ exec m t (Throw e)).
Proof.
  unfold mbind, M_bind. rewrite exec_pbind. split.
  - intros ([a|e] & t1 & t2 & -> & Hm & Hf); [left; by exists a, t1, t2|].
    destruct Hf as [-> ->]. right. rewrite app_nil_r. by exists e.
  - intros [(a & t1 & t2 & -> & ? & ?)|(e & -> & ?)]; [by exists (Ok a), t1, t2|].
    exists (Throw e), t, []. by rewrite app_nil_r.
Qed.

Lemma exec_try {A} (m : M A) h t r :
  exec (try_catch m h) t r ↔
  (∃ a, r = Ok a ∧ exec m t (Ok a)) ∨
  (∃ e t1 t2, t = t1 ++ t2 ∧ exec m t1 (Throw e) ∧ exec (h e) t2 r).
Proof.
  unfold try_catch. rewrite exec_pbind. split.
  - intros ([a|e] & t1 & t2 & -> & Hm & Hf); [|right; by exists e, t1, t2].
    destruct Hf as [-> ->]. left. rewrite app_nil_r. by exists a.
  - intros [(a & -> & ?)|(e & t1 & t2 & -> & ? & ?)]; [|by exists (Throw e), t1, t2].
    exists (Ok a), t, []. by rewrite app_nil_r.
Qed.

Lemma exec_lift {A} (p : prog A) t r :
  exec (lift p) t r ↔ ∃ a, r = Ok a ∧ exec p t a.
Proof.
  unfold lift. rewrite exec_pbind. split.
  - intros (a & t1 & t2 & -> & ? & -> & ->). rewrite app_nil_r. by exists a.
  - intros (a & -> & ?). exists a, t, []. by rewrite app_nil_r.
Qed.

Lemma shuffle_elem ts u e : shuffle ts u → e ∈ u ↔ ∃ t, t ∈ ts ∧ e ∈ t.
Proof.
  induction 1 as [ts Hts|ts1 e' t ts2 u _ IH].
  - split; [set_solver|]. intros (t & Ht & He).
    rewrite Forall_forall in Hts. apply Hts in Ht as ->. done.
  - rewrite elem_of_cons, IH. clear IH. split.
    + intros [->|(t' & Ht & He)]; [exists (e' :: t); set_solver|].
      apply elem_of_app in Ht as [?|[->|?]%elem_of_cons];
        [exists t'|exists (e' :: t)|exists t']; set_solver.
    + intros (t' & Ht & He).
      apply elem_of_app in Ht as [?|[->|?]%elem_of_cons]; [right; exists t'; set_solver| |right; exists t'; set_solver].
      apply elem_of_cons in He as [->|?]; [by left|right; exists t; set_solver].
Qed.

Lemma shuffle_Forall (P : event → Prop) ts u :
  shuffle ts u → Forall (Forall P) ts → Forall P u.
Proof.
  intros Hs Hts. apply Forall_forall. intros e He.
  apply (shuffle_elem _ _ _ Hs) in He as (t & Ht & He).
  rewrite Forall_forall in Hts. specialize (Hts _ Ht). rewrite Forall_forall in Hts. by apply Hts.
Qed.

Lemma shuffle_cons_nil ts u : shuffle ts u → shuffle ([] :: ts) u.
Proof.
  induction 1 as [ts Hts|ts1 e t ts2 u _ IH].
  - constructor. by constructor.
  - exact (shuffle_step ([] :: ts1) e t ts2 u IH).
Qed.

Lemma shuffle_app t ts u : shuffle ts u → shuffle (t :: ts) (t ++ u).
Proof.
  intros H. induction t as [|e t IH]; simpl; [by apply shuffle_cons_nil|].
  exact (shuffle_step [] e t ts (t ++ u) IH).
Qed.

Lemma shuffle_concat ts : shuffle ts (concat ts).
Proof.
  induction ts as [|t ts IH]; simpl; [by repeat constructor|].
  by apply shuffle_app.
Qed.

Section system_lemmas.
Context `{E : Env}.
Implicit Types s : sys E.

Lemma replays_app s t1 t2 s' :
  replays s (t1 ++ t2) s' ↔ ∃ s1, replays s t1 s1 ∧ replays s1 t2 s'.
Proof.
  revert s. induction t1 as [|[o x] t1 IH]; intros s; simpl.
  - split; [intros; by exists s|]. by intros (? & -> & ?).
  - rewrite IH. split.
    + intros (? & s1 & ? & ?). by exists s1.
    + by intros (s1 & [? ?] & ?); split; [|exists s1].
Qed.

(** Running a program is one of its executions, with the environment's
    answers. *)
Lemma run_exec {A} (p : prog A) s a t s' :
  run p s = (a, t, s') → exec p t a ∧ replays s t s'.
Proof.
  revert s a t s'. induction p as [A a0|A o k IH|A X Y p IHp q IHq k IH];
    intros s a t s'; simpl.
  - intros; by simplify_eq.
  - destruct (perform o s) as [x s1] eqn:Hp.
    destruct (run (k x) s1) as [[a1 t1] s2] eqn:Hr. intros; simplify_eq.
    apply IH in Hr as [? ?]. simpl. rewrite Hp. split; [by exists x, t1|done].
  - destruct (run p s) as [[x t1] s1] eqn:H1.
    destruct (run q s1) as [[y t2] s2] eqn:H2.
    destruct (run (k x y) s2) as [[a1 t3] s3] eqn:H3. intros; simplify_eq.
    apply IHp in H1 as [??]. apply IHq in H2 as [??]. apply IH in H3 as [??].
    split.
    + exists t1, t2, (t1 ++ t2), t3, x, y. split_and!; try done.
      * pose proof (shuffle_concat [t1; t2]) as Hs. simpl in Hs. by rewrite app_nil_r in Hs.
      * by rewrite (assoc_L (++)).
    + apply replays_app. exists s1. split; [done|]. apply replays_app. by exists s2.
Qed.

Lemma run_is_exec {A} (p : prog A) s : exec p (run p s).1.2 (run p s).1.1.
Proof. destruct (run p s) as [[a t] s'] eqn:Hr. by apply run_exec in Hr as [? _]. Qed.

Lemma run_replays {A} (p : prog A) s : replays s (run p s).1.2 (run p s).2.
Proof. destruct (run p s) as [[a t] s'] eqn:Hr. by apply run_exec in Hr as [_ ?]. Qed.

Lemma run_pbind {A B} (p : prog A) (f : A → prog B) s :
  run (pbind p f) s =
  let '(a, t1, s1) := run p s in let '(b, t2, s2) := run (f a) s1 in (b, t1 ++ t2, s2).
Proof.
  revert s. induction p as [A a0|A o k IH|A X Y p IHp q IHq k IH]; intros s; simpl.
  - by destruct (run (f a0) s) as [[]].
  - destruct (perform o s) as [x s1]. rewrite IH. destruct (run (k x) s1) as [[a t] s2].
    by destruct (run (f a) s2) as [[]].
  - destruct (run p s) as [[x t1] s1], (run q s1) as [[y t2] s2]. rewrite IH.
    destruct (run (k x y) s2) as [[a t3] s3]. destruct (run (f a) s3) as [[b t4] s4].
    by rewrite !(assoc_L (++)).
Qed.

(** Every program finishes in every environment. *)
Lemma run_total {A} (p : prog A) s :
  ∃ a t s', run p s = (a, t, s') ∧ exec p t a ∧ replays s t s'.
Proof.
  destruct (run p s) as [[a t] s'] eqn:Hr. exists a, t, s'. split; [done|].
  by apply run_exec.
Qed.

(** An invariant that every event of a set preserves holds after any trace
    made of such events. *)
Lemma replays_invariant (P : event → Prop) (Inv : sys E → Prop) t s s' :
  (∀ o s, P (Ev o (perform o s).1) → Inv s → Inv (perform o s).2) →
  Forall P t → replays s t s' → Inv s → Inv s'.
Proof.
  intros Hstep. revert s. induction t as [|[o x] t IH]; intros s Ht Hr Hi; simpl in *.
  - by subst.
  - apply Forall_cons in Ht as [HP Ht]. destruct Hr as [<- Hr]. eauto.
Qed.
End system_lemmas.
