(* ===== verification/Foreign.v ===== *)
(** * What the program relies on in foreign code

    The documented behaviour of zod, Prisma, bcryptjs, jsonwebtoken and the
    clock, as classes of laws on an environment.  The theorems of the
    components are proved against these classes; [Reference] gives an
    environment that satisfies all of them. *)

From S2P Require Import Prelude JsValue Effects.

(** ** Database schema (backend/prisma/schema.prisma) *)

(** How a column gets its value when [create] is not given one. *)
Inductive column := Required | Nullable | Uuid | Now | Default (v : jsval).

Definition columns (m : model) : list (string * column) :=
  match m with
  | MUser => [("id", Uuid); ("email", Required); ("password", Required);
              ("role", Default (JStr "USER")); ("createdAt", Now); ("updatedAt", Now)]
  | MNewsletter => [("id", Uuid); ("email", Required); ("createdAt", Now)]
  | MDownload => [("id", Uuid); ("name", Required); ("version", Required);
                  ("platform", Required); ("url", Required); ("checksum", Nullable);
                  ("createdAt", Now); ("updatedAt", Now)]
  | MContact => [("id", Uuid); ("email", Required); ("subject", Required);
                 ("message", Required); ("read", Default (JBool false)); ("createdAt", Now)]
  end.

(** The columns declared [@id] or [@unique]. *)
Definition unique_columns (m : model) : list string :=
  match m with
  | MUser | MNewsletter => ["id"; "email"]
  | MDownload | MContact => ["id"]
  end.

Definition row_matches (wh : jsobj) (r : jsobj) : Prop :=
  Forall (λ kv, assoc kv.1 r = Some kv.2) wh.

#[export] Instance row_matches_dec wh r : Decision (row_matches wh r) := _.

(** [select]: the chosen columns of a row, all of them without [select]. *)
Definition project (sel : option (list string)) (r : jsobj) : jsobj :=
  match sel with
  | None => r
  | Some ks => filter (λ kv, kv.1 ∈ ks) r
  end.

(** A value given to [create]; [undefined] counts as not given. *)
Definition given (k : string) (dat : jsobj) : option jsval :=
  match assoc k dat with
  | Some JUndef | None => None
  | Some v => Some v
  end.

(** The column types: String, String?, Boolean and DateTime. *)
Definition typed (k : string) (v : jsval) : bool :=
  match v with
  | JDate _ => bool_decide (k ∈ ["createdAt"; "updatedAt"])
  | JBool _ => bool_decide (k = "read")
  | JNull => bool_decide (k = "checksum")
  | JStr _ => negb (bool_decide (k ∈ ["createdAt"; "updatedAt"; "read"]))
  | _ => false
  end.

Definition row_typed (m : model) (r : jsobj) : Prop :=
  r.*1 = (columns m).*1 ∧ Forall (λ kv, typed kv.1 kv.2 = true) r.

(** The row [create] stores for the given data. *)
Definition new_row (m : model) (dat r : jsobj) : Prop :=
  row_typed m r ∧
  Forall (λ kc, match given kc.1 dat, kc.2 with
                | Some v, _ => assoc kc.1 r = Some v
                | None, Default v => assoc kc.1 r = Some v
                | None, Nullable => assoc kc.1 r = Some JNull
                | None, Uuid => ∃ s, assoc kc.1 r = Some (JStr s)
                | None, Now => ∃ t, assoc kc.1 r = Some (JDate t)
                | None, Required => False
                end) (columns m).

(** Two rows that a unique column keeps apart. *)
Definition conflict (m : model) (r1 r2 : jsobj) : Prop :=
  Exists (λ k, assoc k r1 = assoc k r2) (unique_columns m).

#[export] Instance conflict_dec m r1 r2 : Decision (conflict m r1 r2) := _.

(** [orderBy: { createdAt: 'desc' }] *)
Definition newest_first (rows : list jsobj) : Prop :=
  StronglySorted (λ r1 r2, ∀ t1 t2, assoc "createdAt" r1 = Some (JDate t1) →
    assoc "createdAt" r2 = Some (JDate t2) → (t2 ≤ t1)%Z) rows.

Definition writes_db (o : op) : bool :=
  match o with DbCreate _ _ | DbDelete _ _ => true | _ => false end.

Section laws.
Context (E : Env).

Definition after (o : op) (w : world) : world := (handle o w).2.
Definition answer (o : op) (w : world) : reply o := (handle o w).1.

(** Some sequence of foreign calls leads from one world to the other. *)
Definition reaches : world → world → Prop := rtc (λ w w', ∃ o, w' = after o w).

Class PrismaLaws := {
  tbl : world → model → list jsobj;
  tbl_frame o w m : writes_db o = false → tbl (after o w) m = tbl w m;
  find_unique_law m wh sel w :
    match answer (DbFindUnique m wh sel) w with
    | Ok JNull => Forall (λ r, ¬ row_matches wh r) (tbl w m)
    | Ok v => ∃ r, r ∈ tbl w m ∧ row_matches wh r ∧ v = JObj (project sel r)
    | Throw _ => True
    end;
  find_many_law m w :
    match answer (DbFindMany m [("createdAt", "desc")]) w with
    | Ok v => ∃ rows, v = JArr (JObj <$> rows) ∧ rows ≡ₚ tbl w m ∧
        newest_first rows
    | Throw _ => True
    end;
  create_law m dat w :
    match answer (DbCreate m dat) w with
    | Ok v => ∃ r, v = JObj r ∧ new_row m dat r ∧
        Forall (λ r0, ¬ conflict m r0 r) (tbl w m) ∧
        tbl (after (DbCreate m dat) w) m = tbl w m ++ [r] ∧
        ∀ m', m' ≠ m → tbl (after (DbCreate m dat) w) m' = tbl w m'
    | Throw _ => ∀ m', tbl (after (DbCreate m dat) w) m' = tbl w m'
    end;
  delete_law m wh w :
    match answer (DbDelete m wh) w with
    | Ok v => ∃ l1 r l2, v = JObj r ∧ row_matches wh r ∧
        tbl w m = l1 ++ r :: l2 ∧ tbl (after (DbDelete m wh) w) m = l1 ++ l2 ∧
        ∀ m', m' ≠ m → tbl (after (DbDelete m wh) w) m' = tbl w m'
    | Throw _ => ∀ m', tbl (after (DbDelete m wh) w) m' = tbl w m'
    end;
}.

(** A database that is up answers well-typed queries, refuses a [create] only
    for a conflict and a [delete] only if there is no such row. *)
Class PrismaUp (P : PrismaLaws) := {
  up : world → Prop;
  up_after o w : up w → up (after o w);
  find_unique_up m k s sel w :
    up w → k ∈ unique_columns m → ∃ v, answer (DbFindUnique m [(k, JStr s)] sel) w = Ok v;
  create_up m dat w :
    up w → Forall (λ kv, kv.2 = JUndef ∨ typed kv.1 kv.2 = true) dat →
    Forall (λ kc, kc.2 = Required → is_Some (given kc.1 dat)) (columns m) →
    Forall (λ kv, kv.1 ∈ (columns m).*1) dat →
    Forall (λ r0, Forall (λ k, ∀ v, given k dat = Some v → assoc k r0 ≠ Some v) (unique_columns m))
      (tbl w m) →
    ∃ v, answer (DbCreate m dat) w = Ok v;
  find_many_up m w : up w → ∃ v, answer (DbFindMany m [("createdAt", "desc")]) w = Ok v;
  delete_up m s w :
    up w → Exists (λ r, assoc "id" r = Some (JStr s)) (tbl w m) →
    ∃ v, answer (DbDelete m [("id", JStr s)]) w = Ok v;
}.

Class BcryptLaws := {
  hash_law pw n w : ∃ h, answer (BcryptHash (JStr pw) n) w = Ok (JStr h) ∧
    ∀ w', answer (BcryptCompare (JStr pw) (JStr h)) w' = Ok (JBool true);
}.

(** The system clock, in milliseconds, is not set back. *)
Class ClockLaws := {
  now : world → Z;
  now_law w : answer DateNow w = now w;
  now_mono o w : (now w ≤ now (after o w))%Z;
}.

(** The time spans the program writes, in seconds. *)
Definition span (s : string) : option Z :=
  if String.eqb s "15m" then Some 900%Z
  else if String.eqb s "7d" then Some 604800%Z
  else None.

(** A payload of strings under names jsonwebtoken does not use itself. *)
Definition plain_payload (p : jsobj) : Prop :=
  Forall (λ kv, (kv.1 ∉ ["iat"; "exp"; "nbf"; "iss"; "sub"; "aud"; "jti"]) ∧ ∃ s, kv.2 = JStr s) p.

Definition no_space (s : string) : Prop := split " " s = [s].

Class JwtLaws (C : ClockLaws) := {
  (* the claims iat and exp are whole seconds *)
  sign_law p s e d w : span e = Some d → s ≠ "" → plain_payload p →
    ∃ tok, answer (JwtSign p s e) w = Ok (JStr tok) ∧ tok ≠ "" ∧ no_space tok ∧
    ∀ w', reaches (after (JwtSign p s e) w) w' →
      (* same secret: the payload until it expires *)
      ((now w' / 1000 < now w / 1000 + d)%Z →
         ∃ claims, answer (JwtVerify (JStr tok) s) w' = Ok (JObj (p ++ claims))) ∧
      ((now w / 1000 + d ≤ now w' / 1000)%Z →
         ∃ x, answer (JwtVerify (JStr tok) s) w' = Throw x) ∧
      (* another secret: an error *)
      (∀ s', s' ≠ s → ∃ x, answer (JwtVerify (JStr tok) s') w' = Throw x);
  verify_non_string v s w : (∀ x, v ≠ JStr x) → ∃ x, answer (JwtVerify v s) w = Throw x;
  verify_empty s w : ∃ x, answer (JwtVerify (JStr "") s) w = Throw x;
}.
End laws.

(** The values given to [create] have the types of their columns. *)
Ltac typed_data := repeat (apply Forall_cons_2; [by right|]); apply Forall_nil_2.

(** ** zod *)

Section zod.
Variables email_ok url_ok : string → bool.

Definition check_ok (c : check) (s : string) : bool :=
  match c with
  | CEmail _ => email_ok s
  | CUrl => url_ok s
  | CMin n _ => (n <=? utf16_length s)%nat
  | CMax n => (utf16_length s <=? n)%nat
  end.

(** Which values a schema accepts. *)
Fixpoint accepts (sc : schema) (v : jsval) : bool :=
  match sc with
  | ZString cs => match v with JStr s => forallb (λ c, check_ok c s) cs | _ => false end
  | ZEnum l => match v with JStr s => bool_decide (s ∈ l) | _ => false end
  | ZAny => true
  | ZArray sc' => match v with JArr l => forallb (accepts sc') l | _ => false end
  | ZOptional sc' | ZDefault sc' _ =>
      match v with JUndef => true | _ => accepts sc' v end
  | ZObject fs =>
      match v with
      | JObj o =>
          (fix go (fs : list (string * schema)) : bool :=
             match fs with
             | [] => true
             | (k, sc') :: fs' => accepts sc' (default JUndef (assoc k o)) && go fs'
             end) fs
      | _ => false
      end
  end.
End zod.

Class ZodLaws (E : Env) := {
  email_ok : string → bool;
  url_ok : string → bool;
  parse_accepts sc v w : accepts email_ok url_ok sc v = true →
    ∃ v', answer E (ZodParse sc v) w = Ok v';
  parse_rejects sc v w : accepts email_ok url_ok sc v = false →
    ∃ i l, answer E (ZodParse sc v) w = Throw (EZod (i :: l));
}.

(** ** Lemmas *)

Lemma row_matches_single k v r : row_matches [(k, v)] r ↔ assoc k r = Some v.
Proof. unfold row_matches. by rewrite Forall_singleton. Qed.

Lemma assoc_project_in sel k r : k ∈ sel → assoc k (project (Some sel) r) = assoc k r.
Proof.
  intros Hk. simpl. induction r as [|[k' v] r IH]; [done|].
  rewrite filter_cons. simpl. case_decide as Hd; simpl.
  - by rewrite IH.
  - destruct (String.eqb_spec k k') as [->|]; [done|exact IH].
Qed.

Lemma reaches_refl (E : Env) w : reaches E w w.
Proof. constructor. Qed.

Lemma reaches_after (E : Env) o w w' : reaches E w w' → reaches E w (after E o w').
Proof. intros H. eapply rtc_r; [done|]. by exists o. Qed.

#[export] Hint Resolve reaches_refl reaches_after : hyl.

(** ** Replaying a trace of foreign calls *)

Definition local_op (o : op) : bool :=
  match o with CacheGet | CacheSet _ => true | _ => false end.

Section replay.
Context {E : Env}.
Implicit Types s : sys E.

Lemma replays_nil s s' : replays s [] s' ↔ s' = s.
Proof. done. Qed.

Lemma replays_cons o x t s s' :
  local_op o = false →
  replays s (Ev o x :: t) s' ↔
  answer E o (ext s) = x ∧ replays (Sys (cache s) (after E o (ext s))) t s'.
Proof.
  intros Ho. cbn [replays]. unfold answer, after.
  destruct o; try discriminate Ho; simpl; by destruct (handle _ _).
Qed.

Lemma replays_answer s u s' o x :
  replays s u s' → Ev o x ∈ u → local_op o = false → ∃ w, answer E o w = x.
Proof.
  intros Hr (u1 & u2 & ->)%list_elem_of_split Ho.
  apply replays_app in Hr as (s1 & _ & Hr). rewrite replays_cons in Hr by done.
  destruct Hr as [Hx _]. by exists (ext s1).
Qed.

Lemma replays_cache_get x t s s' :
  replays s (Ev CacheGet x :: t) s' ↔ cache s = x ∧ replays s t s'.
Proof. done. Qed.

Lemma replays_cache_set c x t s s' :
  replays s (Ev (CacheSet c) x :: t) s' ↔ x = tt ∧ replays (Sys (Some c) (ext s)) t s'.
Proof. cbn [replays]. unfold perform. simpl. by destruct x; split; intros [_ ?]. Qed.

Lemma run_vis {A} o (k : reply o → prog A) s :
  local_op o = false →
  run (Vis o k) s =
  let '(a, t, s2) := run (k (answer E o (ext s))) (Sys (cache s) (after E o (ext s))) in
  (a, Ev o (answer E o (ext s)) :: t, s2).
Proof.
  intros Ho. cbn [run]. unfold answer, after.
  destruct o; try discriminate Ho; simpl; by destruct (handle _ _).
Qed.
End replay.

(** All answers of a trace are the environment's. *)
Definition answered_by (E : Env) (t : trace) : Prop :=
  ∀ o x, Ev o x ∈ t → local_op o = false → ∃ w, answer E o w = x.

#[global] Arguments replays : simpl never.
#[global] Arguments perform : simpl never.

(** Turn the replay of a concrete trace into the answers it records. *)
Ltac replay H :=
  rewrite ?replays_cons in H by done; rewrite ?replays_nil in H; cbn [ext cache] in H; unpack;
  repeat match goal with
  | H : negb _ = true |- _ => apply negb_true_iff in H
  | H : negb _ = false |- _ => apply negb_false_iff in H
  end.

(** Use a law on the answer it is about. *)
Tactic Notation "answered" uconstr(law) "as" simple_intropattern(p) :=
  match goal with
  | H : answer _ _ _ = _ |- _ => let H' := fresh in pose proof H as H'; apply law in H' as p
  end.

(** Two answers to the same call are the same answer. *)
Ltac same_answer :=
  repeat match goal with
  | H1 : answer ?E ?o ?w = ?x, H2 : answer ?E ?o ?w = ?y |- _ =>
      let He := fresh in pose proof (eq_trans (eq_sym H1) H2) as He; clear H2; simplify_eq/=
  | H1 : ∀ w', answer ?E ?o w' = _, H2 : answer ?E ?o ?w = ?y |- _ =>
      let He := fresh in pose proof (eq_trans (eq_sym (H1 w)) H2) as He; clear H2; simplify_eq/=
  end.

(** ** Using the database laws *)

Section database.
Context {E : Env} {PL : PrismaLaws E}.

Lemma find_unique_some m wh sel w v :
  answer E (DbFindUnique m wh sel) w = Ok v → truthy v = true →
  ∃ r, r ∈ tbl E w m ∧ row_matches wh r ∧ v = JObj (project sel r).
Proof.
  intros Ha Ht. pose proof (find_unique_law E m wh sel w) as Hl. rewrite Ha in Hl.
  by destruct v.
Qed.

Lemma find_unique_none m wh sel w v :
  answer E (DbFindUnique m wh sel) w = Ok v → truthy v = false →
  Forall (λ r, ¬ row_matches wh r) (tbl E w m).
Proof.
  intros Ha Ht. pose proof (find_unique_law E m wh sel w) as Hl. rewrite Ha in Hl.
  destruct v; try done; destruct Hl as (r & _ & _ & ?); simplify_eq.
Qed.

Lemma create_ok m dat w v :
  answer E (DbCreate m dat) w = Ok v →
  ∃ r, v = JObj r ∧ new_row m dat r ∧ Forall (λ r0, ¬ conflict m r0 r) (tbl E w m) ∧
    tbl E (after E (DbCreate m dat) w) m = tbl E w m ++ [r] ∧
    ∀ m', m' ≠ m → tbl E (after E (DbCreate m dat) w) m' = tbl E w m'.
Proof. intros Ha. pose proof (create_law E m dat w) as Hl. by rewrite Ha in Hl. Qed.

Lemma create_throw m dat w e :
  answer E (DbCreate m dat) w = Throw e →
  ∀ m', tbl E (after E (DbCreate m dat) w) m' = tbl E w m'.
Proof. intros Ha. pose proof (create_law E m dat w) as Hl. by rewrite Ha in Hl. Qed.

Lemma new_row_given m dat r k v :
  new_row m dat r → k ∈ (columns m).*1 → given k dat = Some v → assoc k r = Some v.
Proof.
  intros [_ Hall] ([k' c] & -> & Hin)%list_elem_of_fmap Hg.
  rewrite Forall_forall in Hall. specialize (Hall _ Hin). simpl in *. by rewrite Hg in Hall.
Qed.

Lemma new_row_default m dat r k v :
  new_row m dat r → (k, Default v) ∈ columns m → given k dat = None → assoc k r = Some v.
Proof.
  intros [_ Hall] Hin Hg. rewrite Forall_forall in Hall. specialize (Hall _ Hin).
  simpl in *. by rewrite Hg in Hall.
Qed.

Lemma new_row_uuid m dat r k :
  new_row m dat r → (k, Uuid) ∈ columns m → given k dat = None → ∃ s, assoc k r = Some (JStr s).
Proof.
  intros [_ Hall] Hin Hg. rewrite Forall_forall in Hall. specialize (Hall _ Hin).
  simpl in *. by rewrite Hg in Hall.
Qed.

Lemma unique_is_column m k : k ∈ unique_columns m → k ∈ (columns m).*1.
Proof. destruct m; set_solver. Qed.
End database.

Lemma hash_ok {E : Env} {BL : BcryptLaws E} pw n w v :
  answer E (BcryptHash (JStr pw) n) w = Ok v →
  ∃ h, v = JStr h ∧ ∀ w', answer E (BcryptCompare (JStr pw) (JStr h)) w' = Ok (JBool true).
Proof.
  intros Ha. destruct (hash_law E pw n w) as (h & Hh & Hc). exists h. split; [|done].
  by injection (eq_trans (eq_sym Ha) Hh).
Qed.

(** Skip the calls that leave the tables alone. *)
Ltac frame_tables :=
  repeat match goal with
  | |- context [tbl ?E (after ?E ?o ?w) ?m] => rewrite (tbl_frame E o w m) by done
  end.
