(* ===== verification/Http.v ===== *)
(** * Requests, middleware and the Express interface

    Express is foreign code.  A middleware of the repository is a function of
    the request and of [next]; what Express does with a list of them is the
    class [Express], whose laws [ExpressLaws] state the documented behaviour:
    handlers run in registration order, [next()] passes control on, [next(err)]
    and a synchronous exception go to the error-handling middleware, and the
    promise of an asynchronous handler is not looked at (Express 4). *)

From S2P Require Import Prelude JsValue Effects.

(** ** Requests *)

(** The parts of an Express [Request] the program reads, and the two fields
    [authenticate] adds ([AuthRequest]).  [authorization] is
    [req.headers.authorization]; [ip] is what the rate limiter keys on;
    [content_type] is the media type of the header Content-Type and [raw] the
    bytes of the body, if there is one, before a body parser reads them. *)
Record request := Request {
  rq_method : string;
  rq_path : string;
  rq_ip : string;
  rq_authorization : option string;
  rq_content_type : option string;
  rq_raw : option string;
  rq_params : list (string * string);
  rq_body : jsval;
  rq_userId : jsval;
  rq_userRole : jsval;
}.

Definition set_user (id role : jsval) (rq : request) : request :=
  {| rq_method := rq_method rq; rq_path := rq_path rq; rq_ip := rq_ip rq;
     rq_authorization := rq_authorization rq;
     rq_content_type := rq_content_type rq; rq_raw := rq_raw rq; rq_params := rq_params rq;
     rq_body := rq_body rq; rq_userId := id; rq_userRole := role |}.

Definition set_params (ps : list (string * string)) (rq : request) : request :=
  {| rq_method := rq_method rq; rq_path := rq_path rq; rq_ip := rq_ip rq;
     rq_authorization := rq_authorization rq;
     rq_content_type := rq_content_type rq; rq_raw := rq_raw rq; rq_params := ps;
     rq_body := rq_body rq; rq_userId := rq_userId rq; rq_userRole := rq_userRole rq |}.

Definition set_body (b : jsval) (rq : request) : request :=
  {| rq_method := rq_method rq; rq_path := rq_path rq; rq_ip := rq_ip rq;
     rq_authorization := rq_authorization rq;
     rq_content_type := rq_content_type rq; rq_raw := rq_raw rq; rq_params := rq_params rq;
     rq_body := b; rq_userId := rq_userId rq; rq_userRole := rq_userRole rq |}.

(** [next] and [next(err)]; the request is passed on because middleware
    mutates it.  Express routes every exception itself, so [next] never
    throws. *)
Definition nextfn : Type := option exn → request → prog unit.

Definition mw : Type := request → nextfn → M unit.

Inductive handler :=
| Sync (f : mw)
| Async (h : request → M unit).

(** ** Response bodies *)

Definition error_json (msg : string) : jsval := JObj [("error", JStr msg)].
Definition message_json (msg : string) : jsval := JObj [("message", JStr msg)].

(** ** Layers of an application or router, in registration order *)

Unset Elimination Schemes.
Inductive layer :=
| Use (fs : list handler)                                  (* app.use(...fs) *)
| Mount (path : string) (fs : list handler) (r : list layer) (* app.use(path, ...fs, router) *)
| Route (verb path : string) (fs : list handler)           (* app.get(path, ...fs) *)
| ErrorUse (f : exn → request → nextfn → M unit).          (* app.use((err, ...) => ...) *)
Set Elimination Schemes.

(** ** The Express interface *)

Class Express := {
  (** Does the path match a route's pattern to its end (the parameters), or a
      mount point (the remaining path)? *)
  match_route : string → string → option (list (string * string));
  match_mount : string → string → option string;
  (** Run the handlers of one layer; the last argument is what [next] does
      after the last of them. *)
  run_stack : list handler → request → nextfn → prog unit;
  run_layers : list layer → request → nextfn → prog unit;
}.

Definition with_path (p : string) (rq : request) : request :=
  {| rq_method := rq_method rq; rq_path := p; rq_ip := rq_ip rq;
     rq_authorization := rq_authorization rq;
     rq_content_type := rq_content_type rq; rq_raw := rq_raw rq; rq_params := rq_params rq;
     rq_body := rq_body rq; rq_userId := rq_userId rq; rq_userRole := rq_userRole rq |}.

(** What happens when a layer is left: [next()] goes on with the following
    layers, [next(err)] with the error handlers among them. *)
Fixpoint to_error_handler (ls : list layer) (e : exn) (rq : request) (out : nextfn) : prog unit :=
  match ls with
  | [] => out (Some e) rq
  | ErrorUse f :: ls' =>
      pbind (f e rq (λ e' rq', to_error_handler ls' (default e e') rq' out))
        (λ r, match r with Ok _ => Ret tt | Throw e' => to_error_handler ls' e' rq out end)
  | _ :: ls' => to_error_handler ls' e rq out
  end.

(** The requests a route is registered for: the routes of GET also answer
    HEAD. *)
Definition matches_method (verb method : string) : bool :=
  String.eqb verb method || (String.eqb verb "GET" && String.eqb method "HEAD").

(** A mount point of letters and slashes that ends in a letter is no pattern,
    and is compared without regard to case. *)
Definition is_letter (a : ascii) : bool :=
  let n := nat_of_ascii (lower_ascii a) in (97 <=? n)%nat && (n <=? 122)%nat.

Fixpoint literal (p : string) : bool :=
  match p with
  | EmptyString => false
  | String a EmptyString => is_letter a
  | String a p' => (is_letter a || Ascii.eqb a "/") && literal p'
  end.

Fixpoint same_prefix (p q : string) : bool :=
  match p, q with
  | EmptyString, _ => true
  | String a p', String b q' => Ascii.eqb (lower_ascii a) (lower_ascii b) && same_prefix p' q'
  | String _ _, EmptyString => false
  end.

Class ExpressLaws (X : Express) := {
  stack_nil rq out : run_stack [] rq out = out None rq;
  stack_sync f fs rq out :
    run_stack (Sync f :: fs) rq out =
    pbind (f rq (λ e rq', match e with
                          | None => run_stack fs rq' out
                          | Some e => out (Some e) rq'
                          end))
      (λ r, match r with Ok _ => Ret tt | Throw e => out (Some e) rq end);
  stack_async h fs rq out :
    run_stack (Async h :: fs) rq out =
    pbind (h rq)
      (λ r, match r with Ok _ => Ret tt | Throw e => Vis (UnhandledRejection e) (λ _, Ret tt) end);
  layers_nil rq out : run_layers [] rq out = out None rq;
  layers_use fs ls rq out :
    run_layers (Use fs :: ls) rq out =
    run_stack fs rq (λ e rq', match e with
                              | None => run_layers ls rq' out
                              | Some e => to_error_handler ls e rq' out
                              end);
  layers_mount_no p fs r ls rq out :
    match_mount p (rq_path rq) = None →
    run_layers (Mount p fs r :: ls) rq out = run_layers ls rq out;
  layers_mount p fs r ls rq out rest :
    match_mount p (rq_path rq) = Some rest →
    run_layers (Mount p fs r :: ls) rq out =
    run_stack fs rq (λ e rq', match e with
      | None => run_layers r (with_path rest rq') (λ e' rq'',
          let rq'' := with_path (rq_path rq) rq'' in
          match e' with
          | None => run_layers ls rq'' out
          | Some e' => to_error_handler ls e' rq'' out
          end)
      | Some e => to_error_handler ls e rq' out
      end);
  layers_route_no verb p fs ls rq out :
    matches_method verb (rq_method rq) = false ∨ match_route p (rq_path rq) = None →
    run_layers (Route verb p fs :: ls) rq out = run_layers ls rq out;
  layers_route verb p fs ls rq out ps :
    matches_method verb (rq_method rq) = true → match_route p (rq_path rq) = Some ps →
    run_layers (Route verb p fs :: ls) rq out =
    run_stack fs (set_params ps rq) (λ e rq', match e with
                              | None => run_layers ls rq' out
                              | Some e => to_error_handler ls e rq' out
                              end);
  layers_error f ls rq out :
    run_layers (ErrorUse f :: ls) rq out = run_layers ls rq out;
  (** The root of a router matches itself; a mount point matches itself and
      what is below it; a literal path matches none that does not start with it. *)
  route_root : match_route "/" "/" = Some [];
  mount_self p : match_mount p p = Some "/";
  mount_below p q : startsWith q "/" = true → match_mount p (p +:+ q) = Some q;
  route_other p q : literal p = true → same_prefix p q = false → match_route p q = None;
  mount_other p q : literal p = true → same_prefix p q = false → match_mount p q = None;
}.

(** ** Responses of an execution *)

(** The responses sent, in order. *)
Definition response_of (e : event) : option (Z * jsval) :=
  match e with
  | Ev (Respond st body) _ => Some (st, body)
  | _ => None
  end.

Definition responses (t : trace) : list (Z * jsval) := omap response_of t.

(** The calls of foreign middleware into its own state. *)
Definition foreign_event (e : event) : Prop :=
  match e with Ev (ForeignCall _ _) _ => True | _ => False end.

(** Run from [s], the program sends exactly the one response and leaves the
    server in [s']. *)
Definition answers {E : Env} {A} (p : prog A) (s : sys E) (resp : Z * jsval) (s' : sys E) : Prop :=
  ∃ a t, run p s = (a, t, s') ∧ responses t = [resp].

(** ** Induction on layers *)

Section layer_induction.
Variable P : layer → Prop.
Hypothesis P_use : ∀ fs, P (Use fs).
Hypothesis P_mount : ∀ p fs r, Forall P r → P (Mount p fs r).
Hypothesis P_route : ∀ verb p fs, P (Route verb p fs).
Hypothesis P_error : ∀ f, P (ErrorUse f).

Fixpoint layer_ind (l : layer) : P l :=
  match l with
  | Use fs => P_use fs
  | Mount p fs r =>
      P_mount p fs r ((fix go r : Forall P r :=
        match r with
        | [] => Forall_nil_2 _
        | l :: r' => Forall_cons_2 _ _ _ (layer_ind l) (go r')
        end) r)
  | Route verb p fs => P_route verb p fs
  | ErrorUse f => P_error f
  end.
End layer_induction.

(** ** Lemmas *)

Lemma responses_app t1 t2 : responses (t1 ++ t2) = responses t1 ++ responses t2.
Proof. apply omap_app. Qed.

Lemma responses_nil t : Forall (λ e, response_of e = None) t → responses t = [].
Proof. induction 1 as [|e t He _ IH]; [done|]. csimpl. by rewrite He. Qed.

Lemma responses_foreign t : Forall foreign_event t → responses t = [].
Proof.
  intros H. apply responses_nil. eapply Forall_impl; [exact H|].
  by intros [[] ?].
Qed.

(** ** Symbolic execution

    [exec] computes on the concrete part of a program, so a hypothesis
    [exec p t a] is driven by reduction, opening the existentials and
    splitting on the answers. *)

Ltac exec_split p :=
  lazymatch p with
  | pbind ?q _ => exec_split q
  | mbind _ ?q => exec_split q
  | try_catch ?q _ => exec_split q
  | match ?x with _ => _ end => destruct x eqn:?
  end.

Ltac exec_step H :=
  lazymatch type of H with
  | _ ∧ _ => let H1 := fresh "Hx" in destruct H as [H1 H]
  | ∃ _, _ => let x := fresh "x" in destruct H as [x H]
  | exec ?p _ _ => exec_split p
  end.

Ltac symex H :=
  repeat (cbn in H; exec_step H);
  repeat match goal with u : unit |- _ => destruct u end; simplify_eq/=.
