(* ===== verification/Reference.v ===== *)
(** * A reference interpretation of the foreign code

    A concrete, executable environment and a concrete Express that satisfy the
    laws of [Foreign] and [Http].  It shows that the laws are consistent and
    is what the concrete runs evaluate in; nothing is proved about the
    packages themselves. *)

From S2P Require Import Prelude JsValue Effects Foreign Http.

(** ** State *)

(** A token record: payload, secret, time of expiry in seconds. *)
Record token := Token { tk_payload : jsobj; tk_secret : string; tk_expires : Z }.

Record rworld := RWorld {
  r_tbl : model → list jsobj;
  r_clock : Z;
  r_tokens : list token;
  r_node : fetch_init → result http_response;
  r_limited : bool;
  r_step : N;                          (* milliseconds between readings of the clock *)
}.

Definition set_tbl (w : rworld) (m : model) (rows : list jsobj) : rworld :=
  RWorld (λ m', if decide (m' = m) then rows else r_tbl w m')
    (r_clock w) (r_tokens w) (r_node w) (r_limited w) (r_step w).

Definition tick (w : rworld) : rworld :=
  RWorld (r_tbl w) (r_clock w + Z.of_N (r_step w)) (r_tokens w) (r_node w) (r_limited w) (r_step w).

Definition add_token (w : rworld) (k : token) : rworld :=
  RWorld (r_tbl w) (r_clock w) (r_tokens w ++ [k]) (r_node w) (r_limited w) (r_step w).

(** ** Prisma *)

Definition row_ids (rows : list jsobj) : list string :=
  omap (λ r, match assoc "id" r with Some (JStr s) => Some s | _ => None end) rows.

Definition column_value (w : rworld) (m : model) (dat : jsobj) (k : string) (c : column) : option jsval :=
  match given k dat, c with
  | Some v, _ => Some v
  | None, Required => None
  | None, Nullable => Some JNull
  | None, Uuid => Some (JStr (fresh (row_ids (r_tbl w m))))
  | None, Now => Some (JDate (r_clock w))
  | None, Default v => Some v
  end.

Definition build_row (w : rworld) (m : model) (dat : jsobj) : option jsobj :=
  mapM (λ kc, pair kc.1 <$> column_value w m dat kc.1 kc.2) (columns m).

Definition ref_create (m : model) (dat : jsobj) (w : rworld) : result jsval * rworld :=
  match build_row w m dat with
  | None => (Throw (EForeign "PrismaClientValidationError"), w)
  | Some r =>
      if decide (Exists (λ kv, typed kv.1 kv.2 = false) r)
      then (Throw (EForeign "PrismaClientValidationError"), w)
      else if decide (Exists (λ r0, conflict m r0 r) (r_tbl w m))
      then (Throw (EForeign "P2002"), w)
      else (Ok (JObj r), set_tbl w m (r_tbl w m ++ [r]))
  end.

Definition ref_find_unique (m : model) (wh : jsobj) sel (w : rworld) : result jsval :=
  if bool_decide (JUndef ∈ wh.*2) then Throw (EForeign "PrismaClientValidationError")
  else match list_find (row_matches wh) (r_tbl w m) with
       | Some (_, r) => Ok (JObj (project sel r))
       | None => Ok JNull
       end.

Definition created (r : jsobj) : Z :=
  match assoc "createdAt" r with Some (JDate t) => t | _ => 0 end.

Definition newer : relation jsobj := λ r1 r2, (created r2 ≤ created r1)%Z.
#[export] Instance newer_dec : RelDecision newer := λ r1 r2, Z_le_dec _ _.

Definition ref_delete (m : model) (wh : jsobj) (w : rworld) : result jsval * rworld :=
  match list_find (row_matches wh) (r_tbl w m) with
  | Some (i, r) =>
      (Ok (JObj r), set_tbl w m (take i (r_tbl w m) ++ drop (S i) (r_tbl w m)))
  | None => (Throw (EForeign "P2025"), w)
  end.

(** ** jsonwebtoken: a token names the record it was issued with *)

Definition token_name (n : nat) : string := Nat.iter (S n) (String "t") EmptyString.

Fixpoint find_token (name : string) (n : nat) (l : list token) : option token :=
  match l with
  | [] => None
  | k :: l' => if String.eqb name (token_name n) then Some k else find_token name (S n) l'
  end.

Definition ref_verify (v : jsval) (s : string) (w : rworld) : result jsval :=
  match v with
  | JStr name =>
      match find_token name 0 (r_tokens w) with
      | Some k =>
          if String.eqb (tk_secret k) s && (r_clock w / 1000 <? tk_expires k)%Z
          then Ok (JObj (tk_payload k ++ [("exp", JNum (num_of_Z (tk_expires k)))]))
          else Throw (EForeign "JsonWebTokenError")
      | None => Throw (EForeign "JsonWebTokenError")
      end
  | _ => Throw (EForeign "JsonWebTokenError")
  end.

(** ** The environment *)

Definition ref_email_ok (s : string) : bool :=
  match split "@" s with [a; b] => negb (String.eqb a "") && negb (String.eqb b "") | _ => false end.

Definition ref_url_ok (s : string) : bool := startsWith s "https://".

Definition ref_handle (o : op) (w : rworld) : reply o * rworld :=
  match o as o return reply o * rworld with
  | DbFindUnique m wh sel => (ref_find_unique m wh sel w, w)
  | DbFindMany m _ => (Ok (JArr (JObj <$> merge_sort newer (r_tbl w m))), w)
  | DbCreate m dat => ref_create m dat w
  | DbDelete m wh => ref_delete m wh w
  | BcryptHash (JStr pw) _ => (Ok (JStr ("$2a$12$" +:+ pw)), w)
  | BcryptHash _ _ => (Throw (EForeign "bcrypt"), w)
  | BcryptCompare (JStr pw) (JStr h) => (Ok (JBool (String.eqb h ("$2a$12$" +:+ pw))), w)
  | BcryptCompare _ _ => (Throw (EForeign "bcrypt"), w)
  | JwtSign p s e =>
      match span e with
      | Some d => (Ok (JStr (token_name (length (r_tokens w)))),
                   add_token w (Token p s (r_clock w / 1000 + d)))
      | None => (Throw (EForeign "jwt"), w)
      end
  | JwtVerify v s => (ref_verify v s w, w)
  | ZodParse sc v =>
      (if accepts ref_email_ok ref_url_ok sc v then Ok v
       else Throw (EZod [Issue ["body"] "Invalid input"]), w)
  | Fetch _ init => (r_node w init, w)
  | RespJson r => (resp_body r, w)
  | ForeignCall _ _ => (Ok (JBool (negb (r_limited w))), w)
  | DateNow => (r_clock w, tick w)
  | CacheGet => (None, w)
  | ConsoleError _ _ | UnhandledRejection _ | CacheSet _ | Respond _ _ => (tt, w)
  end.

#[export] Instance ref_env : Env := { world := rworld; handle := ref_handle }.

(** An empty database at time 0, with a node that is not reachable. *)
Definition ref_world : rworld :=
  RWorld (λ _, []) 0 [] (λ _, Throw (EForeign "fetch failed")) false 1.

Definition ref_sys : sys ref_env := Sys None ref_world.

(** ** The laws hold *)

Lemma assoc_mapM (f : string → column → option jsval) cols r :
  NoDup cols.*1 →
  mapM (λ kc, pair kc.1 <$> f kc.1 kc.2) cols = Some r →
  r.*1 = cols.*1 ∧ Forall (λ kc, ∃ v, assoc kc.1 r = Some v ∧ f kc.1 kc.2 = Some v) cols.
Proof.
  intros Hnd H%mapM_Some. induction H as [|[k c] [k' v] cols r Hf _ IH]; [done|].
  csimpl in *. apply NoDup_cons in Hnd as [Hk Hnd]. apply fmap_Some in Hf as (v' & Hf & [= -> ->]).
  destruct (IH Hnd) as [-> Hall]. split; [done|]. constructor; simpl.
  - rewrite String.eqb_refl. eauto.
  - apply Forall_forall. intros kc Hin. rewrite Forall_forall in Hall.
    destruct (String.eqb_spec kc.1 k) as [Heq|]; [|by apply Hall].
    destruct Hk. rewrite <- Heq. apply list_elem_of_fmap. eauto.
Qed.

Lemma columns_NoDup m : NoDup (columns m).*1.
Proof. apply (bool_decide_eq_true_1 _). by destruct m. Qed.

Lemma build_row_spec w m dat r :
  build_row w m dat = Some r → Forall (λ kv, typed kv.1 kv.2 = true) r → new_row m dat r.
Proof.
  intros H Ht. apply assoc_mapM in H as [Hk Hall]; [|apply columns_NoDup].
  split; [done|]. eapply Forall_impl; [exact Hall|]. intros [k c] (v & Hv & Hf). simpl in *.
  unfold column_value in Hf. destruct (given k dat); [naive_solver|].
  destruct c; naive_solver.
Qed.

Lemma build_row_given w m dat r k v :
  build_row w m dat = Some r → k ∈ (columns m).*1 → given k dat = Some v → assoc k r = Some v.
Proof.
  intros H Hk Hg. apply assoc_mapM in H as [_ Hall]; [|apply columns_NoDup].
  apply list_elem_of_fmap in Hk as ([k' c] & -> & Hin).
  rewrite Forall_forall in Hall. destruct (Hall _ Hin) as (v' & Hv & Hf). simpl in *.
  unfold column_value in Hf. by rewrite Hg in Hf; simplify_eq.
Qed.

Lemma given_elem k dat v : given k dat = Some v → (k, v) ∈ dat.
Proof.
  unfold given. destruct (assoc k dat) as [v'|] eqn:Ha; [|done].
  apply assoc_elem in Ha. destruct v'; intros; by simplify_eq.
Qed.

Lemma build_row_typed w m dat r :
  build_row w m dat = Some r → Forall (λ kv, kv.2 = JUndef ∨ typed kv.1 kv.2 = true) dat →
  Forall (λ kv, typed kv.1 kv.2 = true) r.
Proof.
  intros H%mapM_Some Hdat. rewrite Forall_forall in Hdat.
  assert (Hc : ∀ k c v, (k, c) ∈ columns m → column_value w m dat k c = Some v → typed k v = true).
  { intros k c v Hin Hv. unfold column_value in Hv. destruct (given k dat) as [v'|] eqn:Hg.
    - simplify_eq. assert (v ≠ JUndef) by (intros ->; unfold given in Hg; by destruct (assoc k dat) as [[]|]).
      apply given_elem in Hg. by apply Hdat in Hg as [|].
    - destruct m; simpl in Hin; repeat (apply elem_of_cons in Hin as [?|Hin]; simplify_eq/=; try done);
        by inversion Hin. }
  clear Hdat. induction H as [|[k c] [k' v] cols r Hf _ IH]; constructor.
  - simpl in *. apply fmap_Some in Hf as (v' & Hv & [= -> ->]). eapply Hc; [left|exact Hv].
  - apply IH. intros k1 c1 v1 Hin. apply Hc. by right.
Qed.

#[export] Program Instance ref_prisma : PrismaLaws ref_env := { tbl := r_tbl }.
Next Obligation.
  intros o w m Ho. unfold after. destruct o; try done; simpl;
    repeat match goal with |- context [match ?x with _ => _ end] => destruct x end; done.
Qed.
Next Obligation.
  intros m wh sel w. unfold answer. simpl. unfold ref_find_unique.
  case_bool_decide; [done|].
  destruct (list_find _ _) as [[i r]|] eqn:Hf; simpl.
  - apply list_find_Some in Hf as (Hi & Hm & _). exists r. split; [|done].
    by eapply list_elem_of_lookup_2.
  - by apply list_find_None in Hf.
Qed.
Next Obligation.
  intros m w. unfold answer. simpl. exists (merge_sort newer (r_tbl w m)). split; [done|].
  split; [apply merge_sort_Permutation|].
  assert (Htr : Transitive newer) by (unfold newer; intros ???; lia).
  assert (Hto : Total newer) by (unfold newer; intros ??; lia).
  pose proof (StronglySorted_merge_sort newer (r_tbl w m)) as Hs.
  induction Hs as [|r l _ IH Hall]; constructor; [done|].
  eapply Forall_impl; [exact Hall|]. intros r2 Hn t1 t2 H1 H2.
  unfold newer, created in Hn. by rewrite H1, H2 in Hn.
Qed.
Next Obligation.
  intros m dat w. unfold answer, after. simpl. unfold ref_create.
  destruct (build_row w m dat) as [r|] eqn:Hr; [|done].
  case_decide as Hty; [done|]. case_decide as Hc; [done|]. simpl. exists r. split_and!.
  - done.
  - eapply build_row_spec; [done|]. apply not_Exists_Forall in Hty; [|intros; apply _].
    eapply Forall_impl; [exact Hty|]. intros kv Hkv. by destruct (typed kv.1 kv.2) eqn:?.
  - by apply not_Exists_Forall in Hc; [|intros; apply _].
  - by rewrite decide_True.
  - intros m' Hm. by rewrite decide_False.
Qed.
Next Obligation.
  intros m wh w. unfold answer, after. simpl. unfold ref_delete.
  destruct (list_find _ _) as [[i r]|] eqn:Hf; simpl; [|done].
  apply list_find_Some in Hf as (Hi & Hm & _).
  exists (take i (r_tbl w m)), r, (drop (S i) (r_tbl w m)). split_and!; try done.
  - by rewrite take_drop_middle.
  - by rewrite decide_True.
  - intros m' Hm'. by rewrite decide_False.
Qed.

Lemma build_row_is_Some w m dat :
  Forall (λ kc, kc.2 = Required → is_Some (given kc.1 dat)) (columns m) →
  is_Some (build_row w m dat).
Proof.
  intros Hreq. apply mapM_is_Some_2. eapply Forall_impl; [exact Hreq|].
  intros [k c] H. simpl in *. apply fmap_is_Some. unfold column_value.
  destruct (given k dat) eqn:Hg; [done|]. destruct c; try done.
  by destruct (H eq_refl).
Qed.

Lemma build_row_fresh_id w m dat r r0 :
  build_row w m dat = Some r → given "id" dat = None → r0 ∈ r_tbl w m →
  assoc "id" r0 ≠ assoc "id" r.
Proof.
  intros Hr Hg Hin Heq. apply assoc_mapM in Hr as [_ Hall]; [|apply columns_NoDup].
  rewrite Forall_forall in Hall.
  destruct (Hall ("id", Uuid)) as (v & Hv & Hf); [destruct m; set_solver|].
  simpl in *. unfold column_value in Hf. rewrite Hg in Hf. simplify_eq.
  rewrite Hv in Heq. pose proof (infinite_is_fresh (row_ids (r_tbl w m))) as Hfr.
  apply Hfr. apply list_elem_of_omap. exists r0. by rewrite Heq.
Qed.

#[export] Program Instance ref_prisma_up : PrismaUp ref_env ref_prisma := { up := λ _, True }.
Next Obligation. done. Qed.
Next Obligation.
  intros m k s sel w _ _. unfold answer. simpl. unfold ref_find_unique.
  rewrite bool_decide_eq_false_2 by set_solver.
  destruct (list_find _ _) as [[i r]|]; eauto.
Qed.
Next Obligation.
  intros m dat w _ Hty Hreq _ Hun. unfold answer. simpl. unfold ref_create.
  destruct (build_row_is_Some w m dat Hreq) as [r Hr]. rewrite Hr.
  rewrite decide_False.
  2: { apply Forall_not_Exists. eapply Forall_impl; [by eapply build_row_typed|].
       intros kv Hkv Hf. simpl in *. congruence. }
  rewrite decide_False; [eauto|]. rewrite Exists_exists. intros (r0 & Hin & Hc).
  unfold conflict in Hc. rewrite Exists_exists in Hc. destruct Hc as (k & Hk & Heq).
  rewrite Forall_forall in Hun. specialize (Hun _ Hin). rewrite Forall_forall in Hun.
  assert (Hcol : k ∈ (columns m).*1) by (destruct m; set_solver).
  destruct (given k dat) as [v|] eqn:Hg.
  - apply (Hun k Hk v Hg). rewrite Heq. by eapply build_row_given.
  - assert (k = "id") as ->.
    { rewrite Forall_forall in Hreq.
      destruct m; simpl in Hk; repeat (apply elem_of_cons in Hk as [->|Hk]); try done;
        try (by inversion Hk);
        destruct (Hreq ("email", Required)) as [v Hv]; try done; try set_solver;
        simpl in Hv; by rewrite Hg in Hv. }
    by eapply build_row_fresh_id.
Qed.
Next Obligation. intros m w _. unfold answer. simpl. eauto. Qed.
Next Obligation.
  intros m s w _ (r & Hin & Hid)%Exists_exists. unfold answer. simpl. unfold ref_delete.
  destruct (list_find (row_matches [("id", JStr s)]) (r_tbl w m)) as [[i r']|] eqn:Hf; [simpl; eauto|].
  apply list_find_None in Hf. rewrite Forall_forall in Hf. destruct (Hf r Hin). by apply row_matches_single.
Qed.

#[export] Program Instance ref_bcrypt : BcryptLaws ref_env := {}.
Next Obligation.
  intros pw n w. exists ("$2a$12$" +:+ pw). split; [done|]. intros w'.
  unfold answer. simpl. by rewrite String.eqb_refl.
Qed.

#[export] Program Instance ref_clock : ClockLaws ref_env := { now := r_clock }.
Next Obligation. done. Qed.
Next Obligation.
  intros o w. unfold after. destruct o; simpl; unfold ref_create, ref_delete;
    repeat match goal with |- context [match ?x with _ => _ end] => destruct x; simpl end; lia.
Qed.

(** Tokens are only ever added. *)
Lemma ref_tokens_grow w w' : reaches ref_env w w' → r_tokens w `prefix_of` r_tokens w'.
Proof.
  induction 1 as [w|w w1 w' [o ->] _ IH]; [done|]. etrans; [|exact IH].
  unfold after. destruct o; simpl; unfold ref_create, ref_delete;
    repeat match goal with |- context [match ?x with _ => _ end] => destruct x; simpl end;
    try done. by apply prefix_app_r.
Qed.

Lemma token_name_length n : String.length (token_name n) = S n.
Proof. unfold token_name. induction (S n); simpl; by f_equal. Qed.

Lemma token_name_inj n m : token_name n = token_name m → n = m.
Proof. intros H%(f_equal String.length). rewrite !token_name_length in H. lia. Qed.

Lemma token_name_no_space n : no_space (token_name n).
Proof.
  unfold no_space, token_name. induction (S n) as [|k IH]; [done|].
  simpl in *. by rewrite IH.
Qed.

Lemma find_token_lookup l n i k :
  l !! i = Some k → find_token (token_name (n + i)) n l = Some k.
Proof.
  revert n i. induction l as [|k' l IH]; intros n i; [done|]. cbn [find_token].
  destruct i as [|i]; simpl lookup; intros H.
  - rewrite Nat.add_0_r, String.eqb_refl. done.
  - destruct (String.eqb_spec (token_name (n + S i)) (token_name n)) as [He|_].
    + apply token_name_inj in He. lia.
    + replace (n + S i)%nat with (S n + i)%nat by lia. by apply IH.
Qed.

#[export] Program Instance ref_jwt : JwtLaws ref_env ref_clock := {}.
Next Obligation.
  intros p s e d w Hd _ _. unfold answer at 1. simpl. rewrite Hd.
  exists (token_name (length (r_tokens w))). split; [done|].
  split; [intros H%(f_equal String.length); by rewrite token_name_length in H|].
  split; [apply token_name_no_space|].
  intros w' Hw'. apply ref_tokens_grow in Hw'. unfold after in Hw'. simpl in Hw'.
  rewrite Hd in Hw'. simpl in Hw'. destruct Hw' as [l Hl].
  assert (Hf : find_token (token_name (length (r_tokens w))) 0 (r_tokens w')
               = Some (Token p s (r_clock w / 1000 + d))).
  { apply (find_token_lookup _ 0). rewrite Hl, <- (assoc_L (++)).
    by apply list_lookup_middle. }
  unfold answer. cbn -[token_name]. unfold ref_verify. rewrite Hf. cbn -[token_name].
  split_and!.
  - intros Hlt. apply Z.ltb_lt in Hlt. rewrite String.eqb_refl, Hlt. eauto.
  - intros Hge. apply Z.ltb_ge in Hge. rewrite String.eqb_refl, Hge. eauto.
  - intros s' Hs. apply not_eq_sym, String.eqb_neq in Hs. rewrite Hs. eauto.
Qed.
Next Obligation. intros v s w H. destruct v; unfold answer; simpl; eauto. by destruct (H s0). Qed.
Next Obligation.
  intros s w. unfold answer. simpl.
  assert (H : ∀ n, find_token "" n (r_tokens w) = None).
  { induction (r_tokens w) as [|k l IH]; intros n; [done|]. apply IH. }
  rewrite H. eauto.
Qed.

#[export] Program Instance ref_zod : ZodLaws ref_env :=
  { email_ok := ref_email_ok; url_ok := ref_url_ok }.
Next Obligation. intros sc v w H. unfold answer. simpl. rewrite H. eauto. Qed.
Next Obligation. intros sc v w H. unfold answer. simpl. rewrite H. eauto. Qed.

(** ** Express *)

(** Literal patterns, and the pattern with one parameter the program uses. *)
Definition ref_match_route (pat path : string) : option (list (string * string)) :=
  if String.eqb pat path then Some []
  else if String.eqb pat "/:id" then
    match split "/" path with
    | [EmptyString; v] => if String.eqb v "" then None else Some [("id", v)]
    | _ => None
    end
  else None.

Definition ref_match_mount (p path : string) : option string :=
  match strip p path with
  | Some EmptyString => Some "/"
  | Some rest => if startsWith rest "/" then Some rest else None
  | None => None
  end.

Fixpoint ref_stack (fs : list handler) (rq : request) (out : nextfn) : prog unit :=
  match fs with
  | [] => out None rq
  | Sync f :: fs' =>
      pbind (f rq (λ e rq', match e with
                            | None => ref_stack fs' rq' out
                            | Some e => out (Some e) rq'
                            end))
        (λ r, match r with Ok _ => Ret tt | Throw e => out (Some e) rq end)
  | Async h :: _ =>
      pbind (h rq)
        (λ r, match r with Ok _ => Ret tt | Throw e => Vis (UnhandledRejection e) (λ _, Ret tt) end)
  end.

Fixpoint ref_layer (l : layer) (rq : request) (nxt : nextfn) : prog unit :=
  match l with
  | Use fs => ref_stack fs rq nxt
  | Mount p fs r =>
      match ref_match_mount p (rq_path rq) with
      | None => nxt None rq
      | Some rest =>
          ref_stack fs rq (λ e rq', match e with
            | Some e => nxt (Some e) rq'
            | None =>
                (fix go (r : list layer) (rq : request) (out : nextfn) : prog unit :=
                   match r with
                   | [] => out None rq
                   | l :: r' => ref_layer l rq (λ e rq', match e with
                                  | None => go r' rq' out
                                  | Some e => to_error_handler r' e rq' out
                                  end)
                   end) r (with_path rest rq')
                  (λ e' rq'', nxt e' (with_path (rq_path rq) rq''))
            end)
      end
  | Route verb p fs =>
      if matches_method verb (rq_method rq) then
        match ref_match_route p (rq_path rq) with
        | Some ps => ref_stack fs (set_params ps rq) nxt
        | None => nxt None rq
        end
      else nxt None rq
  | ErrorUse _ => nxt None rq
  end.

Fixpoint ref_layers (r : list layer) (rq : request) (out : nextfn) : prog unit :=
  match r with
  | [] => out None rq
  | l :: r' => ref_layer l rq (λ e rq', match e with
                 | None => ref_layers r' rq' out
                 | Some e => to_error_handler r' e rq' out
                 end)
  end.

#[export] Instance ref_express : Express := {
  match_route := ref_match_route;
  match_mount := ref_match_mount;
  run_stack := ref_stack;
  run_layers := ref_layers;
}.

#[export] Program Instance ref_express_laws : ExpressLaws ref_express := {}.
Next Obligation. done. Qed.
Next Obligation. done. Qed.
Next Obligation. done. Qed.
Next Obligation. done. Qed.
Next Obligation. done. Qed.
Next Obligation. intros p fs r ls rq out H. simpl in *. by rewrite H. Qed.
Next Obligation. intros p fs r ls rq out rest H. simpl in *. by rewrite H. Qed.
Next Obligation.
  intros verb p fs ls rq out H. simpl in *.
  destruct (matches_method verb (rq_method rq)); [|done].
  destruct H as [|H]; [done|]. by rewrite H.
Qed.
Next Obligation.
  intros verb p fs ls rq out ps Hv H. simpl in *. by rewrite Hv, H.
Qed.
Next Obligation. done. Qed.
Next Obligation. done. Qed.
Next Obligation.
  intros p. simpl. unfold ref_match_mount.
  pose proof (strip_app p "") as H. by rewrite string_app_nil_r in H; rewrite H.
Qed.
Next Obligation.
  intros p q H. simpl. unfold ref_match_mount. rewrite strip_app.
  destruct q; [done|]. by rewrite H.
Qed.
Next Obligation.
  intros p q Hl H. simpl. unfold ref_match_route.
  destruct (String.eqb_spec p q) as [->|]; [|by destruct (String.eqb_spec p "/:id") as [->|]].
  exfalso. clear Hl. induction q as [|a q IH]; [done|]. simpl in H. by rewrite Ascii.eqb_refl in H.
Qed.
Next Obligation.
  intros p q _ H. simpl. unfold ref_match_mount.
  assert (strip p q = None) as ->; [|done].
  revert q H. induction p as [|a p IH]; intros [|b q]; try done. simpl.
  destruct (Ascii.eqb_spec a b) as [->|]; [|done]. rewrite Ascii.eqb_refl. apply IH.
Qed.
