(* ===== verification/Config.v ===== *)
(** * Configuration (backend/src/config/index.ts)

    The configuration object as a function of the process environment. *)

From S2P Require Import Prelude JsValue.

(** [process.env]: a variable is a string or undefined. *)
Definition environment : Type := string → option string.

Record jwt_config := JwtConfig {
  secret : string;
  refreshSecret : string;
  expiresIn : string;
  refreshExpiresIn : string;
}.

Record rpc_config := RpcConfig { url : string; user : string; pass : string }.

Record rate_config := RateConfig { windowMs : num; max : num }.

Record config := Config {
  cfg_env : string;
  port : num;
  jwt : jwt_config;
  hyliumRpc : rpc_config;
  cors_origin : string;
  rateLimit : rate_config;
}.

(** [process.env.K || d] *)
Definition env_or (penv : environment) (k d : string) : string :=
  match penv k with
  | Some v => if String.eqb v "" then d else v
  | None => d
  end.

Definition load_config (penv : environment) : config :=
  {| cfg_env := env_or penv "NODE_ENV" "development";
     port := parseInt (env_or penv "PORT" "3001");
     jwt := {| secret := env_or penv "JWT_SECRET" "change-me";
               refreshSecret := env_or penv "JWT_REFRESH_SECRET" "change-me-refresh";
               expiresIn := env_or penv "JWT_EXPIRES_IN" "15m";
               refreshExpiresIn := env_or penv "JWT_REFRESH_EXPIRES_IN" "7d" |};
     hyliumRpc := {| url := env_or penv "HYLIUM_RPC_URL" "http://127.0.0.1:8332";
                     user := env_or penv "HYLIUM_RPC_USER" "";
                     pass := env_or penv "HYLIUM_RPC_PASS" "" |};
     cors_origin := env_or penv "CORS_ORIGIN" "http://localhost:5173";
     rateLimit := {| windowMs := parseInt (env_or penv "RATE_LIMIT_WINDOW_MS" "900000");
                     max := parseInt (env_or penv "RATE_LIMIT_MAX" "100") |} |}.

(** The configuration of a process without any variable set. *)
Definition default_config : config := load_config (λ _, None).

(** ** Lemmas *)

Lemma env_or_nonempty penv k d : d ≠ "" → env_or penv k d ≠ "".
Proof.
  intros Hd. unfold env_or. destruct (penv k) as [v|]; [|done].
  by destruct (String.eqb_spec v "").
Qed.

Lemma env_or_set penv k d v : penv k = Some v → v ≠ "" → env_or penv k d = v.
Proof. intros Hv Hne. unfold env_or. rewrite Hv. by destruct (String.eqb_spec v ""). Qed.

(** ** Numbers *)

Definition starts_with_digit (s : string) : bool :=
  match s with String a _ => is_digit a | EmptyString => false end.

Lemma pretty_N_char_digit d :
  (d < 10)%N → is_digit (pretty_N_char d) = true ∧ digit_val (pretty_N_char d) = Z.of_N d.
Proof.
  intros Hd. destruct d as [|p]; [done|].
  do 4 (destruct p as [p|p|]; try (by (split; reflexivity)); try lia).
Qed.

Lemma digits_pretty_go (x : N) s :
  digits (pretty_N_go x s) None = digits s (if decide (x = 0%N) then None else Some (Z.of_N x)) ∧
  (x ≠ 0%N ∨ starts_with_digit s = true → starts_with_digit (pretty_N_go x s) = true).
Proof.
  revert s. induction (N.lt_wf_0 x) as [x _ IH]; intros s.
  destruct (decide (x = 0%N)) as [->|Hx].
  - rewrite pretty_N_go_0. split; [done|]. by intros [?|?].
  - rewrite pretty_N_go_step by lia. assert (Hlt : (x `div` 10 < x)%N) by (apply N.div_lt; lia).
    assert (Hm : (x `mod` 10 < 10)%N) by (apply N.mod_lt; lia).
    destruct (pretty_N_char_digit _ Hm) as [Hd Hv].
    destruct (IH _ Hlt (String (pretty_N_char (x `mod` 10)) s)) as [H1 H2]. split.
    + rewrite H1. cbn [digits]. rewrite Hd, Hv. f_equal. f_equal.
      pose proof (N.div_mod x 10 ltac:(lia)) as Hdm. destruct (decide _) as [H0|H0]; simpl; lia.
    + intros _. apply H2. by right.
Qed.

(** The decimal digits of a number are read back as the number. *)
Lemma parseInt_pretty (n : N) : parseInt (pretty n) = num_of_Z (Z.of_N n).
Proof.
  unfold pretty, pretty_N. case_decide as Hn; [by subst|].
  destruct (digits_pretty_go n "") as [H1 H2]. specialize (H2 (or_introl Hn)).
  rewrite decide_False in H1 by done. revert H1 H2. generalize (pretty_N_go n ""). intros str H1 H2.
  assert (Hbody : parseInt str = match digits str None with None => S754_nan | Some z => num_of_Z z end).
  { destruct str as [|a str]; [done|]. simpl in H2.
    destruct a as [[] [] [] [] [] [] [] []]; try discriminate H2; reflexivity. }
  by rewrite Hbody, H1.
Qed.

(** A variable with the decimal digits of a number is read as that number. *)
Lemma parseInt_env penv k d (n : N) :
  penv k = Some (pretty n) → parseInt (env_or penv k d) = num_of_Z (Z.of_N n).
Proof.
  intros H. rewrite (env_or_set _ _ _ _ H); [apply parseInt_pretty|].
  unfold pretty, pretty_N. case_decide as Hn; [done|].
  destruct (digits_pretty_go n "") as [_ H2]. specialize (H2 (or_introl Hn)).
  intros Heq. by rewrite Heq in H2.
Qed.

