(* ===== verification/Validate.v ===== *)
(** * Request validation (backend/src/middleware/validate.ts)

    The [validate] middleware and the schemas.  zod is foreign code: the
    schemas are the expressions the source builds, and [schema.parse] is the
    operation [ZodParse]. *)

From S2P Require Import Prelude JsValue Effects Http.

(** ** The middleware *)

(** [{ field: e.path.join('.'), message: e.message }] *)
Definition issue_json (e : issue) : jsval :=
  JObj [("field", JStr (join "." (issue_path e))); ("message", JStr (issue_message e))].

(** The parsed value is dropped: [next] sees the original body. *)
Definition validate (s : schema) : mw := λ rq next,
  try_catch
    (zod_parse s (rq_body rq) ;; lift (next None rq))
    (λ error,
      match error with
      | EZod errors =>
          respond 400 (JObj [("error", JStr "Validation failed");
                             ("details", JArr (issue_json <$> errors))])
      | _ => lift (next (Some error) rq)
      end).

(** ** The schemas *)

Definition register_schema : schema := ZObject
  [("email", ZString [CEmail "Invalid email format"]);
   ("password", ZString [CMin 8 (Some "Password must be at least 8 characters")])].

Definition login_schema : schema := ZObject
  [("email", ZString [CEmail "Invalid email format"]);
   ("password", ZString [CMin 1 (Some "Password is required")])].

Definition newsletter_schema : schema := ZObject
  [("email", ZString [CEmail "Invalid email format"])].

Definition contact_schema : schema := ZObject
  [("email", ZString [CEmail "Invalid email format"]);
   ("subject", ZString [CMin 1 (Some "Subject is required"); CMax 200]);
   ("message", ZString [CMin 10 (Some "Message must be at least 10 characters"); CMax 5000])].

Definition download_schema : schema := ZObject
  [("name", ZString [CMin 1 None]);
   ("version", ZString [CMin 1 None]);
   ("platform", ZEnum ["windows"; "macos"; "linux"]);
   ("url", ZString [CUrl]);
   ("checksum", ZOptional (ZString []))].

Definition rpc_schema : schema := ZObject
  [("method", ZString [CMin 1 None]);
   ("params", ZDefault (ZOptional (ZArray ZAny)) (JArr []))].
