(* ===== verification/AuthMw.v ===== *)
(** * Authentication middleware (backend/src/middleware/auth.ts) *)

From S2P Require Import Prelude JsValue Effects Http Config.

Section auth.
Variable cfg : config.

(** [authHeader.split(' ')[1]] *)
Definition bearer_token (authHeader : string) : jsval :=
  match split " " authHeader !! 1%nat with
  | Some t => JStr t
  | None => JUndef
  end.

Definition authenticate : mw := λ rq next,
  match rq_authorization rq with
  | Some authHeader =>
      if negb (String.eqb authHeader "") && startsWith authHeader "Bearer " then
        let token := bearer_token authHeader in
        try_catch
          (decoded ← jwt_verify token (secret (jwt cfg));
           userId ← of_result (prop decoded "userId");
           role ← of_result (prop decoded "role");
           lift (next None (set_user userId role rq)))
          (λ _, respond 401 (error_json "Invalid or expired token"))
      else respond 401 (error_json "Access token required")
  | None => respond 401 (error_json "Access token required")
  end.

Definition requireAdmin : mw := λ rq next,
  if bool_decide (rq_userRole rq = JStr "ADMIN") then lift (next None rq)
  else respond 403 (error_json "Admin access required").
End auth.
