(* ===== verification/AuthRoutes.v ===== *)
(** * Accounts and tokens (backend/src/routes/auth.ts) *)

From S2P Require Import Prelude JsValue Effects Http Config Validate AuthMw.

Section auth_routes.
Variable cfg : config.

(** POST /register *)
Definition register (rq : request) : M unit :=
  try_catch
    (email ← of_result (prop (rq_body rq) "email");
     password ← of_result (prop (rq_body rq) "password");
     existingUser ← findUnique MUser [("email", email)] None;
     if truthy existingUser then
       respond 400 (error_json "Email already registered")
     else
       hashedPassword ← bcrypt_hash password 12;
       user ← create MUser [("email", email); ("password", hashedPassword)];
       user_id ← of_result (prop user "id");
       respond 201 (JObj [("message", JStr "User created successfully"); ("userId", user_id)]))
    (λ error,
      console_error "Register error:" error ;;
      respond 500 (error_json "Internal server error")).

(** The two tokens, with the expiry times the source writes out. *)
Definition sign_access (user : jsval) : M jsval :=
  id ← of_result (prop user "id");
  role ← of_result (prop user "role");
  jwt_sign [("userId", id); ("role", role)] (secret (jwt cfg)) "15m".

Definition sign_refresh (user : jsval) : M jsval :=
  id ← of_result (prop user "id");
  jwt_sign [("userId", id)] (refreshSecret (jwt cfg)) "7d".

(** POST /login *)
Definition login (rq : request) : M unit :=
  try_catch
    (email ← of_result (prop (rq_body rq) "email");
     password ← of_result (prop (rq_body rq) "password");
     user ← findUnique MUser [("email", email)] None;
     if negb (truthy user) then
       respond 401 (error_json "Invalid credentials")
     else
       hash ← of_result (prop user "password");
       validPassword ← bcrypt_compare password hash;
       if negb (truthy validPassword) then
         respond 401 (error_json "Invalid credentials")
       else
         accessToken ← sign_access user;
         refreshToken ← sign_refresh user;
         respond 200 (JObj [("accessToken", accessToken); ("refreshToken", refreshToken)]))
    (λ error,
      console_error "Login error:" error ;;
      respond 500 (error_json "Internal server error")).

(** POST /refresh *)
Definition refresh (rq : request) : M unit :=
  try_catch
    (refreshToken ← of_result (prop (rq_body rq) "refreshToken");
     if negb (truthy refreshToken) then
       respond 401 (error_json "Refresh token required")
     else
       decoded ← jwt_verify refreshToken (refreshSecret (jwt cfg));
       userId ← of_result (prop decoded "userId");
       user ← findUnique MUser [("id", userId)] None;
       if negb (truthy user) then
         respond 401 (error_json "Invalid refresh token")
       else
         accessToken ← sign_access user;
         respond 200 (JObj [("accessToken", accessToken)]))
    (λ _, respond 401 (error_json "Invalid refresh token")).

(** GET /me *)
Definition me (rq : request) : M unit :=
  try_catch
    (user ← findUnique MUser [("id", rq_userId rq)] (Some ["id"; "email"; "role"; "createdAt"]);
     if negb (truthy user) then
       respond 404 (error_json "User not found")
     else respond 200 user)
    (λ _, respond 500 (error_json "Internal server error")).

Definition auth_router : list layer :=
  [Route "POST" "/register" [Sync (validate register_schema); Async register];
   Route "POST" "/login" [Sync (validate login_schema); Async login];
   Route "POST" "/refresh" [Async refresh];
   Route "GET" "/me" [Sync (authenticate cfg); Async me]].
End auth_routes.
