(* ===== verification/Base64.v ===== *)
(** * [Buffer.from(s).toString('base64')]

    The encoding [callRpc] applies to [user:pass] for the Basic scheme, with
    the decoder that undoes it. *)

From S2P Require Import Prelude JsValue.
Local Open Scope Z_scope.

Fixpoint bytes (s : string) : list Z :=
  match s with
  | EmptyString => []
  | String a s' => Z.of_N (N_of_ascii a) :: bytes s'
  end.

Fixpoint of_bytes (l : list Z) : string :=
  match l with
  | [] => EmptyString
  | b :: l' => String (ascii_of_N (Z.to_N b)) (of_bytes l')
  end.

Definition alphabet : string :=
  "ABCDEFGHIJKLMNOPQRSTUVWXYZabcdefghijklmnopqrstuvwxyz0123456789+/".

Definition char64 (d : Z) : ascii := default "="%char (String.get (Z.to_nat d) alphabet).

Fixpoint index_of (a : ascii) (s : string) : option Z :=
  match s with
  | EmptyString => None
  | String b s' => if Ascii.eqb a b then Some 0 else Z.succ <$> index_of a s'
  end.

Definition val64 (a : ascii) : option Z := index_of a alphabet.

(** Three bytes give four characters; a group of one or two is padded. *)
Fixpoint encode (l : list Z) : string :=
  match l with
  | [] => EmptyString
  | [a] =>
      String (char64 (a / 4)) (String (char64 (a mod 4 * 16)) "==")
  | [a; b] =>
      String (char64 (a / 4)) (String (char64 (a mod 4 * 16 + b / 16))
        (String (char64 (b mod 16 * 4)) "="))
  | a :: b :: c :: l' =>
      String (char64 (a / 4)) (String (char64 (a mod 4 * 16 + b / 16))
        (String (char64 (b mod 16 * 4 + c / 64)) (String (char64 (c mod 64)) (encode l'))))
  end.

Definition base64 (s : string) : string := encode (bytes s).

(** The inverse, as a server checking the header computes it. *)
Fixpoint decode (s : string) : option (list Z) :=
  match s with
  | EmptyString => Some []
  | String c1 (String c2 (String c3 (String c4 s'))) =>
      v1 ← val64 c1; v2 ← val64 c2;
      match val64 c3, val64 c4, s' with
      | None, None, EmptyString => Some [v1 * 4 + v2 / 16]
      | Some v3, None, EmptyString => Some [v1 * 4 + v2 / 16; v2 mod 16 * 16 + v3 / 4]
      | Some v3, Some v4, s' =>
          l ← decode s';
          Some (v1 * 4 + v2 / 16 :: v2 mod 16 * 16 + v3 / 4 :: v3 mod 4 * 64 + v4 :: l)
      | _, _, _ => None
      end
  | _ => None
  end.

Definition unbase64 (s : string) : option string := of_bytes <$> decode s.

Example base64_user_pass : base64 "user:pass" = "dXNlcjpwYXNz".
Proof. reflexivity. Qed.

Example base64_pads : base64 "a:" = "YTo=" ∧ base64 ":" = "Og==".
Proof. done. Qed.

(** ** Lemmas *)

Definition is_byte (b : Z) : Prop := 0 ≤ b < 256.

Lemma bytes_range s : Forall is_byte (bytes s).
Proof.
  induction s as [|a s IH]; simpl; constructor; [|done].
  pose proof (N_ascii_bounded a). unfold is_byte. lia.
Qed.

Lemma of_bytes_bytes s : of_bytes (bytes s) = s.
Proof.
  induction s as [|a s IH]; simpl; [done|].
  by rewrite N2Z.id, ascii_N_embedding, IH.
Qed.

Lemma val64_char64 d : 0 ≤ d < 64 → val64 (char64 d) = Some d.
Proof.
  intros Hd. replace d with (Z.of_nat (Z.to_nat d)) by lia.
  assert (Hn : (Z.to_nat d < 64)%nat) by lia. revert Hn. generalize (Z.to_nat d). clear d Hd.
  intros n Hn.
  assert (Hall : Forall (λ k, val64 (char64 (Z.of_nat k)) = Some (Z.of_nat k)) (seq 0 64)).
  { eapply bool_decide_eq_true_1. vm_compute. reflexivity. }
  rewrite Forall_forall in Hall. apply Hall. apply elem_of_seq. lia.
Qed.

Lemma val64_pad : val64 "=" = None.
Proof. reflexivity. Qed.

(** Induction by groups of three. *)
Lemma list_ind3 {A} (P : list A → Prop) :
  P [] → (∀ a, P [a]) → (∀ a b, P [a; b]) →
  (∀ a b c l, P l → P (a :: b :: c :: l)) → ∀ l, P l.
Proof.
  intros H0 H1 H2 H3.
  fix IH 1. intros [|a [|b [|c l]]]; [done|apply H1|apply H2|apply H3, IH].
Qed.

Lemma decode_encode l : Forall is_byte l → decode (encode l) = Some l.
Proof.
  unfold is_byte. induction l as [|a|a b|a b c l IH] using list_ind3; intros Hl;
    rewrite ?Forall_cons in Hl; [done|destruct Hl as [Ha _]|destruct Hl as (Ha & Hb & _)|
      destruct Hl as (Ha & Hb & Hc & Hl)]; cbn [encode decode];
    rewrite !val64_char64, ?val64_pad by (Z.div_mod_to_equations; lia); cbn.
  - repeat f_equal. Z.div_mod_to_equations; lia.
  - repeat f_equal; Z.div_mod_to_equations; lia.
  - rewrite IH by done. cbn. repeat f_equal; Z.div_mod_to_equations; lia.
Qed.

Lemma unbase64_base64 s : unbase64 (base64 s) = Some s.
Proof.
  unfold unbase64, base64. rewrite decode_encode by apply bytes_range.
  cbn. by rewrite of_bytes_bytes.
Qed.
