(* ===== verification/JsonPrint.v ===== *)
(** * Printing built-ins: [Number.prototype.toString], [toISOString],
    [JSON.stringify]

    The three are defined by ECMA-262; they produce the request bodies and the
    time stamps of the program. *)

From S2P Require Import Prelude JsValue.
Local Open Scope Z_scope.

(** ** Decimal digits *)

Definition repeat_char (n : Z) (a : ascii) : string :=
  Nat.iter (Z.to_nat n) (String a) EmptyString.

(** Decimal representation on at least [w] digits. *)
Definition pad (w : nat) (z : Z) : string :=
  let s := num_string z in
  repeat_char (Z.of_nat w - Z.of_nat (String.length s)) "0" +:+ s.

(** ** Number::toString, radix 10 *)

(** The Number nearest to [s * 10^j]. *)
Definition num_of_dec (s : positive) (j : Z) : num :=
  if 0 <=? j then num_of_Z (Zpos s * 10 ^ j)
  else SFdiv 53 1024 (S754_finite false s 0) (S754_finite false (Z.to_pos (10 ^ (- j))) 0).

(** [m * 2^e * 10^j] as a fraction, and its integer part. *)
Definition scaled_num (m : positive) (e j : Z) : Z := Zpos m * 2 ^ Z.max e 0 * 10 ^ Z.max j 0.
Definition scaled_den (e j : Z) : Z := 2 ^ Z.max (- e) 0 * 10 ^ Z.max (- j) 0.
Definition floor_scaled (m : positive) (e j : Z) : Z := scaled_num m e j / scaled_den e j.

(** The [n] with [10^(n-1) <= m * 2^e < 10^n], from an estimate that is at
    most three below it. *)
Fixpoint dec_exponent_from (fuel : nat) (m : positive) (e n : Z) : Z :=
  match fuel with
  | O => n
  | S fuel => if floor_scaled m e (- n) =? 0 then n else dec_exponent_from fuel m e (n + 1)
  end.

Definition dec_exponent (m : positive) (e : Z) : Z :=
  dec_exponent_from 4 m e ((Z.log2 (Zpos m) + e) * 30103 / 100000 - 1).

(** [s] has [k] digits, and [s * 10^(n-k)] is read as [m * 2^e]. *)
Definition stands_for (m : positive) (e n k s : Z) : bool :=
  (10 ^ (k - 1) <=? s) && (s <? 10 ^ k)
  && bool_decide (num_of_dec (Z.to_pos s) (n - k) = S754_finite false m e).

(** The [k] digits that stand for the number; of two candidates the closer
    one, the even one of a tie. *)
Definition digits_at (m : positive) (e n k : Z) : option Z :=
  let lo := floor_scaled m e (k - n) in
  match stands_for m e n k lo, stands_for m e n k (lo + 1) with
  | true, true =>
      match 2 * scaled_num m e (k - n) ?= (2 * lo + 1) * scaled_den e (k - n) with
      | Lt => Some lo
      | Gt => Some (lo + 1)
      | Eq => if Z.even lo then Some lo else Some (lo + 1)
      end
  | true, false => Some lo
  | false, true => Some (lo + 1)
  | false, false => None
  end.

Fixpoint shortest (fuel : nat) (m : positive) (e n k : Z) : Z * Z :=
  match fuel with
  | O => (floor_scaled m e (k - n), k)
  | S fuel =>
      match digits_at m e n k with
      | Some s => (s, k)
      | None => shortest fuel m e n (k + 1)
      end
  end.

Definition split_at (n : Z) (s : string) : string * string :=
  (String.substring 0 (Z.to_nat n) s,
   String.substring (Z.to_nat n) (String.length s) s).

(** The [k] digits of [s] with the point after the first [n], or with an
    exponent. *)
Definition decimal_text (s k n : Z) : string :=
  let ds := num_string s in
  if (k <=? n) && (n <=? 21) then ds +:+ repeat_char (n - k) "0"
  else if (0 <? n) && (n <=? 21) then
    let '(a, b) := split_at n ds in a +:+ "." +:+ b
  else if (-6 <? n) && (n <=? 0) then "0." +:+ repeat_char (- n) "0" +:+ ds
  else
    let ex := (if 0 <? n - 1 then "+" else "-") +:+ num_string (Z.abs (n - 1)) in
    if k =? 1 then ds +:+ "e" +:+ ex
    else let '(a, b) := split_at 1 ds in a +:+ "." +:+ b +:+ "e" +:+ ex.

Definition num_to_string (x : num) : string :=
  match x with
  | S754_nan => "NaN"
  | S754_zero _ => "0"
  | S754_infinity false => "Infinity"
  | S754_infinity true => "-Infinity"
  | S754_finite sg m e =>
      let n := dec_exponent m e in
      let '(s, k) := shortest 17 m e n 1 in
      (if sg then "-" else "") +:+ decimal_text s k n
  end.

(** ** Date.prototype.toISOString *)

(** Year, month and day of a day number counted from 1970-01-01. *)
Definition civil (days : Z) : Z * Z * Z :=
  let z := days + 719468 in
  let era := z / 146097 in
  let doe := z mod 146097 in
  let yoe := (doe - doe / 1460 + doe / 36524 - doe / 146096) / 365 in
  let doy := doe - (365 * yoe + yoe / 4 - yoe / 100) in
  let mp := (5 * doy + 2) / 153 in
  let d := doy - (153 * mp + 2) / 5 + 1 in
  let m := if mp <? 10 then mp + 3 else mp - 9 in
  (yoe + era * 400 + (if m <=? 2 then 1 else 0), m, d).

Definition year_string (y : Z) : string :=
  if (0 <=? y) && (y <=? 9999) then pad 4 y
  else (if y <? 0 then "-" else "+") +:+ pad 6 (Z.abs y).

Definition toISOString (t : Z) : string :=
  let '(y, m, d) := civil (t / 86400000) in
  let r := t mod 86400000 in
  year_string y +:+ "-" +:+ pad 2 m +:+ "-" +:+ pad 2 d +:+ "T" +:+
  pad 2 (r / 3600000) +:+ ":" +:+ pad 2 (r / 60000 mod 60) +:+ ":" +:+
  pad 2 (r / 1000 mod 60) +:+ "." +:+ pad 3 (r mod 1000) +:+ "Z".

(** ** JSON.stringify *)

Definition hex_digit (n : nat) : ascii :=
  default "0"%char (String.get n "0123456789abcdef").

Definition quote_char : ascii := ascii_of_nat 34.

Definition escape_char (a : ascii) : string :=
  match nat_of_ascii a with
  | 34%nat => String "\" (String quote_char EmptyString)
  | 92%nat => "\\"
  | 8%nat => "\b"
  | 9%nat => "\t"
  | 10%nat => "\n"
  | 12%nat => "\f"
  | 13%nat => "\r"
  | n => if (n <? 32)%nat
         then "\u00" +:+ String (hex_digit (n / 16)) (String (hex_digit (n mod 16)) EmptyString)
         else String a EmptyString
  end.

Fixpoint escape (s : string) : string :=
  match s with
  | EmptyString => EmptyString
  | String a s' => escape_char a +:+ escape s'
  end.

Definition quote (s : string) : string :=
  String quote_char (escape s +:+ String quote_char EmptyString).

(** [None] is [undefined]: such a member is left out, such an array element is
    written null. *)
Fixpoint stringify (v : jsval) : option string :=
  match v with
  | JUndef => None
  | JNull => Some "null"
  | JBool b => Some (if b then "true" else "false")
  | JNum (S754_nan | S754_infinity _) => Some "null"
  | JNum n => Some (num_to_string n)
  | JStr s => Some (quote s)
  | JDate t => Some (quote (toISOString t))
  | JArr l =>
      Some ("[" +:+ join "," ((λ v, default "null" (stringify v)) <$> l) +:+ "]")
  | JObj o =>
      let members := (fix go (o : jsobj) : list string :=
        match o with
        | [] => []
        | (k, v) :: o' =>
            match stringify v with
            | Some s => (quote k +:+ ":" +:+ s) :: go o'
            | None => go o'
            end
        end) o in
      Some ("{" +:+ join "," members +:+ "}")
  end.

(** ** Examples *)

Example print_ints : num_to_string (num_of_Z 840000) = "840000"
  ∧ num_to_string (num_of_Z (-5)) = "-5"
  ∧ num_to_string (num_of_Z (10 ^ 21)) = "1e+21".
Proof. vm_compute. done. Qed.

Example print_tenth : num_to_string (num_of_dec 1 (-1)) = "0.1"
  ∧ num_to_string (num_of_dec 123456789 (-2)) = "1234567.89"
  ∧ num_to_string (num_of_dec 15 (-8)) = "1.5e-7"
  ∧ num_to_string (SFdiv 53 1024 (num_of_Z 1) (num_of_Z 3)) = "0.3333333333333333".
Proof. vm_compute. done. Qed.

Example print_small : num_to_string (S754_finite false 1 (-1074)) = "5e-324"
  ∧ num_to_string (SFadd 53 1024 (num_of_dec 1 (-1)) (num_of_dec 2 (-1))) = "0.30000000000000004"
  ∧ num_to_string (SFmax_float 53 1024) = "1.7976931348623157e+308".
Proof. vm_compute. done. Qed.

Example iso_epoch : toISOString 0 = "1970-01-01T00:00:00.000Z".
Proof. vm_compute. done. Qed.

Example iso_leap : toISOString 1709210096789 = "2024-02-29T12:34:56.789Z".
Proof. vm_compute. done. Qed.

Example stringify_rpc :
  stringify (JObj [("id", JStr "hylium-web"); ("u", JUndef); ("params", JArr [JNum (num_of_Z 1); JUndef])])
  = Some (String.concat (String quote_char EmptyString)
      ["{"; "id"; ":"; "hylium-web"; ","; "params"; ":[1,null]}"]).
Proof. vm_compute. done. Qed.
