(* ===== verification/JsonParse.v ===== *)
(** * Reading built-ins: the conversion of strings to numbers and [JSON.parse]

    Both are defined by ECMA-262.  Strings are UTF-8, as everywhere in the
    development; an escaped pair of surrogates is one code point.  The parser
    has fuel; [JSON_parse] gives it twice the length of the text and two more,
    and every call consumes a character or is followed by one that does. *)

From S2P Require Import Prelude JsValue JsonPrint.
Local Open Scope Z_scope.

(** ** Numbers *)

Definition utf8_bytes (l : list nat) : string := foldr (λ n s, String (ascii_of_nat n) s) "" l.

(** White space and line terminators, as UTF-8. *)
Definition white_space : list string :=
  utf8_bytes <$> [[9]; [10]; [11]; [12]; [13]; [32]; [194; 160]; [225; 154; 128];
             [226; 128; 168]; [226; 128; 169]; [226; 128; 175]; [226; 129; 159];
             [227; 128; 128]; [239; 187; 191]]%nat ++
            ((λ n, [226; 128; n]) <$> seq 128 11)%nat.

Definition strip_space (s : string) : option string := head (omap (λ w, strip w s) white_space).

Fixpoint skip_space (fuel : nat) (s : string) : string :=
  match fuel, strip_space s with
  | S fuel, Some s' => skip_space fuel s'
  | _, _ => s
  end.

(** The value of a digit in a radix up to 16. *)
Definition digit_in (radix : Z) (a : ascii) : option Z :=
  let n := Z.of_nat (nat_of_ascii a) in
  let v := if is_digit a then n - 48
           else if (97 <=? n) && (n <=? 102) then n - 87
           else if (65 <=? n) && (n <=? 70) then n - 55 else radix in
  if v <? radix then Some v else None.

(** The longest prefix of digits: value, length and what follows. *)
Fixpoint read_digits (radix acc : Z) (k : nat) (s : string) : Z * nat * string :=
  match s with
  | String a s' =>
      match digit_in radix a with
      | Some v => read_digits radix (acc * radix + v) (S k) s'
      | None => (acc, k, s)
      end
  | EmptyString => (acc, k, s)
  end.

(** An exponent part, or none. *)
Definition read_exponent (s : string) : Z * string :=
  match strip "e" s, strip "E" s with
  | None, None => (0, s)
  | Some s', _ | _, Some s' =>
      let '(sign, s'') := match strip "-" s' with
                          | Some s'' => (-1, s'')
                          | None => (1, default s' (strip "+" s'))
                          end in
      let '(x, k, rest) := read_digits 10 0 0 s'' in
      if (k =? 0)%nat then (0, s) else (sign * x, rest)
  end.

(** An unsigned decimal literal, and what follows. *)
Definition read_decimal (s : string) : option (num * string) :=
  match strip "Infinity" s with
  | Some rest => Some (S754_infinity false, rest)
  | None =>
      let '(a, k, s1) := read_digits 10 0 0 s in
      let '(b, j, s2) := match strip "." s1 with
                         | Some s' => read_digits 10 a 0 s'
                         | None => (a, 0%nat, s1)
                         end in
      if (k + j =? 0)%nat then None else
      let '(x, rest) := read_exponent s2 in
      Some (match b with
            | Zpos p => num_of_dec p (x - Z.of_nat j)
            | _ => S754_zero false
            end, rest)
  end.

Definition read_radix (s : string) : option (num * string) :=
  head (omap (λ '(pre, radix),
    s' ← strip pre s;
    let '(x, k, rest) := read_digits radix 0 0 s' in
    if (k =? 0)%nat then None else Some (num_of_Z x, rest))
    [("0x", 16); ("0X", 16); ("0o", 8); ("0O", 8); ("0b", 2); ("0B", 2)]).

Definition read_number (s : string) : option (num * string) :=
  match read_radix s with
  | Some r => Some r
  | None =>
      match strip "-" s with
      | Some s' => '(x, rest) ← read_decimal s'; Some (SFopp x, rest)
      | None => read_decimal (default s (strip "+" s))
      end
  end.

(** [Number(s)]: a literal between white space; an empty string is zero. *)
Definition string_to_number (s : string) : num :=
  let s' := skip_space (String.length s) s in
  if String.eqb s' "" then S754_zero false
  else match read_number s' with
       | Some (x, rest) =>
           if String.eqb (skip_space (String.length rest) rest) "" then x else S754_nan
       | None => S754_nan
       end.

(** ** Strings of JSON *)

Fixpoint skip_ws (s : string) : string :=
  match s with
  | String a s' =>
      if bool_decide (nat_of_ascii a ∈ [9; 10; 13; 32]%nat) then skip_ws s' else s
  | EmptyString => s
  end.

Definition byte (z : Z) : ascii := ascii_of_nat (Z.to_nat z).

(** A code point in UTF-8. *)
Definition utf8 (c : Z) : string :=
  if c <? 128 then String (byte c) ""
  else if c <? 2048 then String (byte (192 + c / 64)) (String (byte (128 + c mod 64)) "")
  else if c <? 65536 then
    String (byte (224 + c / 4096)) (String (byte (128 + c / 64 mod 64)) (String (byte (128 + c mod 64)) ""))
  else
    String (byte (240 + c / 262144)) (String (byte (128 + c / 4096 mod 64))
      (String (byte (128 + c / 64 mod 64)) (String (byte (128 + c mod 64)) ""))).

Definition hex4 (a b c d : ascii) : option Z :=
  match digit_in 16 a, digit_in 16 b, digit_in 16 c, digit_in 16 d with
  | Some a, Some b, Some c, Some d => Some (4096 * a + 256 * b + 16 * c + d)
  | _, _, _, _ => None
  end.

(** The escapes of one character. *)
Definition simple_escape (a : ascii) : option ascii :=
  match nat_of_ascii a with
  | 34%nat => Some a
  | 92%nat => Some a
  | 47%nat => Some a
  | 98%nat => Some (ascii_of_nat 8)
  | 102%nat => Some (ascii_of_nat 12)
  | 110%nat => Some (ascii_of_nat 10)
  | 114%nat => Some (ascii_of_nat 13)
  | 116%nat => Some (ascii_of_nat 9)
  | _ => None
  end.

Definition prepend (pre : string) (r : option (string * string)) : option (string * string) :=
  match r with Some (s, rest) => Some (pre +:+ s, rest) | None => None end.

Definition is_high (c : Z) : bool := (55296 <=? c) && (c <? 56320).
Definition is_low (c : Z) : bool := (56320 <=? c) && (c <? 57344).

(** The rest of a string after its opening quote, and what follows. *)
Fixpoint read_string (s : string) : option (string * string) :=
  match s with
  | EmptyString => None
  | String a s1 =>
      if (nat_of_ascii a =? 34)%nat then Some ("", s1)
      else if (nat_of_ascii a <? 32)%nat then None
      else if (nat_of_ascii a =? 92)%nat then
        match s1 with
        | EmptyString => None
        | String b s2 =>
            match simple_escape b with
            | Some c => prepend (String c "") (read_string s2)
            | None =>
                if negb (nat_of_ascii b =? 117)%nat then None else
                match s2 with
                | String h1 (String h2 (String h3 (String h4 s3))) =>
                    match hex4 h1 h2 h3 h4 with
                    | None => None
                    | Some hi =>
                        if negb (is_high hi) then prepend (utf8 hi) (read_string s3) else
                        match s3 with
                        | String e1 (String e2 (String l1 (String l2 (String l3 (String l4 s4))))) =>
                            match hex4 l1 l2 l3 l4 with
                            | Some lo =>
                                if (nat_of_ascii e1 =? 92)%nat && (nat_of_ascii e2 =? 117)%nat && is_low lo
                                then prepend (utf8 (65536 + 1024 * (hi - 55296) + (lo - 56320))) (read_string s4)
                                else prepend (utf8 hi) (read_string s3)
                            | None => prepend (utf8 hi) (read_string s3)
                            end
                        | _ => prepend (utf8 hi) (read_string s3)
                        end
                    end
                | _ => None
                end
            end
        end
      else prepend (String a "") (read_string s1)
  end.

(** ** Numbers of JSON *)

(** No leading zeros, digits on both sides of a point, no leading plus. *)
Definition read_unsigned (s : string) : option (num * string) :=
  let '(a, k, s1) := read_digits 10 0 0 s in
  let leading := match strip "0" s with Some _ => (1 <? k)%nat | None => false end in
  if (k =? 0)%nat || leading then None else
  let '(b, j, s2) := match strip "." s1 with
                     | Some s' => read_digits 10 a 0 s'
                     | None => (a, 0%nat, s1)
                     end in
  if (j =? 0)%nat && match strip "." s1 with Some _ => true | None => false end then None else
  let '(x, rest) := read_exponent s2 in
  Some (match b with Zpos p => num_of_dec p (x - Z.of_nat j) | _ => S754_zero false end, rest).

Definition read_json_number (s : string) : option (num * string) :=
  match strip "-" s with
  | Some s' => '(x, rest) ← read_unsigned s'; Some (SFopp x, rest)
  | None => read_unsigned s
  end.

(** ** Objects *)

(** The array index a property name is, if it is one. *)
Definition array_index (k : string) : option Z :=
  match digits k None with
  | Some z => if String.eqb (num_string z) k && (z <? 4294967295) then Some z else None
  | None => None
  end.

Fixpoint insert_index (i : Z) (k : string) (v : jsval) (o : jsobj) : jsobj :=
  match o with
  | [] => [(k, v)]
  | (k', v') :: o' =>
      match array_index k' with
      | Some j => if j <? i then (k', v') :: insert_index i k v o' else (k, v) :: o
      | None => (k, v) :: o
      end
  end.

Fixpoint replace (k : string) (v : jsval) (o : jsobj) : jsobj :=
  match o with
  | [] => []
  | (k', v') :: o' => if String.eqb k k' then (k, v) :: o' else (k', v') :: replace k v o'
  end.

(** Set a property: a known one keeps its place, array indices come first and
    in ascending order, other names in the order of their creation. *)
Definition define (o : jsobj) (k : string) (v : jsval) : jsobj :=
  if bool_decide (k ∈ o.*1) then replace k v o
  else match array_index k with
       | Some i => insert_index i k v o
       | None => o ++ [(k, v)]
       end.

(** ** Values *)

Definition dquote : string := String quote_char "".

Fixpoint read_value (fuel : nat) (s : string) : option (jsval * string) :=
  match fuel with
  | O => None
  | S fuel =>
      let s := skip_ws s in
      match strip "null" s, strip "true" s, strip "false" s, strip dquote s, strip "[" s, strip "{" s with
      | Some r, _, _, _, _, _ => Some (JNull, r)
      | _, Some r, _, _, _, _ => Some (JBool true, r)
      | _, _, Some r, _, _, _ => Some (JBool false, r)
      | _, _, _, Some r, _, _ => '(str, r) ← read_string r; Some (JStr str, r)
      | _, _, _, _, Some r, _ =>
          match strip "]" (skip_ws r) with
          | Some r => Some (JArr [], r)
          | None => '(l, r) ← read_elements fuel r; Some (JArr l, r)
          end
      | _, _, _, _, _, Some r =>
          match strip "}" (skip_ws r) with
          | Some r => Some (JObj [], r)
          | None => '(o, r) ← read_members fuel [] r; Some (JObj o, r)
          end
      | _, _, _, _, _, _ => '(n, r) ← read_json_number s; Some (JNum n, r)
      end
  end
with read_elements (fuel : nat) (s : string) : option (list jsval * string) :=
  match fuel with
  | O => None
  | S fuel =>
      '(v, r) ← read_value fuel s;
      match strip "," (skip_ws r), strip "]" (skip_ws r) with
      | Some r, _ => '(l, r) ← read_elements fuel r; Some (v :: l, r)
      | None, Some r => Some ([v], r)
      | None, None => None
      end
  end
with read_members (fuel : nat) (o : jsobj) (s : string) : option (jsobj * string) :=
  match fuel with
  | O => None
  | S fuel =>
      r ← strip dquote (skip_ws s);
      '(k, r) ← read_string r;
      r ← strip ":" (skip_ws r);
      '(v, r) ← read_value fuel r;
      match strip "," (skip_ws r), strip "}" (skip_ws r) with
      | Some r, _ => read_members fuel (define o k v) r
      | None, Some r => Some (define o k v, r)
      | None, None => None
      end
  end.

(** [JSON.parse]; [None] is a SyntaxError. *)
Definition JSON_parse (s : string) : option jsval :=
  '(v, r) ← read_value (2 * String.length s + 2) s;
  if String.eqb (skip_ws r) "" then Some v else None.

(** ** Examples *)

Definition quoted (l : list string) : string := String.concat dquote l.

Example parse_object :
  JSON_parse (quoted ["{ "; "b"; ": [1, -2.5e1, true], "; "a"; ":null, "; "10"; ":"; "x"; ","; "9"; ":"; "\ud83d\ude00\n"; "}"]) =
  Some (JObj [("9", JStr (utf8_bytes [240; 159; 152; 128; 10]%nat)); ("10", JStr "x");
    ("b", JArr [JNum (num_of_Z 1); JNum (num_of_Z (-25)); JBool true]); ("a", JNull)]).
Proof. vm_compute. reflexivity. Qed.

Example parse_errors :
  JSON_parse "01" = None ∧ JSON_parse "[1,]" = None ∧ JSON_parse "1 2" = None ∧ JSON_parse "" = None ∧
  JSON_parse (quoted [""; String "010" ""; ""]) = None.
Proof. vm_compute. done. Qed.

(** ** The fuel is enough *)

Local Abbreviation len := String.length.

Lemma strip_length pre s r : strip pre s = Some r → (len pre + len r = len s)%nat.
Proof.
  revert s. induction pre as [|a pre IH]; intros s H; [by simplify_eq/=|].
  destruct s as [|b s]; simplify_eq/=. destruct (Ascii.eqb a b); [|done]. by rewrite (IH s).
Qed.

Lemma skip_ws_length s : (len (skip_ws s) ≤ len s)%nat.
Proof. induction s as [|a s IH]; simpl; [lia|]. case_bool_decide; simpl; lia. Qed.

Lemma prepend_length pre o r n :
  (∀ x, o = Some x → len x.2 ≤ n)%nat → prepend pre o = Some r → (len r.2 ≤ n)%nat.
Proof. intros Ho H. destruct o as [[s rest]|]; simplify_eq/=. by apply (Ho (s, rest)). Qed.

Lemma read_string_length n s r : (len s ≤ n)%nat → read_string s = Some r → (len r.2 ≤ len s)%nat.
Proof.
  revert s r. induction n as [|n IH]; intros [|a s] r Hn H; simpl in Hn; [done|lia|done|].
  assert (Hp : ∀ pre s', (len s' ≤ len s)%nat → prepend pre (read_string s') = Some r →
    (len r.2 ≤ S (len s))%nat).
  { intros pre s' Hs' H'. eapply prepend_length; [|exact H']. intros x Hx.
    pose proof (IH s' x ltac:(lia) Hx). lia. }
  cbn [read_string] in H. simpl (len _) in *.
  repeat match type of H with
  | match ?x with _ => _ end = _ => destruct x; try discriminate H
  end; first [by injection H as <-; simpl; lia|eapply Hp; [|exact H]; simpl; lia].
Qed.

Lemma read_digits_length radix acc k s :
  (len (read_digits radix acc k s).2 + (read_digits radix acc k s).1.2 = len s + k)%nat.
Proof.
  revert acc k. induction s as [|a s IH]; intros acc k; simpl; [done|].
  destruct (digit_in radix a); simpl; [|done]. rewrite IH. lia.
Qed.

Lemma read_exponent_length s : (len (read_exponent s).2 ≤ len s)%nat.
Proof.
  unfold read_exponent.
  assert (H : ∀ s' : string, (len s' ≤ len s)%nat → (len
    (let '(sign, s'') := match strip "-" s' with
                         | Some s'' => (-1, s'')
                         | None => (1, default s' (strip "+" s'))
                         end in
     let '(x, k, rest) := read_digits 10 0 0 s'' in
     if (k =? 0)%nat then (0, s) else (sign * x, rest)).2%Z ≤ len s)%nat).
  { intros s' Hs'. destruct (match strip "-" s' with Some _ => _ | None => _ end) as [sign s''] eqn:Hs.
    assert (len s'' ≤ len s')%nat.
    { destruct (strip "-" s') eqn:H1; [apply strip_length in H1; simplify_eq/=; lia|].
      destruct (strip "+" s') eqn:H2; [apply strip_length in H2|]; simplify_eq/=; lia. }
    pose proof (read_digits_length 10 0 0 s''). destruct (read_digits 10 0 0 s'') as [[x k] rest].
    simpl in *. destruct (k =? 0)%nat; simpl; lia. }
  destruct (strip "e" s) eqn:H1; [apply strip_length in H1; apply H; simpl in *; lia|].
  destruct (strip "E" s) eqn:H2; [apply strip_length in H2; apply H; simpl in *; lia|]. done.
Qed.

Lemma read_unsigned_length s n r : read_unsigned s = Some (n, r) → (len r < len s)%nat.
Proof.
  unfold read_unsigned.
  pose proof (read_digits_length 10 0 0 s) as Hd. destruct (read_digits 10 0 0 s) as [[a k] s1].
  simpl in Hd. destruct (_ || _) eqn:Hk; [done|]. apply orb_false_iff in Hk as [Hk%Nat.eqb_neq _].
  destruct (match strip "." s1 with Some _ => _ | None => _ end) as [[b j] s2] eqn:H2.
  assert (Hs2 : (len s2 ≤ len s1)%nat).
  { destruct (strip "." s1) as [s'|] eqn:H1; [apply strip_length in H1|by simplify_eq/=].
    pose proof (read_digits_length 10 a 0 s') as Hd2. rewrite H2 in Hd2. simpl in *. lia. }
  destruct (_ && _); [done|]. pose proof (read_exponent_length s2).
  destruct (read_exponent s2) as [x rest]. intros. simplify_eq/=. lia.
Qed.

Lemma read_json_number_length s n r : read_json_number s = Some (n, r) → (len r < len s)%nat.
Proof.
  unfold read_json_number. destruct (strip "-" s) as [s'|] eqn:Hs; [|apply read_unsigned_length].
  apply strip_length in Hs. destruct (read_unsigned s') as [[x r']|] eqn:Hr; [|done].
  apply read_unsigned_length in Hr. intros. simplify_eq/=. lia.
Qed.

(** The lengths that the equations of the context give. *)
Ltac lengths :=
  repeat match goal with
  | H : strip ?p ?s = Some _ |- _ => apply strip_length in H; simpl (len p) in H
  | H : read_string ?s = Some _ |- _ => apply (read_string_length (len s) s) in H; [simpl in H|done]
  | H : read_json_number _ = Some (_, _) |- _ => apply read_json_number_length in H
  | H : context [len (skip_ws ?s)] |- _ =>
      lazymatch goal with
      | _ : (len (skip_ws s) ≤ len s)%nat |- _ => fail
      | _ => pose proof (skip_ws_length s)
      end
  end.

(** Split on the readers of an equation [H], from the outside. *)
Ltac read_cases H :=
  repeat match type of H with
  | match strip ?p ?u with _ => _ end = _ => destruct (strip p u) eqn:?
  | (?o ≫= _) = _ => destruct o as [[??]|] eqn:?; cbn [mbind option_bind] in H
  | (?o ≫= _) = _ => destruct o eqn:?; cbn [mbind option_bind] in H
  | None = Some _ => discriminate H
  | Some _ = Some _ => injection H as <-
  end.

(** Every value takes a character. *)
Lemma read_shorter fuel s :
  (∀ x, read_value fuel s = Some x → len x.2 < len s)%nat ∧
  (∀ x, read_elements fuel s = Some x → len x.2 < len s)%nat ∧
  (∀ o x, read_members fuel o s = Some x → len x.2 < len s)%nat.
Proof.
  revert s. induction fuel as [|fuel IH]; intros s; [done|].
  assert (IV : ∀ u v r, read_value fuel u = Some (v, r) → (len r < len u)%nat)
    by (intros u v r; apply (IH u)).
  assert (IE : ∀ u x, read_elements fuel u = Some x → (len x.2 < len u)%nat) by apply IH.
  assert (IM : ∀ u o x, read_members fuel o u = Some x → (len x.2 < len u)%nat) by apply IH.
  clear IH. split_and!.
  - intros x H. cbn [read_value] in H. read_cases H;
      try match goal with
      | E : read_elements _ _ = Some _ |- _ => apply IE in E; simpl in E
      | E : read_members _ _ _ = Some _ |- _ => apply IM in E; simpl in E
      end; lengths; simpl; lia.
  - intros x H. cbn [read_elements] in H. read_cases H;
      repeat match goal with
      | E : read_elements _ _ = Some _ |- _ => apply IE in E; simpl in E
      | E : read_value _ _ = Some _ |- _ => apply IV in E
      end; lengths; simpl; lia.
  - intros o x H. cbn [read_members] in H. read_cases H;
      repeat match goal with
      | E : read_members _ _ _ = Some _ |- _ => apply IM in E
      | E : read_value _ _ = Some _ |- _ => apply IV in E
      end; lengths; simpl; lia.
Qed.

Lemma read_value_shorter fuel s v r : read_value fuel s = Some (v, r) → (len r < len s)%nat.
Proof. apply (read_shorter fuel s). Qed.

(** With twice the length of the text and two more, the result no longer
    depends on the fuel. *)
Lemma read_value_step n s f1 f2 :
  (∀ u g1 g2, len u < n → 2 * len u + 2 ≤ g1 → 2 * len u + 2 ≤ g2 →
    read_elements g1 u = read_elements g2 u ∧ ∀ o, read_members g1 o u = read_members g2 o u)%nat →
  (len s ≤ n → 2 * len s + 1 ≤ f1 → 2 * len s + 1 ≤ f2 → read_value f1 s = read_value f2 s)%nat.
Proof.
  intros IH Hn H1 H2. destruct f1 as [|f1], f2 as [|f2]; try lia. cbn [read_value].
  do 4 (case_match; [done|]). destruct (strip "[" _) as [r|] eqn:Hr.
  - lengths. destruct (IH r f1 f2) as [-> _]; (done || lia).
  - destruct (strip "{" _) as [r|] eqn:Hr'; [|done]. lengths. destruct (IH r f1 f2) as [_ ->]; (done || lia).
Qed.

Lemma read_fuel n s f1 f2 :
  (len s < n → 2 * len s + 2 ≤ f1 → 2 * len s + 2 ≤ f2 →
   read_elements f1 s = read_elements f2 s ∧ ∀ o, read_members f1 o s = read_members f2 o s)%nat.
Proof.
  revert s f1 f2. induction n as [|n IH]; intros s f1 f2 Hn H1 H2; [lia|].
  destruct f1 as [|f1], f2 as [|f2]; try lia.
  assert (HV : ∀ u, (len u ≤ len s)%nat → read_value f1 u = read_value f2 u).
  { intros u Hu. apply (read_value_step n); [exact IH|lia..]. }
  split.
  - cbn [read_elements]. rewrite HV by done. destruct (read_value f2 s) as [[v r]|] eqn:Hv; [|done].
    apply read_value_shorter in Hv. cbn [mbind option_bind]. destruct (strip "," _) as [r'|] eqn:Hr; [|done].
    lengths. destruct (IH r' f1 f2) as [-> _]; (done || lia).
  - intros o. cbn [read_members]. destruct (strip dquote _) as [r|] eqn:Hr; [|done]. cbn [mbind option_bind].
    destruct (read_string r) as [[k r1]|] eqn:Hk; [|done]. cbn [mbind option_bind].
    destruct (strip ":" _) as [r2|] eqn:Hr2; [|done]. cbn [mbind option_bind]. lengths. rewrite HV by lia.
    destruct (read_value f2 r2) as [[v r3]|] eqn:Hv; [|done]. cbn [mbind option_bind].
    apply read_value_shorter in Hv. destruct (strip "," _) as [r4|] eqn:Hr4; [|done].
    lengths. destruct (IH r4 f1 f2) as [_ ->]; (done || lia).
Qed.

(** ** Theorems *)

(** [JSON.parse] terminates with an answer on every text: reading with any
    more fuel than [JSON_parse] gives the same value or the same SyntaxError,
    so a text is never refused for lack of fuel. *)
Lemma JSON_parse_terminates extra s :
  JSON_parse s =
  ('(v, r) ← read_value (2 * len s + 2 + extra) s;
   if String.eqb (skip_ws r) "" then Some v else None).
Proof.
  unfold JSON_parse. erewrite (read_value_step (len s) s); [done| |done|lia|lia].
  intros u g1 g2 _ H1 H2. apply (read_fuel (S (len u))); lia.
Qed.
