(* ===== verification/JsonNumber.v ===== *)
(** * Printed numbers are read back

    [num_to_string] writes one of the forms of ECMA-262: digits, digits with a
    point, or digits with an exponent.  [read_json_number] reads each of them
    back as the number with the same digits and the same decimal exponent. *)

From S2P Require Import Prelude JsValue JsonPrint JsonParse.
Local Open Scope Z_scope.
Local Abbreviation len := String.length.

(** ** Strings of digits *)

Fixpoint all_digits (s : string) : bool :=
  match s with EmptyString => true | String a s' => is_digit a && all_digits s' end.

(** The number the digits stand for, after those of [acc]. *)
Fixpoint dval (acc : Z) (s : string) : Z :=
  match s with EmptyString => acc | String a s' => dval (acc * 10 + digit_val a) s' end.

(** No digit follows; nothing follows that could continue a number. *)
Definition stops (s : string) : bool :=
  match s with EmptyString => true | String a _ => negb (is_digit a) end.

Definition delimited (s : string) : bool :=
  match s with
  | EmptyString => true
  | String a _ => negb (is_digit a) && negb (bool_decide (a ∈ ["."; "e"; "E"]%char))
  end.

(** ** Numbers that can be read back *)

(** A number whose shortest digits stand for it.  They are searched among the
    decimals of up to 17 digits. *)
Definition printable (x : num) : bool :=
  match x with
  | S754_zero false => true
  | S754_finite _ m e =>
      let n := dec_exponent m e in
      let '(s, k) := shortest 17 m e n 1 in
      (1 <=? k) && stands_for m e n k s
  | _ => false
  end.

(** ** Lemmas *)

Lemma digit_in_10 a : digit_in 10 a = if is_digit a then Some (digit_val a) else None.
Proof. destruct a as [[] [] [] [] [] [] [] []]; reflexivity. Qed.

Lemma read_digits_all acc k ds rest :
  all_digits ds = true → stops rest = true →
  read_digits 10 acc k (ds +:+ rest) = (dval acc ds, (k + len ds)%nat, rest).
Proof.
  intros Hd Hr. revert acc k. induction ds as [|a ds IH]; intros acc k.
  - change ("" +:+ rest) with rest. simpl (len _). rewrite Nat.add_0_r. destruct rest as [|a r]; [done|].
    simpl in *. by rewrite digit_in_10, (proj1 (negb_true_iff _) Hr).
  - simpl in Hd. apply andb_prop in Hd as [Ha Hd].
    change (String a ds +:+ rest) with (String a (ds +:+ rest)). cbn [read_digits].
    rewrite digit_in_10, Ha, IH by done. simpl (len _). by rewrite Nat.add_succ_r.
Qed.

Lemma all_digits_app a b : all_digits (a +:+ b) = all_digits a && all_digits b.
Proof.
  induction a as [|x a IH]; [done|]. change (String x a +:+ b) with (String x (a +:+ b)). simpl.
  by rewrite IH, andb_assoc.
Qed.

Lemma dval_app acc a b : dval acc (a +:+ b) = dval (dval acc a) b.
Proof. revert acc. induction a as [|x a IH]; intros acc; [done|]. exact (IH _). Qed.

Lemma str_length_app a b : len (a +:+ b) = (len a + len b)%nat.
Proof. induction a as [|x a IH]; [done|]. exact (f_equal S IH). Qed.

Lemma zeros_digits n : all_digits (repeat_char n "0") = true.
Proof. unfold repeat_char. by induction (Z.to_nat n). Qed.

Lemma zeros_length n : len (repeat_char n "0") = Z.to_nat n.
Proof. unfold repeat_char. induction (Z.to_nat n) as [|k IH]; [done|]. simpl. by rewrite IH. Qed.

Lemma dval_zeros acc n : 0 ≤ n → dval acc (repeat_char n "0") = acc * 10 ^ n.
Proof.
  intros Hn. unfold repeat_char. rewrite <- (Z2Nat.id n) at 2 by done.
  revert acc. induction (Z.to_nat n) as [|k IH]; intros acc; [simpl; lia|].
  rewrite Nat2Z.inj_succ, Z.pow_succ_r by lia. simpl. rewrite IH. change (digit_val "0") with 0. lia.
Qed.

(** ** The digits of a positive number *)

Lemma pretty_char d :
  (d < 10)%N → is_digit (pretty_N_char d) = true ∧ digit_val (pretty_N_char d) = Z.of_N d ∧
  (d ≠ 0%N → pretty_N_char d ≠ "0"%char).
Proof.
  intros Hd. destruct d as [|p]; [done|].
  do 4 (destruct p as [p|p|]; try (by (split_and!; reflexivity || done)); try lia).
Qed.

Definition no_zero (s : string) : Prop := match s with String a _ => a ≠ "0"%char | EmptyString => True end.

Lemma pretty_go_digits (x : N) s :
  all_digits s = true →
  let ds := pretty_N_go x s in
  all_digits ds = true ∧ dval 0 ds = dval (Z.of_N x) s ∧
  (x ≠ 0%N → no_zero ds ∧ ∃ k, len ds = (S k + len s)%nat ∧
    10 ^ Z.of_nat k ≤ Z.of_N x < 10 ^ Z.of_nat (S k)).
Proof.
  revert s. induction (N.lt_wf_0 x) as [x _ IH]; intros s Hs ds.
  destruct (decide (x = 0%N)) as [->|Hx]; [by unfold ds; rewrite pretty_N_go_0|].
  unfold ds. rewrite pretty_N_go_step by lia. pose proof (N.mod_lt x 10 ltac:(done)) as Hm.
  destruct (pretty_char (x mod 10) Hm) as (Hd & Hv & Hz).
  destruct (IH (x / 10)%N ltac:(apply N.div_lt; lia) (String (pretty_N_char (x mod 10)) s)) as (H1 & H2 & H3).
  { simpl. by rewrite Hd. }
  pose proof (N.div_mod x 10 ltac:(done)) as Hx10.
  set (q := (x / 10)%N) in *. set (r := (x mod 10)%N) in *. clearbody q r. split_and!; [done| |].
  { rewrite H2. simpl. rewrite Hv. f_equal. lia. }
  intros _. destruct (decide (q = 0%N)) as [H0|H0].
  - rewrite H0, pretty_N_go_0. rewrite H0 in Hx10. split; [apply Hz; lia|]. exists 0%nat. simpl. lia.
  - destruct (H3 H0) as (Hnz & k & Hk & Hb). split; [done|]. exists (S k). split; [simpl in *; lia|].
    rewrite (Nat2Z.inj_succ (S k)), Z.pow_succ_r by lia. rewrite (Nat2Z.inj_succ k) in *.
    rewrite Z.pow_succ_r in * by lia. lia.
Qed.

Lemma num_string_digits p :
  let ds := num_string (Zpos p) in
  all_digits ds = true ∧ dval 0 ds = Zpos p ∧ no_zero ds ∧
  ∃ k, len ds = S k ∧ 10 ^ Z.of_nat k ≤ Zpos p < 10 ^ Z.of_nat (S k).
Proof.
  destruct (pretty_go_digits (N.pos p) "" eq_refl) as (H1 & H2 & H3).
  assert (num_string (Zpos p) = pretty_N_go (N.pos p) "") as -> by done.
  destruct (H3 ltac:(done)) as (H4 & k & H5 & H6). split_and!; try done. exists k. simpl in *. split; [lia|done].
Qed.

(** The number of digits. *)
Lemma num_string_length p k :
  1 ≤ k → 10 ^ (k - 1) ≤ Zpos p < 10 ^ k → Z.of_nat (len (num_string (Zpos p))) = k.
Proof.
  intros Hk Hp. destruct (num_string_digits p) as (_ & _ & _ & j & -> & Hj).
  destruct (Z.lt_trichotomy (Z.of_nat (S j)) k) as [H|[H|H]]; [|done|].
  - assert (10 ^ Z.of_nat (S j) ≤ 10 ^ (k - 1)) by (apply Z.pow_le_mono_r; lia). lia.
  - assert (10 ^ k ≤ 10 ^ Z.of_nat j) by (apply Z.pow_le_mono_r; lia). lia.
Qed.

(** ** Splitting the digits *)

Lemma substring_app n s :
  (n ≤ len s)%nat →
  String.substring 0 n s +:+ String.substring n (len s) s = s ∧ len (String.substring 0 n s) = n.
Proof.
  assert (Hfull : ∀ s m, (len s ≤ m)%nat → String.substring 0 m s = s).
  { clear. intros s. induction s as [|a s IH]; intros [|m] Hm; simpl in *; try done; [lia|].
    by rewrite IH by lia. }
  assert (Hgen : ∀ m, (n ≤ len s)%nat → (len s ≤ m)%nat →
    String.substring 0 n s +:+ String.substring n m s = s ∧ len (String.substring 0 n s) = n).
  { revert n. induction s as [|a s IH]; intros [|n] m Hn Hm; simpl in Hn; try lia.
    - by destruct m.
    - split; [|done]. by rewrite (Hfull (String a s) m).
    - destruct (IH n m) as [H1 H2]; [lia|simpl in Hm; lia|]. cbn [String.substring]. split.
      + exact (f_equal (String a) H1).
      + simpl. by rewrite H2. }
  intros Hn. by apply Hgen.
Qed.

Lemma split_at_app n s a b :
  split_at n s = (a, b) → 0 ≤ n ≤ Z.of_nat (len s) → a +:+ b = s ∧ Z.of_nat (len a) = n.
Proof.
  unfold split_at. intros [= <- <-] Hn. destruct (substring_app (Z.to_nat n) s) as [H1 H2]; [lia|].
  split; [done|]. lia.
Qed.

(** ** Literals *)

Definition frac_text (ds : string) : string := if String.eqb ds "" then "" else "." +:+ ds.

Definition exp_text (x : option Z) : string :=
  match x with
  | None => ""
  | Some x => "e" +:+ (if 0 <? x then "+" else "-") +:+ num_string (Z.abs x)
  end.

Lemma delimited_stops rest : delimited rest = true → stops rest = true.
Proof. destruct rest; [done|]. by intros [? _]%andb_prop. Qed.

Lemma delimited_not a rest :
  delimited rest = true → a ∈ ["."; "e"; "E"]%char → strip (String a "") rest = None.
Proof.
  destruct rest as [|b rest]; [done|]. intros [_ H%negb_true_iff%bool_decide_eq_false]%andb_prop Ha.
  simpl. by destruct (Ascii.eqb_spec a b) as [->|].
Qed.

Lemma read_exponent_text x rest :
  match x with Some x => x ≠ 0 | None => True end → delimited rest = true →
  read_exponent (exp_text x +:+ rest) = (default 0 x, rest).
Proof.
  intros Hx Hr. destruct x as [x|]; unfold read_exponent, exp_text.
  - assert (∃ p, Z.abs x = Zpos p) as [p Hp] by (destruct x; [done|eauto..]).
    destruct (num_string_digits p) as (Hd & Hv & _ & k & Hk & _).
    rewrite <- !string_app_assoc, strip_app, Hp. destruct (Z.ltb_spec 0 x).
    + change (strip "-" ("+" +:+ _)) with (@None string). rewrite strip_app. cbn [default id].
      rewrite read_digits_all, Hv, Hk by auto using delimited_stops. simpl. f_equal. lia.
    + rewrite strip_app, read_digits_all, Hv, Hk by auto using delimited_stops. simpl. f_equal. lia.
  - change ("" +:+ rest) with rest. rewrite !delimited_not by (done || set_solver). done.
Qed.

Lemma exp_stops x rest : delimited rest = true → stops (exp_text x +:+ rest) = true.
Proof. destruct x; [done|apply delimited_stops]. Qed.

Lemma exp_not_point x rest : delimited rest = true → strip "." (exp_text x +:+ rest) = None.
Proof. destruct x; [done|]. intros H. apply delimited_not; [done|set_solver]. Qed.

Lemma read_literal ds1 ds2 x rest :
  all_digits ds1 = true → ds1 ≠ "" → no_zero ds1 ∨ len ds1 = 1%nat → all_digits ds2 = true →
  match x with Some x => x ≠ 0 | None => True end → delimited rest = true →
  read_unsigned (ds1 +:+ frac_text ds2 +:+ exp_text x +:+ rest) =
  Some (match dval 0 (ds1 +:+ ds2) with
        | Zpos p => num_of_dec p (default 0 x - Z.of_nat (len ds2))
        | _ => S754_zero false
        end, rest).
Proof.
  intros H1 Hne Hz H2 Hx Hr. unfold read_unsigned.
  rewrite read_digits_all; [|done|by unfold frac_text; destruct (String.eqb ds2 ""); [apply exp_stops|]].
  rewrite Nat.add_0_l. destruct ds1 as [|a ds1]; [done|].
  assert (Hlead : match strip "0" (String a ds1 +:+ frac_text ds2 +:+ exp_text x +:+ rest) with
    | Some _ => (1 <? len (String a ds1))%nat | None => false end = false).
  { change (String a ds1 +:+ frac_text ds2 +:+ exp_text x +:+ rest)
      with (String a (ds1 +:+ frac_text ds2 +:+ exp_text x +:+ rest)). cbn [strip].
    destruct (Ascii.eqb_spec "0" a) as [<-|]; [|done]. destruct Hz as [Hz| ->]; done. }
  rewrite Hlead. simpl (_ || _). rewrite dval_app. unfold frac_text. destruct (String.eqb_spec ds2 "") as [->|Hn2].
  - change ("" +:+ exp_text x +:+ rest) with (exp_text x +:+ rest).
    rewrite exp_not_point, read_exponent_text by done. done.
  - rewrite <- string_app_assoc, (strip_app "."), read_digits_all by auto using exp_stops.
    destruct ds2 as [|b ds2]; [done|]. rewrite read_exponent_text by done. done.
Qed.

(** ** The printed forms are literals *)

(** A literal of the digits [ds1 . ds2] and the exponent [x] that stands for
    [p * 10^j]. *)
Definition literal_for (txt : string) (p : positive) (j : Z) : Prop :=
  ∃ ds1 ds2 x q, txt = ds1 +:+ frac_text ds2 +:+ exp_text x ∧
    all_digits ds1 = true ∧ ds1 ≠ "" ∧ (no_zero ds1 ∨ len ds1 = 1%nat) ∧ all_digits ds2 = true ∧
    match x with Some x => x ≠ 0 | None => True end ∧
    dval 0 (ds1 +:+ ds2) = Zpos q ∧
    num_of_dec q (default 0 x - Z.of_nat (len ds2)) = num_of_dec p j.

Lemma frac_text_not_empty ds : ds ≠ "" → frac_text ds = "." +:+ ds.
Proof. intros H. unfold frac_text. by destruct (String.eqb_spec ds ""). Qed.

Section forms.
Variables (p : positive) (ds : string).
Hypothesis Hd : all_digits ds = true.
Hypothesis Hv : dval 0 ds = Zpos p.
Hypothesis Hz : no_zero ds.
Hypothesis Hds : ds ≠ "".

(** Digits, and zeros up to the point. *)
Lemma integer_literal j : 0 ≤ j → literal_for (ds +:+ repeat_char j "0") p j.
Proof.
  intros Hj. exists (ds +:+ repeat_char j "0"), "", None, (Z.to_pos (Zpos p * 10 ^ j)).
  assert (0 < Zpos p * 10 ^ j) by (apply Z.mul_pos_pos; [lia|apply Z.pow_pos_nonneg; lia]).
  split_and!; try done.
  - by rewrite !string_app_nil_r.
  - by rewrite all_digits_app, Hd, zeros_digits.
  - clear -Hds. by destruct ds.
  - left. clear -Hz Hds. by destruct ds.
  - by rewrite string_app_nil_r, dval_app, Hv, dval_zeros, Z2Pos.id by lia.
  - unfold num_of_dec. rewrite (proj2 (Z.leb_le 0 j)), Z2Pos.id by lia. simpl. f_equal. lia.
Qed.

(** A point between the digits. *)
Lemma point_literal n x :
  0 < n < Z.of_nat (len ds) → match x with Some x => x ≠ 0 | None => True end →
  literal_for ((let '(a, b) := split_at n ds in a +:+ "." +:+ b) +:+ exp_text x) p
    (default 0 x + n - Z.of_nat (len ds)).
Proof.
  intros Hn Hx. destruct (split_at n ds) as [a b] eqn:Hs.
  apply split_at_app in Hs as [Hab Ha]; [|lia]. rewrite <- Hab in Hd, Hz, Hn |- *.
  rewrite str_length_app in Hn |- *. rewrite all_digits_app in Hd. apply andb_prop in Hd as [Hda Hdb].
  exists a, b, x, p. split_and!; try done.
  - rewrite frac_text_not_empty by (intros ->; simpl in *; lia). by rewrite <- !string_app_assoc.
  - intros ->. simpl in Ha. lia.
  - left. destruct a; [done|exact Hz].
  - by rewrite Hab.
  - f_equal. lia.
Qed.

(** A fraction with zeros after the point. *)
Lemma fraction_literal j : 0 ≤ j → literal_for ("0." +:+ repeat_char j "0" +:+ ds) p (- j - Z.of_nat (len ds)).
Proof.
  intros Hj. exists "0", (repeat_char j "0" +:+ ds), None, p. split_and!; try done.
  - rewrite frac_text_not_empty, string_app_nil_r; [done|]. clear -Hds. by destruct (repeat_char j "0").
  - by right.
  - by rewrite all_digits_app, Hd, zeros_digits.
  - change (dval 0 (repeat_char j "0" +:+ ds) = Zpos p). by rewrite dval_app, dval_zeros.
  - f_equal. rewrite str_length_app, zeros_length. simpl. lia.
Qed.

(** Digits and an exponent. *)
Lemma exponent_literal x : x ≠ 0 → literal_for (ds +:+ exp_text (Some x)) p x.
Proof.
  intros Hx. exists ds, "", (Some x), p. split_and!; try done; [by left|by rewrite string_app_nil_r|].
  f_equal. simpl. lia.
Qed.
End forms.

Lemma decimal_text_literal p k n :
  1 ≤ k → 10 ^ (k - 1) ≤ Zpos p < 10 ^ k → literal_for (decimal_text (Zpos p) k n) p (n - k).
Proof.
  intros Hk Hp. destruct (num_string_digits p) as (Hd & Hv & Hz & _).
  pose proof (num_string_length p k Hk Hp) as Hl. unfold decimal_text.
  set (ds := num_string (Zpos p)) in *. clearbody ds.
  assert (Hds : ds ≠ "") by (intros ->; simpl in Hl; lia).
  assert (Hj : n - k = n - Z.of_nat (len ds)) by lia.
  destruct ((k <=? n) && (n <=? 21)) eqn:H1; [apply integer_literal; (done || lia)|].
  destruct ((0 <? n) && (n <=? 21)) eqn:H2.
  { destruct (point_literal p ds Hd Hv Hz n None) as (ds1 & ds2 & x & q & Ht & H); [lia|done|].
    rewrite string_app_nil_r in Ht. exists ds1, ds2, x, q. by rewrite Ht, Hj. }
  destruct ((-6 <? n) && (n <=? 0)) eqn:H3.
  { replace (n - k) with (- - n - Z.of_nat (len ds)) by lia. apply fraction_literal; (done || lia). }
  destruct (Z.eqb_spec k 1) as [->|Hk1].
  - apply (exponent_literal p ds Hd Hv Hz Hds (n - 1)). lia.
  - destruct (point_literal p ds Hd Hv Hz 1 (Some (n - 1))) as (ds1 & ds2 & x & q & Ht & H); [lia..|].
    destruct (split_at 1 ds) as [a b]. rewrite <- !string_app_assoc in Ht.
    exists ds1, ds2, x, q. split; [exact Ht|]. by replace (n - k) with (n - 1 + 1 - Z.of_nat (len ds)) by lia.
Qed.

(** ** The printed number *)

Lemma read_literal_for txt p j rest :
  literal_for txt p j → delimited rest = true → read_unsigned (txt +:+ rest) = Some (num_of_dec p j, rest).
Proof.
  intros (ds1 & ds2 & x & q & -> & H1 & Hne & Hz & H2 & Hx & Hq & Hj) Hr.
  rewrite <- !string_app_assoc, read_literal, Hq, Hj by done. done.
Qed.

(** A literal starts with a digit. *)
Lemma literal_starts txt p j : literal_for txt p j → ∃ a s, txt = String a s ∧ is_digit a = true.
Proof.
  intros (ds1 & ds2 & x & q & -> & H1 & Hne & _). destruct ds1 as [|a ds1]; [done|].
  simpl in H1. apply andb_prop in H1 as [Ha _]. eauto.
Qed.

(** Digits that stand for a number are a literal for it. *)
Lemma stands_literal m e n k s :
  1 ≤ k → stands_for m e n k s = true →
  ∃ p, s = Zpos p ∧ literal_for (decimal_text (Zpos p) k n) p (n - k) ∧
    num_of_dec p (n - k) = S754_finite false m e.
Proof.
  intros Hk [Hb Hdec%bool_decide_eq_true]%andb_prop.
  assert (0 < 10 ^ (k - 1)) by (apply Z.pow_pos_nonneg; lia).
  exists (Z.to_pos s). rewrite Z2Pos.id by lia. split_and!; [done| |done].
  rewrite <- (Z2Pos.id s) at 1 by lia. apply decimal_text_literal; rewrite ?Z2Pos.id; lia.
Qed.

Lemma read_printed x rest :
  printable x = true → delimited rest = true →
  read_json_number (num_to_string x +:+ rest) = Some (x, rest).
Proof.
  intros Hx Hr. destruct x as [[]|[]| |sg m e]; try done.
  { unfold read_json_number. change (strip "-" ("0" +:+ rest)) with (@None string).
    apply (read_literal "0" "" None rest); auto. }
  unfold printable in Hx. unfold num_to_string. destruct (shortest _ _ _ _ _) as [s k].
  apply andb_prop in Hx as [Hk%Z.leb_le Hs].
  destruct (stands_literal _ _ _ _ _ Hk Hs) as (p & -> & Hlit & Hdec).
  pose proof (read_literal_for _ _ _ rest Hlit Hr) as Hread. rewrite Hdec in Hread.
  unfold read_json_number. destruct sg.
  - by rewrite <- string_app_assoc, strip_app, Hread.
  - cbv iota. rewrite string_app_nil_l.
    destruct (literal_starts _ _ _ Hlit) as (a & u & Htxt & Ha). rewrite Htxt in Hread |- *.
    change (String a u +:+ rest) with (String a (u +:+ rest)) in *. cbn [strip].
    destruct (Ascii.eqb_spec "-" a) as [<-|]; [done|]. done.
Qed.

(** ** Integers are printable *)

Lemma digits2_log2 p : Zpos (digits2_pos p) = Z.log2 (Zpos p) + 1.
Proof.
  assert (H : ∀ q, digits2_pos q = Pos.size q) by (intros q; induction q; simpl; congruence).
  destruct p as [p|p|]; simpl; rewrite ?H; lia.
Qed.

Lemma shift_pos_mul n p : Zpos (shift_pos n p) = Zpos p * 2 ^ Zpos n.
Proof. rewrite shift_pos_correct, Zpower_pos_nat, Zpower_nat_Z, positive_nat_Z. lia. Qed.

(** Nothing is shifted out of a mantissa of 53 bits. *)
Lemma round_exact m e :
  Z.log2 (Zpos m) = 52 → -1074 ≤ e ≤ 971 → binary_round_aux 53 1024 false (Zpos m) e loc_Exact = S754_finite false m e.
Proof.
  intros Hm He. assert (Hs : shr_fexp 53 1024 (Zpos m) e loc_Exact = (shr_record_of_loc (Zpos m) loc_Exact, e)).
  { unfold shr_fexp. replace (fexp 53 1024 (Zdigits2 (Zpos m) + e) - e) with 0; [done|].
    unfold Zdigits2. rewrite digits2_log2, Hm. unfold fexp, SpecFloat.emin. lia. }
  unfold binary_round_aux. rewrite Hs. simpl (round_nearest_even _ _). rewrite Hs.
  cbn [shr_m shr_record_of_loc]. by rewrite (proj2 (Z.leb_le e (1024 - 53))) by lia.
Qed.

(** A safe integer is a mantissa of 53 bits. *)
Lemma num_of_safe p :
  Zpos p < 2 ^ 53 → ∃ m d, num_of_Z (Zpos p) = S754_finite false m (- d) ∧ 0 ≤ d ∧
    Zpos m = Zpos p * 2 ^ d ∧ Z.log2 (Zpos m) = 52.
Proof.
  intros Hp. assert (Hl : Z.log2 (Zpos p) ≤ 52) by (apply Z.lt_succ_r, Z.log2_lt_pow2; done).
  pose proof (Z.log2_nonneg (Zpos p)). unfold num_of_Z, binary_normalize, binary_round.
  rewrite digits2_log2. unfold SpecFloat.shl_align.
  assert (Hf : fexp 53 1024 (Z.log2 (Zpos p) + 1 + 0) - 0 = Z.log2 (Zpos p) - 52) by (unfold fexp, SpecFloat.emin; lia).
  rewrite Hf. destruct (Z.log2 (Zpos p) - 52) as [|q|q] eqn:Hq; [|lia|].
  - exists p, 0. rewrite round_exact by lia. split_and!; (done || lia).
  - exists (shift_pos q p), (Zpos q). rewrite shift_pos_mul.
    assert (Hm : Z.log2 (Zpos p * 2 ^ Zpos q) = 52) by (rewrite Z.log2_mul_pow2; lia).
    split_and!; [|done..]. rewrite Z.sub_0_r in Hf. rewrite Hf. apply round_exact; [by rewrite shift_pos_mul|lia].
Qed.

Section safe_integer.
Variables (p m : positive) (d : Z).
Hypothesis Hd : 0 ≤ d.
Hypothesis Hm : Zpos m = Zpos p * 2 ^ d.

Lemma floor_scaled_int j : floor_scaled m (- d) j = Zpos p * 10 ^ Z.max j 0 / 10 ^ Z.max (- j) 0.
Proof.
  unfold floor_scaled, scaled_num, scaled_den. rewrite Z.opp_involutive, (Z.max_r (- d)), (Z.max_l d), Hm by lia.
  rewrite <- (Z.div_mul_cancel_l (Zpos p * 10 ^ Z.max j 0) (10 ^ Z.max (- j) 0) (2 ^ d)).
  - f_equal; lia.
  - apply Z.pow_nonzero; lia.
  - apply Z.pow_nonzero; lia.
Qed.

Lemma dec_exponent_from_int fuel n N :
  10 ^ (N - 1) ≤ Zpos p < 10 ^ N → 1 ≤ N → n ≤ N ≤ n + Z.of_nat fuel →
  dec_exponent_from fuel m (- d) n = N.
Proof.
  intros Hp HN. revert n. induction fuel as [|fuel IH]; intros n Hn; [simpl; lia|]. cbn [dec_exponent_from].
  rewrite floor_scaled_int, Z.opp_involutive. destruct (decide (n = N)) as [->|Hne].
  - rewrite (Z.max_r (- N)), (Z.max_l N), Z.mul_1_r, Z.div_small by lia. done.
  - assert (Hq : Zpos p * 10 ^ Z.max (- n) 0 / 10 ^ Z.max n 0 ≠ 0).
    { assert (0 < 10 ^ Z.max n 0) by (apply Z.pow_pos_nonneg; lia).
      assert (0 < 10 ^ Z.max (- n) 0) by (apply Z.pow_pos_nonneg; lia).
      assert (10 ^ Z.max n 0 ≤ 10 ^ (N - 1)) by (apply Z.pow_le_mono_r; lia).
      assert (0 < Zpos p * 10 ^ Z.max (- n) 0 / 10 ^ Z.max n 0); [|lia]. apply Z.div_str_pos. nia. }
    rewrite (proj2 (Z.eqb_neq _ _) Hq). apply IH. lia.
Qed.
End safe_integer.

(** The estimate of the decimal exponent of a number of at most 53 bits. *)
Lemma estimate L : 0 ≤ L ≤ 52 →
  let n := L * 30103 / 100000 - 1 in (n < 0 ∨ 10 ^ n ≤ 2 ^ L) ∧ 2 ^ (L + 1) ≤ 10 ^ (n + 4) ∧ -1 ≤ n.
Proof.
  intros HL n.
  assert (Hall : forallb (λ k : nat, let L := Z.of_nat k in let n := L * 30103 / 100000 - 1 in
    ((n <? 0) || (10 ^ n <=? 2 ^ L)) && (2 ^ (L + 1) <=? 10 ^ (n + 4)) && (-1 <=? n)) (seq 0 53) = true) by reflexivity.
  rewrite forallb_forall in Hall. specialize (Hall (Z.to_nat L)). rewrite Z2Nat.id in Hall by lia.
  rewrite in_seq in Hall. specialize (Hall ltac:(lia)). cbv zeta in Hall. fold n in Hall. clearbody n.
  apply andb_prop in Hall as [[[H1|H1]%orb_prop H2]%andb_prop H3]; lia.
Qed.

Lemma dec_exponent_int p m d N :
  0 ≤ d → Zpos m = Zpos p * 2 ^ d → Zpos p < 2 ^ 53 → 10 ^ (N - 1) ≤ Zpos p < 10 ^ N → 1 ≤ N →
  dec_exponent m (- d) = N.
Proof.
  intros Hd Hm Hp53 Hp HN. assert (HL : Z.log2 (Zpos m) + - d = Z.log2 (Zpos p)).
  { rewrite Hm, Z.log2_mul_pow2 by lia. lia. }
  unfold dec_exponent. rewrite HL. set (L := Z.log2 (Zpos p)).
  assert (HL52 : 0 ≤ L ≤ 52) by (split; [apply Z.log2_nonneg|apply Z.lt_succ_r, Z.log2_lt_pow2; done]).
  pose proof (Z.log2_spec (Zpos p) ltac:(lia)) as Hspec. fold L in Hspec. unfold Z.succ in Hspec.
  destruct (estimate L HL52) as (Hlo & Hhi & Hn). set (n := L * 30103 / 100000 - 1) in *.
  apply (dec_exponent_from_int p m d Hd Hm); [done|done|]. split.
  - destruct Hlo as [Hlo|Hlo]; [lia|]. apply Z.lt_le_incl, (Z.pow_lt_mono_r_iff 10); lia.
  - assert (N - 1 < n + 4); [|lia]. apply (Z.pow_lt_mono_r_iff 10); lia.
Qed.

(** ** The search for the shortest digits succeeds *)

Lemma digits_at_ok m e n k s : digits_at m e n k = Some s → stands_for m e n k s = true.
Proof.
  unfold digits_at. set (lo := floor_scaled _ _ _). intros H.
  destruct (stands_for m e n k lo) eqn:H1, (stands_for m e n k (lo + 1)) eqn:H2; simplify_eq; try done.
  by destruct (_ ?= _); [destruct (Z.even _)|..]; simplify_eq.
Qed.

Lemma shortest_ok fuel m e n k N s k' :
  is_Some (digits_at m e n N) → k ≤ N < k + Z.of_nat fuel → shortest fuel m e n k = (s, k') →
  digits_at m e n k' = Some s ∧ k ≤ k'.
Proof.
  intros [s0 HN]. revert k. induction fuel as [|fuel IH]; intros k Hk H; [lia|]. cbn [shortest] in H.
  destruct (digits_at m e n k) as [s1|] eqn:Hd; [by simplify_eq|].
  destruct (decide (k = N)) as [->|]; [by rewrite HN in Hd|].
  destruct (IH (k + 1)) as [H1 H2]; [lia|done|]. split; [done|lia].
Qed.

Lemma safe_stands p m d N :
  num_of_Z (Zpos p) = S754_finite false m (- d) → 10 ^ (N - 1) ≤ Zpos p < 10 ^ N →
  stands_for m (- d) N N (Zpos p) = true.
Proof.
  intros Hx HN. unfold stands_for. rewrite Z.sub_diag, bool_decide_true; [lia|].
  unfold num_of_dec. simpl (_ <=? _). by rewrite Pos2Z.id, Z.mul_1_r.
Qed.

(** Non-negative integers below 2^53 are printed with digits that stand for
    them. *)
Lemma printable_int z : 0 ≤ z < 2 ^ 53 → printable (num_of_Z z) = true.
Proof.
  intros Hz. destruct z as [|p|p]; [done| |lia].
  destruct (num_of_safe p) as (m & d & Hx & Hd & Hm & Hlog); [lia|].
  destruct (num_string_digits p) as (_ & _ & _ & k & _ & Hk).
  set (N := Z.of_nat (S k)). assert (HN : 10 ^ (N - 1) ≤ Zpos p < 10 ^ N).
  { unfold N. by replace (Z.of_nat (S k) - 1) with (Z.of_nat k) by lia. }
  assert (HN16 : N ≤ 16).
  { assert (N - 1 < 16); [|lia]. apply (Z.pow_lt_mono_r_iff 10); [lia|lia|].
    change (10 ^ 16) with 10000000000000000. lia. }
  rewrite Hx. unfold printable. rewrite (dec_exponent_int p m d N) by (done || lia).
  destruct (shortest _ _ _ _ _) as [s k'] eqn:Hs.
  destruct (shortest_ok 17 m (- d) N 1 N s k') as [Hat Hk']; [|lia|done|].
  { unfold digits_at. rewrite Z.sub_diag, (floor_scaled_int p m d Hd Hm). simpl (10 ^ _).
    rewrite Z.mul_1_r, Z.div_1_r, (safe_stands p m d N Hx HN).
    destruct (stands_for _ _ _ _ _); [destruct (_ ?= _); [destruct (Z.even _)|..]|]; done. }
  apply digits_at_ok in Hat. rewrite Hat, andb_true_r. lia.
Qed.
