(* ===== verification/JsonRoundTrip.v ===== *)
(** * [JSON.parse] after [JSON.stringify]

    The texts [JSON.stringify] writes are read back as the values they were
    written from.  The texts of the parts of a value are known to be read
    back whatever follows them, as long as it does not continue a number. *)

From S2P Require Import Prelude JsValue JsonPrint JsonParse JsonNumber.
Local Open Scope Z_scope.

(** ** Values that can be read back *)

(** Every property is where [define] puts it. *)
Fixpoint in_order (acc o : jsobj) : Prop :=
  match o with
  | [] => True
  | (k, v) :: o' => define acc k v = acc ++ [(k, v)] ∧ in_order (acc ++ [(k, v)]) o'
  end.

(** Values without dates and [undefined], with properties in order and numbers
    that can be printed. *)
Fixpoint plain (v : jsval) : Prop :=
  match v with
  | JNull | JBool _ | JStr _ => True
  | JNum n => printable n = true
  | JArr l => (fix go l := match l with [] => True | v :: l' => plain v ∧ go l' end) l
  | JObj o =>
      in_order [] o ∧
      (fix go (o : jsobj) := match o with [] => True | (_, v) :: o' => plain v ∧ go o' end) o
  | _ => False
  end.

(** What is left of a value in its text: [undefined] is dropped from objects
    and null in arrays, a number that is not finite is null, negative zero is
    zero, and a date is the string of its time stamp. *)
Fixpoint json_image (v : jsval) : option jsval :=
  match v with
  | JUndef => None
  | JNull | JBool _ | JStr _ => Some v
  | JNum (S754_nan | S754_infinity _) => Some JNull
  | JNum (S754_zero _) => Some (JNum (S754_zero false))
  | JNum (S754_finite _ _ _) => Some v
  | JDate t => Some (JStr (toISOString t))
  | JArr l => Some (JArr ((λ v, default JNull (json_image v)) <$> l))
  | JObj o => Some (JObj
      ((fix go (o : jsobj) : jsobj :=
          match o with
          | [] => []
          | (k, v) :: o' => match json_image v with Some v' => (k, v') :: go o' | None => go o' end
          end) o))
  end.

Definition image_object (o : jsobj) : jsobj :=
  omap (λ kv, pair kv.1 <$> json_image kv.2) o.

(** Values whose text can be read back as their image. *)
Fixpoint serializable (v : jsval) : Prop :=
  match v with
  | JNum (S754_finite _ _ _ as n) => printable n = true
  | JArr l => (fix go l := match l with [] => True | v :: l' => serializable v ∧ go l' end) l
  | JObj o =>
      in_order [] (image_object o) ∧
      (fix go (o : jsobj) := match o with [] => True | (_, v) :: o' => serializable v ∧ go o' end) o
  | _ => True
  end.

(** The fuel reading a value takes. *)
Fixpoint cost (v : jsval) : nat :=
  match v with
  | JArr l => S ((fix go l := match l with [] => O | v :: l' => S (cost v + go l') end) l)
  | JObj o => S ((fix go (o : jsobj) := match o with [] => O | (_, v) :: o' => S (cost v + go o') end) o)
  | _ => 1
  end%nat.

(** ** Lemmas *)

Lemma read_escaped_char a rest :
  read_string (escape_char a +:+ rest) = prepend (String a "") (read_string rest).
Proof. destruct a as [[] [] [] [] [] [] [] []]; reflexivity. Qed.

Lemma read_escaped s rest :
  read_string (escape s +:+ String quote_char rest) = Some (s, rest).
Proof.
  induction s as [|a s IH]; [done|]. cbn [escape].
  rewrite <- string_app_assoc, read_escaped_char, IH. done.
Qed.

(** The text of a value starts with no white space and no closing bracket. *)
Definition starts_value (s : string) : bool :=
  match s with
  | String a _ => negb (bool_decide (nat_of_ascii a ∈ [9; 10; 13; 32; 93; 125]%nat))
  | EmptyString => false
  end.

Definition reads (v : jsval) (txt : string) : Prop :=
  (starts_value txt = true ∧ cost v ≤ 2 * String.length txt)%nat ∧
  ∀ fuel rest, (cost v ≤ fuel)%nat → delimited rest = true → read_value fuel (txt +:+ rest) = Some (v, rest).

Definition cost_list (l : list jsval) : nat := foldr (λ v n, S (cost v + n)) O l.

Lemma cost_list_cons v l : cost_list (v :: l) = S (cost v + cost_list l).
Proof. reflexivity. Qed.

Lemma cost_arr l : cost (JArr l) = S (cost_list l).
Proof. reflexivity. Qed.

Lemma cost_obj o : cost (JObj o) = S (cost_list o.*2).
Proof. simpl. f_equal. induction o as [|[k v] o IH]; [done|]. simpl. by rewrite IH. Qed.

Lemma starts_not_ws s rest : starts_value s = true → skip_ws (s +:+ rest) = s +:+ rest.
Proof.
  destruct s as [|a s]; [done|]. simpl. intros H%negb_true_iff%bool_decide_eq_false.
  rewrite bool_decide_false; [done|]. set_solver.
Qed.

Lemma starts_not_close c s rest :
  (c = "]" ∨ c = "}")%char → starts_value s = true → strip (String c "") (s +:+ rest) = None.
Proof.
  intros Hc. destruct s as [|a s]; [done|]. simpl. intros H%negb_true_iff%bool_decide_eq_false.
  destruct (Ascii.eqb_spec c a) as [<-|]; [|done]. destruct H, Hc as [-> | ->]; vm_compute; set_solver.
Qed.

Lemma skip_comma s : skip_ws ("," +:+ s) = "," +:+ s.
Proof. reflexivity. Qed.

Lemma read_elements_all vs txts :
  Forall2 reads vs txts → vs ≠ [] → ∀ fuel rest, (cost_list vs ≤ fuel)%nat →
  read_elements fuel (join "," txts +:+ String "]" rest) = Some (vs, rest).
Proof.
  induction 1 as [|v txt vs txts [_ Hv] Hvs IH]; [done|]. intros _ fuel rest Hf.
  rewrite cost_list_cons in Hf. destruct fuel as [|fuel]; [lia|].
  destruct Hvs as [|v' txt' vs txts Hv' Hvs]; cbn [read_elements].
  - cbn [join]. rewrite Hv by (done || lia). reflexivity.
  - change (join "," (txt :: txt' :: txts)) with (txt +:+ "," +:+ join "," (txt' :: txts)).
    rewrite <- !string_app_assoc, Hv by (done || lia). cbn [mbind option_bind].
    rewrite skip_comma, strip_app. cbn [mbind option_bind]. rewrite IH; [done|done|lia].
Qed.

(** The text of one member. *)
Definition member (k : string) (txt : string) : string := quote k +:+ ":" +:+ txt.

Lemma member_app k txt rest :
  member k txt +:+ rest = dquote +:+ escape k +:+ String quote_char (":" +:+ txt +:+ rest).
Proof.
  unfold member, quote. rewrite <- !string_app_assoc.
  change (String quote_char ((escape k +:+ dquote) +:+ ":" +:+ txt +:+ rest) =
    String quote_char (escape k +:+ dquote +:+ ":" +:+ txt +:+ rest)).
  by rewrite <- string_app_assoc.
Qed.

Lemma skip_colon s : skip_ws (":" +:+ s) = ":" +:+ s.
Proof. reflexivity. Qed.

Lemma skip_quote s : skip_ws (dquote +:+ s) = dquote +:+ s.
Proof. reflexivity. Qed.

Lemma read_member fuel o k v txt rest :
  reads v txt → (cost v ≤ fuel)%nat → delimited rest = true →
  read_members (S fuel) o (member k txt +:+ rest) =
  match strip "," (skip_ws rest), strip "}" (skip_ws rest) with
  | Some r, _ => read_members fuel (define o k v) r
  | None, Some r => Some (define o k v, r)
  | None, None => None
  end.
Proof.
  intros [_ Hv] Hf Hr. rewrite member_app. cbn [read_members].
  rewrite skip_quote, (strip_app dquote). cbn [mbind option_bind]. rewrite read_escaped.
  cbn [mbind option_bind]. rewrite skip_colon, (strip_app ":"). cbn [mbind option_bind].
  by rewrite Hv by done.
Qed.

Lemma read_members_all o txts :
  Forall2 (λ kv txt, ∃ t, txt = member kv.1 t ∧ reads kv.2 t) o txts → o ≠ [] →
  ∀ acc fuel rest, (cost_list o.*2 ≤ fuel)%nat → in_order acc o →
  read_members fuel acc (join "," txts +:+ String "}" rest) = Some (acc ++ o, rest).
Proof.
  induction 1 as [|[k v] txt o txts (t & -> & Hv) Hvs IH]; [done|]. intros _ acc fuel rest Hf [Hd Ho].
  cbn [fmap list_fmap fst snd] in *. rewrite cost_list_cons in Hf. destruct fuel as [|fuel]; [lia|].
  destruct Hvs as [|kv' txt' o txts Hv' Hvs].
  - cbn [join]. rewrite (read_member _ _ _ v) by (done || lia). rewrite Hd. reflexivity.
  - change (join "," (member k t :: txt' :: txts)) with (member k t +:+ "," +:+ join "," (txt' :: txts)).
    rewrite <- !string_app_assoc, (read_member _ _ _ v) by (done || lia).
    rewrite skip_comma, strip_app, Hd, IH by (done || lia). by rewrite <- (assoc_L (++)).
Qed.

Lemma length_join txts :
  (foldr (λ t n, S (String.length t) + n) 0 txts ≤ S (String.length (join "," txts)))%nat.
Proof.
  induction txts as [|t [|t' txts] IH]; [simpl; lia|simpl; lia|].
  change (join "," (t :: t' :: txts)) with (t +:+ "," +:+ join "," (t' :: txts)).
  rewrite !str_length_app. cbn [foldr] in *. simpl (String.length ",") in *. lia.
Qed.

Lemma cost_texts vs txts :
  Forall2 (λ v t, cost v ≤ 2 * String.length t)%nat vs txts →
  (cost_list vs ≤ 2 * S (String.length (join "," txts)))%nat.
Proof.
  intros H. etrans; [|apply Nat.mul_le_mono_l, length_join].
  induction H as [|v t vs txts Hv _ IH]; [simpl; lia|]. rewrite cost_list_cons. cbn [foldr]. lia.
Qed.

Lemma bracketed a b s rest : (String a "" +:+ s +:+ String b "") +:+ rest = String a (s +:+ String b rest).
Proof. change (String a ((s +:+ String b "") +:+ rest) = String a (s +:+ String b rest)). by rewrite <- string_app_assoc. Qed.

Lemma starts_join txts :
  Forall (λ t, starts_value t = true) txts → txts ≠ [] → starts_value (join "," txts) = true.
Proof.
  intros H. destruct H as [|t [|t' txts] Ht _]; [done|done|]. intros _.
  change (join "," (t :: t' :: txts)) with (t +:+ "," +:+ join "," (t' :: txts)). by destruct t.
Qed.

Lemma reads_string s : reads (JStr s) (quote s).
Proof.
  split; [split; [reflexivity|simpl; lia]|]. intros [|fuel] rest Hf _; [simpl in Hf; lia|].
  assert (Hq : quote s +:+ rest = dquote +:+ escape s +:+ String quote_char rest).
  { unfold quote. change (String quote_char ((escape s +:+ dquote) +:+ rest) =
      String quote_char (escape s +:+ dquote +:+ rest)). by rewrite <- string_app_assoc. }
  rewrite Hq. cbn [read_value]. rewrite skip_quote, (strip_app dquote), read_escaped. reflexivity.
Qed.

Lemma read_open_array fuel r :
  read_value (S fuel) (String "[" r) =
  match strip "]" (skip_ws r) with
  | Some r => Some (JArr [], r)
  | None => '(l, r) ← read_elements fuel r; Some (JArr l, r)
  end.
Proof. reflexivity. Qed.

Lemma read_open_object fuel r :
  read_value (S fuel) (String "{" r) =
  match strip "}" (skip_ws r) with
  | Some r => Some (JObj [], r)
  | None => '(o, r) ← read_members fuel [] r; Some (JObj o, r)
  end.
Proof. reflexivity. Qed.

Lemma reads_array vs txts :
  Forall2 reads vs txts → reads (JArr vs) ("[" +:+ join "," txts +:+ "]").
Proof.
  intros H. assert (Hc : Forall2 (λ v t, cost v ≤ 2 * String.length t)%nat vs txts).
  { eapply Forall2_impl; [exact H|]. by intros v t [[_ ?] _]. }
  assert (Hs : Forall (λ t, starts_value t = true) txts).
  { eapply Forall2_Forall_r; [exact H|]. apply Forall_true. by intros v t [[? _] _]. }
  apply cost_texts in Hc. split.
  - split; [reflexivity|]. rewrite cost_arr, !str_length_app. simpl (String.length "["). simpl (String.length "]"). lia.
  - intros [|fuel] rest Hf _; rewrite cost_arr in Hf; [lia|].
    rewrite bracketed. destruct H as [|v t vs txts Hv Hvs]; [reflexivity|].
    assert (Hst : starts_value (join "," (t :: txts)) = true) by (by apply starts_join).
    rewrite read_open_array, starts_not_ws, starts_not_close by auto.
    rewrite (read_elements_all (v :: vs)) by (done || (by constructor) || lia). reflexivity.
Qed.

Lemma reads_object o txts :
  Forall2 reads o.*2 txts → in_order [] o →
  reads (JObj o) ("{" +:+ join "," (zip_with member o.*1 txts) +:+ "}").
Proof.
  intros H Ho. set (ms := zip_with member o.*1 txts).
  assert (Hm : Forall2 (λ kv txt, ∃ t, txt = member kv.1 t ∧ reads kv.2 t) o ms).
  { unfold ms. clear Ho ms. revert txts H. induction o as [|[k v] o IH]; intros txts H.
    - inversion H. constructor.
    - inversion H; subst. constructor; [eauto|by apply IH]. }
  assert (Hc : Forall2 (λ v t, cost v ≤ 2 * String.length t)%nat o.*2 ms).
  { apply Forall2_fmap_l. eapply Forall2_impl; [exact Hm|]. intros [k v] txt (t & -> & [[_ ?] _]).
    simpl in *. unfold member. rewrite !str_length_app. lia. }
  assert (Hs : Forall (λ t, starts_value t = true) ms).
  { eapply Forall2_Forall_r; [exact Hm|]. apply Forall_true. by intros kv txt (t & -> & _). }
  apply cost_texts in Hc. split.
  - split; [reflexivity|]. rewrite cost_obj, !str_length_app. simpl (String.length "{"). simpl (String.length "}"). lia.
  - intros [|fuel] rest Hf _; rewrite cost_obj in Hf; [lia|].
    rewrite bracketed, read_open_object. destruct o as [|kv o]; [by inversion Hm; subst|].
    assert (Hne : ms ≠ []) by (intros Hn; rewrite Hn in Hm; by inversion Hm).
    rewrite starts_not_ws, starts_not_close by auto using starts_join.
    rewrite (read_members_all (kv :: o)) by (done || lia). reflexivity.
Qed.

(** All texts of a list of values. *)
Lemma collect_texts l :
  Forall (λ v, plain v → ∃ txt, stringify v = Some txt ∧ reads v txt) l → Forall plain l →
  ∃ txts, Forall2 (λ v t, stringify v = Some t) l txts ∧ Forall2 reads l txts.
Proof.
  intros IH Hp. induction IH as [|v l Hv _ IHl]; [by exists []|]. apply Forall_cons in Hp as [Hp1 Hp2].
  destruct (Hv Hp1) as (t & Ht & Hr), (IHl Hp2) as (txts & Hts & Hrs).
  exists (t :: txts). by split; constructor.
Qed.

Lemma stringify_array l txts :
  Forall2 (λ v t, stringify v = Some t) l txts →
  stringify (JArr l) = Some ("[" +:+ join "," txts +:+ "]").
Proof.
  intros H. assert (Hm : (λ v, default "null" (stringify v)) <$> l = txts).
  { induction H as [|v t l txts Hv _ IH]; [done|]. csimpl. by rewrite Hv, IH. }
  by rewrite <- Hm.
Qed.

Lemma stringify_object o txts :
  Forall2 (λ v t, stringify v = Some t) o.*2 txts →
  stringify (JObj o) = Some ("{" +:+ join "," (zip_with member o.*1 txts) +:+ "}").
Proof.
  intros H. cbn [stringify]. do 4 f_equal. revert txts H.
  induction o as [|[k v] o IH]; intros txts H; [by inversion H|].
  inversion H as [|? t ? ts Hv Hvs]; subst. simpl. rewrite Hv, (IH ts) by done. done.
Qed.

Lemma plain_array l : plain (JArr l) → Forall plain l.
Proof. simpl. induction l as [|v l IH]; [constructor|]. intros [? ?]. constructor; auto. Qed.

Lemma plain_object o : plain (JObj o) → in_order [] o ∧ Forall plain o.*2.
Proof.
  simpl. intros [Ho Hp]. split; [done|]. clear Ho.
  induction o as [|[k v] o IH]; [constructor|]. destruct Hp. constructor; auto.
Qed.

Lemma reads_word v txt :
  starts_value txt = true → cost v = 1%nat → txt ≠ "" →
  (∀ fuel rest, read_value (S fuel) (txt +:+ rest) = Some (v, rest)) → reads v txt.
Proof.
  intros Hs Hc Hne Hr. split.
  - split; [done|]. rewrite Hc. destruct txt; [done|simpl; lia].
  - intros [|fuel] rest Hf _; [lia|apply Hr].
Qed.

(** The text of a number is no other kind of value. *)
Lemma number_starts x : printable x = true →
  ∃ a s, num_to_string x = String a s ∧ (is_digit a = true ∨ a = "-"%char).
Proof.
  destruct x as [[]|[]| |sg m e]; try done; [by exists "0"%char, ""; auto|]. unfold printable, num_to_string.
  destruct (shortest _ _ _ _ _) as [s k]. intros [Hk%Z.leb_le Hs]%andb_prop.
  destruct sg; [eexists _, _; split; [reflexivity|by right]|].
  destruct (stands_literal m e _ k s Hk Hs) as (p & -> & Hl & _).
  destruct (literal_starts _ _ _ Hl) as (a & u & Ht & Ha). exists a, u. split; [exact Ht|by left].
Qed.

Lemma reads_number x : printable x = true → reads (JNum x) (num_to_string x).
Proof.
  intros Hx. destruct (number_starts x Hx) as (a & u & Ht & Ha).
  assert (Hc : ∀ b, b ∈ ["n"; "t"; "f"; quote_char; "["; "{"]%char → Ascii.eqb b a = false).
  { intros b Hb. apply Ascii.eqb_neq. intros ->. destruct Ha as [Ha| ->]; [|by vm_compute in Hb; set_solver].
    by repeat (apply elem_of_cons in Hb as [->|Hb]; [done|]); apply elem_of_nil in Hb. }
  assert (Hw : starts_value (String a u) = true).
  { simpl. apply negb_true_iff, bool_decide_eq_false. intros Hin. destruct Ha as [Ha| ->].
    - rewrite !elem_of_cons, elem_of_nil in Hin. apply andb_prop in Ha as [H1%Nat.leb_le H2%Nat.leb_le]. lia.
    - vm_compute in Hin. set_solver. }
  split; [split; [by rewrite Ht|rewrite Ht; simpl; lia]|].
  intros [|fuel] rest Hf Hr; [simpl in Hf; lia|]. pose proof (read_printed x rest Hx Hr) as Hread.
  rewrite Ht in *. cbn [read_value]. rewrite starts_not_ws by done.
  change (String a u +:+ rest) with (String a (u +:+ rest)) in *. cbn [strip dquote].
  rewrite !Hc by set_solver. by rewrite Hread.
Qed.

Lemma stringify_number x : printable x = true → stringify (JNum x) = Some (num_to_string x).
Proof. by destruct x as [[]|[]| |]. Qed.

Lemma stringify_reads v : plain v → ∃ txt, stringify v = Some txt ∧ reads v txt.
Proof.
  induction v as [| |[]|n|s|t|l IH|o IH] using jsval_ind; intros Hp; try done.
  - exists "null". split; [done|]. by apply reads_word.
  - exists "true". split; [done|]. by apply reads_word.
  - exists "false". split; [done|]. by apply reads_word.
  - exists (num_to_string n). split; [by apply stringify_number|by apply reads_number].
  - exists (quote s). split; [done|]. apply reads_string.
  - destruct (collect_texts l IH) as (txts & Hs & Hr); [by apply plain_array|].
    eexists. split; [by apply stringify_array|by apply reads_array].
  - destruct (plain_object o Hp) as [Ho Hpo].
    destruct (collect_texts o.*2) as (txts & Hs & Hr); [by apply Forall_fmap|done|].
    eexists. split; [by apply stringify_object|by apply reads_object].
Qed.

(** Reading back what [JSON.stringify] wrote. *)
Lemma JSON_parse_stringify v : plain v → ∃ txt, stringify v = Some txt ∧ JSON_parse txt = Some v.
Proof.
  intros (txt & Hs & [_ Hc] & Hr)%stringify_reads. exists txt. split; [done|]. unfold JSON_parse.
  specialize (Hr (2 * String.length txt + 2)%nat "" ltac:(lia) eq_refl). rewrite string_app_nil_r in Hr.
  by rewrite Hr.
Qed.

(** ** The image of a value *)

Lemma json_image_object o : json_image (JObj o) = Some (JObj (image_object o)).
Proof.
  simpl. do 2 f_equal. induction o as [|[k v] o IH]; [done|]. unfold image_object in *. simpl.
  destruct (json_image v); csimpl; by rewrite IH.
Qed.

Definition member_text (kv : string * jsval) : option string := member kv.1 <$> stringify kv.2.

Lemma stringify_members o :
  stringify (JObj o) = Some ("{" +:+ join "," (omap member_text o) +:+ "}").
Proof.
  cbn [stringify]. do 4 f_equal. induction o as [|[k v] o IH]; [done|]. unfold member_text in *. simpl.
  destruct (stringify v); csimpl; by rewrite IH.
Qed.

(** The text of a value is the text of its image. *)
Lemma stringify_image v : stringify v = json_image v ≫= stringify.
Proof.
  induction v as [| | |n|s|t|l IH|o IH] using jsval_ind; try done.
  - by destruct n as [[]|[]| |].
  - cbn [json_image mbind option_bind stringify]. do 4 f_equal.
    induction IH as [|v l Hv _ IHl]; [done|]. csimpl. rewrite IHl, Hv. by destruct (json_image v).
  - rewrite json_image_object. cbn [mbind option_bind]. rewrite !stringify_members. do 4 f_equal.
    induction IH as [|[k v] o Hv _ IHo]; [done|]. unfold image_object, member_text in *. csimpl in *.
    rewrite Hv. destruct (json_image v) as [v'|]; csimpl; rewrite IHo; done.
Qed.

Lemma plain_values l : Forall plain l → plain (JArr l).
Proof. induction 1; by split. Qed.

Lemma plain_members o : in_order [] o → Forall plain o.*2 → plain (JObj o).
Proof.
  intros Ho Hp. split; [done|]. clear Ho. induction o as [|[k v] o IH]; [done|].
  apply Forall_cons in Hp as [? ?]. split; [done|by apply IH].
Qed.

(** The image of a serializable value can be read back. *)
Lemma image_plain v v' : serializable v → json_image v = Some v' → plain v'.
Proof.
  revert v'. induction v as [| | |n|s|t|l IH|o IH] using jsval_ind; intros v' Hs; try by intros [= <-].
  - destruct n as [[]|[]| |]; by intros [= <-].
  - intros [= <-]. apply plain_values. induction IH as [|v l Hv _ IHl]; [constructor|].
    destruct Hs as [Hs1 Hs2]. csimpl. constructor; [|by apply IHl].
    destruct (json_image v) as [x|]; [by apply Hv|done].
  - rewrite json_image_object. intros [= <-]. destruct Hs as [Ho Hs]. apply plain_members; [done|].
    clear Ho. induction IH as [|[k v] o Hv _ IHo]; [constructor|]. destruct Hs as [Hs1 Hs2].
    unfold image_object in *. csimpl in *. destruct (json_image v) as [x|]; csimpl; [|by apply IHo].
    constructor; [by apply Hv|by apply IHo].
Qed.

Lemma plain_image v : plain v → json_image v = Some v.
Proof.
  induction v as [| | |n|s|t|l IH|o IH] using jsval_ind; intros Hp; try done.
  - by destruct n as [[]|[]| |].
  - cbn [json_image]. do 2 f_equal. apply plain_array in Hp. induction IH as [|v l Hv _ IHl]; [done|].
    apply Forall_cons in Hp as [? ?]. csimpl. by rewrite Hv, IHl.
  - rewrite json_image_object. do 2 f_equal. apply plain_object in Hp as [_ Hp].
    induction IH as [|[k v] o Hv _ IHo]; [done|]. csimpl in *. apply Forall_cons in Hp as [? ?].
    unfold image_object in *. csimpl. rewrite Hv by done. csimpl. by rewrite IHo.
Qed.

Lemma plain_serializable v : plain v → serializable v.
Proof.
  induction v as [| | |n|s|t|l IH|o IH] using jsval_ind; intros Hp; try done.
  - by destruct n.
  - apply plain_array in Hp. induction IH as [|v l Hv _ IHl]; [done|].
    apply Forall_cons in Hp as [? ?]. split; [by apply Hv|by apply IHl].
  - pose proof (plain_image _ Hp) as Hi. rewrite json_image_object in Hi. injection Hi as Hi.
    apply plain_object in Hp as [Ho Hp]. split; [by rewrite Hi|]. clear Hi Ho.
    induction IH as [|[k v] o Hv _ IHo]; [done|]. apply Forall_cons in Hp as [? ?]. split; [by apply Hv|by apply IHo].
Qed.

(** Reading back the text of any serializable value. *)
Lemma JSON_parse_image v v' :
  serializable v → json_image v = Some v' → ∃ txt, stringify v = Some txt ∧ JSON_parse txt = Some v'.
Proof.
  intros Hs Hi. rewrite stringify_image, Hi. by apply JSON_parse_stringify, (image_plain v).
Qed.
