(* ===== verification/ContentRoutes.v ===== *)
(** * Newsletter, contact form and downloads

    backend/src/routes/newsletter.ts, contact.ts and downloads.ts. *)

From S2P Require Import Prelude JsValue Effects Http Config Validate AuthMw.

(** ** Newsletter *)

Module Newsletter.
(** POST / *)
Definition subscribe (rq : request) : M unit :=
  try_catch
    (email ← of_result (prop (rq_body rq) "email");
     existing ← findUnique MNewsletter [("email", email)] None;
     if truthy existing then respond 200 (message_json "Already subscribed")
     else
       create MNewsletter [("email", email)] ;;
       respond 201 (message_json "Subscribed successfully"))
    (λ error,
      console_error "Newsletter error:" error ;;
      respond 500 (error_json "Internal server error")).

Definition router : list layer :=
  [Route "POST" "/" [Sync (validate newsletter_schema); Async subscribe]].
End Newsletter.

(** ** Contact form *)

Module Contact.
(** POST / *)
Definition submit (rq : request) : M unit :=
  try_catch
    (email ← of_result (prop (rq_body rq) "email");
     subject ← of_result (prop (rq_body rq) "subject");
     message ← of_result (prop (rq_body rq) "message");
     create MContact [("email", email); ("subject", subject); ("message", message)] ;;
     respond 201 (message_json "Message sent successfully"))
    (λ error,
      console_error "Contact error:" error ;;
      respond 500 (error_json "Internal server error")).

Definition router : list layer :=
  [Route "POST" "/" [Sync (validate contact_schema); Async submit]].
End Contact.

(** ** Downloads *)

Module Downloads.
(** GET / (public) *)
Definition list_all (_ : request) : M unit :=
  try_catch
    (downloads ← findMany MDownload [("createdAt", "desc")];
     respond 200 downloads)
    (λ error,
      console_error "Downloads error:" error ;;
      respond 500 (error_json "Internal server error")).

(** POST / (admin only) *)
Definition add (rq : request) : M unit :=
  try_catch
    (name ← of_result (prop (rq_body rq) "name");
     version ← of_result (prop (rq_body rq) "version");
     platform ← of_result (prop (rq_body rq) "platform");
     url ← of_result (prop (rq_body rq) "url");
     checksum ← of_result (prop (rq_body rq) "checksum");
     download ← create MDownload
       [("name", name); ("version", version); ("platform", platform);
        ("url", url); ("checksum", checksum)];
     respond 201 download)
    (λ error,
      console_error "Add download error:" error ;;
      respond 500 (error_json "Internal server error")).

(** [req.params.id] *)
Definition param (k : string) (rq : request) : jsval :=
  match assoc k (rq_params rq) with Some v => JStr v | None => JUndef end.

(** DELETE /:id (admin only) *)
Definition remove (rq : request) : M unit :=
  try_catch
    (db_delete MDownload [("id", param "id" rq)] ;;
     respond 200 (message_json "Download deleted"))
    (λ error,
      console_error "Delete download error:" error ;;
      respond 500 (error_json "Internal server error")).

Section router.
Variable cfg : config.

Definition add_stack : list handler :=
  [Sync (authenticate cfg); Sync requireAdmin; Sync (validate download_schema); Async add].
Definition remove_stack : list handler :=
  [Sync (authenticate cfg); Sync requireAdmin; Async remove].

Definition router : list layer :=
  [Route "GET" "/" [Async list_all];
   Route "POST" "/" add_stack;
   Route "DELETE" "/:id" remove_stack].
End router.
End Downloads.
