(* ===== verification/RpcRoutes.v ===== *)
(** * The node proxy and the cached statistics

    backend/src/routes/rpc.ts and backend/src/routes/stats.ts.  Each file has
    its own [callRpc]; they differ in what they do with the answer. *)

From S2P Require Import Prelude JsValue Effects Http Config Validate Base64 JsonPrint.

Section node.
Variable cfg : config.

(** The second argument of [fetch] in both copies of [callRpc]. *)
Definition rpc_init (method params : jsval) : fetch_init :=
  let '(RpcConfig _ user pass) := hyliumRpc cfg in
  {| fi_method := "POST";
     fi_headers := [("Content-Type", "application/json");
                    ("Authorization", "Basic " +:+ base64 (user +:+ ":" +:+ pass))];
     fi_body := stringify (JObj [("jsonrpc", JStr "1.0"); ("id", JStr "hylium-web");
                                 ("method", method); ("params", params)]) |}.

(** A default parameter value replaces [undefined]. *)
Definition default_params (params : jsval) : jsval :=
  match params with JUndef => JArr [] | v => v end.
End node.

(** ** RPC proxy (rpc.ts) *)

Module Rpc.
Definition ALLOWED_METHODS : list string :=
  ["getblockchaininfo"; "getblockcount"; "getdifficulty"; "getnetworkhashps";
   "getmininginfo"; "getpeerinfo"; "getnettotals"; "getconnectioncount";
   "getbestblockhash"; "getblock"; "getblockhash"; "getrawtransaction";
   "decoderawtransaction"].

Section rpc.
Variable cfg : config.

Definition callRpc (method params : jsval) : M jsval :=
  response ← fetch (url (hyliumRpc cfg)) (rpc_init cfg method (default_params params));
  resp_json response.

(** [method.toLowerCase()]: only strings have the method. *)
Definition lower_method (method : jsval) : result string :=
  match method with
  | JStr s => Ok (toLowerCase s)
  | _ => Throw (ETypeError "toLowerCase")
  end.

(** POST / *)
Definition proxy (rq : request) : M unit :=
  try_catch
    (method ← of_result (prop (rq_body rq) "method");
     params ← of_result (prop (rq_body rq) "params");
     name ← of_result (lower_method method);
     if negb (bool_decide (name ∈ ALLOWED_METHODS)) then
       respond 403 (JObj [("error", JStr "Method not allowed");
                          ("allowedMethods", JArr (JStr <$> ALLOWED_METHODS))])
     else
       result ← callRpc method params;
       respond 200 result)
    (λ error,
      console_error "RPC error:" error ;;
      respond 500 (error_json "RPC call failed")).

Definition router : list layer :=
  [Route "POST" "/" [Sync (validate rpc_schema); Async proxy]].
End rpc.
End Rpc.

(** ** Network statistics (stats.ts) *)

Module Stats.
(** 30 seconds *)
Definition CACHE_TTL : Z := 30000.

Definition zero : jsval := JNum (num_of_Z 0).

(** [{ ...o, k: v }] *)
Fixpoint obj_set (o : jsobj) (k : string) (v : jsval) : jsobj :=
  match o with
  | [] => [(k, v)]
  | (k', v') :: o' => if String.eqb k k' then (k, v) :: o' else (k', v') :: obj_set o' k v
  end.

(** [Promise.all] on three promises. *)
Definition promise_all3 (a b c : M jsval) : M (jsval * jsval * jsval) :=
  Both a (Both b c (λ y z, Ret (y, z)))
    (λ x '(y, z),
      match x, y, z with
      | Ok x, Ok y, Ok z => Ret (Ok (x, y, z))
      | Throw e, _, _ | _, Throw e, _ | _, _, Throw e => Ret (Throw e)
      end).

Section stats.
Variable cfg : config.

Definition callRpc (method : string) : M jsval :=
  response ← fetch (url (hyliumRpc cfg)) (rpc_init cfg (JStr method) (default_params JUndef));
  answer ← resp_json response;
  error ← of_result (prop answer "error");
  if truthy error then
    message ← of_result (prop error "message");
    of_result (Throw (EError (js_or message (JStr "RPC error"))))
  else of_result (prop answer "result").

(** [callRpc(m).catch(() => null)] *)
Definition call_or_null (method : string) : M jsval :=
  try_catch (callRpc method) (λ _, mret JNull).

(** The statistics object; [now] is the time [new Date()] reads. *)
Definition make_stats (blockchainInfo miningInfo connectionCount : jsval) (now : Z) : jsobj :=
  [("blockHeight", js_or (opt_prop blockchainInfo "blocks") zero);
   ("difficulty", js_or (opt_prop blockchainInfo "difficulty") zero);
   ("chain", js_or (opt_prop blockchainInfo "chain") (JStr "unknown"));
   ("networkHashrate", js_or (opt_prop miningInfo "networkhashps") zero);
   ("connections", js_or connectionCount zero);
   ("lastUpdated", JStr (toISOString now))].

(** [statsCache && Date.now() - statsCache.timestamp < CACHE_TTL]: the
    cache entry when it is fresh.  The clock is read only when there is an
    entry. *)
Definition check_cache : M (option stats_cache) :=
  c ← cache_get;
  match c with
  | None => mret None
  | Some c =>
      now ← date_now;
      mret (if (now - timestamp c <? CACHE_TTL)%Z then Some c else None)
  end.

(** [Promise.all([...])] on the three calls, failures replaced by null. *)
Definition fetch_all : M (jsval * jsval * jsval) :=
  promise_all3 (call_or_null "getblockchaininfo") (call_or_null "getmininginfo")
    (call_or_null "getconnectioncount").

(** GET / *)
Definition get_stats (_ : request) : M unit :=
  try_catch
    (fresh ← check_cache;
     match fresh with
     | Some c => respond 200 (JObj (data c))
     | None =>
         '(blockchainInfo, miningInfo, connectionCount) ← fetch_all;
           t ← date_now;
         let stats := make_stats blockchainInfo miningInfo connectionCount t in
         now ← date_now;
         cache_set {| data := stats; timestamp := now |} ;;
         respond 200 (JObj stats)
     end)
    (λ error,
      console_error "Stats error:" error ;;
      c ← cache_get;
      match c with
      | Some c => respond 200 (JObj (obj_set (data c) "stale" (JBool true)))
      | None => respond 503 (error_json "Unable to fetch network stats")
      end).

Definition router : list layer := [Route "GET" "/" [Async get_stats]].
End stats.
End Stats.

(** ** Executions of the statistics handler *)

Section stats_exec.
Variable cfg : config.
Import Stats.

(** The executions of the handler: a fresh entry is served, or the node is
    asked and the answer cached.  The [catch] branch has none. *)
Inductive stats_run : trace → Prop :=
| stats_hit c now :
    (now - timestamp c < CACHE_TTL)%Z →
    stats_run [Ev CacheGet (Some c); Ev DateNow now; Ev (Respond 200 (JObj (data c))) tt]
| stats_miss t0 t1 bi mi cc d now :
    (t0 = [Ev CacheGet None] ∨
     ∃ c n, t0 = [Ev CacheGet (Some c); Ev DateNow n] ∧ (CACHE_TTL ≤ n - timestamp c)%Z) →
    exec (fetch_all cfg) t1 (Ok (bi, mi, cc)) →
    stats_run (t0 ++ t1 ++
      [Ev DateNow d; Ev DateNow now;
       Ev (CacheSet {| data := make_stats bi mi cc d; timestamp := now |}) tt;
       Ev (Respond 200 (JObj (make_stats bi mi cc d))) tt]).

(** A call whose failures are caught always yields a value. *)
Lemma call_or_null_ok method t r : exec (call_or_null cfg method) t r → ∃ v, r = Ok v.
Proof. unfold call_or_null, callRpc. intros H. symex H; eauto. Qed.

Lemma promise_all3_exec a b c t r :
  exec (promise_all3 a b c) t r → ∃ ta tb tc tbc x y z,
    exec a ta x ∧ exec b tb y ∧ exec c tc z ∧
    shuffle [tb; tc] tbc ∧ shuffle [ta; tbc] t ∧
    r = match x, y, z with
        | Ok x, Ok y, Ok z => Ok (x, y, z)
        | Throw e, _, _ | _, Throw e, _ | _, _, Throw e => Throw e
        end.
Proof.
  cbn. intros (ta & t2 & t12 & t3 & x & [y z] & Ha & Hbc & Hs & -> & Hr).
  destruct Hbc as (tb & tc & tbc & t4 & y' & z' & Hb & Hc & Hs' & -> & [-> [= -> ->]]).
  rewrite app_nil_r in Hs.
  exists ta, tb, tc, tbc, x, y', z'. split_and!; try done.
  all: destruct x, y', z'; destruct Hr as [-> ->]; by rewrite ?app_nil_r.
Qed.

Lemma fetch_all_ok t r : exec (fetch_all cfg) t r → ∃ v, r = Ok v.
Proof.
  intros (ta & tb & tc & tbc & x & y & z & Hx & Hy & Hz & _ & _ & ->)%promise_all3_exec.
  apply call_or_null_ok in Hx as [? ->]. apply call_or_null_ok in Hy as [? ->].
  apply call_or_null_ok in Hz as [? ->]. eauto.
Qed.

Lemma fetch_all_asks t r : exec (fetch_all cfg) t r → ∃ u init x, Ev (Fetch u init) x ∈ t.
Proof.
  intros (ta & tb & tc & tbc & x & y & z & Hx & _ & _ & _ & Hs & _)%promise_all3_exec.
  unfold call_or_null, callRpc in Hx. destruct Hx as (a & ta' & -> & _).
  eexists _, _, a. apply (shuffle_elem _ _ _ Hs). eexists. split; [left|left].
Qed.

Lemma exec_check_cache t r :
  exec check_cache t r → ∃ o, r = Ok o ∧
    match o with
    | Some c => ∃ n, t = [Ev CacheGet (Some c); Ev DateNow n] ∧ (n - timestamp c < CACHE_TTL)%Z
    | None => t = [Ev CacheGet None] ∨
              ∃ c n, t = [Ev CacheGet (Some c); Ev DateNow n] ∧ (CACHE_TTL ≤ n - timestamp c)%Z
    end.
Proof.
  unfold check_cache. intros H. symex H; eexists; (split; [reflexivity|]); [|by left].
  destruct (Z.ltb_spec (x1 - timestamp s) CACHE_TTL); eauto.
Qed.

Lemma get_stats_exec rq t r : exec (get_stats cfg rq) t r → r = Ok tt ∧ stats_run t.
Proof.
  unfold get_stats. rewrite exec_try.
  intros [([] & -> & H)|(e & t1 & t2 & -> & H & _)]; (split; [done|]) || exfalso;
    apply exec_bind in H as [(o & u1 & u2 & -> & (o' & [= <-] & Hc)%exec_check_cache & H)|
      (e' & He & (o' & ? & _)%exec_check_cache)]; try done.
  - destruct o as [c|].
    + destruct Hc as (n & -> & Hn). symex H. by constructor.
    + apply exec_bind in H as [([[bi mi] cc] & u3 & u4 & -> & Hf & H)|(e' & ? & _)]; [|done].
      symex H. by eapply stats_miss.
  - destruct o as [c|]; [by symex H|].
    apply exec_bind in H as [([[bi mi] cc] & u3 & u4 & -> & Hf & H)|(e' & ? & Hf)].
    + by symex H.
    + by apply fetch_all_ok in Hf as [? ?].
Qed.
End stats_exec.
