(* ===== verification/App.v ===== *)
(** * The application (backend/src/index.ts)

    The layers the server registers, in order.  The packages that supply
    middleware (helmet, cors, express-rate-limit, the body parsers) are a
    parameter; their options are the values the source passes. *)

From S2P Require Import Prelude JsValue Effects Http Config Validate AuthMw AuthRoutes ContentRoutes RpcRoutes JsonPrint Reference.

Class Packages := {
  helmet : jsval → mw;
  cors : jsval → mw;
  rate_limit : jsval → mw;
  body_json : jsval → mw;
  body_urlencoded : jsval → mw;
}.

Definition str_list (l : list string) : jsval := JArr (JStr <$> l).

Definition helmet_options : jsval := JObj
  [("contentSecurityPolicy", JObj [("directives", JObj
     [("defaultSrc", str_list ["'self'"]);
      ("styleSrc", str_list ["'self'"; "'unsafe-inline'"]);
      ("scriptSrc", str_list ["'self'"]);
      ("imgSrc", str_list ["'self'"; "data:"; "https:"])])]);
   ("crossOriginEmbedderPolicy", JBool false)].

Section app.
Context `{P : Packages}.
Variable cfg : config.

Definition cors_options : jsval := JObj
  [("origin", JStr (cors_origin cfg));
   ("credentials", JBool true);
   ("methods", str_list ["GET"; "POST"; "PUT"; "DELETE"; "OPTIONS"]);
   ("allowedHeaders", str_list ["Content-Type"; "Authorization"])].

Definition limiter : mw := rate_limit (JObj
  [("windowMs", JNum (windowMs (rateLimit cfg)));
   ("max", JNum (max (rateLimit cfg)));
   ("message", error_json "Too many requests, please try again later");
   ("standardHeaders", JBool true);
   ("legacyHeaders", JBool false)]).

(** 10 attempts per 15 minutes *)
Definition authLimiter : mw := rate_limit (JObj
  [("windowMs", JNum (num_of_Z (15 * 60 * 1000)));
   ("max", JNum (num_of_Z 10));
   ("message", error_json "Too many login attempts, please try again later")]).

Definition json_options : jsval := JObj [("limit", JStr "10kb")].

Definition form_options : jsval := JObj [("extended", JBool true); ("limit", JStr "10kb")].

(** GET /health *)
Definition health : mw := λ _ _,
  now ← date_now;
  respond 200 (JObj [("status", JStr "ok"); ("timestamp", JStr (toISOString now))]).

Definition not_found : mw := λ _ _, respond 404 (error_json "Not found").

Definition error_handler (err : exn) (_ : request) (_ : nextfn) : M unit :=
  console_error "Unhandled error:" err ;;
  respond 500 (error_json "Internal server error").

Definition app : list layer :=
  [Use [Sync (helmet helmet_options)];
   Use [Sync (cors cors_options)];
   Use [Sync limiter];
   Use [Sync (body_json json_options)];
   Use [Sync (body_urlencoded form_options)];
   Route "GET" "/health" [Sync health];
   Mount "/api/auth" [Sync authLimiter] (auth_router cfg);
   Mount "/api/stats" [] (Stats.router cfg);
   Mount "/api/newsletter" [] Newsletter.router;
   Mount "/api/contact" [] Contact.router;
   Mount "/api/downloads" [] (Downloads.router cfg);
   Mount "/api/rpc" [] (Rpc.router cfg);
   Use [Sync not_found];
   ErrorUse error_handler].
End app.

(** ** What is relied on in the packages

    Each middleware of a package consults its own state and then either
    answers itself or calls [next] once; it leaves the Authorization header of
    the request alone. *)

Definition well_behaved (f : mw) : Prop :=
  ∀ rq next t r, exec (f rq next) t r → r = Ok tt ∧
  ((∃ t0 st body, t = t0 ++ [Ev (Respond st body) tt] ∧ Forall foreign_event t0) ∨
   (∃ e rq' t0 t1, t = t0 ++ t1 ∧ Forall foreign_event t0 ∧ exec (next e rq') t1 tt ∧
      rq_authorization rq' = rq_authorization rq)).

Class PackagesLaws (P : Packages) := {
  helmet_law o : well_behaved (helmet o);
  cors_law o : well_behaved (cors o);
  rate_limit_law o : well_behaved (rate_limit o);
  body_json_law o : well_behaved (body_json o);
  body_urlencoded_law o : well_behaved (body_urlencoded o);
}.

(** What a middleware decides about a request: it passes it on, answers it, or
    reports an error with [next(err)]. *)
Inductive verdict :=
| Pass (rq : request)
| Refuse (st : Z) (body : jsval)
| Fault (e : exn).

Definition conclude (rq : request) (next : nextfn) (v : verdict) : M unit :=
  match v with
  | Pass rq' => lift (next None rq')
  | Refuse st body => respond st body
  | Fault e => lift (next (Some e) rq)
  end.

(** The middleware consults its own state, comes to a verdict that is [ok], and
    acts on it. *)
Definition decides (f : mw) (rq : request) (ok : verdict → Prop) : Prop :=
  ∃ consult : prog verdict,
    (∀ t v, exec consult t v → Forall foreign_event t ∧ ok v) ∧
    ∀ next, f rq next = pbind consult (conclude rq next).

(** ** Reference packages: a limiter that asks its store, and the rest passing
    the request on *)

Definition pass_through : mw := λ rq next, lift (next None rq).

Definition ask_limiter (o : jsval) (rq : request) : prog verdict :=
  Vis (ForeignCall "rate-limit" (JStr (rq_ip rq))) (λ x,
    Ret match x with
        | Ok (JBool true) => Pass rq
        | _ => Refuse 429 (opt_prop o "message")
        end).

Definition ref_limiter (o : jsval) : mw := λ rq next, pbind (ask_limiter o rq) (conclude rq next).

#[export] Instance ref_packages : Packages := {
  helmet _ := pass_through;
  cors _ := pass_through;
  rate_limit := ref_limiter;
  body_json _ := pass_through;
  body_urlencoded _ := pass_through;
}.

Definition no_next : nextfn := λ _ _, Ret tt.

(** A request with only the given parts. *)
Definition simple_request (verb path : string) (auth : option string) (body : jsval) : request :=
  Request verb path "127.0.0.1" auth None None [] body JUndef JUndef.

(** A world with a download and a token that carries the role ADMIN. *)
Definition admin_world : rworld :=
  RWorld (λ m, match m with MDownload => [[("id", JStr "42")]] | _ => [] end) 0
    [Token [("userId", JStr "1"); ("role", JStr "ADMIN")] "change-me" 900]
    (λ _, Throw (EForeign "fetch failed")) false 1.

Lemma pass_through_well_behaved : well_behaved pass_through.
Proof.
  intros rq next t r ([] & -> & H)%exec_lift. split; [done|]. right.
  exists None, rq, [], t. by repeat constructor.
Qed.

Lemma ref_limiter_exec o rq next t r :
  exec (ref_limiter o rq next) t r → r = Ok tt ∧
  ∃ x t', t = Ev (ForeignCall "rate-limit" (JStr (rq_ip rq))) x :: t' ∧
    (exec (next None rq) t' tt ∨ t' = [Ev (Respond 429 (opt_prop o "message")) tt]).
Proof.
  intros (x & t' & -> & H). simpl in H.
  assert ((∃ y, exec (lift (next None rq)) t' y ∧ r = y) ∨
          (t' = [Ev (Respond 429 (opt_prop o "message")) tt] ∧ r = Ok tt)) as [(y & Hy & ->)|[-> ->]].
  { destruct x as [[| |[]| | | | |]|]; eauto; destruct H as ([] & ? & -> & -> & ->); eauto. }
  - apply exec_lift in Hy as ([] & -> & Hy). eauto 6.
  - eauto 6.
Qed.

Lemma ref_limiter_well_behaved o : well_behaved (ref_limiter o).
Proof.
  intros rq next t r (-> & x & t' & -> & [Hx| ->])%ref_limiter_exec; (split; [done|]); [right|left].
  - eexists None, rq, [_], t'. split_and!; try done. by repeat constructor.
  - eexists [_], _, _. split; [done|]. by repeat constructor.
Qed.

#[export] Instance ref_packages_laws : PackagesLaws ref_packages := {
  helmet_law _ := pass_through_well_behaved;
  cors_law _ := pass_through_well_behaved;
  rate_limit_law := ref_limiter_well_behaved;
  body_json_law _ := pass_through_well_behaved;
  body_urlencoded_law _ := pass_through_well_behaved;
}.
