(* ===== verification/AppSafety.v ===== *)
(** * Policies of the whole application

    Properties of every execution of every request, whatever the database, the
    node and the other packages answer.  Each handler is executed symbolically
    once; an induction over the layers of [app] carries the result to the
    application. *)

From S2P Require Import Prelude JsValue Effects Foreign Http Config Validate AuthMw AuthRoutes ContentRoutes RpcRoutes JsonPrint Base64 App Reference.

(** ** Event policy *)

(** What one event of a request may be. *)
Definition good_event (cfg : config) (e : event) : Prop :=
  match e with
  | Ev (UnhandledRejection _) _ => False
  | Ev (Fetch u init) _ =>
      u = url (hyliumRpc cfg) ∧
      ∃ name params, init = rpc_init cfg (JStr name) params ∧
        toLowerCase name ∈ Rpc.ALLOWED_METHODS
  | Ev (DbCreate MUser dat) _ => ∃ email hash, dat = [("email", email); ("password", hash)]
  | Ev (DbDelete m _) _ => m = MDownload
  | Ev (CacheSet c) _ => ∃ bi mi cc d, data c = Stats.make_stats bi mi cc d
  | _ => True
  end.

(** A handler's execution: it does not throw, answers once, and its events
    follow the policy. *)
Definition sound (cfg : config) (m : M unit) : Prop :=
  ∀ t r, exec m t r → r = Ok tt ∧ length (responses t) = 1%nat ∧ Forall (good_event cfg) t.

Ltac sound_step :=
  intros t r H; symex H; (split; [done|split; [done|]]);
  repeat (apply Forall_cons; split); try apply Forall_nil_2; simpl; eauto.

Section handlers.
Variable cfg : config.

Lemma register_sound rq : sound cfg (register rq).
Proof. unfold register. sound_step. Qed.

Lemma login_sound rq : sound cfg (login cfg rq).
Proof. unfold login, sign_access, sign_refresh. sound_step. Qed.

Lemma refresh_sound rq : sound cfg (refresh cfg rq).
Proof. unfold refresh, sign_access. sound_step. Qed.

Lemma me_sound rq : sound cfg (me rq).
Proof. unfold me. sound_step. Qed.

Lemma subscribe_sound rq : sound cfg (Newsletter.subscribe rq).
Proof. unfold Newsletter.subscribe. sound_step. Qed.
Lemma submit_sound rq : sound cfg (Contact.submit rq).
Proof. unfold Contact.submit. sound_step. Qed.

Lemma list_all_sound rq : sound cfg (Downloads.list_all rq).
Proof. unfold Downloads.list_all. sound_step. Qed.

Lemma add_sound rq : sound cfg (Downloads.add rq).
Proof. unfold Downloads.add. sound_step. Qed.

Lemma remove_sound rq : sound cfg (Downloads.remove rq).
Proof. unfold Downloads.remove. sound_step. Qed.

(** A call passes the policy when its method is on the list. *)
Lemma good_fetch name params x :
  toLowerCase name ∈ Rpc.ALLOWED_METHODS →
  good_event cfg (Ev (Fetch (url (hyliumRpc cfg)) (rpc_init cfg (JStr name) params)) x).
Proof. simpl. eauto. Qed.

Lemma proxy_sound rq : sound cfg (Rpc.proxy cfg rq).
Proof.
  unfold Rpc.proxy, Rpc.callRpc. intros t r H. symex H; (split; [done|split; [done|]]);
    repeat (apply Forall_cons; split); try apply Forall_nil_2; try done.
  all: match goal with
       | Hl : Rpc.lower_method ?v = Ok _, Hb : negb _ = false |- _ =>
           apply negb_false_iff, bool_decide_eq_true in Hb;
           destruct v; try discriminate Hl; injection Hl as <-; by apply good_fetch
       end.
Qed.

(** The events of the calls to the node. *)
Definition node_event (e : event) : Prop :=
  match e with
  | Ev (Fetch _ _) _ => good_event cfg e
  | Ev (RespJson _) _ => True
  | _ => False
  end.

Lemma call_or_null_node method t r :
  toLowerCase method ∈ Rpc.ALLOWED_METHODS → exec (Stats.call_or_null cfg method) t r →
  Forall node_event t.
Proof.
  unfold Stats.call_or_null, Stats.callRpc. intros Hm H. symex H;
    repeat (apply Forall_cons; split); try apply Forall_nil_2; simpl; eauto 6.
Qed.

Lemma fetch_all_node t r : exec (Stats.fetch_all cfg) t r → Forall node_event t.
Proof.
  intros (ta & tb & tc & tbc & x & y & z & Ha & Hb & Hc & Hs1 & Hs2 & _)%promise_all3_exec.
  apply call_or_null_node in Ha; [|by apply (bool_decide_eq_true_1 _)].
  apply call_or_null_node in Hb; [|by apply (bool_decide_eq_true_1 _)].
  apply call_or_null_node in Hc; [|by apply (bool_decide_eq_true_1 _)].
  eapply shuffle_Forall; [done|]. repeat constructor; [done|].
  eapply shuffle_Forall; [done|]. by repeat constructor.
Qed.

(** The statistics handler only reads the clock and its cache, asks the node
    and answers. *)
Lemma get_stats_Forall (Q : event → Prop) rq t r :
  (∀ e, node_event e → Q e) → (∀ c, Q (Ev CacheGet c)) → (∀ n, Q (Ev DateNow n)) →
  (∀ bi mi cc d n, Q (Ev (CacheSet (StatsCache (Stats.make_stats bi mi cc d) n)) tt)) →
  (∀ st b, Q (Ev (Respond st b) tt)) →
  exec (Stats.get_stats cfg rq) t r → Forall Q t.
Proof.
  intros Hn Hg Hd Hs Hr [_ H]%get_stats_exec.
  destruct H as [c now Hlt|t0 t1 bi mi cc d now Ht0 Hf]; [by repeat constructor|].
  apply Forall_app. split; [destruct Ht0 as [->|(c & n & -> & _)]; by repeat constructor|].
  apply Forall_app. split; [|by repeat constructor].
  eapply Forall_impl; [by eapply fetch_all_node|done].
Qed.

Lemma get_stats_sound rq : sound cfg (Stats.get_stats cfg rq).
Proof.
  intros t r Hx. apply get_stats_exec in Hx as Hrun. destruct Hrun as [-> H]. split_and!; [done| |].
  - destruct H as [c now Hlt|t0 t1 bi mi cc d now Ht0 Hf%fetch_all_node]; [done|].
    rewrite !responses_app, (responses_nil t1).
    + by destruct Ht0 as [->|(c & n & -> & _)].
    + eapply Forall_impl; [done|]. by intros [[] ?].
  - eapply get_stats_Forall; [| | | | |exact Hx]; try done; [by intros [[] ?]|]. simpl. eauto.
Qed.
End handlers.

(** ** Induction over the layers *)

Section app_induction.
Context `{X : Express} {XL : ExpressLaws X}.

(** A property of the executions that may depend on the Authorization header. *)
Variable R : option string → trace → Prop.

Definition holds (h : option string) (p : prog unit) : Prop := ∀ t a, exec p t a → R h t.

Definition next_ok (h : option string) (next : nextfn) : Prop :=
  ∀ e rq, rq_authorization rq = h → holds h (next e rq).

(** A middleware carries [R] from [next] to itself, and does not throw. *)
Definition mw_ok (f : mw) : Prop :=
  ∀ rq next, next_ok (rq_authorization rq) next →
  ∀ t r, exec (f rq next) t r → r = Ok tt ∧ R (rq_authorization rq) t.

Definition handler_ok (h : request → M unit) : Prop :=
  ∀ rq t r, exec (h rq) t r → r = Ok tt ∧ R (rq_authorization rq) t.

Definition stack_ok (fs : list handler) : Prop :=
  ∀ rq out, next_ok (rq_authorization rq) out → holds (rq_authorization rq) (run_stack fs rq out).

Fixpoint layer_ok (l : layer) : Prop :=
  match l with
  | Use fs | Route _ _ fs => stack_ok fs
  | Mount _ fs r =>
      stack_ok fs ∧
      (fix go (r : list layer) : Prop :=
         match r with [] => True | l :: r' => layer_ok l ∧ go r' end) r
  | ErrorUse f => ∀ e, mw_ok (f e)
  end.

Definition layers_ok (ls : list layer) : Prop := Forall layer_ok ls.

(** Running a list of layers with a given continuation, or leaving it for the
    error handlers. *)
Definition closes (h : option string) (ls : list layer) (out : nextfn) : Prop :=
  ∀ rq, rq_authorization rq = h →
  holds h (run_layers ls rq out) ∧ ∀ e, holds h (to_error_handler ls e rq out).

Lemma mount_ok p fs r : layer_ok (Mount p fs r) ↔ stack_ok fs ∧ layers_ok r.
Proof.
  unfold layers_ok. simpl. f_equiv. induction r as [|l r IH].
  - split; [constructor|done].
  - by rewrite Forall_cons, <- IH.
Qed.

Lemma stack_nil_ok : stack_ok [].
Proof. intros rq out Hout t a H. rewrite stack_nil in H. by eapply Hout. Qed.

Lemma stack_sync_ok f fs : mw_ok f → stack_ok fs → stack_ok (Sync f :: fs).
Proof.
  intros Hf Hfs rq out Hout t a H. rewrite stack_sync in H.
  apply exec_pbind in H as (r & t1 & t2 & -> & H1 & H2).
  apply Hf in H1 as [-> HR].
  - destruct H2 as [-> _]. by rewrite app_nil_r.
  - intros [e|] rq' Hh; [by apply Hout|]. rewrite <- Hh in *. by apply Hfs.
Qed.

Lemma stack_async_ok h fs : handler_ok h → stack_ok (Async h :: fs).
Proof.
  intros Hh rq out _ t a H. rewrite stack_async in H.
  apply exec_pbind in H as (r & t1 & t2 & -> & [-> HR]%Hh & [-> _]). by rewrite app_nil_r.
Qed.

Lemma closes_nil h out : next_ok h out → closes h [] out.
Proof.
  intros Hout rq Hh. rewrite layers_nil. split; [by apply Hout|]. intros e. by apply Hout.
Qed.

(** [next] after a layer. *)
Lemma closes_next h ls out :
  closes h ls out →
  next_ok h (λ e rq, match e with
                     | None => run_layers ls rq out
                     | Some e => to_error_handler ls e rq out
                     end).
Proof. intros H [e|] rq Hh; by apply H. Qed.

Lemma closes_error_cons l ls h e rq out :
  layer_ok l → closes h ls out → rq_authorization rq = h →
  holds h (to_error_handler (l :: ls) e rq out).
Proof.
  intros Hl Hls Hh. destruct l as [fs|p fs r|verb p fs|f]; simpl; try by apply Hls.
  intros t a (r & t1 & t2 & -> & H1 & H2)%exec_pbind. simpl in Hl. subst h.
  apply Hl in H1 as [-> HR].
  - destruct H2 as [-> _]. by rewrite app_nil_r.
  - intros e' rq' Hh. by apply Hls.
Qed.

Lemma closes_cons l : layer_ok l → ∀ h ls out, closes h ls out → closes h (l :: ls) out.
Proof.
  induction l as [fs|p fs r IHr|verb p fs|f] using layer_ind; intros Hl h ls out Hls rq Hh;
    (split; [|intros e; by apply closes_error_cons]); subst h.
  - rewrite layers_use. apply Hl. by apply closes_next.
  - apply mount_ok in Hl as [Hfs Hr]. destruct (match_mount p (rq_path rq)) as [rest|] eqn:Hm;
      [|rewrite layers_mount_no by done; by apply Hls].
    rewrite (layers_mount _ _ _ _ _ _ _ Hm). apply Hfs.
    intros [e|] rq' Hh; [by apply Hls|].
    assert (Hrr : ∀ h out, next_ok h out → closes h r out).
    { clear -IHr Hr XL. intros h out Hout. induction Hr as [|l r Hl Hr IH].
      - by apply closes_nil.
      - apply Forall_cons in IHr as [Hl' IHr']. apply Hl'; [done|]. by apply IH. }
    apply Hrr; [|done]. intros e' rq'' Hh'. by apply (closes_next _ ls out Hls e').
  - destruct (matches_method verb (rq_method rq)) eqn:Hv; [|rewrite layers_route_no by auto; by apply Hls].
    destruct (match_route p (rq_path rq)) as [ps|] eqn:Hm;
      [|rewrite layers_route_no by auto; by apply Hls].
    rewrite (layers_route _ _ _ _ _ _ _ Hv Hm).
    apply (Hl (set_params ps rq)). by apply closes_next.
  - rewrite layers_error. by apply Hls.
Qed.

Lemma closes_app ls1 ls2 h out : layers_ok ls1 → closes h ls2 out → closes h (ls1 ++ ls2) out.
Proof. intros H1 H2. induction H1 as [|l ls1 Hl _ IH]; [done|]. by apply closes_cons. Qed.
End app_induction.

(** ** Policies *)

(** Events of the middleware that no policy is about. *)
Definition neutral (e : event) : Prop :=
  match e with
  | Ev (ForeignCall _ _) _ | Ev (ZodParse _ _) _ | Ev (JwtVerify _ _) _
  | Ev DateNow _ | Ev (ConsoleError _ _) _ => True
  | _ => False
  end.

Class Policy (R : option string → trace → Prop) := {
  policy_one h st body : R h [Ev (Respond st body) tt];
  policy_cons h e t : neutral e → R h t → R h (e :: t);
}.

Section app_policy.
Context `{X : Express} {XL : ExpressLaws X} `{P : Packages} {PL : PackagesLaws P}.
Variable cfg : config.
Context (R : option string → trace → Prop) {HR : Policy R}.

Lemma policy_foreign h t0 t1 : Forall foreign_event t0 → R h t1 → R h (t0 ++ t1).
Proof.
  intros Hf H1. induction Hf as [|e t0 He _ IH]; [done|]. apply policy_cons; [|done].
  by destruct e as [[] ?].
Qed.

Lemma well_behaved_ok f : well_behaved f → mw_ok R f.
Proof.
  intros Hf rq next Hn t r [-> [(t0 & st & b & -> & H0)|(e & rq' & t0 & t1 & -> & H0 & H1 & Hh)]]%Hf;
    (split; [done|]); apply policy_foreign; try done; [apply policy_one|].
  by eapply Hn.
Qed.

Lemma validate_ok sc : mw_ok R (validate sc).
Proof.
  intros rq next Hn t r H. unfold validate in H.
  apply exec_try in H as [(a & -> & H)|(e & t1 & t2 & -> & H & H2)];
    apply exec_bind in H as [(v & u1 & u2 & -> & H & H3)|(e' & He & H)]; simplify_eq.
  - symex H. apply exec_lift in H3 as (a' & [= ->] & H3). destruct a'. split; [done|].
    apply policy_cons; [done|]. by eapply Hn.
  - by apply exec_lift in H3 as (a' & ? & _).
  - symex H. destruct e' as [| |errors|]; simpl in H2;
      try (apply exec_lift in H2 as ([] & -> & H2); split; [done|];
           apply policy_cons; [done|]; by eapply Hn).
    symex H2. split; [done|]. apply policy_cons; [done|]. apply policy_one.
Qed.

Lemma authenticate_ok : mw_ok R (authenticate cfg).
Proof.
  intros rq next Hn t r H. unfold authenticate in H.
  destruct (rq_authorization rq) as [hd|] eqn:Hh; [|symex H; split; [done|apply policy_one]].
  destruct (negb _ && _); [|symex H; split; [done|apply policy_one]].
  apply exec_try in H as [(a & -> & H)|(e & t1 & t2 & -> & H & H2)].
  - symex H. apply exec_lift in H as (a' & [= ->] & H). destruct a'. split; [done|].
    apply policy_cons; [done|]. eapply Hn; [|exact H]. exact Hh.
  - symex H2. symex H; try (split; [done|]; apply policy_cons; [done|]; apply policy_one).
    by apply exec_lift in H as (a' & ? & _).
Qed.

Lemma requireAdmin_ok : mw_ok R requireAdmin.
Proof.
  intros rq next Hn t r H. unfold requireAdmin in H. case_bool_decide.
  - apply exec_lift in H as ([] & -> & H). split; [done|]. by eapply Hn.
  - symex H. split; [done|apply policy_one].
Qed.

Lemma health_ok : mw_ok R health.
Proof.
  intros rq next _ t r H. unfold health in H. symex H. split; [done|].
  apply policy_cons; [done|]. apply policy_one.
Qed.

Lemma final_closes h out : closes R h [Use [Sync not_found]; ErrorUse error_handler] out.
Proof.
  intros rq Hh. split.
  - rewrite layers_use, stack_sync. intros t a H. symex H. apply policy_one.
  - intros e t a H. symex H. apply policy_cons; [done|]. apply policy_one.
Qed.

(** A handler behind a schema: it is enough that it keeps the policy after the
    body was accepted. *)
Lemma validate_stack_ok sc h :
  (∀ rq y t r, exec (h rq) t r → r = Ok tt ∧
     R (rq_authorization rq) (Ev (ZodParse sc (rq_body rq)) (Ok y) :: t)) →
  stack_ok R [Sync (validate sc); Async h].
Proof.
  intros Hh rq out Hout t a H. rewrite stack_sync in H.
  apply exec_pbind in H as (r & t1 & t2 & -> & H1 & H2). unfold validate in H1.
  apply exec_try in H1 as [(u & -> & H1)|(e & u1 & u2 & -> & H1 & H3)];
    apply exec_bind in H1 as [(v & v1 & v2 & -> & Hz & H1)|(e' & He & Hz)]; simplify_eq.
  - destruct H2 as [-> _]. rewrite app_nil_r. symex Hz.
    apply exec_lift in H1 as (a' & _ & H1). rewrite stack_async in H1.
    apply exec_pbind in H1 as (r & w1 & w2 & -> & [-> Hc]%(Hh rq v) & [-> _]). by rewrite app_nil_r.
  - by apply exec_lift in H1 as (a' & ? & _).
  - symex Hz. destruct e' as [| |errors|]; cbn [app] in *.
    3: { symex H3. symex H2. apply policy_cons; [done|]. apply policy_one. }
    all: apply exec_lift in H3 as ([] & -> & H3); destruct H2 as [-> _]; rewrite app_nil_r;
      (apply policy_cons; [done|]); by eapply Hout.
Qed.

#[local] Hint Resolve well_behaved_ok validate_ok authenticate_ok requireAdmin_ok health_ok
  stack_sync_ok stack_async_ok stack_nil_ok
  helmet_law cors_law rate_limit_law body_json_law body_urlencoded_law : hyl.

(** A policy that every route keeps is kept by the application. *)
Lemma app_policy_routes :
  stack_ok R [Sync (validate register_schema); Async register] →
  stack_ok R [Sync (validate login_schema); Async (login cfg)] →
  stack_ok R [Async (refresh cfg)] → stack_ok R [Sync (authenticate cfg); Async me] →
  stack_ok R [Sync (validate newsletter_schema); Async Newsletter.subscribe] →
  stack_ok R [Sync (validate contact_schema); Async Contact.submit] →
  stack_ok R [Async Downloads.list_all] → stack_ok R (Downloads.add_stack cfg) →
  stack_ok R (Downloads.remove_stack cfg) →
  stack_ok R [Sync (validate rpc_schema); Async (Rpc.proxy cfg)] →
  stack_ok R [Async (Stats.get_stats cfg)] →
  ∀ rq out t a, exec (run_layers (app cfg) rq out) t a → R (rq_authorization rq) t.
Proof.
  intros ??????????? rq out. apply (closes_app _ (take 12 (app cfg)) (drop 12 (app cfg)));
    [|apply final_closes|done].
  unfold layers_ok, app. cbn [take].
  repeat (apply Forall_cons; split); try apply Forall_nil_2; cbn [layer_ok auth_router
    Newsletter.router Contact.router Downloads.router Rpc.router Stats.router];
    unfold limiter, authLimiter; split_and?; try exact I; eauto 8 with hyl.
Qed.

(** It is enough that the handlers keep it. *)
Lemma app_policy :
  handler_ok R register → handler_ok R (login cfg) → handler_ok R (refresh cfg) →
  handler_ok R me → handler_ok R Newsletter.subscribe → handler_ok R Contact.submit →
  handler_ok R Downloads.list_all → handler_ok R (Rpc.proxy cfg) →
  handler_ok R (Stats.get_stats cfg) →
  stack_ok R (Downloads.add_stack cfg) → stack_ok R (Downloads.remove_stack cfg) →
  ∀ rq out t a, exec (run_layers (app cfg) rq out) t a → R (rq_authorization rq) t.
Proof. intros. eapply app_policy_routes; eauto 8 with hyl. Qed.
End app_policy.

(** ** Every execution of the application: one answer, allowed events *)

Section app_sound.
Context `{X : Express} {XL : ExpressLaws X} `{P : Packages} {PL : PackagesLaws P}.
Variable cfg : config.

Definition sound_trace (_ : option string) (t : trace) : Prop :=
  length (responses t) = 1%nat ∧ Forall (good_event cfg) t.

#[export] Instance sound_policy : Policy sound_trace.
Proof.
  split.
  - intros h st body. split; [done|]. by repeat constructor.
  - intros h [o x] t He [H1 H2]. split; [by destruct o|]. constructor; [by destruct o|done].
Qed.

Lemma handler_sound_ok h : (∀ rq, sound cfg (h rq)) → handler_ok sound_trace h.
Proof. intros Hh rq t r (-> & ? & ?)%Hh. done. Qed.

#[local] Hint Resolve handler_sound_ok register_sound login_sound refresh_sound me_sound
  subscribe_sound submit_sound list_all_sound add_sound remove_sound proxy_sound
  get_stats_sound stack_sync_ok stack_async_ok authenticate_ok requireAdmin_ok
  validate_ok sound_policy : hyl.

Lemma app_sound rq out t a :
  exec (run_layers (app cfg) rq out) t a → sound_trace (rq_authorization rq) t.
Proof.
  apply app_policy; [apply sound_policy|..];
    unfold Downloads.add_stack, Downloads.remove_stack; eauto 10 with hyl.
Qed.
End app_sound.

(** ** Downloads are changed by administrators only *)

Section admin.
Context `{X : Express} {XL : ExpressLaws X} `{P : Packages} {PL : PackagesLaws P}.
Variable cfg : config.

Definition download_write (e : event) : Prop :=
  match e with
  | Ev (DbCreate MDownload _) _ | Ev (DbDelete _ _) _ => True
  | _ => False
  end.

(** The bearer token of the request has been verified with the access secret,
    and its payload carries the role ADMIN. *)
Definition admin_verified (h : option string) (t : trace) : Prop :=
  ∃ hd payload, h = Some hd ∧ startsWith hd "Bearer " = true ∧
    Ev (JwtVerify (bearer_token hd) (secret (jwt cfg))) (Ok payload) ∈ t ∧
    prop payload "role" = Ok (JStr "ADMIN").

Definition guarded (h : option string) (t : trace) : Prop :=
  ∀ t1 e t2, t = t1 ++ e :: t2 → download_write e → admin_verified h t1.

Lemma guarded_none h t : Forall (λ e, ¬ download_write e) t → guarded h t.
Proof. intros Ht t1 e t2 -> He. apply Forall_app in Ht as [_ [Hn _]%Forall_cons]. done. Qed.

Lemma guarded_verified h hd payload t :
  h = Some hd → startsWith hd "Bearer " = true → prop payload "role" = Ok (JStr "ADMIN") →
  guarded h (Ev (JwtVerify (bearer_token hd) (secret (jwt cfg))) (Ok payload) :: t).
Proof.
  intros -> Hs Hr [|e1 t1] e t2 Heq He; simplify_eq/=; [done|].
  exists hd, payload. split_and!; try done. set_solver.
Qed.

#[export] Instance guarded_policy : Policy guarded.
Proof.
  split.
  - intros h st body. apply guarded_none. apply Forall_singleton. by intros [].
  - intros h e t He Ht [|e1 t1] e' t2 Heq Hw; simplify_eq/=; [by destruct e' as [[] ?]|].
    destruct (Ht _ _ _ eq_refl Hw) as (hd & pl & ? & ? & ? & ?).
    exists hd, pl. split_and!; try done. set_solver.
Qed.

Ltac no_write := intros rq t r H; symex H; (split; [done|]); apply guarded_none;
  repeat (apply Forall_cons; split); try apply Forall_nil_2; by intros [].

Lemma register_guarded : handler_ok guarded register.
Proof. unfold register. no_write. Qed.
Lemma login_guarded : handler_ok guarded (login cfg).
Proof. unfold login, sign_access, sign_refresh. no_write. Qed.
Lemma refresh_guarded : handler_ok guarded (refresh cfg).
Proof. unfold refresh, sign_access. no_write. Qed.
Lemma me_guarded : handler_ok guarded me.
Proof. unfold me. no_write. Qed.
Lemma subscribe_guarded : handler_ok guarded Newsletter.subscribe.
Proof. unfold Newsletter.subscribe. no_write. Qed.
Lemma submit_guarded : handler_ok guarded Contact.submit.
Proof. unfold Contact.submit. no_write. Qed.
Lemma list_all_guarded : handler_ok guarded Downloads.list_all.
Proof. unfold Downloads.list_all. no_write. Qed.
Lemma proxy_guarded : handler_ok guarded (Rpc.proxy cfg).
Proof. unfold Rpc.proxy, Rpc.callRpc. no_write. Qed.

Lemma get_stats_guarded : handler_ok guarded (Stats.get_stats cfg).
Proof.
  intros rq t r H. split; [by apply get_stats_exec in H as [-> _]|]. apply guarded_none.
  eapply get_stats_Forall; [|by intros ? []|by intros ? []|by intros ????? []|by intros ? ? []|exact H].
  by intros [[] ?] He Hw.
Qed.

(** Behind [authenticate] and [requireAdmin] everything is guarded. *)
Lemma admin_stack_ok fs : stack_ok guarded (Sync (authenticate cfg) :: Sync requireAdmin :: fs).
Proof.
  intros rq out Hout t a H. rewrite stack_sync in H.
  apply exec_pbind in H as (r & t1 & t2 & -> & H1 & H2). unfold authenticate in H1.
  destruct (rq_authorization rq) as [hd|] eqn:Hh;
    [|symex H1; symex H2; apply policy_one].
  destruct (negb _ && startsWith hd "Bearer ") eqn:Hs; [|symex H1; symex H2; apply policy_one].
  apply andb_true_iff in Hs as [_ Hs].
  apply exec_try in H1 as [(u & -> & H1)|(e & u1 & u2 & -> & H1 & H3)].
  - destruct H2 as [-> _]. rewrite app_nil_r. symex H1.
    apply exec_lift in H1 as (a' & _ & H1). rewrite stack_sync in H1.
    apply exec_pbind in H1 as (r & t3 & t4 & -> & H1 & H2). unfold requireAdmin in H1.
    case_bool_decide as Hr.
    + apply (guarded_verified _ hd); [done|done|]. simpl in Hr. by subst.
    + symex H1. symex H2. apply policy_cons; [done|]. apply policy_one.
  - symex H3. symex H2. symex H1; try (apply policy_cons; [done|]; apply policy_one).
    by apply exec_lift in H1 as (a' & ? & _).
Qed.

Lemma app_guarded rq out t a :
  exec (run_layers (app cfg) rq out) t a → guarded (rq_authorization rq) t.
Proof.
  apply app_policy; eauto using guarded_policy, register_guarded, login_guarded, refresh_guarded,
    me_guarded, subscribe_guarded, submit_guarded, list_all_guarded, proxy_guarded,
    get_stats_guarded, admin_stack_ok.
Qed.
End admin.

(** ** Properties *)

(** C2: every request gets exactly one response, on every path through every
    route (validation failures, exceptions of the database, of bcrypt, of the
    token library and of the node, unknown paths), no promise rejection is
    left unhandled, and this holds whatever the foreign code answers.  A
    second [res.json] would throw in Express and a missing one would leave the
    client waiting. *)
Theorem app_answers_once {X : Express} {XL : ExpressLaws X} {P : Packages} {PL : PackagesLaws P}
    cfg rq out t a :
  exec (run_layers (app cfg) rq out) t a →
  length (responses t) = 1%nat ∧ ∀ e x, Ev (UnhandledRejection e) x ∉ t.
Proof.
  intros [H1 H2]%app_sound. split; [done|]. intros e x Hin.
  rewrite Forall_forall in H2. exact (H2 _ Hin).
Qed.

Lemma app_answers_once_witness :
  let p := run_layers (app default_config)
             (simple_request "POST" "/api/auth/refresh" None (JObj [])) no_next in
  responses (run p ref_sys).1.2 = [(401%Z, error_json "Refresh token required")] ∧
  length (responses (run p ref_sys).1.2) = 1%nat.
Proof.
  split; [vm_compute; reflexivity|].
  apply (app_answers_once default_config
    (simple_request "POST" "/api/auth/refresh" None (JObj [])) no_next _ _ (run_is_exec _ ref_sys)).
Defined.

(** C12: whatever is asked of the server, it calls the node only at the
    configured URL, only with the configured credentials (the Authorization
    header decodes to [user:pass]) and only with a JSON-RPC body whose method
    is, in lower case, one of [ALLOWED_METHODS]. *)
Theorem app_node_calls {X : Express} {XL : ExpressLaws X} {P : Packages} {PL : PackagesLaws P}
    cfg rq out t a u init x :
  exec (run_layers (app cfg) rq out) t a → Ev (Fetch u init) x ∈ t →
  u = url (hyliumRpc cfg) ∧ fi_method init = "POST" ∧
  (∃ cred, assoc "Authorization" (fi_headers init) = Some ("Basic " +:+ cred) ∧
     unbase64 cred = Some (user (hyliumRpc cfg) +:+ ":" +:+ pass (hyliumRpc cfg))) ∧
  ∃ name params,
    fi_body init = stringify (JObj [("jsonrpc", JStr "1.0"); ("id", JStr "hylium-web");
                                    ("method", JStr name); ("params", params)]) ∧
    toLowerCase name ∈ Rpc.ALLOWED_METHODS.
Proof.
  intros [_ H2]%app_sound Hin. rewrite Forall_forall in H2.
  destruct (H2 _ Hin) as (-> & name & params & -> & Hm). unfold rpc_init.
  destruct (hyliumRpc cfg) as [u0 user0 pass0]. cbn [fi_method fi_headers fi_body user pass url].
  split; [done|]. split; [done|]. split; [|by exists name, params].
  exists (base64 (user0 +:+ ":" +:+ pass0)). split; [done|]. apply unbase64_base64.
Qed.

Lemma app_node_calls_witness :
  let p := run_layers (app default_config) (simple_request "POST" "/api/rpc" None
             (JObj [("method", JStr "GetBlockCount")])) no_next in
  ∃ init x, Ev (Fetch (url (hyliumRpc default_config)) init) x ∈ (run p ref_sys).1.2 ∧
            fi_method init = "POST".
Proof.
  intros p.
  assert (Hin : Ev (Fetch (url (hyliumRpc default_config))
            (rpc_init default_config (JStr "GetBlockCount") (JArr [])))
            (Throw (EForeign "fetch failed")) ∈ (run p ref_sys).1.2).
  { vm_compute. right. right. left. }
  exists (rpc_init default_config (JStr "GetBlockCount") (JArr [])), (Throw (EForeign "fetch failed")).
  split; [exact Hin|].
  apply (app_node_calls default_config _ no_next _ _ _ _ _ (run_is_exec p ref_sys) Hin).
Defined.

(** C3: a row of the Download table is created, and anything is deleted, only
    after the bearer token of that very request has been verified with the
    access secret and found to carry the role ADMIN. *)
Theorem app_admin_only {X : Express} {XL : ExpressLaws X} {P : Packages} {PL : PackagesLaws P}
    cfg rq out t a t1 e t2 :
  exec (run_layers (app cfg) rq out) t a → t = t1 ++ e :: t2 → download_write e →
  admin_verified cfg (rq_authorization rq) t1.
Proof. intros H%app_guarded -> Hw. by eapply H. Qed.

Lemma app_admin_only_witness :
  let rq := simple_request "DELETE" "/api/downloads/42" (Some "Bearer t") JUndef in
  let t := (run (run_layers (app default_config) rq no_next) (Sys None admin_world)).1.2 in
  ∃ t1 e t2, t = t1 ++ e :: t2 ∧ download_write e ∧
    admin_verified default_config (Some "Bearer t") t1.
Proof.
  intros rq t.
  exists (take 2 t), (Ev (DbDelete MDownload [("id", JStr "42")]) (Ok (JObj [("id", JStr "42")]))),
    (drop 3 t).
  assert (Ht : t = take 2 t ++ Ev (DbDelete MDownload [("id", JStr "42")])
                     (Ok (JObj [("id", JStr "42")])) :: drop 3 t) by (vm_compute; reflexivity).
  split; [exact Ht|]. split; [exact I|].
  apply (app_admin_only default_config rq no_next t _ _ _ _ (run_is_exec _ _) Ht I).
Defined.
