(* ===== verification/Concurrency.v ===== *)
(** * Invariants under concurrency

    The server handles requests concurrently: their executions interleave at
    every call.  An interleaving of executions of the application, replayed
    against the shared database, is any run of the server on any number of
    requests.  The invariants here hold for all of them. *)

From S2P Require Import Prelude JsValue Effects Foreign Http Config Validate AuthMw AuthRoutes ContentRoutes RpcRoutes App AppSafety Reference.

(** ** Runs of the server *)

Section server.
Context {X : Express} {P : Packages} {E : Env}.

(** [u] interleaves one execution of the application per request. *)
Definition server_trace (cfg : config) (out : nextfn) (rqs : list request) (u : trace) : Prop :=
  ∃ ts, Forall2 (λ rq t, ∃ a, exec (run_layers (app cfg) rq out) t a) rqs ts ∧ shuffle ts u.

(** From state [s] the server can be in state [s'] after the requests. *)
Definition serves (cfg : config) (out : nextfn) (rqs : list request) (s s' : sys E) : Prop :=
  ∃ u, server_trace cfg out rqs u ∧ replays s u s'.

(** Handling the requests one after the other. *)
Fixpoint run_all (cfg : config) (out : nextfn) (rqs : list request) (s : sys E) : list trace * sys E :=
  match rqs with
  | [] => ([], s)
  | rq :: rqs' =>
      let '(_, t, s1) := run (run_layers (app cfg) rq out) s in
      let '(ts, s2) := run_all cfg out rqs' s1 in (t :: ts, s2)
  end.
End server.

(** No two rows of a table agree on a unique column. *)
Definition no_conflicts (m : model) (rows : list jsobj) : Prop :=
  StronglySorted (λ r1 r2, ¬ conflict m r1 r2) rows.

(** A registration whose body asks for a role. *)
Definition escalation_request : request :=
  simple_request "POST" "/api/auth/register" None
    (JObj [("email", JStr "eve@example.org"); ("password", JStr "12345678"); ("role", JStr "ADMIN")]).

(** ** Tables along an execution *)

Section tables.
Context {E : Env} {PL : PrismaLaws E}.
Implicit Types s : sys E.

Definition rows s (m : model) : list jsobj := tbl E (ext s) m.

Lemma perform_ext o s :
  ext (perform o s).2 = ext s ∨
  ext (perform o s).2 = after E o (ext s) ∧ (perform o s).1 = answer E o (ext s).
Proof. unfold perform, after, answer. destruct o; try (by left); right; by destruct (handle _ _). Qed.

(** What one allowed event does to a table. *)
Lemma perform_rows cfg o s m :
  good_event cfg (Ev o (perform o s).1) →
  rows (perform o s).2 m = rows s m ∨
  (∃ dat r, o = DbCreate m dat ∧ new_row m dat r ∧ Forall (λ r0, ¬ conflict m r0 r) (rows s m) ∧
     rows (perform o s).2 m = rows s m ++ [r]) ∨
  (m = MDownload ∧ ∃ l1 r l2, rows s m = l1 ++ r :: l2 ∧ rows (perform o s).2 m = l1 ++ l2).
Proof.
  intros Hg. unfold rows. destruct (perform_ext o s) as [->|[-> Hans]]; [by left|].
  destruct (writes_db o) eqn:Hw; [|left; by apply tbl_frame].
  destruct o as [| |m' dat|m' wh| | | | | | | | | | | | | |]; try discriminate Hw.
  - pose proof (create_law E m' dat (ext s)) as Hl.
    destruct (answer E (DbCreate m' dat) (ext s)) as [v|]; [|left; apply Hl].
    destruct Hl as (r & -> & Hnew & Hc & Hm & Hother).
    destruct (decide (m = m')) as [->|Hne]; [|left; by apply Hother].
    right; left. by exists dat, r.
  - simpl in Hg. subst m'. pose proof (delete_law E MDownload wh (ext s)) as Hl.
    destruct (answer E (DbDelete MDownload wh) (ext s)) as [v|]; [|left; apply Hl].
    destruct Hl as (l1 & r & l2 & -> & _ & H1 & H2 & Hother).
    destruct (decide (m = MDownload)) as [->|Hne]; [|left; by apply Hother].
    right; right. split; [done|]. by exists l1, r, l2.
Qed.

Lemma no_conflicts_snoc m l r :
  no_conflicts m l → Forall (λ r0, ¬ conflict m r0 r) l → no_conflicts m (l ++ [r]).
Proof.
  unfold no_conflicts. induction 1 as [|r0 l Hl IH Hall]; simpl; intros Hr.
  - by repeat constructor.
  - apply Forall_cons in Hr as [H0 Hr]. constructor; [by apply IH|]. by apply Forall_snoc.
Qed.

Lemma no_conflicts_delete m l1 r l2 : no_conflicts m (l1 ++ r :: l2) → no_conflicts m (l1 ++ l2).
Proof.
  unfold no_conflicts. induction l1 as [|r1 l1 IH]; simpl; intros H.
  - by inversion_clear H.
  - apply StronglySorted_inv in H as [H1 H2]. constructor; [by apply IH|].
    apply Forall_app in H2 as [? [_ ?]%Forall_cons]. by apply Forall_app.
Qed.

Lemma no_conflicts_kept cfg m o s :
  good_event cfg (Ev o (perform o s).1) → no_conflicts m (rows s m) →
  no_conflicts m (rows (perform o s).2 m).
Proof.
  intros Hg Hc.
  destruct (perform_rows cfg o s m Hg) as [->|[(dat & r & _ & _ & Hn & ->)|[_ (l1 & r & l2 & Hr & ->)]]].
  - done.
  - by apply no_conflicts_snoc.
  - rewrite Hr in Hc. by eapply no_conflicts_delete.
Qed.

Lemma row_typed_kept cfg m o s :
  good_event cfg (Ev o (perform o s).1) → Forall (row_typed m) (rows s m) →
  Forall (row_typed m) (rows (perform o s).2 m).
Proof.
  intros Hg Hc.
  destruct (perform_rows cfg o s m Hg) as [->|[(dat & r & _ & [Hn _] & _ & ->)|[_ (l1 & r & l2 & Hr & ->)]]].
  - done.
  - by apply Forall_snoc.
  - rewrite Hr in Hc. apply Forall_app in Hc as [? [_ ?]%Forall_cons]. by apply Forall_app.
Qed.

(** A row is determined by a unique column. *)
Lemma no_conflicts_unique m l r1 r2 k :
  no_conflicts m l → r1 ∈ l → r2 ∈ l → k ∈ unique_columns m → assoc k r1 = assoc k r2 → r1 = r2.
Proof.
  intros Hl H1 H2 Hk Heq. assert (Hc : conflict m r1 r2 ∧ conflict m r2 r1).
  { split; apply Exists_exists; by exists k. }
  destruct Hc as [Hc1 Hc2].
  clear Hk Heq. induction Hl as [|r l Hl IH Hall]; [by inversion H1|].
  rewrite Forall_forall in Hall.
  apply elem_of_cons in H1 as [->|H1], H2 as [->|H2]; [done| | |auto].
  - by destruct (Hall r2 H2).
  - by destruct (Hall r1 H1).
Qed.

Lemma replays_reaches u s s' : replays s u s' → reaches E (ext s) (ext s').
Proof.
  revert s. induction u as [|[o x] u IH]; intros s; [intros ->; constructor|].
  intros [_ Hr]. destruct (perform_ext o s) as [He|[He _]]; [rewrite <- He; by apply IH|].
  eapply rtc_l; [|by apply IH]. by exists o.
Qed.
End tables.

Section invariants.
Context {X : Express} {XL : ExpressLaws X} {P : Packages} {PaL : PackagesLaws P}.
Context {E : Env} {PL : PrismaLaws E}.
Implicit Types s : sys E.

Lemma serves_good cfg out rqs u : server_trace cfg out rqs u → Forall (good_event cfg) u.
Proof.
  intros (ts & Hts & Hs). eapply shuffle_Forall; [exact Hs|].
  clear Hs. induction Hts as [|rq t rqs ts [a Ht] _ IH]; constructor; [|done].
  by apply app_sound in Ht as [_ ?].
Qed.

(** An invariant kept by every allowed event is kept by the server. *)
Lemma serves_invariant cfg out (Inv : sys E → Prop) rqs s s' :
  (∀ o s, good_event cfg (Ev o (perform o s).1) → Inv s → Inv (perform o s).2) →
  serves cfg out rqs s s' → Inv s → Inv s'.
Proof.
  intros Hstep (u & Hu%serves_good & Hr). by eapply replays_invariant.
Qed.
End invariants.

(** ** Helper lemmas *)

Section more.
Context {X : Express} {XL : ExpressLaws X} {P : Packages} {PaL : PackagesLaws P}.
Context {E : Env} {PL : PrismaLaws E}.
Implicit Types s : sys E.

(** Handling the requests one after the other is a run of the server. *)
Lemma run_all_execs cfg out rqs s :
  Forall2 (λ rq t, ∃ a, exec (run_layers (app cfg) rq out) t a) rqs (run_all cfg out rqs s).1.
Proof.
  revert s. induction rqs as [|rq rqs IH]; intros s; simpl; [constructor|].
  pose proof (run_is_exec (run_layers (app cfg) rq out) s) as He.
  destruct (run _ s) as [[a t] s1]. specialize (IH s1).
  destruct (run_all cfg out rqs s1) as [ts s2]. constructor; [by exists a|done].
Qed.

Lemma run_all_replays cfg out rqs s :
  replays s (concat (run_all cfg out rqs s).1) (run_all cfg out rqs s).2.
Proof.
  revert s. induction rqs as [|rq rqs IH]; intros s; simpl; [done|].
  pose proof (run_replays (run_layers (app cfg) rq out) s) as He.
  destruct (run _ s) as [[a t] s1]. specialize (IH s1).
  destruct (run_all cfg out rqs s1) as [ts s2]. simpl in *.
  apply replays_app. by exists s1.
Qed.

Lemma run_all_serves cfg out rqs s : serves cfg out rqs s (run_all cfg out rqs s).2.
Proof.
  exists (concat (run_all cfg out rqs s).1). split; [|apply run_all_replays].
  exists (run_all cfg out rqs s).1. split; [apply run_all_execs|apply shuffle_concat].
Qed.

Lemma replays_append_only cfg m u s s' :
  m ≠ MDownload → Forall (good_event cfg) u → replays s u s' → rows s m `prefix_of` rows s' m.
Proof.
  intros Hm. revert s. induction u as [|[o x] u IH]; intros s; simpl.
  - by intros _ ->.
  - intros [Hg Hu]%Forall_cons [<- Hr]. etrans; [|by apply IH].
    destruct (perform_rows cfg o s m Hg) as [->|[(dat & r & _ & _ & _ & ->)|[-> _]]]; [done| |done].
    by apply prefix_app_r.
Qed.
End more.

(** ** Properties *)

(** C11: no request, and no interleaving of any number of requests, creates an
    account with a role other than USER or changes the role of one.  Request
    bodies are not stripped of unknown keys ([validate] drops the parsed
    value), so this rests on the handlers naming the columns they write. *)
Theorem no_privilege_escalation {X : Express} {XL : ExpressLaws X} {P : Packages}
    {PaL : PackagesLaws P} {E : Env} {PL : PrismaLaws E} cfg out rqs (s s' : sys E) r :
  serves cfg out rqs s s' → r ∈ rows s' MUser →
  r ∈ rows s MUser ∨ assoc "role" r = Some (JStr "USER").
Proof.
  intros Hs. revert r.
  apply (serves_invariant cfg out (λ s', ∀ r, r ∈ rows s' MUser →
    r ∈ rows s MUser ∨ assoc "role" r = Some (JStr "USER")) rqs s s'); [|done|by left].
  intros o s1 Hg IH r.
  destruct (perform_rows cfg o s1 MUser Hg) as [->|[(dat & r' & -> & Hnew & _ & ->)|[? _]]];
    [apply IH| |done].
  intros [Hin| ->%list_elem_of_singleton]%elem_of_app; [by apply IH|]. right.
  destruct Hg as (email & hash & ->). by eapply new_row_default; [exact Hnew|set_solver|].
Qed.

Lemma no_privilege_escalation_witness :
  let s' := (run_all default_config no_next [escalation_request] ref_sys).2 in
  ∃ r, r ∈ rows s' MUser ∧ (r ∈ rows ref_sys MUser ∨ assoc "role" r = Some (JStr "USER")).
Proof.
  intros s'.
  assert (Hin : [("id", JStr "0"); ("email", JStr "eve@example.org"); ("password", JStr "$2a$12$12345678");
                 ("role", JStr "USER"); ("createdAt", JDate 0); ("updatedAt", JDate 0)] ∈ rows s' MUser).
  { vm_compute. left. }
  eexists. split; [exact Hin|].
  apply (no_privilege_escalation default_config no_next [escalation_request] ref_sys s' _
    (run_all_serves _ _ _ _) Hin).
Defined.

(** In every table the unique columns stay unique through every
    interleaving: checking for an existing row and creating one are two steps,
    and two requests may both pass the check before either creates. *)
Theorem unique_columns_stay_unique {X : Express} {XL : ExpressLaws X} {P : Packages}
    {PaL : PackagesLaws P} {E : Env} {PL : PrismaLaws E} cfg out rqs (s s' : sys E) m :
  serves cfg out rqs s s' → no_conflicts m (rows s m) → no_conflicts m (rows s' m).
Proof.
  apply (serves_invariant cfg out (λ s, no_conflicts m (rows s m))).
  intros o s1. apply no_conflicts_kept.
Qed.

Lemma unique_columns_stay_unique_witness :
  let s' := (run_all default_config no_next [escalation_request; escalation_request] ref_sys).2 in
  length (rows s' MUser) = 1%nat ∧ no_conflicts MUser (rows s' MUser).
Proof.
  split; [vm_compute; reflexivity|].
  apply (unique_columns_stay_unique default_config no_next [escalation_request; escalation_request]
    ref_sys _ MUser (run_all_serves _ _ _ _)). constructor.
Defined.

(** C17: accounts, subscriptions and messages are never changed or lost: the
    rows of these tables before any run of the server are, in order, the first
    rows after it. *)
Theorem tables_append_only {X : Express} {XL : ExpressLaws X} {P : Packages}
    {PaL : PackagesLaws P} {E : Env} {PL : PrismaLaws E} cfg out rqs (s s' : sys E) m :
  m ≠ MDownload → serves cfg out rqs s s' → rows s m `prefix_of` rows s' m.
Proof. intros Hm (u & Hu%serves_good & Hr). by eapply replays_append_only. Qed.

Lemma tables_append_only_witness :
  let s1 := (run_all default_config no_next [escalation_request] ref_sys).2 in
  let s2 := (run_all default_config no_next [escalation_request] s1).2 in
  rows s1 MUser ≠ [] ∧ rows s1 MUser `prefix_of` rows s2 MUser.
Proof.
  intros s1 s2. split; [vm_compute; discriminate|].
  apply (tables_append_only default_config no_next [escalation_request] s1 s2 MUser
    ltac:(discriminate) (run_all_serves _ _ _ _)).
Defined.

(** Through every interleaving each table keeps to the database schema:
    every row has exactly the columns of its model, in order, and each value
    has its column's type. *)
Theorem tables_well_typed {X : Express} {XL : ExpressLaws X} {P : Packages}
    {PaL : PackagesLaws P} {E : Env} {PL : PrismaLaws E} cfg out rqs (s s' : sys E) m :
  serves cfg out rqs s s' → Forall (row_typed m) (rows s m) → Forall (row_typed m) (rows s' m).
Proof.
  apply (serves_invariant cfg out (λ s, Forall (row_typed m) (rows s m))).
  intros o s1. apply row_typed_kept.
Qed.

Lemma tables_well_typed_witness :
  let s' := (run_all default_config no_next [escalation_request] ref_sys).2 in
  rows s' MUser ≠ [] ∧ Forall (row_typed MUser) (rows s' MUser).
Proof.
  intros s'. split; [vm_compute; discriminate|].
  apply (tables_well_typed default_config no_next [escalation_request] ref_sys s' MUser
    (run_all_serves _ _ _ _)). constructor.
Defined.
