(* ===== verification/AuthFlow.v ===== *)
(** * Accounts and tokens: behaviour of the handlers

    The handlers of [AuthRoutes] run against an environment that follows the
    laws of [Foreign]: what they store, what they answer on each branch, and
    the round trips from registration to login to authenticated requests. *)

From S2P Require Import Prelude JsValue Effects Foreign Http Config Validate AuthMw AuthRoutes App AppSafety Concurrency Reference.

(** ** Specifications *)

Section spec.
Context {E : Env} {PL : PrismaLaws E}.
Implicit Types s : sys E.

Definition has_email (email : string) (r : jsobj) : Prop := assoc "email" r = Some (JStr email).

(** The three outcomes of a registration: what is answered and what happens to
    the tables. *)
Inductive register_post (email pw : string) s s' : Z * jsval → Prop :=
| register_taken r :
    r ∈ rows s MUser → has_email email r →
    (∀ m, rows s' m = rows s m) →
    register_post email pw s s' (400%Z, error_json "Email already registered")
| register_created r id h :
    Forall (λ r0, ¬ has_email email r0) (rows s MUser) →
    rows s' MUser = rows s MUser ++ [r] →
    (∀ m, m ≠ MUser → rows s' m = rows s m) →
    row_typed MUser r →
    assoc "id" r = Some (JStr id) →
    has_email email r →
    assoc "role" r = Some (JStr "USER") →
    assoc "password" r = Some (JStr h) →
    (∀ w, answer E (BcryptCompare (JStr pw) (JStr h)) w = Ok (JBool true)) →
    register_post email pw s s'
      (201%Z, JObj [("message", JStr "User created successfully"); ("userId", JStr id)])
| register_failed :
    (∀ m, rows s' m = rows s m) →
    register_post email pw s s' (500%Z, error_json "Internal server error").

Context {CL : ClockLaws E}.

(** [tok] is a token for the payload: issued between the worlds [w0] and [w1],
    it verifies under its own secret until [d] seconds have passed, and never
    under another one. *)
Definition token_for (tok : jsval) (p : jsobj) (secret : string) (d : Z) (w0 w1 : world) : Prop :=
  ∃ str, tok = JStr str ∧ str ≠ "" ∧ no_space str ∧
  ∀ w, reaches E w1 w →
    ((now E w / 1000 < now E w0 / 1000 + d)%Z →
       ∃ claims, answer E (JwtVerify tok secret) w = Ok (JObj (p ++ claims))) ∧
    ((now E w1 / 1000 + d ≤ now E w / 1000)%Z →
       ∃ x, answer E (JwtVerify tok secret) w = Throw x) ∧
    (∀ secret', secret' ≠ secret → ∃ x, answer E (JwtVerify tok secret') w = Throw x).

(** The outcomes of a login: an unknown address and a wrong password are
    answered alike. *)
Inductive login_post (cfg : config) (email pw : string) s s' : Z * jsval → Prop :=
| login_unknown :
    Forall (λ r, ¬ has_email email r) (rows s MUser) →
    login_post cfg email pw s s' (401%Z, error_json "Invalid credentials")
| login_wrong r h w v :
    r ∈ rows s MUser → has_email email r → assoc "password" r = Some (JStr h) →
    answer E (BcryptCompare (JStr pw) (JStr h)) w = Ok v → truthy v = false →
    login_post cfg email pw s s' (401%Z, error_json "Invalid credentials")
| login_granted r id role h w v access refresh :
    r ∈ rows s MUser → has_email email r → assoc "password" r = Some (JStr h) →
    answer E (BcryptCompare (JStr pw) (JStr h)) w = Ok v → truthy v = true →
    assoc "id" r = Some (JStr id) → assoc "role" r = Some (JStr role) →
    token_for access [("userId", JStr id); ("role", JStr role)] (secret (jwt cfg)) 900
      (ext s) (ext s') →
    token_for refresh [("userId", JStr id)] (refreshSecret (jwt cfg)) 604800 (ext s) (ext s') →
    login_post cfg email pw s s'
      (200%Z, JObj [("accessToken", access); ("refreshToken", refresh)])
| login_failed :
    login_post cfg email pw s s' (500%Z, error_json "Internal server error").

(** The outcomes of a refresh: the new access token carries the role the
    account has now; everything that goes wrong is a 401. *)
Inductive refresh_post (cfg : config) (token : jsval) s s' : Z * jsval → Prop :=
| refresh_missing :
    truthy token = false →
    refresh_post cfg token s s' (401%Z, error_json "Refresh token required")
| refresh_granted claims r id role access :
    answer E (JwtVerify token (refreshSecret (jwt cfg))) (ext s) = Ok claims →
    prop claims "userId" = Ok (JStr id) →
    r ∈ rows s MUser → assoc "id" r = Some (JStr id) → assoc "role" r = Some (JStr role) →
    token_for access [("userId", JStr id); ("role", JStr role)] (secret (jwt cfg)) 900
      (ext s) (ext s') →
    refresh_post cfg token s s' (200%Z, JObj [("accessToken", access)])
| refresh_denied :
    truthy token = true →
    refresh_post cfg token s s' (401%Z, error_json "Invalid refresh token").
End spec.

(** ** Registration *)

Section registration.
Context {E : Env} {PL : PrismaLaws E} {BL : BcryptLaws E}.
Implicit Types s : sys E.

Lemma register_post_holds rq email pw s r t s' :
  prop (rq_body rq) "email" = Ok (JStr email) →
  prop (rq_body rq) "password" = Ok (JStr pw) →
  run (register rq) s = (r, t, s') →
  ∃ resp, responses t = [resp] ∧ register_post email pw s s' resp.
Proof.
  intros He Hp [H Hr]%run_exec. unfold register in H. rewrite He, Hp in H.
  symex H; replay Hr; eexists; (split; [reflexivity|]).
  - answered find_unique_some as (r & Hin & Hm%row_matches_single & _); [|done].
    eapply register_taken; [exact Hin|exact Hm|]. intros m. unfold rows. simpl.
    by frame_tables.
  - answered hash_ok as (h & -> & Hcmp).
    answered create_ok as (r & -> & Hn & _ & Ht & Ho).
    destruct (new_row_uuid _ _ _ "id" Hn) as [id Hid]; [set_solver|done|].
    match goal with H : prop _ "id" = _ |- _ => unfold prop in H; rewrite Hid in H end. simplify_eq/=.
    eapply (register_created _ _ _ _ r id h); unfold rows; simpl; frame_tables.
    + answered find_unique_none as Hnone; [|done]. eapply Forall_impl; [exact Hnone|].
      intros r0. cbv beta. by rewrite row_matches_single.
    + rewrite Ht. by frame_tables.
    + intros m Hm. frame_tables. rewrite Ho by done. by frame_tables.
    + apply Hn.
    + done.
    + by eapply (new_row_given _ _ _ _ _ Hn); [set_solver|].
    + by eapply (new_row_default _ _ _ _ _ Hn); [set_solver|].
    + by eapply (new_row_given _ _ _ _ _ Hn); [set_solver|].
    + done.
  - answered create_ok as (r & -> & _). by unfold prop in *.
  - constructor. intros m. unfold rows. simpl. frame_tables.
    erewrite create_throw by eassumption. by frame_tables.
  - constructor. intros m. unfold rows. simpl. by frame_tables.
  - constructor. intros m. unfold rows. simpl. by frame_tables.
Qed.
End registration.

(** ** Tokens *)

Section tokens.
Context {E : Env} {CL : ClockLaws E} {JL : JwtLaws E CL}.

Lemma now_reaches w w' : reaches E w w' → (now E w ≤ now E w')%Z.
Proof. induction 1 as [|w w1 w' [o ->] _ IH]; [lia|]. pose proof (now_mono E o w). lia. Qed.

Lemma sign_token p secret e d w v w0 w1 :
  answer E (JwtSign p secret e) w = Ok v → span e = Some d → secret ≠ "" → plain_payload p →
  reaches E w0 w → reaches E (after E (JwtSign p secret e) w) w1 →
  token_for v p secret d w0 w1.
Proof.
  intros Ha Hd Hs Hp H0 H1. destruct (sign_law E p secret e d w Hd Hs Hp) as (tok & Ht & Hne & Hsp & Hl).
  assert (v = JStr tok) as -> by (by injection (eq_trans (eq_sym Ha) Ht)).
  exists tok. split_and!; try done. intros w' Hw'.
  destruct (Hl w') as (L1 & L2 & L3); [by etrans|].
  assert (Hm0 : (now E w0 ≤ now E w)%Z) by (by apply now_reaches).
  assert (Hm1 : (now E w ≤ now E w1)%Z).
  { pose proof (now_mono E (JwtSign p secret e) w). pose proof (now_reaches _ _ H1). lia. }
  apply (Z.div_le_mono _ _ 1000) in Hm0, Hm1; [|lia..].
  split_and!; [intros; apply L1; lia|intros; apply L2; lia|done].
Qed.

(** The payloads of the two tokens are plain. *)
Lemma plain_access id role : plain_payload [("userId", JStr id); ("role", JStr role)].
Proof. repeat constructor; set_solver. Qed.

Lemma plain_refresh id : plain_payload [("userId", JStr id)].
Proof. repeat constructor; set_solver. Qed.
End tokens.

Ltac plain := solve [apply plain_access | apply plain_refresh].

Lemma user_row_shape r : row_typed MUser r → ∃ id email pw role c u,
  r = [("id", JStr id); ("email", JStr email); ("password", JStr pw); ("role", JStr role);
       ("createdAt", JDate c); ("updatedAt", JDate u)].
Proof.
  intros [Hk Ht].
  destruct r as [|[k1 v1] [|[k2 v2] [|[k3 v3] [|[k4 v4] [|[k5 v5] [|[k6 v6] [|]]]]]]]; simplify_eq/=.
  repeat (apply Forall_cons in Ht as [? Ht]). cbn [fst snd] in *.
  repeat match goal with H : typed _ ?v = true |- _ => destruct v; try (by vm_compute in H); clear H end.
  by repeat eexists.
Qed.

(** ** Login and refresh *)

Section sessions.
Context {E : Env} {PL : PrismaLaws E} {CL : ClockLaws E} {JL : JwtLaws E CL}.
Implicit Types s : sys E.
Variable cfg : config.
Hypothesis secret_nonempty : secret (jwt cfg) ≠ "".
Hypothesis refreshSecret_nonempty : refreshSecret (jwt cfg) ≠ "".

(** The account [findUnique] returns. *)
Lemma find_user k key w v :
  Forall (row_typed MUser) (tbl E w MUser) →
  answer E (DbFindUnique MUser [(k, JStr key)] None) w = Ok v → truthy v = true →
  ∃ id email pw role c u, let r :=
    [("id", JStr id); ("email", JStr email); ("password", JStr pw); ("role", JStr role);
     ("createdAt", JDate c); ("updatedAt", JDate u)] in
  v = JObj r ∧ r ∈ tbl E w MUser ∧ assoc k r = Some (JStr key).
Proof.
  intros Hty Ha Ht.
  destruct (find_unique_some _ _ _ _ _ Ha Ht) as (r & Hin & Hm%row_matches_single & ->).
  rewrite Forall_forall in Hty. destruct (user_row_shape r (Hty r Hin)) as (id & email & pw & role & c & u & ->).
  exists id, email, pw, role, c, u. cbv zeta. by split_and!.
Qed.

Lemma login_post_holds rq email pw s r t s' :
  Forall (row_typed MUser) (rows s MUser) →
  prop (rq_body rq) "email" = Ok (JStr email) →
  prop (rq_body rq) "password" = Ok (JStr pw) →
  run (login cfg rq) s = (r, t, s') →
  ∃ resp, responses t = [resp] ∧ login_post cfg email pw s s' resp ∧ ∀ m, rows s' m = rows s m.
Proof.
  intros Hty He Hp [H Hr]%run_exec. unfold login, sign_access, sign_refresh in H. rewrite He, Hp in H.
  symex H; replay Hr; eexists; (split; [reflexivity|]);
    (split; [|intros m; unfold rows; simpl; by frame_tables]); try apply login_failed.
  - constructor. answered find_unique_none as Hnone; [|done].
    eapply Forall_impl; [exact Hnone|]. intros r0. cbv beta. by rewrite row_matches_single.
  - answered find_user as (id & em & h & role & c & u & -> & Hin & Hk); [|done|done].
    unfold prop in *; simplify_eq/=. eapply login_wrong; done.
  - answered find_user as (id & em & h & role & c & u & -> & Hin & Hk); [|done|done].
    unfold prop in *; simplify_eq/=. eapply login_granted; try done.
    + eapply sign_token; [eassumption|done|done|plain|eauto 10 with hyl..].
    + eapply sign_token; [eassumption|done|done|plain|eauto 10 with hyl..].
Qed.

Lemma refresh_post_holds rq token s r t s' :
  Forall (row_typed MUser) (rows s MUser) →
  prop (rq_body rq) "refreshToken" = Ok token →
  run (refresh cfg rq) s = (r, t, s') →
  ∃ resp, responses t = [resp] ∧ refresh_post cfg token s s' resp ∧ ∀ m, rows s' m = rows s m.
Proof.
  intros Hty He [H Hr]%run_exec. unfold refresh, sign_access in H. rewrite He in H.
  symex H; replay Hr; eexists; (split; [reflexivity|]);
    (split; [|intros m; unfold rows; simpl; by frame_tables]);
    try by apply refresh_denied.
  - by constructor.
  - answered find_unique_some as (r & Hin & Hm%row_matches_single & ->); [|done].
    rewrite tbl_frame in Hin by done.
    unfold rows in Hty. rewrite Forall_forall in Hty.
    destruct (user_row_shape r (Hty r Hin)) as (id & email & pw & role & c & u & ->).
    unfold prop in *; simplify_eq/=.
    eapply refresh_granted; [eassumption|eassumption|exact Hin|done|done|].
    eapply sign_token; [eassumption|done|done|plain|eauto 10 with hyl..].
Qed.

(** ** Success when the database is up *)

Lemma sign_no_throw p sec e d w x :
  answer E (JwtSign p sec e) w = Throw x → span e = Some d → sec ≠ "" → plain_payload p → False.
Proof.
  intros Ha Hd Hs Hp. destruct (sign_law E p sec e d w Hd Hs Hp) as (tok & Ht & _).
  by pose proof (eq_trans (eq_sym Ha) Ht).
Qed.

Context {PU : PrismaUp E PL} {BL : BcryptLaws E}.

Lemma up_reaches w w' : reaches E w w' → up E w → up E w'.
Proof. induction 1 as [|w w1 w' [o ->] _ IH]; [done|]. intros Hu. by apply IH, up_after. Qed.

(** The row a unique column names is the one found. *)
Lemma find_unique_is m k key sel w r :
  up E w → no_conflicts m (tbl E w m) → k ∈ unique_columns m →
  r ∈ tbl E w m → assoc k r = Some (JStr key) →
  answer E (DbFindUnique m [(k, JStr key)] sel) w = Ok (JObj (project sel r)).
Proof.
  intros Hup Hnc Hk Hin Ha. destruct (find_unique_up E m k key sel w Hup Hk) as [v Hv].
  rewrite Hv. destruct (truthy v) eqn:Ht.
  - destruct (find_unique_some _ _ _ _ _ Hv Ht) as (r' & Hin' & Hm%row_matches_single & ->).
    by rewrite (no_conflicts_unique m (tbl E w m) r' r k) by (done || by rewrite Hm, Ha).
  - pose proof (find_unique_none _ _ _ _ _ Hv Ht) as Hn. rewrite Forall_forall in Hn.
    destruct (Hn r Hin). by apply row_matches_single.
Qed.

(** The address of no row is not found. *)
Lemma find_unique_fresh m k key sel w v :
  Forall (λ r, assoc k r ≠ Some (JStr key)) (tbl E w m) →
  answer E (DbFindUnique m [(k, JStr key)] sel) w = Ok v → v = JNull.
Proof.
  intros Hn Hv. pose proof (find_unique_law E m [(k, JStr key)] sel w) as Hl. rewrite Hv in Hl.
  destruct v; try done; destruct Hl as (r & Hin & Hm%row_matches_single & _);
    rewrite Forall_forall in Hn; by destruct (Hn r Hin).
Qed.

Lemma register_not_failed rq email pw s x t s' resp :
  up E (ext s) →
  prop (rq_body rq) "email" = Ok (JStr email) → prop (rq_body rq) "password" = Ok (JStr pw) →
  run (register rq) s = (x, t, s') → responses t = [resp] → resp.1 ≠ 500%Z.
Proof.
  clear secret_nonempty refreshSecret_nonempty cfg JL CL.
  intros Hup He Hp [H Hr]%run_exec Hresp H5. unfold register in H. rewrite He, Hp in H.
  symex H; replay Hr.
  - answered create_ok as (r & -> & _). by unfold prop in *.
  - answered hash_ok as (h & -> & _).
    answered find_unique_none as Hnone; [|done].
    match goal with H : answer _ (DbCreate ?m ?dat) ?w = _ |- _ =>
      destruct (create_up E m dat w) as [v Hv]; [..|by pose proof (eq_trans (eq_sym H) Hv)] end.
    + by repeat apply up_after.
    + typed_data.
    + repeat constructor; naive_solver.
    + repeat constructor; set_solver.
    + frame_tables. eapply Forall_impl; [exact Hnone|]. intros r0 Hr0.
      repeat constructor; intros v Hv; [done|]. injection Hv as <-. intros Ha. by apply Hr0, row_matches_single.
  - match goal with H : answer _ (BcryptHash _ ?n) ?w = _ |- _ =>
      destruct (hash_law E pw n w) as (h & Hh & _); by pose proof (eq_trans (eq_sym H) Hh) end.
  - match goal with H : answer _ (DbFindUnique _ _ ?sel) ?w = _ |- _ =>
      destruct (find_unique_up E MUser "email" email sel w Hup) as [v Hv];
      [set_solver|by pose proof (eq_trans (eq_sym H) Hv)] end.
Qed.

Lemma register_succeeds rq email pw s x t s' :
  up E (ext s) → Forall (λ r, ¬ has_email email r) (rows s MUser) →
  prop (rq_body rq) "email" = Ok (JStr email) →
  prop (rq_body rq) "password" = Ok (JStr pw) →
  run (register rq) s = (x, t, s') →
  ∃ r id h, responses t =
      [(201%Z, JObj [("message", JStr "User created successfully"); ("userId", JStr id)])] ∧
    r ∈ rows s' MUser ∧ row_typed MUser r ∧ assoc "id" r = Some (JStr id) ∧ has_email email r ∧
    assoc "role" r = Some (JStr "USER") ∧ assoc "password" r = Some (JStr h) ∧
    (∀ w, answer E (BcryptCompare (JStr pw) (JStr h)) w = Ok (JBool true)) ∧ up E (ext s').
Proof.
  clear secret_nonempty refreshSecret_nonempty cfg JL CL.
  intros Hup Hnew He Hp Hrun. apply run_exec in Hrun as Hx. destruct Hx as [_ Hreach%replays_reaches].
  destruct (register_post_holds _ _ _ _ _ _ _ He Hp Hrun) as (resp & Hresp & Hpost).
  destruct Hpost as [r Hin Hem _|r id h _ Hrows _ Hty Hid Hem Hrole Hpw Hcmp|_].
  - rewrite Forall_forall in Hnew. by destruct (Hnew r Hin).
  - exists r, id, h. split_and!; try done; [rewrite Hrows; set_solver|by eapply up_reaches].
  - by destruct (register_not_failed _ _ _ _ _ _ _ _ Hup He Hp Hrun Hresp).
Qed.

Lemma login_succeeds rq email pw s r id role h x t s' :
  up E (ext s) → no_conflicts MUser (rows s MUser) → r ∈ rows s MUser →
  assoc "id" r = Some (JStr id) → has_email email r → assoc "role" r = Some (JStr role) →
  assoc "password" r = Some (JStr h) →
  (∀ w, answer E (BcryptCompare (JStr pw) (JStr h)) w = Ok (JBool true)) →
  prop (rq_body rq) "email" = Ok (JStr email) →
  prop (rq_body rq) "password" = Ok (JStr pw) →
  run (login cfg rq) s = (x, t, s') →
  ∃ access refresh, responses t =
      [(200%Z, JObj [("accessToken", access); ("refreshToken", refresh)])] ∧
    token_for access [("userId", JStr id); ("role", JStr role)] (secret (jwt cfg)) 900 (ext s) (ext s') ∧
    token_for refresh [("userId", JStr id)] (refreshSecret (jwt cfg)) 604800 (ext s) (ext s').
Proof.
  intros Hup Hnc Hin Hid Hem Hrole Hpw Hcmp He Hp [H Hr]%run_exec.
  unfold login, sign_access, sign_refresh in H. rewrite He, Hp in H.
  pose proof (find_unique_is MUser "email" email None (ext s) r Hup Hnc ltac:(by right; left) Hin Hem) as Hf.
  symex H; replay Hr; same_answer; unfold prop in *;
    rewrite ?Hid, ?Hrole, ?Hpw in *; simplify_eq/=; same_answer; try done.
  all: try (exfalso; eapply sign_no_throw; [eassumption|done|done|plain]).
  eexists _, _. split; [reflexivity|].
  split; (eapply sign_token; [eassumption|done|done|plain|eauto 10 with hyl..]).
Qed.

(** A login that is turned down. *)
Lemma login_turned_down rq email pw s x t s' :
  up E (ext s) → no_conflicts MUser (rows s MUser) →
  Forall (λ r, ¬ has_email email r) (rows s MUser) ∨
  (∃ r h, r ∈ rows s MUser ∧ has_email email r ∧ assoc "password" r = Some (JStr h) ∧
     ∀ w, answer E (BcryptCompare (JStr pw) (JStr h)) w = Ok (JBool false)) →
  prop (rq_body rq) "email" = Ok (JStr email) → prop (rq_body rq) "password" = Ok (JStr pw) →
  run (login cfg rq) s = (x, t, s') → responses t = [(401%Z, error_json "Invalid credentials")].
Proof.
  clear secret_nonempty refreshSecret_nonempty JL CL BL.
  intros Hup Hnc Hcase He Hp [H Hr]%run_exec.
  unfold login, sign_access, sign_refresh in H. rewrite He, Hp in H.
  assert (Hf : ∃ v, answer E (DbFindUnique MUser [("email", JStr email)] None) (ext s) = Ok v ∧
    (v = JNull ∨ ∃ r h, v = JObj r ∧ assoc "password" r = Some (JStr h) ∧
       ∀ w, answer E (BcryptCompare (JStr pw) (JStr h)) w = Ok (JBool false))).
  { destruct Hcase as [Hn|(r & h & Hin & Hem & Hpw & Hcmp)].
    - destruct (find_unique_up E MUser "email" email None (ext s) Hup) as [v Hv]; [set_solver|].
      exists v. split; [done|]. left. by apply (find_unique_fresh MUser "email" email None (ext s)).
    - eexists. split; [by apply (find_unique_is MUser "email" email None (ext s) r); try set_solver|].
      right. by exists r, h. }
  destruct Hf as (v & Hv & [->|(r & h & -> & Hpw & Hcmp)]);
    symex H; replay Hr; same_answer; unfold prop in *; rewrite ?Hpw in *; simplify_eq/=; same_answer; done.
Qed.

Lemma refresh_succeeds rq token s r id role claims x t s' :
  up E (ext s) → no_conflicts MUser (rows s MUser) → r ∈ rows s MUser →
  assoc "id" r = Some (JStr id) → assoc "role" r = Some (JStr role) → token ≠ "" →
  prop (rq_body rq) "refreshToken" = Ok (JStr token) →
  answer E (JwtVerify (JStr token) (refreshSecret (jwt cfg))) (ext s) = Ok (JObj claims) →
  assoc "userId" claims = Some (JStr id) →
  run (refresh cfg rq) s = (x, t, s') →
  ∃ access, responses t = [(200%Z, JObj [("accessToken", access)])] ∧
    token_for access [("userId", JStr id); ("role", JStr role)] (secret (jwt cfg)) 900 (ext s) (ext s').
Proof.
  intros Hup Hnc Hin Hid Hrole Hne He Hv Hu [H Hr]%run_exec.
  unfold refresh, sign_access in H. rewrite He in H.
  assert (Htok : truthy (JStr token) = true) by (simpl; by destruct (String.eqb_spec token "")).
  set (w := after E (JwtVerify (JStr token) (refreshSecret (jwt cfg))) (ext s)).
  assert (Hin' : r ∈ tbl E w MUser) by (unfold w; by rewrite tbl_frame).
  assert (Hnc' : no_conflicts MUser (tbl E w MUser)) by (unfold w; by rewrite tbl_frame).
  pose proof (find_unique_is MUser "id" id None w r ltac:(by apply up_after) Hnc' ltac:(left) Hin' Hid) as Hf.
  unfold w in Hf. clear w Hin' Hnc'.
  symex H; replay Hr; same_answer; unfold prop in *;
    rewrite ?Hid, ?Hrole, ?Hu in *; simplify_eq/=; same_answer; try done.
  all: rewrite ?Hid, ?Hrole, ?Hu in *; simplify_eq/=.
  all: try (exfalso; eapply sign_no_throw; [eassumption|done|done|plain]).
  - by destruct (token =? "").
  - eexists. split; [reflexivity|].
    eapply sign_token; [eassumption|done|done|plain|eauto 10 with hyl..].
Qed.

(** ** Authenticated requests *)

(** With a bearer token the middleware is its [try] block. *)
Lemma authenticate_bearer rq next tok :
  rq_authorization rq = Some ("Bearer " +:+ tok) → no_space tok →
  authenticate cfg rq next =
  try_catch
    (decoded ← jwt_verify (JStr tok) (secret (jwt cfg));
     userId ← of_result (prop decoded "userId");
     role ← of_result (prop decoded "role");
     lift (next None (set_user userId role rq)))
    (λ _, respond 401 (error_json "Invalid or expired token")).
Proof.
  intros Ha Hn. unfold authenticate. rewrite Ha. simpl. destruct tok as [|c tok]; simpl.
  all: unfold bearer_token; simpl.
  - done.
  - unfold no_space in Hn. simpl in Hn. by rewrite Hn.
Qed.

(** A token that does not verify is answered with 401, whatever follows the
    middleware. *)
Lemma authenticate_rejects rq next tok s e :
  rq_authorization rq = Some ("Bearer " +:+ tok) → no_space tok →
  answer E (JwtVerify (JStr tok) (secret (jwt cfg))) (ext s) = Throw e →
  ∃ s', answers (authenticate cfg rq next) s (401%Z, error_json "Invalid or expired token") s'.
Proof.
  intros Ha Hn Hv. destruct (run_total (authenticate cfg rq next) s) as (x & t & s' & Hrun & H & Hr).
  exists s', x, t. split; [done|]. rewrite (authenticate_bearer rq next tok) in H by done.
  destruct H as (y & t' & -> & H). rewrite replays_cons in Hr by done. destruct Hr as [Hy Hr].
  rewrite Hv in Hy. subst y. by symex H.
Qed.

Lemma me_stack_succeeds {X : Express} {XL : ExpressLaws X} out rq tok claims s r id a t s' :
  up E (ext s) → no_conflicts MUser (rows s MUser) → r ∈ rows s MUser →
  assoc "id" r = Some (JStr id) →
  rq_authorization rq = Some ("Bearer " +:+ tok) → no_space tok →
  answer E (JwtVerify (JStr tok) (secret (jwt cfg))) (ext s) = Ok (JObj claims) →
  assoc "userId" claims = Some (JStr id) →
  run (run_stack [Sync (authenticate cfg); Async me] rq out) s = (a, t, s') →
  responses t = [(200%Z, JObj (project (Some ["id"; "email"; "role"; "createdAt"]) r))].
Proof.
  intros Hup Hnc Hin Hid Ha Hn Hv Hu [H Hr]%run_exec.
  rewrite stack_sync, (authenticate_bearer rq _ tok) in H by done.
  destruct H as (y & t' & -> & H). rewrite replays_cons in Hr by done. destruct Hr as [Hy Hr].
  rewrite Hv in Hy. subst y. cbn in H. unfold prop in H. rewrite Hu in H. cbn in H.
  rewrite stack_async in H.
  cbn [ext cache] in Hr. set (w := after E _ (ext s)) in Hr.
  assert (Hin' : r ∈ tbl E w MUser) by (unfold w; by rewrite tbl_frame).
  assert (Hnc' : no_conflicts MUser (tbl E w MUser)) by (unfold w; by rewrite tbl_frame).
  pose proof (find_unique_is MUser "id" id (Some ["id"; "email"; "role"; "createdAt"]) w r
    ltac:(by apply up_after) Hnc' ltac:(left) Hin' Hid) as Hf.
  destruct H as (y & t2 & -> & H). rewrite replays_cons in Hr by done. destruct Hr as [Hy Hr].
  cbn [ext] in Hy. change (rq_userId (set_user _ _ _)) with (JStr id) in Hy.
  pose proof (eq_trans (eq_sym Hy) Hf) as ->. by symex H.
Qed.
End sessions.
