(* ===== verification/Accounts.v ===== *)
(** * Accounts: theorems

    Registration, login, refresh and authenticated requests: what each answers
    and stores on every branch, and the round trips between them with any
    other traffic in between. *)

From S2P Require Import Prelude JsValue Effects Foreign Http Config Validate AuthMw AuthRoutes App AppSafety Concurrency AuthFlow Reference.

(** ** Requests of the concrete runs *)

Definition ann : request :=
  simple_request "POST" "/register" None
    (JObj [("email", JStr "ann@example.org"); ("password", JStr "correct horse")]).

(** The state after the registration, and after a login. *)
Definition ann_registered : sys ref_env := (run (register ann) ref_sys).2.
Definition ann_logged_in : sys ref_env := (run (login default_config ann) ann_registered).2.

(** ** Helper lemmas *)

Section accounts.
Context {X : Express} {XL : ExpressLaws X} {P : Packages} {PaL : PackagesLaws P}.
Context {E : Env} {PL : PrismaLaws E} {PU : PrismaUp E PL}.
Implicit Types s : sys E.

Lemma serves_reaches cfg out rqs s s' : serves cfg out rqs s s' → reaches E (ext s) (ext s').
Proof. intros (u & _ & Hr). by eapply replays_reaches. Qed.

(** The account stored in row [r] is there, alone on its unique columns, and
    the database is up. *)
Definition account (r : jsobj) s : Prop :=
  up E (ext s) ∧ no_conflicts MUser (rows s MUser) ∧ r ∈ rows s MUser.

Lemma replays_account cfg r t s s' :
  Forall (good_event cfg) t → replays s t s' → account r s → account r s'.
Proof.
  intros Hg Hr (Hup & Hnc & Hin). split_and!.
  - eapply up_reaches; [by eapply replays_reaches|done].
  - eapply (replays_invariant (good_event cfg) (λ s, no_conflicts MUser (rows s MUser))); try done.
    intros o s1. apply no_conflicts_kept.
  - apply (replays_append_only cfg MUser) in Hr as [l ->]; [set_solver|done|done].
Qed.

Lemma serves_account cfg out rqs r s s' : serves cfg out rqs s s' → account r s → account r s'.
Proof. intros (u & Hu%serves_good & Hr). by eapply replays_account. Qed.

(** A handler that follows the event policy keeps accounts. *)
Lemma handler_account cfg p r s x t s' :
  sound cfg p → run p s = (x, t, s') → account r s → account r s'.
Proof. intros Hs [H Hr]%run_exec. apply Hs in H as (_ & _ & Hg). by eapply replays_account. Qed.

Lemma handler_no_conflicts cfg m p s x t s' :
  sound cfg p → run p s = (x, t, s') →
  no_conflicts m (rows s m) → no_conflicts m (rows s' m).
Proof.
  intros Hs [H Hr]%run_exec. apply Hs in H as (_ & _ & Hg).
  eapply (replays_invariant (good_event cfg) (λ s, no_conflicts m (rows s m))); try done.
  intros o s1. apply no_conflicts_kept.
Qed.

Lemma load_secret penv : secret (jwt (load_config penv)) ≠ "".
Proof. by apply env_or_nonempty. Qed.

Lemma load_refreshSecret penv : refreshSecret (jwt (load_config penv)) ≠ "".
Proof. by apply env_or_nonempty. Qed.

Lemma run_answers {A} (p : prog A) s resp :
  responses (run p s).1.2 = [resp] → answers p s resp (run p s).2.
Proof. intros H. exists (run p s).1.1, (run p s).1.2. split; [|done]. by destruct (run p s) as [[]]. Qed.

Context {CL : ClockLaws E} {JL : JwtLaws E CL}.

(** A login that was granted, and what its tokens are good for. *)
Lemma login_tokens cfg rq email pw s access refresh s' :
  secret (jwt cfg) ≠ "" → refreshSecret (jwt cfg) ≠ "" →
  Forall (row_typed MUser) (rows s MUser) →
  prop (rq_body rq) "email" = Ok (JStr email) →
  prop (rq_body rq) "password" = Ok (JStr pw) →
  answers (login cfg rq) s (200%Z, JObj [("accessToken", access); ("refreshToken", refresh)]) s' →
  ∃ r id role, r ∈ rows s' MUser ∧ row_typed MUser r ∧ assoc "id" r = Some (JStr id) ∧ assoc "role" r = Some (JStr role) ∧
    has_email email r ∧
    token_for access [("userId", JStr id); ("role", JStr role)] (secret (jwt cfg)) 900 (ext s) (ext s') ∧
    token_for refresh [("userId", JStr id)] (refreshSecret (jwt cfg)) 604800 (ext s) (ext s').
Proof.
  intros Hs1 Hs2 Hty He Hp (x & t & Hrun & Hresp).
  destruct (login_post_holds cfg Hs1 Hs2 rq email pw s x t s' Hty He Hp Hrun) as (resp & Hr & Hpost & Hrows).
  rewrite Hresp in Hr. simplify_eq. inversion Hpost as [| |r id role h w v a f Hin|]; simplify_eq.
  exists r, id, role. rewrite Hrows. rewrite Forall_forall in Hty. split_and!; auto.
Qed.

(** A refresh token that does not verify is answered with 401. *)
Lemma refresh_rejects cfg rq token s e :
  token ≠ "" → prop (rq_body rq) "refreshToken" = Ok (JStr token) →
  answer E (JwtVerify (JStr token) (refreshSecret (jwt cfg))) (ext s) = Throw e →
  ∃ s', answers (refresh cfg rq) s (401%Z, error_json "Invalid refresh token") s'.
Proof.
  intros Hne Hb Hv. destruct (run_total (refresh cfg rq) s) as (x & t & s' & Hrun & H & Hr).
  exists s', x, t. split; [done|]. unfold refresh, sign_access in H. rewrite Hb in H. cbn in H.
  destruct (String.eqb_spec token ""); [done|]. cbn in H.
  destruct H as (y & t' & -> & H). rewrite replays_cons in Hr by done. destruct Hr as [Hy Hr].
  rewrite Hv in Hy. subst y. by symex H.
Qed.

(** What [GET /me] answers to a request with a token that verifies. *)
Lemma me_returns cfg out req tok claims s r id email role :
  account r s → row_typed MUser r → assoc "id" r = Some (JStr id) → has_email email r →
  assoc "role" r = Some (JStr role) →
  rq_authorization req = Some ("Bearer " +:+ tok) → no_space tok →
  answer E (JwtVerify (JStr tok) (secret (jwt cfg))) (ext s)
    = Ok (JObj (("userId", JStr id) :: claims)) →
  ∃ created s', answers (run_stack [Sync (authenticate cfg); Async me] req out) s
    (200%Z, JObj [("id", JStr id); ("email", JStr email); ("role", JStr role);
                  ("createdAt", JDate created)]) s'.
Proof.
  intros (Hup & Hnc & Hin) Hty Hid Hem Hrole Hauth Hsp Hv.
  destruct (run (run_stack [Sync (authenticate cfg); Async me] req out) s) as [[x t] s'] eqn:H.
  eapply me_stack_succeeds in H as Hr; [|done..].
  destruct (user_row_shape r Hty) as (id' & em & pw & ro & c & u & ->). unfold has_email in Hem.
  simplify_eq/=. exists c, s', x, t. split; [done|]. by rewrite Hr.
Qed.
End accounts.

(** ** Theorems *)

(** C18: registration.  For a body with an address and a password the handler
    sends one response.  When the database is up, it is 400 "Email already
    registered" and no change if an account has the address, and otherwise 201
    with the id of exactly one new account, which has the address, the role
    USER and a hash its password compares to.  When the database is not up, it
    may also be 500, and then nothing is changed. *)
Theorem register_spec {E : Env} {PL : PrismaLaws E} {PU : PrismaUp E PL} {BL : BcryptLaws E}
    rq email pw (s : sys E) :
  prop (rq_body rq) "email" = Ok (JStr email) →
  prop (rq_body rq) "password" = Ok (JStr pw) →
  ∃ resp s', answers (register rq) s resp s' ∧ register_post email pw s s' resp ∧
  (up E (ext s) →
     (Exists (has_email email) (rows s MUser) →
        resp = (400%Z, error_json "Email already registered") ∧ ∀ m, rows s' m = rows s m) ∧
     (Forall (λ r, ¬ has_email email r) (rows s MUser) →
        ∃ r id, resp = (201%Z, JObj [("message", JStr "User created successfully"); ("userId", JStr id)]) ∧
          rows s' MUser = rows s MUser ++ [r] ∧ assoc "id" r = Some (JStr id))).
Proof.
  intros He Hp. destruct (run (register rq) s) as [[x t] s'] eqn:Hrun.
  destruct (register_post_holds rq email pw s x t s' He Hp Hrun) as (resp & Hresp & Hpost).
  exists resp, s'. split_and!; [by exists x, t|done|]. intros Hup.
  pose proof (register_not_failed rq email pw s x t s' resp Hup He Hp Hrun Hresp) as H5.
  rewrite Exists_exists, Forall_forall. destruct Hpost as [r Hin Hem Hs|r id h Hn Hs Ho Hty Hid|]; [| |done].
  - split; [done|]. intros Hn. by destruct (Hn r Hin).
  - rewrite Forall_forall in Hn. split; [|by exists r, id]. intros (r0 & Hin & Hem). by destruct (Hn r0 Hin).
Qed.

Lemma register_spec_witness :
  (∃ s' r id, answers (register ann) ref_sys
     (201%Z, JObj [("message", JStr "User created successfully"); ("userId", JStr id)]) s' ∧
     rows s' MUser = [r]) ∧
  ∃ s', answers (register ann) ann_registered (400%Z, error_json "Email already registered") s'.
Proof.
  split.
  - destruct (register_spec ann "ann@example.org" "correct horse" ref_sys eq_refl eq_refl)
      as (resp & s' & Ha & _ & Hup).
    destruct (proj2 (Hup I) (Forall_nil_2 _)) as (r & id & Hr & Hs & _).
    exists s', r, id. rewrite Hr in Ha. exact (conj Ha Hs).
  - destruct (register_spec ann "ann@example.org" "correct horse" ann_registered eq_refl eq_refl)
      as (resp & s' & Ha & _ & Hup).
    exists s'. destruct (proj1 (Hup I)) as [Hr _]; [|by rewrite Hr in Ha].
    apply Exists_cons_hd. reflexivity.
Defined.

(** C19: login.  Over any well-typed table of accounts the handler sends one
    response and changes no table.  Tokens are issued only for a stored account
    with the address whose hash the password compares to; the access token
    carries the account's id and role for 15 minutes and the refresh token its
    id for seven days, each under its own secret.  When the database is up, an
    unknown address is answered with 401 "Invalid credentials", a password the
    stored hash does not compare to is answered with the very same response,
    and one it compares to is answered with the two tokens (addresses being
    unique, as they are in every table the server fills). *)
Theorem login_spec {E : Env} {PL : PrismaLaws E} {PU : PrismaUp E PL} {CL : ClockLaws E} {JL : JwtLaws E CL}
    penv rq email pw (s : sys E) :
  Forall (row_typed MUser) (rows s MUser) →
  prop (rq_body rq) "email" = Ok (JStr email) →
  prop (rq_body rq) "password" = Ok (JStr pw) →
  ∃ resp s', answers (login (load_config penv) rq) s resp s' ∧
    login_post (load_config penv) email pw s s' resp ∧ (∀ m, rows s' m = rows s m) ∧
  (up E (ext s) → no_conflicts MUser (rows s MUser) →
     (Forall (λ r, ¬ has_email email r) (rows s MUser) → resp = (401%Z, error_json "Invalid credentials")) ∧
     (∀ r h b, r ∈ rows s MUser → has_email email r → assoc "password" r = Some (JStr h) →
        (∀ w, answer E (BcryptCompare (JStr pw) (JStr h)) w = Ok (JBool b)) →
        if b then ∃ access refresh, resp = (200%Z, JObj [("accessToken", access); ("refreshToken", refresh)])
        else resp = (401%Z, error_json "Invalid credentials"))).
Proof.
  intros Hty He Hp. set (cfg := load_config penv).
  destruct (run (login cfg rq) s) as [[x t] s'] eqn:Hrun.
  destruct (login_post_holds _ (load_secret penv) (load_refreshSecret penv) rq email pw s x t s'
    Hty He Hp Hrun) as (resp & Hresp & Hpost & Hrows).
  exists resp, s'. split_and!; [by exists x, t|done|done|]. intros Hup Hnc.
  assert (Hone : ∀ resp', responses t = [resp'] → resp = resp') by (intros resp'; rewrite Hresp; by intros [= ->]).
  split.
  - intros Hn. by apply Hone, (login_turned_down cfg rq email pw s x t s'); [| |left| | |].
  - intros r h [] Hin Hem Hpw Hcmp.
    + destruct (user_row_shape r) as (id & em & pw' & role & c & u & ->); [by rewrite Forall_forall in Hty; auto|].
      destruct (login_succeeds cfg (load_secret penv) (load_refreshSecret penv) rq email pw s _ id role h x t s'
        Hup Hnc Hin eq_refl Hem eq_refl Hpw Hcmp He Hp Hrun) as (a & f & Hr & _). eauto.
    + apply Hone, (login_turned_down cfg rq email pw s x t s'); try done. right. by exists r, h.
Qed.

(** The same request with another password. *)
Definition guess : request :=
  set_body (JObj [("email", JStr "ann@example.org"); ("password", JStr "guess")]) ann.

Lemma login_spec_witness :
  (∃ s' access refresh, answers (login default_config ann) ann_registered
     (200%Z, JObj [("accessToken", access); ("refreshToken", refresh)]) s') ∧
  ∃ s', answers (login default_config guess) ann_registered (401%Z, error_json "Invalid credentials") s'.
Proof.
  assert (Hr : ∃ r h, r ∈ rows ann_registered MUser ∧ has_email "ann@example.org" r ∧
    assoc "password" r = Some (JStr h) ∧
    (∀ w, answer ref_env (BcryptCompare (JStr "correct horse") (JStr h)) w = Ok (JBool true)) ∧
    ∀ w, answer ref_env (BcryptCompare (JStr "guess") (JStr h)) w = Ok (JBool false)).
  { eexists _, _. split; [apply list_elem_of_here|]. repeat split. }
  assert (Hnc : no_conflicts MUser (rows ann_registered MUser))
    by (apply (bool_decide_eq_true_1 _); vm_compute; reflexivity).
  destruct Hr as (r & h & Hin & Hem & Hpw & H1 & H2). split.
  - destruct (login_spec (λ _, None) ann "ann@example.org" "correct horse" ann_registered)
      as (resp & s' & Ha & _ & _ & Hup); [apply (bool_decide_eq_true_1 _); vm_compute; reflexivity|reflexivity|reflexivity|].
    destruct (proj2 (Hup I Hnc) r h true Hin Hem Hpw H1) as (access & refresh & ->). exists s', access, refresh. exact Ha.
  - destruct (login_spec (λ _, None) guess "ann@example.org" "guess" ann_registered)
      as (resp & s' & Ha & _ & _ & Hup); [apply (bool_decide_eq_true_1 _); vm_compute; reflexivity|reflexivity|reflexivity|].
    pose proof (proj2 (Hup I Hnc) r h false Hin Hem Hpw H2) as Hr. cbv beta iota in Hr. subst resp. exists s'. exact Ha.
Defined.

(** C20: refresh.  The handler sends one response and changes no table: 401
    for a missing token, 401 for anything that goes wrong later (an invalid or
    expired token, an unknown account, but also a failure of the database),
    and otherwise a new access token for the account the refresh token names,
    carrying the role stored for it now. *)
Theorem refresh_spec {E : Env} {PL : PrismaLaws E} {CL : ClockLaws E} {JL : JwtLaws E CL}
    penv rq token (s : sys E) :
  Forall (row_typed MUser) (rows s MUser) →
  prop (rq_body rq) "refreshToken" = Ok token →
  ∃ resp s', answers (refresh (load_config penv) rq) s resp s' ∧
    refresh_post (load_config penv) token s s' resp ∧ ∀ m, rows s' m = rows s m.
Proof.
  intros Hty He. destruct (run (refresh (load_config penv) rq) s) as [[x t] s'] eqn:Hrun.
  destruct (refresh_post_holds _ (load_secret penv) rq token s x t s' Hty He Hrun)
    as (resp & Hresp & Hpost & Hrows).
  exists resp, s'. split_and!; [|done|done]. by exists x, t.
Qed.

Lemma refresh_spec_witness :
  let rq := set_body (JObj [("refreshToken", JStr "tt")]) ann in
  ∃ resp s', answers (refresh default_config rq) ann_logged_in resp s' ∧
    refresh_post default_config (JStr "tt") ann_logged_in s' resp ∧
    ∀ m, rows s' m = rows ann_logged_in m.
Proof.
  intros rq. apply (refresh_spec (λ _, None) rq); [|reflexivity].
  apply (bool_decide_eq_true_1 _). vm_compute. reflexivity.
Defined.

(** C10: from registration to an authenticated request.  When the database is
    up and no account has the address, registration succeeds; after any
    traffic, a login with the same address and password succeeds; and after
    any further traffic, for 15 minutes, a request with its access token to
    [GET /me] is answered with the id, the address, the role and the creation
    time of the account and nothing else, in particular not the password
    hash. *)
Theorem account_round_trip {X : Express} {XL : ExpressLaws X} {P : Packages} {PaL : PackagesLaws P}
    {E : Env} {PL : PrismaLaws E} {PU : PrismaUp E PL} {BL : BcryptLaws E}
    {CL : ClockLaws E} {JL : JwtLaws E CL} penv out (s : sys E) rq rq' email pw :
  let cfg := load_config penv in
  up E (ext s) → no_conflicts MUser (rows s MUser) →
  Forall (λ r, ¬ has_email email r) (rows s MUser) →
  prop (rq_body rq) "email" = Ok (JStr email) → prop (rq_body rq) "password" = Ok (JStr pw) →
  prop (rq_body rq') "email" = Ok (JStr email) → prop (rq_body rq') "password" = Ok (JStr pw) →
  ∃ id s1,
    answers (register rq) s
      (201%Z, JObj [("message", JStr "User created successfully"); ("userId", JStr id)]) s1 ∧
  ∀ rqs s2, serves cfg out rqs s1 s2 →
  ∃ access refresh s3,
    answers (login cfg rq') s2
      (200%Z, JObj [("accessToken", JStr access); ("refreshToken", JStr refresh)]) s3 ∧
  ∀ rqs' s4 req out', serves cfg out rqs' s3 s4 →
    (now E (ext s4) / 1000 < now E (ext s2) / 1000 + 900)%Z →
    rq_authorization req = Some ("Bearer " +:+ access) →
  ∃ created s5,
    answers (run_stack [Sync (authenticate cfg); Async me] req out') s4
      (200%Z, JObj [("id", JStr id); ("email", JStr email); ("role", JStr "USER");
                    ("createdAt", JDate created)]) s5.
Proof.
  intros cfg Hup Hnc Hnew He Hp He' Hp'.
  destruct (run (register rq) s) as [[x1 t1] s1] eqn:H1.
  destruct (register_succeeds _ _ _ _ _ _ _ Hup Hnew He Hp H1)
    as (r & id & h & Hr1 & Hin1 & Hty & Hid & Hem & Hrole & Hpw & Hcmp & Hup1).
  exists id, s1. split; [by exists x1, t1|]. intros rqs s2 Hs2.
  assert (Hacc1 : account r s1).
  { split_and!; [done| |done]. by eapply (handler_no_conflicts cfg); [apply register_sound|..]. }
  pose proof (serves_account _ _ _ _ _ _ Hs2 Hacc1) as Hacc2. destruct (Hacc2) as (Hup2 & Hnc2 & Hin2).
  destruct (run (login cfg rq') s2) as [[x2 t2] s3] eqn:H2.
  destruct (login_succeeds cfg (load_secret penv) (load_refreshSecret penv) _ _ _ _ _ _ _ _ _ _ _
    Hup2 Hnc2 Hin2 Hid Hem Hrole Hpw Hcmp He' Hp' H2) as (a & f & Hr2 & Ha & Hf).
  destruct Ha as (access & -> & Hne & Hsp & Hver), Hf as (refresh & -> & _).
  exists access, refresh, s3. split; [by exists x2, t2|]. intros rqs' s4 req out' Hs4 Hnow Hauth.
  pose proof (handler_account cfg _ _ _ _ _ _ (login_sound cfg rq') H2 Hacc2) as Hacc3.
  destruct (serves_account _ _ _ _ _ _ Hs4 Hacc3) as (Hup4 & Hnc4 & Hin4).
  destruct (Hver _ (serves_reaches _ _ _ _ _ Hs4)) as [Hok _]. destruct (Hok Hnow) as [claims Hv].
  by eapply me_returns.
Qed.

Lemma account_round_trip_witness : ∃ id s1,
  answers (register ann) ref_sys
    (201%Z, JObj [("message", JStr "User created successfully"); ("userId", JStr id)]) s1 ∧
  ∀ rqs s2, serves default_config no_next rqs s1 s2 → ∃ access refresh s3,
    answers (login default_config ann) s2
      (200%Z, JObj [("accessToken", JStr access); ("refreshToken", JStr refresh)]) s3.
Proof.
  destruct (account_round_trip (λ _, None) no_next ref_sys ann ann "ann@example.org" "correct horse")
    as (id & s1 & H1 & H); try reflexivity; [apply SSorted_nil|apply Forall_nil_2|].
  exists id, s1. split; [exact H1|]. intros rqs s2 Hs2.
  destruct (H rqs s2 Hs2) as (access & refresh & s3 & H3 & _). exists access, refresh, s3. exact H3.
Defined.

(** C16: keeping a session.  After a login and any traffic, for seven days, the
    refresh token is exchanged for a new access token, and for 15 minutes from
    then a request with the new token to [GET /me] is answered with the
    account that logged in. *)
Theorem session_round_trip {X : Express} {XL : ExpressLaws X} {P : Packages} {PaL : PackagesLaws P}
    {E : Env} {PL : PrismaLaws E} {PU : PrismaUp E PL}
    {CL : ClockLaws E} {JL : JwtLaws E CL} penv out (s s1 : sys E) rq email pw access refr :
  let cfg := load_config penv in
  up E (ext s) → no_conflicts MUser (rows s MUser) → Forall (row_typed MUser) (rows s MUser) →
  prop (rq_body rq) "email" = Ok (JStr email) → prop (rq_body rq) "password" = Ok (JStr pw) →
  answers (login cfg rq) s (200%Z, JObj [("accessToken", access); ("refreshToken", refr)]) s1 →
  ∀ rqs s2 rq', serves cfg out rqs s1 s2 →
    (now E (ext s2) / 1000 < now E (ext s) / 1000 + 604800)%Z →
    prop (rq_body rq') "refreshToken" = Ok refr →
  ∃ access' s3, answers (refresh cfg rq') s2 (200%Z, JObj [("accessToken", JStr access')]) s3 ∧
  ∀ rqs' s4 req out', serves cfg out rqs' s3 s4 →
    (now E (ext s4) / 1000 < now E (ext s2) / 1000 + 900)%Z →
    rq_authorization req = Some ("Bearer " +:+ access') →
  ∃ id role created s5,
    answers (run_stack [Sync (authenticate cfg); Async me] req out') s4
      (200%Z, JObj [("id", JStr id); ("email", JStr email); ("role", JStr role);
                    ("createdAt", JDate created)]) s5.
Proof.
  intros cfg Hup Hnc Hty He Hp Hlogin rqs s2 rq' Hs2 Hnow2 Hb.
  destruct (login_tokens cfg rq email pw s access refr s1 (load_secret penv) (load_refreshSecret penv)
    Hty He Hp Hlogin) as (r & id & role & Hin1 & Hrty & Hid & Hrole & Hem & Ha & Hf).
  destruct Hlogin as (x & t & Hrun & _).
  assert (Hacc1 : account r s1).
  { split_and!; [|by eapply (handler_no_conflicts cfg); [apply login_sound|..]|done].
    apply run_exec in Hrun as [_ Hrep%replays_reaches]. by eapply up_reaches. }
  pose proof (serves_account _ _ _ _ _ _ Hs2 Hacc1) as Hacc2. destruct (Hacc2) as (Hup2 & Hnc2 & Hin2).
  destruct Hf as (tok & -> & Hne & Hsp & Hver).
  destruct (Hver _ (serves_reaches _ _ _ _ _ Hs2)) as [Hok _]. destruct (Hok Hnow2) as [claims Hv].
  destruct (run (refresh cfg rq') s2) as [[x2 t2] s3] eqn:H2.
  destruct (refresh_succeeds cfg (load_secret penv) _ _ _ _ _ _ _ _ _ _
    Hup2 Hnc2 Hin2 Hid Hrole Hne Hb Hv eq_refl H2) as (a & Hr2 & access' & -> & Hne' & Hsp' & Hver').
  exists access', s3. split; [by exists x2, t2|]. intros rqs' s4 req out' Hs4 Hnow4 Hauth.
  pose proof (handler_account cfg _ _ _ _ _ _ (refresh_sound cfg rq') H2 Hacc2) as Hacc3.
  pose proof (serves_account _ _ _ _ _ _ Hs4 Hacc3) as Hacc4.
  destruct (Hver' _ (serves_reaches _ _ _ _ _ Hs4)) as [Hok' _]. destruct (Hok' Hnow4) as [claims' Hv'].
  exists id, role. by eapply me_returns.
Qed.

Lemma session_round_trip_witness :
  let rq' := set_body (JObj [("refreshToken", JStr "tt")]) ann in
  ∃ access' s3, answers (refresh default_config rq') ann_logged_in
    (200%Z, JObj [("accessToken", JStr access')]) s3.
Proof.
  intros rq'.
  destruct (session_round_trip (λ _, None) no_next ann_registered ann_logged_in ann "ann@example.org"
    "correct horse" (JStr "t") (JStr "tt")) with (rqs := @nil request) (s2 := ann_logged_in) (rq' := rq')
    as (access' & s3 & H & _); try reflexivity.
  - apply (bool_decide_eq_true_1 _). vm_compute. reflexivity.
  - apply (bool_decide_eq_true_1 _). vm_compute. reflexivity.
  - apply run_answers. vm_compute. reflexivity.
  - exact (run_all_serves default_config no_next [] ann_logged_in).
  - exists access', s3. exact H.
Defined.

(** C14: the two kinds of token do not stand in for each other.  When the two
    secrets differ, as the defaults do, a refresh token from a login is refused
    by [authenticate] and an access token is refused by [refresh], at any
    later time. *)
Theorem token_separation {X : Express} {P : Packages} {E : Env} {PL : PrismaLaws E}
    {CL : ClockLaws E} {JL : JwtLaws E CL} penv out (s s1 s2 : sys E) rq email pw access refr rqs :
  let cfg := load_config penv in
  secret (jwt cfg) ≠ refreshSecret (jwt cfg) →
  Forall (row_typed MUser) (rows s MUser) →
  prop (rq_body rq) "email" = Ok (JStr email) → prop (rq_body rq) "password" = Ok (JStr pw) →
  answers (login cfg rq) s (200%Z, JObj [("accessToken", JStr access); ("refreshToken", JStr refr)]) s1 →
  serves cfg out rqs s1 s2 →
  (∀ req next, rq_authorization req = Some ("Bearer " +:+ refr) →
     ∃ s3, answers (authenticate cfg req next) s2 (401%Z, error_json "Invalid or expired token") s3) ∧
  (∀ req, prop (rq_body req) "refreshToken" = Ok (JStr access) →
     ∃ s3, answers (refresh cfg req) s2 (401%Z, error_json "Invalid refresh token") s3).
Proof.
  intros cfg Hsec Hty He Hp Hlogin Hs2%serves_reaches.
  destruct (login_tokens cfg rq email pw s _ _ s1 (load_secret penv) (load_refreshSecret penv)
    Hty He Hp Hlogin) as (r & id & role & _ & _ & _ & _ & _ & Ha & Hf).
  destruct Hf as (tok & [= <-] & _ & Hsp & Hf), Ha as (tok' & [= <-] & Hne & _ & Ha).
  destruct (Hf _ Hs2) as (_ & _ & Hf'), (Ha _ Hs2) as (_ & _ & Ha'). split.
  - intros req next Hauth. destruct (Hf' _ Hsec) as [e Hv]. by eapply authenticate_rejects.
  - intros req Hb. destruct (Ha' _ (not_eq_sym Hsec)) as [e Hv]. by eapply refresh_rejects.
Qed.

Lemma token_separation_witness :
  let req := simple_request "GET" "/me" (Some "Bearer tt") JUndef in
  ∃ s3, answers (authenticate default_config req no_next) ann_logged_in
    (401%Z, error_json "Invalid or expired token") s3.
Proof.
  intros req.
  refine (proj1 (token_separation (λ _, None) no_next ann_registered ann_logged_in ann_logged_in ann
    "ann@example.org" "correct horse" "t" "tt" [] _ _ _ _ _ _) req no_next _); try reflexivity.
  - vm_compute. discriminate.
  - apply (bool_decide_eq_true_1 _). vm_compute. reflexivity.
  - apply run_answers. vm_compute. reflexivity.
  - exact (run_all_serves default_config no_next [] ann_logged_in).
Defined.

(** C15: sessions end.  From 15 minutes after a login its access token is
    refused by [authenticate], and from seven days after it its refresh token
    is refused by [refresh], whatever requests were served in between. *)
Theorem tokens_expire {X : Express} {P : Packages} {E : Env} {PL : PrismaLaws E}
    {CL : ClockLaws E} {JL : JwtLaws E CL} penv out (s s1 s2 : sys E) rq email pw access refr rqs :
  let cfg := load_config penv in
  Forall (row_typed MUser) (rows s MUser) →
  prop (rq_body rq) "email" = Ok (JStr email) → prop (rq_body rq) "password" = Ok (JStr pw) →
  answers (login cfg rq) s (200%Z, JObj [("accessToken", JStr access); ("refreshToken", JStr refr)]) s1 →
  serves cfg out rqs s1 s2 →
  ((now E (ext s1) / 1000 + 900 ≤ now E (ext s2) / 1000)%Z →
   ∀ req next, rq_authorization req = Some ("Bearer " +:+ access) →
   ∃ s3, answers (authenticate cfg req next) s2 (401%Z, error_json "Invalid or expired token") s3) ∧
  ((now E (ext s1) / 1000 + 604800 ≤ now E (ext s2) / 1000)%Z →
   ∀ req, prop (rq_body req) "refreshToken" = Ok (JStr refr) →
   ∃ s3, answers (refresh cfg req) s2 (401%Z, error_json "Invalid refresh token") s3).
Proof.
  intros cfg Hty He Hp Hlogin Hs2%serves_reaches.
  destruct (login_tokens cfg rq email pw s _ _ s1 (load_secret penv) (load_refreshSecret penv)
    Hty He Hp Hlogin) as (r & id & role & _ & _ & _ & _ & _ & Ha & Hf).
  destruct Hf as (tok & [= <-] & Hne & _ & Hf), Ha as (tok' & [= <-] & _ & Hsp & Ha).
  destruct (Hf _ Hs2) as (_ & Hf' & _), (Ha _ Hs2) as (_ & Ha' & _). split.
  - intros Hnow req next Hauth. destruct (Ha' Hnow) as [e Hv]. by eapply authenticate_rejects.
  - intros Hnow req Hb. destruct (Hf' Hnow) as [e Hv]. by eapply refresh_rejects.
Qed.

(** The account of [ann], logged in, with a clock that advances eight days
    whenever it is read, before and after a request for the time. *)
Definition slow_sys : sys ref_env :=
  Sys None (RWorld (λ _, []) 0 [] (λ _, Throw (EForeign "fetch failed")) false 691200000).
Definition slow_registered : sys ref_env := (run (register ann) slow_sys).2.
Definition slow_logged_in : sys ref_env := (run (login default_config ann) slow_registered).2.
Definition slow_later : sys ref_env :=
  (run_all default_config no_next [simple_request "GET" "/health" None JUndef] slow_logged_in).2.

Lemma tokens_expire_witness :
  (∃ s3, answers (authenticate default_config (simple_request "GET" "/me" (Some "Bearer t") JUndef) no_next)
    slow_later (401%Z, error_json "Invalid or expired token") s3) ∧
  (∃ s3, answers (refresh default_config (set_body (JObj [("refreshToken", JStr "tt")]) ann))
    slow_later (401%Z, error_json "Invalid refresh token") s3).
Proof.
  destruct (tokens_expire (λ _, None) no_next slow_registered slow_logged_in slow_later ann
    "ann@example.org" "correct horse" "t" "tt" [simple_request "GET" "/health" None JUndef]) as [H1 H2].
  - apply (bool_decide_eq_true_1 _). vm_compute. reflexivity.
  - reflexivity.
  - reflexivity.
  - apply run_answers. vm_compute. reflexivity.
  - exact (run_all_serves default_config no_next _ slow_logged_in).
  - split; [apply H1|apply H2]; try reflexivity; vm_compute; discriminate.
Defined.

(** [GET /me] shows a caller their own account and never the password
    hash.  It sends one response and changes no table; a 200 has exactly the
    columns id, email, role and createdAt of a stored account with the id the
    token named, and a 404 means there is none. *)
Theorem me_spec {E : Env} {PL : PrismaLaws E} rq (s : sys E) :
  Forall (row_typed MUser) (rows s MUser) →
  ∃ resp s', answers (me rq) s resp s' ∧ (∀ m, rows s' m = rows s m) ∧
  match resp with
  | (200%Z, body) => ∃ r o, r ∈ rows s MUser ∧ assoc "id" r = Some (rq_userId rq) ∧ body = JObj o ∧
      o.*1 = ["id"; "email"; "role"; "createdAt"] ∧ ∀ k, k ∈ o.*1 → assoc k o = assoc k r
  | (404%Z, _) => Forall (λ r, assoc "id" r ≠ Some (rq_userId rq)) (rows s MUser)
  | (st, _) => st = 500%Z
  end.
Proof.
  intros Hty. destruct (run (me rq) s) as [[x t] s'] eqn:Hrun.
  apply run_exec in Hrun as Hx. destruct Hx as [H Hr]. unfold me in H.
  symex H; replay Hr; eexists _, _; (split; [by eexists _, _|split; [|simpl]]);
    try (intros m; unfold rows; simpl; by frame_tables).
  - answered find_unique_none as Hn; [|done]. eapply Forall_impl; [exact Hn|].
    intros r. cbv beta. by rewrite row_matches_single.
  - answered find_unique_some as (r & Hin & Hm%row_matches_single & ->); [|done].
    rewrite Forall_forall in Hty.
    destruct (user_row_shape r (Hty r Hin)) as (id & email & pw & role & c & u & ->).
    eexists _, _. split_and!; [exact Hin|exact Hm|reflexivity|reflexivity|].
    intros k Hk. by apply assoc_project_in.
  - done.
Qed.

Lemma me_spec_witness :
  let rq := set_user (JStr "0") (JStr "USER") ann in
  ∃ resp s', answers (me rq) ann_registered resp s' ∧ ∀ m, rows s' m = rows ann_registered m.
Proof.
  intros rq. destruct (me_spec rq ann_registered) as (resp & s' & H1 & H2 & _).
  - apply (bool_decide_eq_true_1 _). vm_compute. reflexivity.
  - exists resp, s'. split; [exact H1|exact H2].
Defined.
