(* ===== verification/Validation.v ===== *)
(** * What validation guarantees

    [validate] stands in front of every handler that stores something.  The
    consequences: a handler behind it runs exactly on the accepted bodies, and
    the tables only ever hold rows that passed the schema of their route, also
    with any number of requests interleaved. *)

From S2P Require Import Prelude JsValue Effects Foreign Http Config Validate AuthMw AuthRoutes ContentRoutes RpcRoutes App AppSafety Concurrency Reference.

(** ** Where stored data comes from *)

(** The schema in front of the handler that creates rows of a model. *)
Definition schema_of (m : model) : schema :=
  match m with
  | MUser => register_schema
  | MNewsletter => newsletter_schema
  | MDownload => download_schema
  | MContact => contact_schema
  end.

(** The columns a handler passes to [create]. *)
Definition data_keys (m : model) : list string :=
  match m with
  | MUser => ["email"; "password"]
  | MNewsletter => ["email"]
  | MDownload => ["name"; "version"; "platform"; "url"; "checksum"]
  | MContact => ["email"; "subject"; "message"]
  end.

(** The data is taken field by field from the body, but for the password,
    which is hashed. *)
Definition data_of (m : model) (body : jsval) (dat : jsobj) : Prop :=
  dat.*1 = data_keys m ∧ Forall (λ kv, kv.1 ≠ "password" → prop body kv.1 = Ok kv.2) dat.

Definition validated (_ : option string) (t : trace) : Prop :=
  ∀ m dat x, Ev (DbCreate m dat) x ∈ t →
  ∃ body y, Ev (ZodParse (schema_of m) body) (Ok y) ∈ t ∧ data_of m body dat.

(** ** Rows that passed validation *)

Section rows.
Context {E : Env} {ZL : ZodLaws E}.

Definition str_column (k : string) (P : string → Prop) (r : jsobj) : Prop :=
  ∃ s, assoc k r = Some (JStr s) ∧ P s.

Definition valid_row (m : model) (r : jsobj) : Prop :=
  match m with
  | MUser | MNewsletter => str_column "email" (λ s, email_ok s = true) r
  | MContact =>
      str_column "email" (λ s, email_ok s = true) r ∧
      str_column "subject" (λ s, (1 ≤ utf16_length s ≤ 200)%nat) r ∧
      str_column "message" (λ s, (10 ≤ utf16_length s ≤ 5000)%nat) r
  | MDownload =>
      str_column "name" (λ s, (1 ≤ utf16_length s)%nat) r ∧
      str_column "version" (λ s, (1 ≤ utf16_length s)%nat) r ∧
      str_column "platform" (λ s, s ∈ ["windows"; "macos"; "linux"]) r ∧
      str_column "url" (λ s, url_ok s = true) r
  end.
End rows.

(** ** The policy *)

Section policy.
Context {X : Express} {XL : ExpressLaws X} {P : Packages} {PaL : PackagesLaws P}.

Definition no_create (e : event) : Prop :=
  match e with Ev (DbCreate _ _) _ => False | _ => True end.

Lemma validated_none h t : Forall no_create t → validated h t.
Proof. intros Ht m dat x Hin. rewrite Forall_forall in Ht. by destruct (Ht _ Hin). Qed.

#[export] Instance validated_policy : Policy validated.
Proof.
  split.
  - intros h st body. apply validated_none. by repeat constructor.
  - intros h e t He Ht m dat x [<-|Hin]%elem_of_cons; [done|].
    destruct (Ht _ _ _ Hin) as (body & y & ? & ?). exists body, y. set_solver.
Qed.

(** A handler that stores data of the body, behind the schema. *)
Lemma validated_stack sc h :
  (∀ rq t r, exec (h rq) t r → r = Ok tt ∧
     ∀ m dat x, Ev (DbCreate m dat) x ∈ t → schema_of m = sc ∧ data_of m (rq_body rq) dat) →
  stack_ok validated [Sync (validate sc); Async h].
Proof.
  intros Hh. apply (validate_stack_ok validated). intros rq y t r [-> Hc]%Hh. split; [done|].
  intros m dat x [?|Hin]%elem_of_cons; [done|]. destruct (Hc _ _ _ Hin) as [<- Hd].
  exists (rq_body rq), y. split; [by left|done].
Qed.

Ltac creates := intros rq t r H; symex H; (split; [done|]); intros m dat x Hin;
  repeat (apply elem_of_cons in Hin as [Heq|Hin]; [simplify_eq; try (split; [done|split; [done|]];
    repeat constructor; simpl; intros; congruence || done)|]); by inversion Hin.

Lemma register_validated : stack_ok validated [Sync (validate register_schema); Async register].
Proof. apply validated_stack. unfold register. creates. Qed.

Lemma subscribe_validated :
  stack_ok validated [Sync (validate newsletter_schema); Async Newsletter.subscribe].
Proof. apply validated_stack. unfold Newsletter.subscribe. creates. Qed.

Lemma submit_validated : stack_ok validated [Sync (validate contact_schema); Async Contact.submit].
Proof. apply validated_stack. unfold Contact.submit. creates. Qed.

Lemma add_validated : stack_ok validated [Sync (validate download_schema); Async Downloads.add].
Proof. apply validated_stack. unfold Downloads.add. creates. Qed.

Ltac creates_nothing := intros rq t r H; symex H; (split; [done|]); apply validated_none;
  by repeat constructor.

Lemma login_validated cfg : handler_ok validated (login cfg).
Proof. unfold login, sign_access, sign_refresh. creates_nothing. Qed.
Lemma refresh_validated cfg : handler_ok validated (refresh cfg).
Proof. unfold refresh, sign_access. creates_nothing. Qed.
Lemma me_validated : handler_ok validated me.
Proof. unfold me. creates_nothing. Qed.
Lemma list_all_validated : handler_ok validated Downloads.list_all.
Proof. unfold Downloads.list_all. creates_nothing. Qed.
Lemma remove_validated : handler_ok validated Downloads.remove.
Proof. unfold Downloads.remove. creates_nothing. Qed.
Lemma proxy_validated cfg : handler_ok validated (Rpc.proxy cfg).
Proof. unfold Rpc.proxy, Rpc.callRpc. creates_nothing. Qed.
Lemma get_stats_validated cfg : handler_ok validated (Stats.get_stats cfg).
Proof.
  intros rq t r H. split; [by apply get_stats_exec in H as [-> _]|]. apply validated_none.
  eapply get_stats_Forall; [|done..|exact H]. by intros [[] ?].
Qed.

Lemma app_validated cfg rq out t a :
  exec (run_layers (app cfg) rq out) t a → validated (rq_authorization rq) t.
Proof.
  apply app_policy_routes; unfold Downloads.add_stack, Downloads.remove_stack;
    eauto 10 using validated_policy, register_validated, subscribe_validated, submit_validated,
      add_validated, stack_sync_ok, stack_async_ok, validate_ok, authenticate_ok, requireAdmin_ok,
      login_validated, refresh_validated, me_validated, list_all_validated, remove_validated,
      proxy_validated, get_stats_validated.
Qed.
End policy.

(** ** Stored rows *)

Section stored.
Context {E : Env} {PL : PrismaLaws E} {ZL : ZodLaws E}.
Implicit Types s : sys E.

Abbreviation accepted sc v := (accepts email_ok url_ok sc v = true).

Lemma zod_accepted sc v y w : answer E (ZodParse sc v) w = Ok y → accepted sc v.
Proof.
  intros Ha. destruct (accepts email_ok url_ok sc v) eqn:Hv; [done|].
  destruct (parse_rejects sc v w Hv) as (i & l & Hr). by pose proof (eq_trans (eq_sym Ha) Hr).
Qed.

(** A field of an accepted object is accepted by the field's schema. *)
Lemma object_field fs o k sc :
  accepted (ZObject fs) (JObj o) → (k, sc) ∈ fs → accepted sc (default JUndef (assoc k o)).
Proof.
  intros H Hin. simpl in H. induction fs as [|[k' sc'] fs IH]; [by inversion Hin|].
  apply andb_true_iff in H as [H1 H2]. apply elem_of_cons in Hin as [[= -> ->]|Hin]; auto.
Qed.

Lemma assoc_is_Some k (dat : jsobj) : k ∈ dat.*1 → is_Some (assoc k dat).
Proof.
  induction dat as [|[k' v] dat IH]; simpl; [by inversion 1|].
  destruct (String.eqb_spec k k'); [eauto|]. intros [?|?]%elem_of_cons; [done|auto].
Qed.

(** A string column of a stored row comes from an accepted field. *)
Lemma stored_column m fs v dat r k sc (Q : string → Prop) :
  schema_of m = ZObject fs → (k, sc) ∈ fs → k ∈ data_keys m → k ≠ "password" →
  k ∈ (columns m).*1 → (∀ x, accepted sc x → ∃ str, x = JStr str ∧ Q str) →
  accepted (schema_of m) v → data_of m v dat → new_row m dat r → str_column k Q r.
Proof.
  intros Hfs Hin Hk Hne Hcol HQ Hacc [Hkeys Hall] Hnew. rewrite Hfs in Hacc.
  destruct v as [| | | | | |o|]; try discriminate Hacc.
  destruct (HQ _ (object_field _ _ _ _ Hacc Hin)) as (str & Hstr & Hq).
  exists str. split; [|done]. apply (new_row_given _ _ _ _ _ Hnew Hcol).
  destruct (assoc_is_Some k dat) as [x Hx]; [by rewrite Hkeys|].
  rewrite Forall_forall in Hall. specialize (Hall _ (assoc_elem _ _ _ Hx) Hne).
  unfold prop in Hall. simpl in Hall. injection Hall as Hall.
  unfold given. by rewrite Hx, <- Hall, Hstr.
Qed.

Ltac decided := apply (bool_decide_eq_true_1 _); vm_compute; reflexivity.

Ltac stored_field :=
  eapply stored_column; [| | | | | |eassumption..]; [reflexivity| |decided|discriminate|decided|];
  [solve [left | right; left | do 2 right; left | do 3 right; left]|];
  intros x Hx; destruct x; try discriminate Hx; cbn [accepts forallb check_ok] in Hx;
  rewrite ?andb_true_iff, ?Nat.leb_le, ?bool_decide_eq_true in Hx;
  eexists; (split; [reflexivity|]); try tauto; try lia.

(** A row created from an accepted body is valid. *)
Lemma stored_row_valid m v dat r :
  accepted (schema_of m) v → data_of m v dat → new_row m dat r → valid_row m r.
Proof.
  intros Hacc Hdat Hnew. destruct m; simpl; split_and?; stored_field.
Qed.

Lemma row_valid_kept cfg m o s :
  good_event cfg (Ev o (perform o s).1) →
  (∀ m dat, o = DbCreate m dat → ∃ v, accepted (schema_of m) v ∧ data_of m v dat) →
  Forall (valid_row m) (rows s m) → Forall (valid_row m) (rows (perform o s).2 m).
Proof.
  intros Hg Hv Hc.
  destruct (perform_rows cfg o s m Hg) as [->|[(dat & r & -> & Hn & _ & ->)|[_ (l1 & r & l2 & Hr & ->)]]].
  - done.
  - destruct (Hv _ _ eq_refl) as (v & Ha & Hd). apply Forall_snoc. split; [done|].
    by eapply stored_row_valid.
  - rewrite Hr in Hc. apply Forall_app in Hc as [? [_ ?]%Forall_cons]. by apply Forall_app.
Qed.

(** Every creation of a run of the server is of accepted data. *)
Lemma serves_validated {X : Express} {XL : ExpressLaws X} {P : Packages} {PaL : PackagesLaws P}
    cfg out rqs u s s' m dat x :
  server_trace cfg out rqs u → replays s u s' → Ev (DbCreate m dat) x ∈ u →
  ∃ v, accepted (schema_of m) v ∧ data_of m v dat.
Proof.
  intros (ts & Hts & Hsh) Hr Hin. apply (shuffle_elem _ _ _ Hsh) in Hin as (t & Ht & Hin).
  assert (Hzu : ∀ e, e ∈ t → e ∈ u).
  { intros e He. apply (shuffle_elem _ _ _ Hsh). by exists t. }
  apply list_elem_of_lookup_1 in Ht as [i Hi].
  destruct (Forall2_lookup_r _ _ _ _ _ Hts Hi) as (rq & _ & a & Hx).
  destruct (app_validated _ _ _ _ _ Hx _ _ _ Hin) as (v & y & Hz%Hzu & Hd).
  exists v. split; [|done].
  destruct (replays_answer _ _ _ _ _ Hr Hz eq_refl) as [w Hw]. by eapply zod_accepted.
Qed.
End stored.

(** ** The gate *)

Section gate.
Context {X : Express} {XL : ExpressLaws X} {E : Env} {PL : PrismaLaws E} {ZL : ZodLaws E}.
Variables (sc : schema) (h : request → M unit) (rq : request) (s : sys E).
Let o := ZodParse sc (rq_body rq).
Let route := run_stack [Sync (validate sc); Async h] rq.

Lemma validate_accepts_run out a t s' :
  accepts email_ok url_ok sc (rq_body rq) = true →
  run (h rq) (Sys (cache s) (after E o (ext s))) = (Ok a, t, s') →
  run (route out) s = (tt, Ev o (answer E o (ext s)) :: t, s').
Proof.
  intros Hacc Hh. unfold route. rewrite stack_sync. unfold validate, zod_parse.
  destruct (parse_accepts sc (rq_body rq) (ext s) Hacc) as [v Hv].
  cbn [try_catch pbind mbind M_bind]. rewrite run_vis by done. fold o in Hv |- *. rewrite Hv.
  cbn [pbind]. unfold lift. rewrite stack_async, !run_pbind, Hh. cbn. by rewrite !app_nil_r.
Qed.

Lemma validate_rejects_run :
  accepts email_ok url_ok sc (rq_body rq) = false →
  ∃ issue issues s', (∀ out, answers (route out) s
    (400%Z, JObj [("error", JStr "Validation failed");
                  ("details", JArr (issue_json <$> issue :: issues))]) s') ∧
    ∀ m, rows s' m = rows s m.
Proof.
  intros Hacc. destruct (parse_rejects sc (rq_body rq) (ext s) Hacc) as (i & l & Hv). exists i, l.
  eexists. split.
  - intros out. unfold route. rewrite stack_sync. unfold validate, zod_parse. eexists _, _. split.
    + cbn [try_catch pbind mbind M_bind]. rewrite run_vis by done. rewrite Hv.
      cbn [pbind respond]. rewrite run_vis by done. cbn [run pbind]. reflexivity.
    + reflexivity.
  - intros m. unfold rows. simpl. by frame_tables.
Qed.
End gate.

(** ** Theorems *)

(** C21: the middleware is a gate.  On a body the schema accepts it hands the
    request on unchanged, so that the route behaves as its handler alone;
    on any other body it answers 400 with at least one issue, the handler is
    not run, and no table changes. *)
Theorem validate_gate {X : Express} {XL : ExpressLaws X} {E : Env} {PL : PrismaLaws E} {ZL : ZodLaws E}
    sc h rq out (s : sys E) :
  let o := ZodParse sc (rq_body rq) in
  let route := run_stack [Sync (validate sc); Async h] rq out in
  if accepts email_ok url_ok sc (rq_body rq) then
    ∀ a t s', run (h rq) (Sys (cache s) (after E o (ext s))) = (Ok a, t, s') →
      run route s = (tt, Ev o (answer E o (ext s)) :: t, s')
  else
    ∃ issue issues s', answers route s
      (400%Z, JObj [("error", JStr "Validation failed");
                    ("details", JArr (issue_json <$> issue :: issues))]) s' ∧
      ∀ m, rows s' m = rows s m.
Proof.
  intros o route. destruct (accepts _ _ _ _) eqn:Hacc.
  - intros a t s'. by apply validate_accepts_run.
  - destruct (validate_rejects_run sc h rq s Hacc) as (i & l & s' & Ha & Hs). eauto.
Qed.

Lemma validate_gate_witness :
  let rq := simple_request "POST" "/" None (JObj [("email", JStr "no-address")]) in
  let route := run_stack [Sync (validate newsletter_schema); Async Newsletter.subscribe] rq no_next in
  ∃ issue issues s', answers route ref_sys
    (400%Z, JObj [("error", JStr "Validation failed");
                  ("details", JArr (issue_json <$> issue :: issues))]) s' ∧
    ∀ m, rows s' m = rows ref_sys m.
Proof.
  intros rq route. exact (validate_gate newsletter_schema Newsletter.subscribe rq no_next ref_sys).
Defined.

(** C13: through every interleaving of requests the tables hold only rows that
    passed the schema of their route: accounts, subscriptions and messages
    have an address in the accepted format, subjects have 1 to 200 and
    messages 10 to 5000 UTF-16 units, downloads have a name, a version, one of
    the three platforms and an accepted URL. *)
Theorem stored_rows_valid {X : Express} {XL : ExpressLaws X} {P : Packages} {PaL : PackagesLaws P}
    {E : Env} {PL : PrismaLaws E} {ZL : ZodLaws E} cfg out rqs (s s' : sys E) m :
  serves cfg out rqs s s' → Forall (valid_row m) (rows s m) → Forall (valid_row m) (rows s' m).
Proof.
  intros (u & Hu & Hr).
  assert (Hall : Forall (λ e, good_event cfg e ∧ match e with
      | Ev (DbCreate m dat) _ => ∃ v, accepts email_ok url_ok (schema_of m) v = true ∧ data_of m v dat
      | _ => True end) u).
  { apply Forall_forall. intros e He. split.
    - apply serves_good in Hu. rewrite Forall_forall in Hu. by apply Hu.
    - destruct e as [[] ?]; try exact I. by eapply serves_validated. }
  refine (replays_invariant _ (λ s, Forall (valid_row m) (rows s m)) u s s' _ Hall Hr).
  intros o s1 [Hg Hc]. eapply row_valid_kept; [exact Hg|]. intros m' dat ->. exact Hc.
Qed.

Lemma stored_rows_valid_witness :
  let s' := (run_all default_config no_next [escalation_request] ref_sys).2 in
  rows s' MUser ≠ [] ∧ Forall (valid_row MUser) (rows s' MUser).
Proof.
  intros s'. split; [vm_compute; discriminate|].
  apply (stored_rows_valid default_config no_next [escalation_request] ref_sys s' MUser
    (run_all_serves _ _ _ _)). constructor.
Defined.
