(* ===== verification/Content.v ===== *)
(** * Newsletter, contact form and downloads: theorems *)

From S2P Require Import Prelude JsValue Effects Foreign Http Config Validate AuthMw AuthRoutes ContentRoutes RpcRoutes App AppSafety Concurrency AuthFlow Accounts Reference.

(** ** Specifications *)

Section spec.
Context {E : Env} {PL : PrismaLaws E}.
Implicit Types s : sys E.

(** The outcomes of a subscription. *)
Inductive subscribe_post (email : string) s s' : Z * jsval → Prop :=
| subscribe_known r :
    r ∈ rows s MNewsletter → has_email email r → (∀ m, rows s' m = rows s m) →
    subscribe_post email s s' (200%Z, message_json "Already subscribed")
| subscribe_new r :
    Forall (λ r, ¬ has_email email r) (rows s MNewsletter) →
    rows s' MNewsletter = rows s MNewsletter ++ [r] → has_email email r →
    (∀ m, m ≠ MNewsletter → rows s' m = rows s m) →
    subscribe_post email s s' (201%Z, message_json "Subscribed successfully")
| subscribe_failed :
    (∀ m, rows s' m = rows s m) →
    subscribe_post email s s' (500%Z, error_json "Internal server error").

(** The outcomes of a contact request: the message is stored unread. *)
Inductive submit_post (email subject message : string) s s' : Z * jsval → Prop :=
| submit_stored r :
    rows s' MContact = rows s MContact ++ [r] → (∀ m, m ≠ MContact → rows s' m = rows s m) →
    has_email email r → assoc "subject" r = Some (JStr subject) →
    assoc "message" r = Some (JStr message) → assoc "read" r = Some (JBool false) →
    submit_post email subject message s s' (201%Z, message_json "Message sent successfully")
| submit_failed :
    (∀ m, rows s' m = rows s m) →
    submit_post email subject message s s' (500%Z, error_json "Internal server error").

(** The outcomes of adding a download: the stored row is the answer, with
    [null] for a checksum that was not given. *)
Inductive add_post (name version platform url : string) (checksum : jsval) s s' : Z * jsval → Prop :=
| add_stored r :
    rows s' MDownload = rows s MDownload ++ [r] → (∀ m, m ≠ MDownload → rows s' m = rows s m) →
    assoc "name" r = Some (JStr name) → assoc "version" r = Some (JStr version) →
    assoc "platform" r = Some (JStr platform) → assoc "url" r = Some (JStr url) →
    assoc "checksum" r = Some (match checksum with JUndef => JNull | v => v end) →
    add_post name version platform url checksum s s' (201%Z, JObj r)
| add_failed :
    (∀ m, rows s' m = rows s m) →
    add_post name version platform url checksum s s' (500%Z, error_json "Internal server error").

(** The outcomes of deleting a download. *)
Inductive remove_post (id : string) s s' : Z * jsval → Prop :=
| remove_done l1 r l2 :
    rows s MDownload = l1 ++ r :: l2 → assoc "id" r = Some (JStr id) →
    rows s' MDownload = l1 ++ l2 → (∀ m, m ≠ MDownload → rows s' m = rows s m) →
    remove_post id s s' (200%Z, message_json "Download deleted")
| remove_failed :
    (∀ m, rows s' m = rows s m) →
    remove_post id s s' (500%Z, error_json "Internal server error").
End spec.

(** ** Lemmas *)

Section content.
Context {E : Env} {PL : PrismaLaws E}.
Implicit Types s : sys E.

Lemma none_has_email email l :
  Forall (λ r, ¬ row_matches [("email", JStr email)] r) l → Forall (λ r, ¬ has_email email r) l.
Proof. intros H. eapply Forall_impl; [exact H|]. intros r. cbv beta. by rewrite row_matches_single. Qed.

Lemma subscribe_post_holds rq email s x t s' :
  prop (rq_body rq) "email" = Ok (JStr email) →
  run (Newsletter.subscribe rq) s = (x, t, s') →
  ∃ resp, responses t = [resp] ∧ subscribe_post email s s' resp.
Proof.
  intros He [H Hr]%run_exec. unfold Newsletter.subscribe in H. rewrite He in H.
  symex H; replay Hr; eexists; (split; [reflexivity|]).
  - answered find_unique_some as (r & Hin & Hm%row_matches_single & _); [|done].
    eapply subscribe_known; [exact Hin|exact Hm|]. intros m. unfold rows. simpl. by frame_tables.
  - answered create_ok as (r & -> & Hn & _ & Ht & Ho).
    eapply (subscribe_new _ _ _ r); unfold rows; simpl; frame_tables.
    + apply none_has_email. by answered find_unique_none as Hnone; [|done].
    + rewrite Ht. by frame_tables.
    + by eapply (new_row_given _ _ _ _ _ Hn); [right; left|].
    + intros m Hm. frame_tables. rewrite Ho by done. by frame_tables.
  - constructor. intros m. unfold rows. simpl. frame_tables.
    erewrite create_throw by eassumption. by frame_tables.
  - constructor. intros m. unfold rows. simpl. by frame_tables.
Qed.

Lemma submit_post_holds rq email subject message s x t s' :
  prop (rq_body rq) "email" = Ok (JStr email) → prop (rq_body rq) "subject" = Ok (JStr subject) →
  prop (rq_body rq) "message" = Ok (JStr message) →
  run (Contact.submit rq) s = (x, t, s') →
  ∃ resp, responses t = [resp] ∧ submit_post email subject message s s' resp.
Proof.
  intros He Hs Hm [H Hr]%run_exec. unfold Contact.submit in H. rewrite He, Hs, Hm in H.
  symex H; replay Hr; eexists; (split; [reflexivity|]).
  - answered create_ok as (r & -> & Hn & _ & Ht & Ho).
    eapply (submit_stored _ _ _ _ _ r); unfold rows; simpl; frame_tables.
    + rewrite Ht. by frame_tables.
    + intros m Hne. frame_tables. rewrite Ho by done. by frame_tables.
    + by eapply (new_row_given _ _ _ _ _ Hn); [right; left|].
    + by eapply (new_row_given _ _ _ _ _ Hn); [do 2 right; left|].
    + by eapply (new_row_given _ _ _ _ _ Hn); [do 3 right; left|].
    + by eapply (new_row_default _ _ _ _ _ Hn); [do 4 right; left|].
  - constructor. intros m. unfold rows. simpl. frame_tables.
    erewrite create_throw by eassumption. by frame_tables.
Qed.

Lemma subscribe_not_failed {PU : PrismaUp E PL} rq email s t x s' resp :
  up E (ext s) → prop (rq_body rq) "email" = Ok (JStr email) →
  run (Newsletter.subscribe rq) s = (x, t, s') → responses t = [resp] → resp.1 ≠ 500%Z.
Proof.
  intros Hup He [H Hr]%run_exec. unfold Newsletter.subscribe in H. rewrite He in H.
  symex H; replay Hr; intros; simplify_eq/=; try done; exfalso.
  - match goal with H : answer _ (DbCreate ?m ?dat) ?w = _ |- _ =>
      destruct (create_up E m dat w) as [v Hv]; [..|by pose proof (eq_trans (eq_sym H) Hv)] end.
    + by repeat apply up_after.
    + typed_data.
    + repeat constructor; simpl; try discriminate. eauto.
    + by repeat constructor.
    + frame_tables. answered find_unique_none as Hn; [|done]. apply none_has_email in Hn. eapply Forall_impl; [exact Hn|].
      intros r Hm. repeat constructor; intros v Hv; [done|]. injection Hv as <-.
      exact Hm.
  - match goal with H : answer _ (DbFindUnique _ _ ?sel) ?w = _ |- _ =>
      destruct (find_unique_up E MNewsletter "email" email sel w Hup) as [v Hv];
      [by right; left|by pose proof (eq_trans (eq_sym H) Hv)] end.
Qed.

Lemma submit_not_failed {PU : PrismaUp E PL} rq email subject message s t x s' resp :
  up E (ext s) → prop (rq_body rq) "email" = Ok (JStr email) → prop (rq_body rq) "subject" = Ok (JStr subject) →
  prop (rq_body rq) "message" = Ok (JStr message) →
  run (Contact.submit rq) s = (x, t, s') → responses t = [resp] → resp.1 ≠ 500%Z.
Proof.
  intros Hup He Hs Hm [H Hr]%run_exec. unfold Contact.submit in H. rewrite He, Hs, Hm in H.
  symex H; replay Hr; intros; simplify_eq/=; try done; exfalso.
  match goal with H : answer _ (DbCreate ?m ?dat) ?w = _ |- _ =>
    destruct (create_up E m dat w) as [v Hv]; [..|by pose proof (eq_trans (eq_sym H) Hv)] end.
  - by repeat apply up_after.
  - typed_data.
  - repeat constructor; simpl; try discriminate; eauto.
  - by repeat constructor.
  - apply Forall_true. intros r. by repeat constructor.
Qed.

Lemma subscribe_again {PU : PrismaUp E PL} rq email s r :
  up E (ext s) → no_conflicts MNewsletter (rows s MNewsletter) →
  r ∈ rows s MNewsletter → has_email email r →
  prop (rq_body rq) "email" = Ok (JStr email) →
  ∃ s', answers (Newsletter.subscribe rq) s (200%Z, message_json "Already subscribed") s' ∧
    ∀ m, rows s' m = rows s m.
Proof.
  intros Hup Hnc Hin Hem He. destruct (run (Newsletter.subscribe rq) s) as [[x t] s'] eqn:Hrun.
  destruct (subscribe_post_holds rq email s x t s' He Hrun) as (resp & Hresp & Hpost).
  pose proof (subscribe_not_failed rq email s t x s' resp Hup He Hrun Hresp) as Hok.
  exists s'. destruct Hpost as [r' _ _ Hrows|r' Hnone _ _ _|_]; [|exfalso|done].
  - split; [by exists x, t|done].
  - rewrite Forall_forall in Hnone. by destruct (Hnone r).
Qed.

Lemma add_post_holds rq name version platform url checksum s x t s' :
  prop (rq_body rq) "name" = Ok (JStr name) → prop (rq_body rq) "version" = Ok (JStr version) →
  prop (rq_body rq) "platform" = Ok (JStr platform) → prop (rq_body rq) "url" = Ok (JStr url) →
  prop (rq_body rq) "checksum" = Ok checksum →
  run (Downloads.add rq) s = (x, t, s') →
  ∃ resp, responses t = [resp] ∧ add_post name version platform url checksum s s' resp.
Proof.
  intros H1 H2 H3 H4 H5 [H Hr]%run_exec. unfold Downloads.add in H. rewrite H1, H2, H3, H4, H5 in H.
  symex H; replay Hr; eexists; (split; [reflexivity|]).
  - answered create_ok as (r & -> & Hn & _ & Ht & Ho).
    eapply (add_stored _ _ _ _ _ _ _ r); unfold rows; simpl; frame_tables.
    + rewrite Ht. by frame_tables.
    + intros m Hne. frame_tables. rewrite Ho by done. by frame_tables.
    + by eapply (new_row_given _ _ _ _ _ Hn); [right; left|].
    + by eapply (new_row_given _ _ _ _ _ Hn); [do 2 right; left|].
    + by eapply (new_row_given _ _ _ _ _ Hn); [do 3 right; left|].
    + by eapply (new_row_given _ _ _ _ _ Hn); [do 4 right; left|].
    + destruct Hn as [_ Hn]. rewrite Forall_forall in Hn.
      specialize (Hn ("checksum", Nullable) ltac:(by do 5 right; left)).
      unfold given in Hn. cbn in Hn. by destruct checksum.
  - constructor. intros m. unfold rows. simpl. frame_tables.
    erewrite create_throw by eassumption. by frame_tables.
Qed.

Lemma remove_post_holds rq id s x t s' :
  assoc "id" (rq_params rq) = Some id →
  run (Downloads.remove rq) s = (x, t, s') →
  ∃ resp, responses t = [resp] ∧ remove_post id s s' resp.
Proof.
  intros Hid [H Hr]%run_exec. unfold Downloads.remove, Downloads.param in H. rewrite Hid in H.
  symex H; replay Hr; eexists; (split; [reflexivity|]);
    pose proof (delete_law E MDownload [("id", JStr id)] (ext s)) as Hl;
    match goal with Ha : answer _ (DbDelete _ _) _ = _ |- _ => rewrite Ha in Hl end.
  - destruct Hl as (l1 & r & l2 & _ & Hm%row_matches_single & Ht & Ht' & Ho).
    eapply remove_done; unfold rows; simpl; frame_tables; [exact Ht|exact Hm|exact Ht'|].
    intros m Hne. frame_tables. by apply Ho.
  - constructor. intros m. unfold rows. simpl. frame_tables. apply Hl.
Qed.

(** A download is stored when the database is up, under a fresh id. *)
Lemma add_succeeds {PU : PrismaUp E PL} rq name version platform url checksum s x t s' :
  up E (ext s) →
  prop (rq_body rq) "name" = Ok (JStr name) → prop (rq_body rq) "version" = Ok (JStr version) →
  prop (rq_body rq) "platform" = Ok (JStr platform) → prop (rq_body rq) "url" = Ok (JStr url) →
  prop (rq_body rq) "checksum" = Ok checksum → checksum = JUndef ∨ (∃ x, checksum = JStr x) →
  run (Downloads.add rq) s = (x, t, s') →
  ∃ r id, responses t = [(201%Z, JObj r)] ∧ assoc "id" r = Some (JStr id) ∧
    Forall (λ r0, assoc "id" r0 ≠ Some (JStr id)) (rows s MDownload) ∧ up E (ext s').
Proof.
  intros Hup H1 H2 H3 H4 H5 Hck Hrun. apply run_exec in Hrun as [H Hr].
  assert (Hup' : up E (ext s')) by (eapply up_reaches; [by eapply replays_reaches|done]).
  unfold Downloads.add in H. rewrite H1, H2, H3, H4, H5 in H. symex H; replay Hr.
  - answered create_ok as (r & -> & Hn & Hc & _ & _).
    destruct (new_row_uuid _ _ _ "id" Hn) as [id Hid]; [left|done|].
    exists r, id. split_and!; try done. eapply Forall_impl; [exact Hc|].
    intros r0 Hr0 Hi. apply Hr0, Exists_cons_hd. by rewrite Hid.
  - match goal with H : answer _ (DbCreate ?m ?dat) ?w = _ |- _ =>
      destruct (create_up E m dat w) as [v Hv]; [..|by pose proof (eq_trans (eq_sym H) Hv)] end.
    + done.
    + destruct Hck as [->|[c ->]]; do 4 (apply Forall_cons_2; [by right|]); (apply Forall_cons_2; [|by apply Forall_nil_2]);
        [by left|by right].
    + repeat constructor; simpl; try discriminate; eauto.
    + by repeat constructor.
    + apply Forall_true. intros r. by repeat constructor.
Qed.

(** Deleting the only row with an id, which is the last one. *)
Lemma remove_present {PU : PrismaUp E PL} rq id s l r :
  up E (ext s) → rows s MDownload = l ++ [r] → assoc "id" r = Some (JStr id) →
  Forall (λ r0, assoc "id" r0 ≠ Some (JStr id)) l → assoc "id" (rq_params rq) = Some id →
  ∃ s', answers (Downloads.remove rq) s (200%Z, message_json "Download deleted") s' ∧
    rows s' MDownload = l ∧ ∀ m, m ≠ MDownload → rows s' m = rows s m.
Proof.
  intros Hup Hs Hid Hl Hq. destruct (run (Downloads.remove rq) s) as [[x t] s'] eqn:Hrun.
  destruct (remove_post_holds rq id s x t s' Hq Hrun) as (resp & Hresp & Hpost).
  destruct Hpost as [l1 r' l2 Ht Hr' Ht' Ho|_].
  - exists s'. split; [by exists x, t|]. split; [|done]. rewrite Ht'. rewrite Hs in Ht.
    destruct l2 as [|r2 l2 _] using rev_ind.
    + apply app_inj_tail in Ht as [-> _]. by rewrite app_nil_r.
    + rewrite app_comm_cons, app_assoc in Ht. apply app_inj_tail in Ht as [-> _].
      apply Forall_app in Hl as [_ [Hl _]%Forall_cons]. done.
  - exfalso. apply run_exec in Hrun as [H Hr]. unfold Downloads.remove, Downloads.param in H. rewrite Hq in H.
    destruct (delete_up E MDownload id (ext s) Hup) as [v Hv].
    { unfold rows in Hs. rewrite Hs, Exists_app. right. by apply Exists_cons_hd. }
    symex H; replay Hr; same_answer.
Qed.

Lemma remove_absent rq id s :
  assoc "id" (rq_params rq) = Some id → Forall (λ r, assoc "id" r ≠ Some (JStr id)) (rows s MDownload) →
  ∃ s', answers (Downloads.remove rq) s (500%Z, error_json "Internal server error") s' ∧
    ∀ m, rows s' m = rows s m.
Proof.
  intros Hq Hno. destruct (run (Downloads.remove rq) s) as [[x t] s'] eqn:Hrun.
  destruct (remove_post_holds rq id s x t s' Hq Hrun) as (resp & Hresp & Hpost).
  destruct Hpost as [l1 r l2 Ht Hr _ _|Hs].
  - rewrite Ht in Hno. by apply Forall_app in Hno as [_ [Hn _]%Forall_cons].
  - exists s'. split; [by exists x, t|done].
Qed.

Lemma find_none {PU : PrismaUp E PL} email w :
  up E w → Forall (λ r, ¬ has_email email r) (tbl E w MNewsletter) →
  answer E (DbFindUnique MNewsletter [("email", JStr email)] None) w = Ok JNull.
Proof.
  intros Hup Hn. destruct (find_unique_up E MNewsletter "email" email None w Hup) as [v Hv];
    [by right; left|]. rewrite Hv. destruct (truthy v) eqn:Ht.
  - destruct (find_unique_some _ _ _ _ _ Hv Ht) as (r & Hin & Hm%row_matches_single & _).
    rewrite Forall_forall in Hn. by destruct (Hn r).
  - pose proof (find_unique_law E MNewsletter [("email", JStr email)] None w) as Hl. rewrite Hv in Hl.
    destruct v; try done; destruct Hl as (r & _ & _ & ?); simplify_eq.
Qed.

(** Creating a subscription twice: the second time the unique column refuses. *)
Lemma newsletter_create {PU : PrismaUp E PL} email w :
  up E w → Forall (λ r, ¬ has_email email r) (tbl E w MNewsletter) →
  let o := DbCreate MNewsletter [("email", JStr email)] in
  ∃ r, answer E o w = Ok (JObj r) ∧ has_email email r ∧
    tbl E (after E o w) MNewsletter = tbl E w MNewsletter ++ [r] ∧
    ∃ e, answer E o (after E o w) = Throw e.
Proof.
  intros Hup Hn o. destruct (create_up E MNewsletter [("email", JStr email)] w) as [v Hv].
  { done. } { typed_data. }
  { repeat constructor; simpl; try discriminate. eauto. } { by repeat constructor. }
  { eapply Forall_impl; [exact Hn|]. intros r Hr. repeat constructor; intros v Hv; [done|].
    by injection Hv as <-. }
  destruct (create_ok _ _ _ _ Hv) as (r & -> & Hnew & _ & Ht & _).
  assert (Hem : has_email email r) by (by eapply (new_row_given _ _ _ _ _ Hnew); [right; left|]).
  exists r. split_and!; try done.
  destruct (answer E o (after E o w)) as [v|e] eqn:Ha; [|by exists e].
  destruct (create_ok _ _ _ _ Ha) as (r2 & -> & Hnew2 & Hc & _).
  fold o in Ht. rewrite Ht in Hc. apply Forall_snoc in Hc as [_ Hc]. destruct Hc.
  apply Exists_exists. exists "email". split; [by right; left|]. rewrite Hem.
  symmetry. by eapply (new_row_given _ _ _ _ _ Hnew2); [right; left|].
Qed.
End content.

(** ** Theorems *)

(** Subscribing.  One response: 200 and no change for an address that is
    subscribed, 201 and exactly one new row for one that is not, 500 and no
    change on a failure. *)
Theorem subscribe_spec {E : Env} {PL : PrismaLaws E} rq email (s : sys E) :
  prop (rq_body rq) "email" = Ok (JStr email) →
  ∃ resp s', answers (Newsletter.subscribe rq) s resp s' ∧ subscribe_post email s s' resp.
Proof.
  intros He. destruct (run (Newsletter.subscribe rq) s) as [[x t] s'] eqn:Hrun.
  destruct (subscribe_post_holds rq email s x t s' He Hrun) as (resp & Hresp & Hpost).
  exists resp, s'. split; [|done]. by exists x, t.
Qed.

Lemma subscribe_spec_witness : ∃ resp s',
  answers (Newsletter.subscribe ann) ref_sys resp s' ∧ subscribe_post "ann@example.org" ref_sys s' resp.
Proof. apply (subscribe_spec ann). reflexivity. Defined.

(** C29: subscribing is idempotent.  With the database up a subscription
    succeeds, and after any traffic subscribing the same address again is
    answered "Already subscribed" and changes nothing. *)
Theorem subscribe_idempotent {X : Express} {XL : ExpressLaws X} {P : Packages} {PaL : PackagesLaws P}
    {E : Env} {PL : PrismaLaws E} {PU : PrismaUp E PL} cfg out (s : sys E) rq rq' email :
  up E (ext s) → no_conflicts MNewsletter (rows s MNewsletter) →
  prop (rq_body rq) "email" = Ok (JStr email) → prop (rq_body rq') "email" = Ok (JStr email) →
  ∃ st body s1, answers (Newsletter.subscribe rq) s (st, body) s1 ∧ (st = 200%Z ∨ st = 201%Z) ∧
  ∀ rqs s2, serves cfg out rqs s1 s2 →
  ∃ s3, answers (Newsletter.subscribe rq') s2 (200%Z, message_json "Already subscribed") s3 ∧
    ∀ m, rows s3 m = rows s2 m.
Proof.
  intros Hup Hnc He He'. destruct (run (Newsletter.subscribe rq) s) as [[x t] s1] eqn:Hrun.
  destruct (subscribe_post_holds rq email s x t s1 He Hrun) as ([st body] & Hresp & Hpost).
  pose proof (subscribe_not_failed rq email s t x s1 _ Hup He Hrun Hresp) as Hok.
  assert (Hrow : (st = 200%Z ∨ st = 201%Z) ∧ ∃ r, r ∈ rows s1 MNewsletter ∧ has_email email r).
  { inversion Hpost as [r Hin Hem Hrows|r _ Hrows Hem _|]; subst; [..|done].
    - split; [by left|]. exists r. by rewrite Hrows.
    - split; [by right|]. exists r. rewrite Hrows. split; [set_solver|done]. }
  destruct Hrow as (Hst & r & Hin & Hem). exists st, body, s1.
  split_and!; [by exists x, t|done|]. intros rqs s2 Hs.
  assert (Hnc1 : no_conflicts MNewsletter (rows s1 MNewsletter)).
  { by eapply (handler_no_conflicts cfg); [apply subscribe_sound|..]. }
  apply run_exec in Hrun as [_ Hreach%replays_reaches].
  apply (subscribe_again rq' email s2 r); [| | |done|done].
  - eapply up_reaches; [by eapply serves_reaches|]. by eapply up_reaches.
  - by eapply (serves_invariant cfg out (λ s, no_conflicts MNewsletter (rows s MNewsletter)));
      [intros o s0; apply no_conflicts_kept|..].
  - destruct Hs as (u & Hu%serves_good & Hr).
    apply (replays_append_only cfg MNewsletter) in Hr as [l ->]; [set_solver|done|done].
Qed.

Lemma subscribe_idempotent_witness : ∃ st body s1,
  answers (Newsletter.subscribe ann) ref_sys (st, body) s1 ∧ (st = 200%Z ∨ st = 201%Z) ∧
  ∀ rqs s2, serves default_config no_next rqs s1 s2 →
  ∃ s3, answers (Newsletter.subscribe ann) s2 (200%Z, message_json "Already subscribed") s3 ∧
    ∀ m, rows s3 m = rows s2 m.
Proof.
  apply (subscribe_idempotent default_config no_next ref_sys ann ann "ann@example.org");
    [exact I|apply SSorted_nil|reflexivity|reflexivity].
Defined.

Lemma unit_eq (x y : unit) : x = y.
Proof. by destruct x, y. Qed.

Ltac exec_intro := cbn; repeat (eexists _, _; split; [reflexivity|]; cbn); done.

(** C27: the check and the creation are not atomic.  Two concurrent
    subscriptions of the same new address can interleave so that both find no
    row: one is answered 201, the other is refused by the unique column and
    answered 500 instead of "Already subscribed"; still only one row is
    stored. *)
Theorem subscribe_race {E : Env} {PL : PrismaLaws E} {PU : PrismaUp E PL} rq email (s : sys E) :
  up E (ext s) → prop (rq_body rq) "email" = Ok (JStr email) →
  Forall (λ r, ¬ has_email email r) (rows s MNewsletter) →
  ∃ t1 t2 u s', exec (Newsletter.subscribe rq) t1 (Ok tt) ∧
    exec (Newsletter.subscribe rq) t2 (Ok tt) ∧ shuffle [t1; t2] u ∧ replays s u s' ∧
    responses t1 = [(201%Z, message_json "Subscribed successfully")] ∧
    responses t2 = [(500%Z, error_json "Internal server error")] ∧
    ∃ r, has_email email r ∧ rows s' MNewsletter = rows s MNewsletter ++ [r].
Proof.
  intros Hup He Hnone. unfold Newsletter.subscribe. rewrite He.
  set (find := DbFindUnique MNewsletter [("email", JStr email)] None).
  set (mk := DbCreate MNewsletter [("email", JStr email)]).
  set (w1 := after E find (ext s)). set (w2 := after E find w1). set (w3 := after E mk w2).
  assert (F1 : answer E find (ext s) = Ok JNull) by (by apply find_none).
  assert (F2 : answer E find w1 = Ok JNull).
  { apply find_none; [by apply up_after|]. unfold w1. by rewrite tbl_frame. }
  destruct (newsletter_create email w2) as (r & C1 & Hr & T3 & [e C2]).
  { by repeat apply up_after. }
  { unfold w2, w1. by frame_tables. }
  exists [Ev find (Ok JNull); Ev mk (Ok (JObj r));
          Ev (Respond 201 (message_json "Subscribed successfully")) tt],
    [Ev find (Ok JNull); Ev mk (Throw e); Ev (ConsoleError "Newsletter error:" e) tt;
     Ev (Respond 500 (error_json "Internal server error")) tt].
  exists [Ev find (Ok JNull); Ev find (Ok JNull); Ev mk (Ok (JObj r)); Ev mk (Throw e);
     Ev (Respond 201 (message_json "Subscribed successfully")) tt;
     Ev (ConsoleError "Newsletter error:" e) tt;
     Ev (Respond 500 (error_json "Internal server error")) tt].
  exists (Sys (cache s) (after E (Respond 500 (error_json "Internal server error"))
    (after E (ConsoleError "Newsletter error:" e)
      (after E (Respond 201 (message_json "Subscribed successfully")) (after E mk w3))))).
  split_and!.
  - exec_intro.
  - exec_intro.
  - apply (shuffle_step []), (shuffle_step [_]), (shuffle_step []), (shuffle_step [_]),
      (shuffle_step []), (shuffle_step [_]), (shuffle_step [_]). by repeat constructor.
  - rewrite !replays_cons by done. cbn [ext cache]. fold w1 w2 w3. split_and!; try done.
    all: exact (unit_eq _ _).
  - done.
  - done.
  - exists r. split; [done|]. unfold rows. cbn [ext]. frame_tables.
    rewrite (create_throw _ _ _ _ C2). fold w3 in T3 |- *. rewrite T3. unfold w2, w1. by frame_tables.
Qed.

Lemma subscribe_race_witness :
  ∃ t1 t2 u (s' : sys ref_env), exec (Newsletter.subscribe ann) t1 (Ok tt) ∧
    exec (Newsletter.subscribe ann) t2 (Ok tt) ∧ shuffle [t1; t2] u ∧ replays ref_sys u s' ∧
    responses t1 = [(201%Z, message_json "Subscribed successfully")] ∧
    responses t2 = [(500%Z, error_json "Internal server error")].
Proof.
  destruct (subscribe_race ann "ann@example.org" ref_sys) as (t1 & t2 & u & s' & H);
    [exact I|reflexivity|apply Forall_nil_2|].
  exists t1, t2, u, s'. tauto.
Defined.

(** The contact form stores exactly one message, unread, with the address,
    subject and text of the body, and says so; or it answers 500 and stores
    nothing. *)
Theorem submit_spec {E : Env} {PL : PrismaLaws E} rq email subject message (s : sys E) :
  prop (rq_body rq) "email" = Ok (JStr email) → prop (rq_body rq) "subject" = Ok (JStr subject) →
  prop (rq_body rq) "message" = Ok (JStr message) →
  ∃ resp s', answers (Contact.submit rq) s resp s' ∧ submit_post email subject message s s' resp.
Proof.
  intros He Hs Hm. destruct (run (Contact.submit rq) s) as [[x t] s'] eqn:Hrun.
  destruct (submit_post_holds rq email subject message s x t s' He Hs Hm Hrun) as (resp & Hresp & Hpost).
  exists resp, s'. split; [|done]. by exists x, t.
Qed.

Lemma submit_spec_witness :
  let rq := set_body (JObj [("email", JStr "ann@example.org"); ("subject", JStr "Hello");
                            ("message", JStr "A long message")]) ann in
  ∃ resp s', answers (Contact.submit rq) ref_sys resp s' ∧
    submit_post "ann@example.org" "Hello" "A long message" ref_sys s' resp.
Proof. intros rq. apply (submit_spec rq); reflexivity. Defined.

(** With the database up the list of downloads is the whole table, newest
    first, and no table changes. *)
Theorem list_spec {E : Env} {PL : PrismaLaws E} {PU : PrismaUp E PL} rq (s : sys E) :
  up E (ext s) →
  ∃ l s', answers (Downloads.list_all rq) s (200%Z, JArr (JObj <$> l)) s' ∧ (∀ m, rows s' m = rows s m) ∧
    l ≡ₚ rows s MDownload ∧ newest_first l.
Proof.
  intros Hup. destruct (run (Downloads.list_all rq) s) as [[x t] s'] eqn:Hrun.
  apply run_exec in Hrun as Hx. destruct Hx as [H Hr]. unfold Downloads.list_all in H.
  pose proof (find_many_law E MDownload (ext s)) as Hl.
  destruct (find_many_up E MDownload (ext s) Hup) as [v Hv]. rewrite Hv in Hl. destruct Hl as (l & -> & Hp & Hs).
  symex H; replay Hr; same_answer. eexists l, _. split; [by eexists _, _|].
  split; [intros m; unfold rows; simpl; by frame_tables|done].
Qed.

Lemma list_spec_witness : ∃ l s',
  answers (Downloads.list_all ann) ref_sys (200%Z, JArr (JObj <$> l)) s' ∧ ∀ m, rows s' m = rows ref_sys m.
Proof.
  destruct (list_spec ann ref_sys) as (l & s' & H1 & H2 & _); [exact I|].
  exists l, s'. split; [exact H1|exact H2].
Defined.

(** C28: the life of a download.  With the database up, adding a download is
    answered 201 with the stored row: the given fields, null for a missing
    checksum and an id no other download has.  The list then shows it, newest
    first.  Deleting it by its id is answered 200 and restores the table as it
    was, order included; deleting it once more is answered 500 and changes
    nothing.  No other table is touched. *)
Theorem download_life_cycle {E : Env} {PL : PrismaLaws E} {PU : PrismaUp E PL}
    rq name version platform url checksum (s : sys E) :
  up E (ext s) →
  prop (rq_body rq) "name" = Ok (JStr name) → prop (rq_body rq) "version" = Ok (JStr version) →
  prop (rq_body rq) "platform" = Ok (JStr platform) → prop (rq_body rq) "url" = Ok (JStr url) →
  prop (rq_body rq) "checksum" = Ok checksum → checksum = JUndef ∨ (∃ x, checksum = JStr x) →
  ∃ r id s1, answers (Downloads.add rq) s (201%Z, JObj r) s1 ∧
    rows s1 MDownload = rows s MDownload ++ [r] ∧ (∀ m, m ≠ MDownload → rows s1 m = rows s m) ∧
    assoc "name" r = Some (JStr name) ∧ assoc "version" r = Some (JStr version) ∧
    assoc "platform" r = Some (JStr platform) ∧ assoc "url" r = Some (JStr url) ∧
    assoc "checksum" r = Some (match checksum with JUndef => JNull | v => v end) ∧
    assoc "id" r = Some (JStr id) ∧ Forall (λ r0, assoc "id" r0 ≠ Some (JStr id)) (rows s MDownload) ∧
    (∀ rq', ∃ l s', answers (Downloads.list_all rq') s1 (200%Z, JArr (JObj <$> l)) s' ∧
       newest_first l ∧ l ≡ₚ r :: rows s MDownload) ∧
  ∀ rq', assoc "id" (rq_params rq') = Some id →
  ∃ s2, answers (Downloads.remove rq') s1 (200%Z, message_json "Download deleted") s2 ∧
    (∀ m, rows s2 m = rows s m) ∧
  ∃ s3, answers (Downloads.remove rq') s2 (500%Z, error_json "Internal server error") s3 ∧
    ∀ m, rows s3 m = rows s m.
Proof.
  intros Hup H1 H2 H3 H4 H5 Hck.
  destruct (run (Downloads.add rq) s) as [[x t] s1] eqn:Hrun.
  destruct (add_post_holds _ _ _ _ _ _ _ _ _ _ H1 H2 H3 H4 H5 Hrun) as (resp & Hresp & Hpost).
  destruct (add_succeeds _ _ _ _ _ _ _ _ _ _ Hup H1 H2 H3 H4 H5 Hck Hrun) as (r & id & Hresp' & Hid & Hfresh & Hup1).
  rewrite Hresp in Hresp'. injection Hresp' as ->.
  inversion Hpost as [r' Hs Ho Hn Hv Hp Hu Hc|]; subst r'. exists r, id, s1.
  split_and!; try done; [by exists x, t| |].
  - intros rq'. destruct (list_spec rq' s1 Hup1) as (l & s' & Ha & _ & Hl & Hsort).
    exists l, s'. split_and!; [done..|]. rewrite Hl, Hs. by rewrite Permutation_app_comm.
  - intros rq' Hq. destruct (remove_present rq' id s1 (rows s MDownload) r Hup1 Hs Hid Hfresh Hq) as (s2 & Ha2 & Ht2 & Ho2).
    assert (Hall : ∀ m, rows s2 m = rows s m).
    { intros m. destruct (decide (m = MDownload)) as [->|Hm]; [done|]. by rewrite Ho2, Ho. }
    exists s2. split_and!; [done..|].
    destruct (remove_absent rq' id s2 Hq) as (s3 & Ha3 & Ht3); [by rewrite Ht2|].
    exists s3. split; [done|]. intros m. by rewrite Ht3.
Qed.

Lemma download_life_cycle_witness :
  let rq := set_body (JObj [("name", JStr "wallet"); ("version", JStr "1.0"); ("platform", JStr "linux");
                            ("url", JStr "https://example.org/w")]) ann in
  ∃ r id s1, answers (Downloads.add rq) ref_sys (201%Z, JObj r) s1 ∧ rows s1 MDownload = [r] ∧
    ∃ s2, answers (Downloads.remove (set_params [("id", id)] ann)) s1 (200%Z, message_json "Download deleted") s2 ∧
      rows s2 MDownload = [].
Proof.
  intros rq. destruct (download_life_cycle rq "wallet" "1.0" "linux" "https://example.org/w" JUndef ref_sys)
    as (r & id & s1 & H1 & H2 & _ & _ & _ & _ & _ & _ & _ & _ & _ & H3); try reflexivity; [left; reflexivity|].
  destruct (H3 (set_params [("id", id)] ann) eq_refl) as (s2 & H4 & H5 & _).
  exists r, id, s1. split; [exact H1|]. split; [exact H2|]. exists s2. split; [exact H4|]. exact (H5 MDownload).
Defined.
