(* ===== verification/Node.v ===== *)
(** * The node proxy, the statistics and the configuration: theorems *)

From S2P Require Import Prelude JsValue Effects Foreign Http Config Validate AuthMw AuthRoutes ContentRoutes RpcRoutes JsonPrint Base64 App AppSafety Concurrency AuthFlow Accounts Reference.
Import Stats.

(** ** Specifications *)

(** The shape of a statistics object: the six fields, none of them undefined. *)
Definition stats_shape (o : jsobj) : Prop :=
  o.*1 = ["blockHeight"; "difficulty"; "chain"; "networkHashrate"; "connections"; "lastUpdated"] ∧
  Forall (λ kv, kv.2 ≠ JUndef) o.

Definition cache_shape {E : Env} (s : sys E) : Prop := ∀ c, cache s = Some c → stats_shape (data c).

(** No fresh entry at the time of the request. *)
Definition cache_miss {E : Env} {CL : ClockLaws E} (s : sys E) : Prop :=
  ∀ c, cache s = Some c → (CACHE_TTL ≤ now E (ext s) - timestamp c)%Z.

Section node.
Context (E : Env).
Variable cfg : config.

(** Every call to the node fails. *)
Definition node_down : Prop :=
  ∀ init w, ∃ e, answer E (Fetch (url (hyliumRpc cfg)) init) w = Throw e.

(** The node answers a method without parameters with a result. *)
Definition node_result (method : string) (v : jsval) : Prop :=
  ∀ w, ∃ resp o, answer E (Fetch (url (hyliumRpc cfg)) (rpc_init cfg (JStr method) (JArr []))) w = Ok resp ∧
    (∀ w', answer E (RespJson resp) w' = Ok (JObj o)) ∧
    truthy (default JUndef (assoc "error" o)) = false ∧ assoc "result" o = Some v.
End node.

(** ** Lemmas *)

Lemma js_or_defined a b : b ≠ JUndef → js_or a b ≠ JUndef.
Proof. intros Hb. unfold js_or. destruct (truthy a) eqn:Ha; [|done]. by intros ->. Qed.

Lemma make_stats_shape bi mi cc d : stats_shape (make_stats bi mi cc d).
Proof. split; [done|]. repeat constructor; simpl; try done; by apply js_or_defined. Qed.

Section calls.
Context {E : Env}.
Variable cfg : config.

Lemma call_down method t r :
  node_down E cfg → exec (call_or_null cfg method) t r → answered_by E t → r = Ok JNull.
Proof.
  intros Hd H Ha. unfold call_or_null, callRpc in H.
  destruct H as (x & t' & -> & H). destruct (Ha _ _ ltac:(left) eq_refl) as [w Hw].
  destruct (Hd (rpc_init cfg (JStr method) (default_params JUndef)) w) as [e He].
  pose proof (eq_trans (eq_sym He) Hw) as <-. by symex H.
Qed.

Lemma call_result method v t r :
  node_result E cfg method v → exec (call_or_null cfg method) t r → answered_by E t → r = Ok v.
Proof.
  intros Hd H Ha. unfold call_or_null, callRpc in H.
  destruct H as (x & t' & -> & H). destruct (Ha _ _ ltac:(left) eq_refl) as [w Hw].
  destruct (Hd w) as (resp & o & Hf & Hj & He & Hr).
  pose proof (eq_trans (eq_sym Hf) Hw) as <-.
  destruct H as (x & t2 & -> & H). destruct (Ha _ _ ltac:(right; left) eq_refl) as [w' Hw'].
  pose proof (eq_trans (eq_sym (Hj w')) Hw') as <-.
  cbn in H. unfold prop in H. rewrite He, Hr in H. by symex H.
Qed.

Lemma shuffle_answered t1 t2 u :
  shuffle [t1; t2] u → answered_by E u → answered_by E t1 ∧ answered_by E t2.
Proof.
  intros Hs Hu. split; intros o x Hin; apply Hu; apply (shuffle_elem _ _ _ Hs);
    [exists t1|exists t2]; set_solver.
Qed.

(** The three calls in any interleaving. *)
Lemma fetch_all_post (Qa Qb Qc : jsval → Prop) t r :
  (∀ t r, exec (call_or_null cfg "getblockchaininfo") t r → answered_by E t → ∃ v, r = Ok v ∧ Qa v) →
  (∀ t r, exec (call_or_null cfg "getmininginfo") t r → answered_by E t → ∃ v, r = Ok v ∧ Qb v) →
  (∀ t r, exec (call_or_null cfg "getconnectioncount") t r → answered_by E t → ∃ v, r = Ok v ∧ Qc v) →
  exec (fetch_all cfg) t r → answered_by E t → ∃ a b c, r = Ok (a, b, c) ∧ Qa a ∧ Qb b ∧ Qc c.
Proof.
  intros Ha Hb Hc (ta & tb & tc & tbc & x & y & z & Hx & Hy & Hz & Hs1 & Hs2 & ->)%promise_all3_exec Ht.
  apply (shuffle_answered _ _ _ Hs2) in Ht as [Hta [Htb Htc]%(shuffle_answered _ _ _ Hs1)].
  destruct (Ha _ _ Hx Hta) as (a & -> & ?), (Hb _ _ Hy Htb) as (b & -> & ?), (Hc _ _ Hz Htc) as (c & -> & ?).
  eauto 10.
Qed.

Lemma fetch_all_value a b c t r :
  (∀ t r, exec (call_or_null cfg "getblockchaininfo") t r → answered_by E t → r = Ok a) →
  (∀ t r, exec (call_or_null cfg "getmininginfo") t r → answered_by E t → r = Ok b) →
  (∀ t r, exec (call_or_null cfg "getconnectioncount") t r → answered_by E t → r = Ok c) →
  exec (fetch_all cfg) t r → answered_by E t → r = Ok (a, b, c).
Proof.
  intros Ha Hb Hc Hx Ht.
  destruct (fetch_all_post (eq a) (eq b) (eq c) t r) as (? & ? & ? & -> & <- & <- & <-); eauto.
Qed.

Lemma replays_answered t (s s' : sys E) : replays s t s' → answered_by E t.
Proof. intros Hr o x Hin Ho. by eapply replays_answer. Qed.

(** A request that finds no fresh entry: what it answers, and what it caches. *)
Lemma stats_on_miss {CL : ClockLaws E} a b c rq t r (s s' : sys E) :
  (∀ t r, exec (call_or_null cfg "getblockchaininfo") t r → answered_by E t → r = Ok a) →
  (∀ t r, exec (call_or_null cfg "getmininginfo") t r → answered_by E t → r = Ok b) →
  (∀ t r, exec (call_or_null cfg "getconnectioncount") t r → answered_by E t → r = Ok c) →
  cache_miss s → exec (get_stats cfg rq) t r → replays s t s' →
  ∃ d n, responses t = [(200%Z, JObj (make_stats a b c d))] ∧
    cache s' = Some (StatsCache (make_stats a b c d) n).
Proof.
  intros Ha Hb Hc Hmiss [_ H]%get_stats_exec Hr.
  destruct H as [c0 n Hlt|t0 t1 bi mi cc d n Ht0 Hf].
  - exfalso. rewrite replays_cache_get, replays_cons in Hr by done. destruct Hr as (Hcache & Hn & _).
    assert (now E (ext s) = n) as <- by exact (eq_trans (eq_sym (now_law E (ext s))) Hn).
    apply Hmiss in Hcache. lia.
  - pose proof (replays_answered _ _ _ Hr) as Hans.
    assert (Ht1 : answered_by E t1) by (intros o x Hin; apply Hans; set_solver).
    pose proof (fetch_all_value a b c t1 _ Ha Hb Hc Hf Ht1) as Heq. simplify_eq.
    exists d, n. split.
    + rewrite !responses_app, (responses_nil t1).
      * by destruct Ht0 as [->|(c0 & m & -> & _)].
      * eapply Forall_impl; [by eapply fetch_all_node|]. by intros [[] ?].
    + apply replays_app in Hr as (s1 & _ & Hr). apply replays_app in Hr as (s2 & _ & Hr).
      rewrite !replays_cons, replays_cache_set, replays_cons, replays_nil in Hr by done.
      by destruct Hr as (_ & _ & _ & _ & ->).
Qed.
End calls.

(** A request that misses a cached entry finds it 30 seconds old or older. *)
Lemma stats_stale {E : Env} {CL : ClockLaws E} (s : sys E) t0 c :
  cache s = Some c →
  (t0 = [Ev CacheGet None] ∨ ∃ c n, t0 = [Ev CacheGet (Some c); Ev DateNow n] ∧ (CACHE_TTL ≤ n - timestamp c)%Z) →
  (∃ s', replays s t0 s') → (now E (ext s) - timestamp c <? 30000)%Z = false.
Proof.
  intros Hc Ht0 [s' Hr]. apply Z.ltb_ge. change 30000%Z with CACHE_TTL.
  destruct Ht0 as [->|(c0 & m & -> & Hm)]; rewrite replays_cache_get in Hr; destruct Hr as [Hcache Hr]; simplify_eq.
  rewrite replays_cons in Hr by done. destruct Hr as [Hnow _].
  assert (now E (ext s) = m) as -> by exact (eq_trans (eq_sym (now_law E (ext s))) Hnow). done.
Qed.

(** ** Theorems: statistics *)

(** The reference environment with a node that always answers in one way. *)
Definition node_handle (f : fetch_init → result http_response) (o : op) (w : rworld) : reply o * rworld :=
  match o as o return reply o * rworld with
  | Fetch _ init => (f init, w)
  | o => ref_handle o w
  end.

Definition node_env (f : fetch_init → result http_response) : Env :=
  {| world := rworld; handle := node_handle f |}.

#[export] Program Instance node_clock f : ClockLaws (node_env f) := { now := r_clock }.
Next Obligation. done. Qed.
Next Obligation.
  intros f o w. assert (Hm : (r_clock w ≤ r_clock (ref_handle o w).2)%Z) by exact (@now_mono ref_env ref_clock o w).
  unfold after. destruct o; simpl in *; done || lia.
Qed.

Definition down : Env := node_env (λ _, Throw (EForeign "fetch failed")).

(** A node at block 840000 with 8 peers. *)
Definition up_reply (init : fetch_init) : result http_response :=
  Ok (HttpResponse true (Ok (JObj [("result",
    if bool_decide (fi_body init = fi_body (rpc_init default_config (JStr "getconnectioncount") (JArr [])))
    then JNum (num_of_Z 8) else JObj [("blocks", JNum (num_of_Z 840000)); ("chain", JStr "main")]);
    ("error", JNull)]))).

Definition stats_request : request := simple_request "GET" "/" None JUndef.

(** The state after one request for the statistics with the node down. *)
Definition down_sys : sys down := @Sys down None ref_world.
Definition stats_asked : sys down := (run (get_stats default_config stats_request) down_sys).2.

(** C23: the statistics are always answered with a 200 and an object of the
    six fields, each of them defined, whatever the node and the clock do.  The
    [catch] branch is never reached, since every failure of the node has been
    replaced by null: the answers "stale" and 503 are never given. *)
Theorem stats_always_answers {E : Env} cfg rq t r (s s' : sys E) :
  cache_shape s → exec (get_stats cfg rq) t r → replays s t s' →
  (∃ o, responses t = [(200%Z, JObj o)] ∧ stats_shape o) ∧ cache_shape s' ∧
  ∀ l e x, Ev (ConsoleError l e) x ∉ t.
Proof.
  intros Hs Hx Hr. assert (Hno : ∀ l e x, Ev (ConsoleError l e) x ∉ t).
  { intros l e x Hin. eapply (get_stats_Forall cfg (λ e, match e with Ev (ConsoleError _ _) _ => False
      | _ => True end)) in Hx; [|by intros [[] ?]|done..]. rewrite Forall_forall in Hx. exact (Hx _ Hin). }
  apply get_stats_exec in Hx as [_ H]. destruct H as [c n Hlt|t0 t1 bi mi cc d n Ht0 Hf].
  - rewrite replays_cache_get, !replays_cons, replays_nil in Hr by done.
    destruct Hr as (Hcache & _ & _ & ->). split; [|split; [by intros c' Hc'; apply Hs|done]].
    exists (data c). split; [done|]. by apply Hs.
  - split_and!; [|intros c Hc|done].
    + exists (make_stats bi mi cc d). split; [|apply make_stats_shape].
      rewrite !responses_app, (responses_nil t1).
      * by destruct Ht0 as [->|(c0 & m & -> & _)].
      * eapply Forall_impl; [by eapply fetch_all_node|]. by intros [[] ?].
    + apply replays_app in Hr as (s1 & _ & Hr). apply replays_app in Hr as (s2 & _ & Hr).
      rewrite !replays_cons, replays_cache_set, replays_cons, replays_nil in Hr by done.
      destruct Hr as (_ & _ & _ & _ & ->). simplify_eq/=. apply make_stats_shape.
Qed.

Lemma stats_always_answers_witness :
  let t := (run (get_stats default_config stats_request) down_sys).1.2 in
  (∃ o, responses t = [(200%Z, JObj o)] ∧ stats_shape o) ∧ cache_shape stats_asked.
Proof.
  intros t.
  destruct (stats_always_answers default_config stats_request t
    (run (get_stats default_config stats_request) down_sys).1.1 down_sys stats_asked)
    as (H1 & H2 & _); [by intros c| | |split; [exact H1|exact H2]].
  - exact (run_is_exec (get_stats default_config stats_request) down_sys).
  - exact (run_replays (get_stats default_config stats_request) down_sys).
Defined.

(** C24: an entry lives for 30 seconds.  Up to 30000 milliseconds after it was
    stored it is served as it is: the node is not asked and the cache does not
    change.  From then on the node is asked, and the entry is replaced by what
    is sent, dated no earlier than the request. *)
Theorem stats_cached {E : Env} {CL : ClockLaws E} cfg rq c t r (s s' : sys E) :
  cache s = Some c → exec (get_stats cfg rq) t r → replays s t s' →
  if (now E (ext s) - timestamp c <? 30000)%Z then
    responses t = [(200%Z, JObj (data c))] ∧ (∀ u init x, Ev (Fetch u init) x ∉ t) ∧ cache s' = Some c
  else
    (∃ u init x, Ev (Fetch u init) x ∈ t) ∧
    ∃ o n, responses t = [(200%Z, JObj o)] ∧ cache s' = Some (StatsCache o n) ∧ (now E (ext s) ≤ n)%Z.
Proof.
  intros Hc [_ H]%get_stats_exec Hr. destruct H as [c0 n Hlt|t0 t1 bi mi cc d n Ht0 Hf].
  - rewrite replays_cache_get, !replays_cons, replays_nil in Hr by done.
    destruct Hr as (Hcache & Hnow & _ & ->). rewrite Hc in Hcache. injection Hcache as <-.
    assert (now E (ext s) = n) as -> by exact (eq_trans (eq_sym (now_law E (ext s))) Hnow).
    rewrite (proj2 (Z.ltb_lt _ 30000) Hlt). split_and!; [done| |done].
    intros u init x Hin. repeat (apply elem_of_cons in Hin as [?|Hin]; [done|]). by inversion Hin.
  - rewrite (stats_stale s t0 c Hc Ht0) by (apply replays_app in Hr as (s1 & ? & _); eauto).
    split; [destruct (fetch_all_asks cfg t1 _ Hf) as (u & init & x & Hin); exists u, init, x; set_solver|].
    exists (make_stats bi mi cc d), n. split.
    + rewrite !responses_app, (responses_nil t1).
      * by destruct Ht0 as [->|(c0 & m & -> & _)].
      * eapply Forall_impl; [by eapply fetch_all_node|]. by intros [[] ?].
    + rewrite app_assoc in Hr. apply replays_app in Hr as (s1 & Hr1 & Hr).
      rewrite !replays_cons, replays_cache_set, replays_cons, replays_nil in Hr by done.
      destruct Hr as (_ & Hn & _ & _ & ->). split; [done|]. rewrite <- Hn, (now_law E).
      apply replays_reaches, now_reaches in Hr1. pose proof (now_mono E DateNow (ext s1)). simpl. lia.
Qed.

Lemma stats_cached_witness :
  let t := (run (get_stats default_config stats_request) stats_asked).1.2 in
  ∃ c, cache stats_asked = Some c ∧ responses t = [(200%Z, JObj (data c))] ∧
    ∀ u init x, Ev (Fetch u init) x ∉ t.
Proof.
  intros t. destruct (cache stats_asked) as [c|] eqn:Hc; [|vm_compute in Hc; discriminate].
  exists c. split; [reflexivity|].
  pose proof (stats_cached default_config stats_request c t _ stats_asked _ Hc (run_is_exec _ _) (run_replays _ _)) as H.
  assert (Hlt : (now down (ext stats_asked) - timestamp c <? 30000)%Z = true)
    by (vm_compute in Hc; injection Hc as <-; vm_compute; reflexivity).
  rewrite Hlt in H. destruct H as (H1 & H2 & _). exact (conj H1 H2).
Defined.

(** With the node answering, a request that finds no fresh entry returns
    and caches the node's numbers, however its three concurrent calls
    interleave. *)
Theorem stats_values {E : Env} {CL : ClockLaws E} cfg rq bi mi cc t r (s s' : sys E) :
  node_result E cfg "getblockchaininfo" bi → node_result E cfg "getmininginfo" mi →
  node_result E cfg "getconnectioncount" cc → cache_miss s →
  exec (get_stats cfg rq) t r → replays s t s' →
  ∃ d n, responses t = [(200%Z, JObj (make_stats bi mi cc d))] ∧
    cache s' = Some (StatsCache (make_stats bi mi cc d) n).
Proof. intros Ha Hb Hc. apply stats_on_miss; intros t0 r0; by apply call_result. Qed.

Lemma stats_values_witness :
  let bi := JObj [("blocks", JNum (num_of_Z 840000)); ("chain", JStr "main")] in
  let s0 := @Sys (node_env up_reply) None ref_world in
  let t := (run (get_stats default_config stats_request) s0).1.2 in
  ∃ d, responses t = [(200%Z, JObj (make_stats bi bi (JNum (num_of_Z 8)) d))].
Proof.
  intros bi s0 t.
  destruct (stats_values default_config stats_request bi bi (JNum (num_of_Z 8)) t
    (run (get_stats default_config stats_request) s0).1.1 s0
    (run (get_stats default_config stats_request) s0).2) as (d & n & H & _).
  - intros w. eexists _, _. split; [reflexivity|]. split; [intros w'; reflexivity|]. split; reflexivity.
  - intros w. eexists _, _. split; [reflexivity|]. split; [intros w'; reflexivity|]. split; reflexivity.
  - intros w. eexists _, _. split; [reflexivity|]. split; [intros w'; reflexivity|]. split; reflexivity.
  - intros c Hc. discriminate Hc.
  - exact (run_is_exec (get_stats default_config stats_request) s0).
  - exact (run_replays (get_stats default_config stats_request) s0).
  - exists d. exact H.
Defined.

(** C25: with the node down, a request that finds no fresh entry is answered
    with zeros and replaces whatever was cached by them, good values
    included; the zeros are then served for 30 seconds. *)
Theorem stats_outage {E : Env} {CL : ClockLaws E} cfg rq t r (s s' : sys E) :
  node_down E cfg → cache_miss s → exec (get_stats cfg rq) t r → replays s t s' →
  ∃ d n, let zeros := [("blockHeight", zero); ("difficulty", zero); ("chain", JStr "unknown");
      ("networkHashrate", zero); ("connections", zero); ("lastUpdated", JStr (toISOString d))] in
    responses t = [(200%Z, JObj zeros)] ∧ cache s' = Some (StatsCache zeros n).
Proof.
  intros Hd Hm Hx Hr.
  by apply (stats_on_miss cfg JNull JNull JNull rq t r s s');
    [intros t0 r0; apply call_down..| | |].
Qed.

Lemma stats_outage_witness :
  let t := (run (get_stats default_config stats_request) down_sys).1.2 in
  ∃ d n, let zeros := [("blockHeight", zero); ("difficulty", zero); ("chain", JStr "unknown");
      ("networkHashrate", zero); ("connections", zero); ("lastUpdated", JStr (toISOString d))] in
    responses t = [(200%Z, JObj zeros)] ∧ cache stats_asked = Some (StatsCache zeros n).
Proof.
  intros t. apply (stats_outage default_config stats_request t
    (run (get_stats default_config stats_request) down_sys).1.1 down_sys stats_asked).
  - intros init w. eexists. reflexivity.
  - intros c Hc. discriminate Hc.
  - exact (run_is_exec (get_stats default_config stats_request) down_sys).
  - exact (run_replays (get_stats default_config stats_request) down_sys).
Defined.

(** Concurrent requests share the cache without any lock.  Through every
    interleaving the entry, when there is one, is a complete statistics
    object. *)
Theorem cache_stays_complete {X : Express} {XL : ExpressLaws X} {P : Packages} {PaL : PackagesLaws P}
    {E : Env} cfg out rqs (s s' : sys E) :
  serves cfg out rqs s s' → cache_shape s → cache_shape s'.
Proof.
  apply serves_invariant. intros o s1 Hg Hs c. unfold perform.
  destruct o; try (destruct (handle _ _); simpl; apply Hs); simpl; try apply Hs.
  intros [= ->]. destruct Hg as (bi & mi & cc & d & ->). apply make_stats_shape.
Qed.

Lemma cache_stays_complete_witness :
  cache_shape (run_all default_config no_next
    [simple_request "GET" "/api/stats" None JUndef] down_sys).2.
Proof.
  apply (cache_stays_complete default_config no_next
    [simple_request "GET" "/api/stats" None JUndef] down_sys _ (run_all_serves _ _ _ _)).
  intros c Hc. discriminate Hc.
Defined.

(** ** Theorems: the proxy *)

(** The answer of the proxy to what the node says. *)
Definition proxy_answer (x : result http_response) (y : http_response → result jsval) : Z * jsval :=
  match x with
  | Throw _ => (500%Z, error_json "RPC call failed")
  | Ok resp =>
      match y resp with
      | Ok v => (200%Z, v)
      | Throw _ => (500%Z, error_json "RPC call failed")
      end
  end.

(** C26: the proxy.  A method whose lower case is on the list is forwarded, in
    the caller's spelling and with an empty parameter list when none is
    given, and the node's JSON is passed on whatever its HTTP status; a failed
    call or an unreadable answer is a 500.  Any other method is answered 403
    with the list, and the node is not called. *)
Theorem proxy_spec {E : Env} cfg rq name params (s : sys E) :
  prop (rq_body rq) "method" = Ok (JStr name) → prop (rq_body rq) "params" = Ok params →
  let o := Fetch (url (hyliumRpc cfg)) (rpc_init cfg (JStr name) (default_params params)) in
  ∃ t s', run (Rpc.proxy cfg rq) s = (Ok tt, t, s') ∧
  if bool_decide (toLowerCase name ∈ Rpc.ALLOWED_METHODS) then
    Ev o (answer E o (ext s)) ∈ t ∧
    responses t = [proxy_answer (answer E o (ext s))
                     (λ resp, answer E (RespJson resp) (after E o (ext s)))]
  else
    t = [Ev (Respond 403 (JObj [("error", JStr "Method not allowed");
                                ("allowedMethods", JArr (JStr <$> Rpc.ALLOWED_METHODS))])) tt].
Proof.
  intros Hm Hp o. destruct (run_total (Rpc.proxy cfg rq) s) as (r & t & s' & Hrun & H & Hr).
  apply (proxy_sound cfg rq) in H as Hs. destruct Hs as (-> & _ & _).
  exists t, s'. split; [done|]. unfold Rpc.proxy, Rpc.callRpc in H. rewrite Hm, Hp in H.
  cbn in H. case_bool_decide as Hin; cbn in H.
  - fold o in H. symex H; replay Hr;
      match goal with Ha : answer _ o _ = _ |- _ => rewrite Ha end; (split; [by left|]); simpl;
      try match goal with Ha : answer _ (RespJson _) _ = _ |- _ => rewrite Ha end; done.
  - by symex H.
Qed.

Lemma proxy_spec_witness :
  let rq := set_body (JObj [("method", JStr "sendtoaddress")]) stats_request in
  ∃ t s', run (Rpc.proxy default_config rq) down_sys = (Ok tt, t, s') ∧
    t = [Ev (Respond 403 (JObj [("error", JStr "Method not allowed");
                                ("allowedMethods", JArr (JStr <$> Rpc.ALLOWED_METHODS))])) tt].
Proof. intros rq. apply (proxy_spec default_config rq "sendtoaddress" JUndef down_sys); reflexivity. Defined.

(** ** Theorems: the configuration *)

(** The secrets, the node's URL and the CORS origin are never empty, a
    variable that is set and not empty is used as it is, and without
    variables the two token secrets differ. *)
Theorem config_spec (penv : environment) :
  let cfg := load_config penv in
  secret (jwt cfg) ≠ "" ∧ refreshSecret (jwt cfg) ≠ "" ∧ url (hyliumRpc cfg) ≠ "" ∧
  cors_origin cfg ≠ "" ∧
  (∀ v, penv "JWT_SECRET" = Some v → v ≠ "" → secret (jwt cfg) = v) ∧
  (∀ v, penv "JWT_REFRESH_SECRET" = Some v → v ≠ "" → refreshSecret (jwt cfg) = v) ∧
  (∀ v, penv "HYLIUM_RPC_URL" = Some v → v ≠ "" → url (hyliumRpc cfg) = v) ∧
  (penv "JWT_SECRET" = None → penv "JWT_REFRESH_SECRET" = None →
   secret (jwt cfg) ≠ refreshSecret (jwt cfg)).
Proof.
  intros cfg. split_and!; try (by apply env_or_nonempty); try (intros v; apply env_or_set).
  intros H1 H2. unfold cfg, load_config, env_or. simpl. by rewrite H1, H2.
Qed.

(** The port and the limits.  A variable that holds the decimal digits of
    a number gives that number, rounded to binary64; unset, they are 3001,
    15 minutes and 100 requests.  A port that is not a number is not
    rejected: it becomes NaN. *)
Theorem config_numbers (penv : environment) (n : N) :
  let cfg := load_config penv in
  (penv "PORT" = Some (pretty n) → port cfg = num_of_Z (Z.of_N n)) ∧
  (penv "RATE_LIMIT_WINDOW_MS" = Some (pretty n) → windowMs (rateLimit cfg) = num_of_Z (Z.of_N n)) ∧
  (penv "RATE_LIMIT_MAX" = Some (pretty n) → max (rateLimit cfg) = num_of_Z (Z.of_N n)) ∧
  (penv "PORT" = None → port cfg = num_of_Z 3001) ∧
  (penv "RATE_LIMIT_WINDOW_MS" = None → windowMs (rateLimit cfg) = num_of_Z (15 * 60 * 1000)) ∧
  (penv "RATE_LIMIT_MAX" = None → max (rateLimit cfg) = num_of_Z 100) ∧
  (penv "PORT" = Some "http" → port cfg = S754_nan).
Proof.
  intros cfg. split_and!; try (apply parseInt_env).
  all: intros H; unfold cfg, load_config, env_or; simpl; rewrite H; vm_compute; reflexivity.
Qed.
