(* ===== verification/Jsx.v ===== *)
(** * React elements

    What a component returns, as a tree: text, the value of a JSX expression,
    and elements with their properties and event handlers.  React turns such a
    tree into the page; it is foreign code. *)

From S2P Require Import Prelude JsValue.

(** The event handlers of the site. *)
Inductive msg :=
| ToggleMenu                  (* () => setIsOpen(!isOpen) *)
| TypeEmail                   (* (e) => setEmail(e.target.value) *)
| SubmitEmail.                (* handleSubmit *)

Unset Elimination Schemes.
Inductive node :=
| Text (s : string)
| Value (v : jsval)
| Elem (tag : string) (props : jsobj) (on : list (string * msg)) (children : list node).
Set Elimination Schemes.

Section node_induction.
Variable P : node → Prop.
Hypothesis P_text : ∀ s, P (Text s).
Hypothesis P_value : ∀ v, P (Value v).
Hypothesis P_elem : ∀ tag props on children, Forall P children → P (Elem tag props on children).

Fixpoint node_ind (e : node) : P e :=
  match e with
  | Text s => P_text s
  | Value v => P_value v
  | Elem tag props on children =>
      P_elem tag props on children ((fix go l : Forall P l :=
        match l with
        | [] => Forall_nil_2 _
        | c :: l' => Forall_cons_2 _ _ _ (node_ind c) (go l')
        end) children)
  end.
End node_induction.

(** The property [style={{ ... }}]. *)
Definition css (l : jsobj) : string * jsval := ("style", JObj l).

(** Properties with a string or an integer as value. *)
Notation "k =: v" := (k%string, JStr v%string) (at level 60, only parsing) : hyl_scope.
Notation "k =# z" := (k%string, JNum (num_of_Z z)) (at level 60, only parsing) : hyl_scope.

(** [l.map((x, i) => ...)] *)
Definition map_i {A B} (f : nat → A → B) (l : list A) : list B := imap f l.

(** ** Queries on trees *)

(** The values of a property, in document order. *)
Fixpoint attributes (k : string) (e : node) : list jsval :=
  match e with
  | Elem _ props _ children =>
      match assoc k props with Some v => [v] | None => [] end ++
      (fix go (l : list node) : list jsval :=
         match l with [] => [] | c :: l' => attributes k c ++ go l' end) children
  | _ => []
  end.

(** The elements with a tag, in document order. *)
Fixpoint elements (tag : string) (e : node) : list node :=
  match e with
  | Elem t _ _ children =>
      (if String.eqb t tag then [e] else []) ++
      (fix go (l : list node) : list node :=
         match l with [] => [] | c :: l' => elements tag c ++ go l' end) children
  | _ => []
  end.

Definition attribute (k : string) (e : node) : option jsval :=
  match e with Elem _ props _ _ => assoc k props | _ => None end.

