(* ===== verification/Api.v ===== *)
(** * The API client of the site (website/src/services/api.ts) *)

From S2P Require Import Prelude JsValue Effects Foreign Http JsonPrint Reference.

Definition API_BASE : string := "http://localhost:3001/api".

(** The options of [fetch] the client uses. *)
Record request_init := RequestInit {
  ri_method : option string;
  ri_headers : list (string * string);
  ri_body : option string;
}.

(** [{ 'Content-Type': 'application/json', ...headers }] *)
Definition with_headers (headers : list (string * string)) : list (string * string) :=
  ("Content-Type", default "application/json" (assoc "Content-Type" headers)) ::
  filter (λ kv, kv.1 ≠ "Content-Type") headers.

(** [ApiResponse]: an object with [data] or [error].  Without a method
    [fetch] sends a GET. *)
Definition fetchApi (endpoint : string) (options : option request_init) : M jsval :=
  try_catch
    (response ← fetch (API_BASE +:+ endpoint)
       {| fi_method := default "GET" (options ≫= ri_method);
          fi_headers := with_headers (default [] (ri_headers <$> options));
          fi_body := options ≫= ri_body |};
     data ← resp_json response;
     if negb (resp_ok response) then
       error ← of_result (prop data "error");
       mret (JObj [("error", js_or error (JStr "Request failed"))])
     else mret (JObj [("data", data)]))
    (λ _, mret (JObj [("error", JStr "Network error")])).

Definition post (body : jsval) : request_init := RequestInit (Some "POST") [] (stringify body).

Definition getStats : M jsval := fetchApi "/stats" None.

Definition subscribeNewsletter (email : string) : M jsval :=
  fetchApi "/newsletter" (Some (post (JObj [("email", JStr email)]))).

Definition submitContact (email subject message : string) : M jsval :=
  fetchApi "/contact"
    (Some (post (JObj [("email", JStr email); ("subject", JStr subject); ("message", JStr message)]))).

Definition getDownloads : M jsval := fetchApi "/downloads" None.

(** ** Results *)

(** What a call resolves to, as a function of what the network and the parser
    answer. *)
Definition api_result (x : result http_response) (y : http_response → result jsval) : jsval :=
  match x with
  | Throw _ => JObj [("error", JStr "Network error")]
  | Ok response =>
      match y response with
      | Throw _ => JObj [("error", JStr "Network error")]
      | Ok data =>
          if resp_ok response then JObj [("data", data)]
          else match prop data "error" with
               | Ok error => JObj [("error", js_or error (JStr "Request failed"))]
               | Throw _ => JObj [("error", JStr "Network error")]
               end
      end
  end.

(** Every call resolves: with [data] alone, or with a truthy [error] alone. *)
Lemma fetchApi_resolves endpoint options t r :
  exec (fetchApi endpoint options) t r →
  (∃ d, r = Ok (JObj [("data", d)])) ∨ (∃ e, r = Ok (JObj [("error", e)]) ∧ truthy e = true).
Proof.
  unfold fetchApi. intros H. symex H; eauto. right. eexists. split; [done|]. by apply js_or_truthy.
Qed.

(** The call to [fetch]. *)
Definition fetch_op (endpoint : string) (options : option request_init) : op :=
  Fetch (API_BASE +:+ endpoint)
    {| fi_method := default "GET" (options ≫= ri_method);
       fi_headers := with_headers (default [] (ri_headers <$> options));
       fi_body := options ≫= ri_body |}.

Lemma fetchApi_run {E : Env} endpoint options (s : sys E) :
  let w := after E (fetch_op endpoint options) (ext s) in
  (run (fetchApi endpoint options) s).1.1 =
    Ok (api_result (answer E (fetch_op endpoint options) (ext s)) (λ resp, answer E (RespJson resp) w)) ∧
  ext (run (fetchApi endpoint options) s).2 =
    match answer E (fetch_op endpoint options) (ext s) with
    | Ok resp => after E (RespJson resp) w
    | Throw _ => w
    end.
Proof.
  intros w. destruct (run_total (fetchApi endpoint options) s) as (x & t & s' & -> & H & Hrep).
  unfold fetchApi in H. simpl. unfold api_result, w, fetch_op.
  symex H; replay Hrep;
    repeat match goal with
    | Ha : answer _ _ _ = _ |- _ => rewrite Ha; clear Ha
    | Hp : prop _ _ = _ |- _ => rewrite Hp; clear Hp
    | Hb : resp_ok _ = _ |- _ => rewrite Hb; clear Hb
    end; done.
Qed.

(** Every call of the client resolves, never rejects, and its result is
    determined by what the network and the JSON parser answer: [data] for a
    successful status, the server's [error] (or "Request failed") for any
    other, "Network error" when the request fails, the body is not JSON, or an
    error body is null. *)
Theorem fetchApi_spec {E : Env} endpoint options (s : sys E) :
  let o := fetch_op endpoint options in
  let r := api_result (answer E o (ext s)) (λ resp, answer E (RespJson resp) (after E o (ext s))) in
  (run (fetchApi endpoint options) s).1.1 = Ok r ∧
  ((∃ d, r = JObj [("data", d)]) ∨ (∃ e, r = JObj [("error", e)] ∧ truthy e = true)).
Proof.
  intros o r. destruct (fetchApi_run endpoint options s) as [Hr _]. split; [exact Hr|].
  pose proof (run_is_exec (fetchApi endpoint options) s) as H. rewrite Hr in H.
  apply fetchApi_resolves in H as [[d H]|[e [H He]]]; injection H as H; eauto.
Qed.
