(* ===== verification/ClientTypes.v ===== *)
(** * The types of the API client (website/src/services/api.ts)

    [fetchApi] casts what it reads from the network to the type its caller
    names; nothing checks it at run time.  Here the types are values, and
    [conforms] decides whether a value has one. *)

From S2P Require Import Prelude JsValue.

(** ** TypeScript types *)

(** The fields of an interface are optional ([k?: t]) or not. *)
Unset Elimination Schemes.
Inductive ts_type :=
| TNumber
| TString
| TBoolean
| TNull
| TUnion (t1 t2 : ts_type)
| TArray (t : ts_type)
| TInterface (fields : list (string * (bool * ts_type))).
Set Elimination Schemes.

Notation "k ?: t" := (k%string, (true, t)) (at level 60, only parsing) : hyl_scope.
Notation "k ::: t" := (k%string, (false, t)) (at level 60, only parsing) : hyl_scope.
#[local] Open Scope hyl_scope.

(** A field may be missing where it is optional; an object may have others. *)
Definition field_conforms (conforms : ts_type → jsval → bool) (v : jsval)
    (field : string * (bool * ts_type)) : bool :=
  match opt_prop v field.1 with
  | JUndef => field.2.1
  | x => conforms field.2.2 x
  end.

Fixpoint conforms (t : ts_type) (v : jsval) : bool :=
  match t with
  | TNumber => match v with JNum _ => true | _ => false end
  | TString => match v with JStr _ => true | _ => false end
  | TBoolean => match v with JBool _ => true | _ => false end
  | TNull => match v with JNull => true | _ => false end
  | TUnion t1 t2 => conforms t1 v || conforms t2 v
  | TArray t => match v with JArr l => forallb (conforms t) l | _ => false end
  | TInterface fields =>
      match v with
      | JObj _ =>
          (fix go (fields : list (string * (bool * ts_type))) : bool :=
             match fields with
             | [] => true
             | (k, (optional, t)) :: fields' =>
                 match opt_prop v k with JUndef => optional | x => conforms t x end && go fields'
             end) fields
      | _ => false
      end
  end.

(** ** The types of api.ts *)

Definition NetworkStats : ts_type := TInterface
  ["blockHeight" ::: TNumber; "difficulty" ::: TNumber; "chain" ::: TString;
   "networkHashrate" ::: TNumber; "connections" ::: TNumber; "lastUpdated" ::: TString;
   "stale" ?: TBoolean].

Definition ApiResponse (t : ts_type) : ts_type := TInterface ["data" ?: t; "error" ?: TString].

(** The type argument of [subscribeNewsletter] and [submitContact]. *)
Definition Message : ts_type := TInterface ["message" ::: TString].

Definition Download : ts_type := TInterface
  ["id" ::: TString; "name" ::: TString; "version" ::: TString; "platform" ::: TString;
   "url" ::: TString; "checksum" ?: TString].

(** What the back end sends for a download: a missing checksum is null. *)
Definition SentDownload : ts_type := TInterface
  ["id" ::: TString; "name" ::: TString; "version" ::: TString; "platform" ::: TString;
   "url" ::: TString; "checksum" ::: TUnion TString TNull; "createdAt" ::: TString;
   "updatedAt" ::: TString].

(** ** Lemmas *)

Lemma conforms_interface fields o :
  conforms (TInterface fields) (JObj o) = forallb (field_conforms conforms (JObj o)) fields.
Proof.
  cbn [conforms]. induction fields as [|[k [b t]] fields IH]; [done|].
  cbn [forallb]. by rewrite <- IH.
Qed.

(** What a field of a conforming value is. *)
Lemma conforms_field fields v k optional t :
  conforms (TInterface fields) v = true → (k, (optional, t)) ∈ fields →
  (opt_prop v k = JUndef ∧ optional = true) ∨ conforms t (opt_prop v k) = true.
Proof.
  destruct v as [| | | | | | |o]; try done. rewrite conforms_interface. intros Hc Hin.
  rewrite forallb_forall in Hc. specialize (Hc _ (proj1 (list_elem_of_In _ _) Hin)). unfold field_conforms in Hc. cbn [fst snd] in Hc.
  destruct (opt_prop (JObj o) k); by auto.
Qed.

Lemma conforms_string v : conforms TString v = true → ∃ s, v = JStr s.
Proof. destruct v; try done. eauto. Qed.

Lemma conforms_number v : conforms TNumber v = true → ∃ n, v = JNum n.
Proof. destruct v; try done. eauto. Qed.

(** The two forms of a result of the client. *)
Lemma data_conforms t v : conforms t v = true → conforms (ApiResponse t) (JObj [("data", v)]) = true.
Proof.
  intros Hv. unfold ApiResponse. rewrite conforms_interface. cbn. rewrite andb_true_r.
  destruct v; [|exact Hv..]. reflexivity.
Qed.

Lemma error_conforms t msg : conforms (ApiResponse t) (JObj [("error", JStr msg)]) = true.
Proof. reflexivity. Qed.
