(* ===== verification/NewsletterForm.v ===== *)
(** * The newsletter form (website/src/components/Newsletter.tsx)

    The component as a state machine.  Its state is what [useState] keeps; the
    requests in flight and the timers of [setTimeout] are what the browser
    keeps for it.  The asynchronous [handleSubmit] is two steps, before and
    after its [await]. *)

From S2P Require Import Prelude JsValue Effects Foreign Http Reference Jsx Api.

(** ** The component *)

Inductive status := Idle | Loading | Success | Failed.

#[export] Instance status_eq_dec : EqDecision status.
Proof. solve_decision. Defined.

Record form := Form { f_email : string; f_status : status; f_msg : jsval }.

Definition initial : form := Form "" Idle (JStr "").

Definition setEmail (v : string) (f : form) : form := Form v (f_status f) (f_msg f).

(** [handleSubmit] up to its [await]: the form, and the address sent, if any. *)
Definition submit_start (f : form) : form * option string :=
  if String.eqb (f_email f) "" then (f, None)
  else (Form (f_email f) Loading (f_msg f), Some (f_email f)).

(** [handleSubmit] after its [await], up to [setTimeout]. *)
Definition submit_done (response : jsval) (f : form) : form :=
  let error := opt_prop response "error" in
  if truthy error then Form (f_email f) Failed error
  else Form "" Success (js_or (opt_prop (opt_prop response "data") "message") (JStr "Subscribed!")).

(** The callback of [setTimeout]. *)
Definition reset (f : form) : form := Form (f_email f) Idle (JStr "").

#[local] Open Scope hyl_scope.

Definition is_loading (f : form) : bool := bool_decide (f_status f = Loading).

Definition Newsletter (f : form) : node :=
  Elem "section" [css ["padding" =: "80px 24px"; "background" =: "#ffffff"]] []
    [Elem "div" [css ["maxWidth" =: "600px"; "margin" =: "0 auto"; "textAlign" =: "center"]] []
       ([Elem "h2" [css ["fontSize" =: "28px"; "fontWeight" =# 700; "color" =: "#0f172a";
            "marginBottom" =: "12px"]] []
          [Text "Stay Updated"];
        Elem "p" [css ["color" =: "#64748b"; "marginBottom" =: "32px"]] []
          [Text "Get the latest Hylium news and updates"];
        Elem "form" [css ["display" =: "flex"; "gap" =: "12px"; "justifyContent" =: "center"]]
          [("onSubmit", SubmitEmail)]
          [Elem "input" ["type" =: "email"; "placeholder" =: "Enter your email";
               ("value", JStr (f_email f));
               css ["flex" =# 1; "maxWidth" =: "320px"; "padding" =: "14px 20px";
                 "borderRadius" =: "12px"; "border" =: "1px solid #e2e8f0"; "fontSize" =: "15px";
                 "outline" =: "none"];
               ("disabled", JBool (is_loading f)); ("required", JBool true)]
             [("onChange", TypeEmail)] [];
           Elem "button" ["type" =: "submit"; ("disabled", JBool (is_loading f));
               css ["padding" =: "14px 28px"; "borderRadius" =: "12px"; "backgroundColor" =: "#00d4ff";
                 "color" =: "#0f172a"; "fontWeight" =# 600; "border" =: "none"; "cursor" =: "pointer";
                 "fontSize" =: "15px"]] []
             [Value (JStr (if is_loading f then "Subscribing..." else "Subscribe"))]]] ++
        (if truthy (f_msg f) then
           [Elem "p" [css ["marginTop" =: "16px";
                "color" =: (if bool_decide (f_status f = Success) then "#10b981" else "#ef4444")]] []
              [Value (f_msg f)]]
         else []))].

(** ** The page around it *)

(** The time in milliseconds, the addresses of the requests in flight, and when
    the pending timers are due. *)
Record page := Page {
  p_form : form;
  p_now : Z;
  p_inflight : list string;
  p_timers : list Z;
}.

Definition opened : page := Page initial 0 [] [].

Section machine.
(** The browser's check of the input ([type="email" required]) before it
    submits a form. *)
Variable constraints_ok : string → bool.

(** What a call for an address may resolve to. *)
Variable replies : string → jsval → Prop.

Inductive step : page → page → Prop :=
| step_wait p d :
    (0 ≤ d)%Z → step p (Page (p_form p) (p_now p + d) (p_inflight p) (p_timers p))
(* the input is disabled while loading *)
| step_type p v :
    is_loading (p_form p) = false →
    step p (Page (setEmail v (p_form p)) (p_now p) (p_inflight p) (p_timers p))
(* the button is disabled while loading, and with it the form's submission *)
| step_submit p :
    is_loading (p_form p) = false → constraints_ok (f_email (p_form p)) = true →
    step p (Page (submit_start (p_form p)).1 (p_now p)
              (p_inflight p ++ option_list (submit_start (p_form p)).2) (p_timers p))
| step_response p l1 email l2 response :
    p_inflight p = l1 ++ email :: l2 → replies email response →
    step p (Page (submit_done response (p_form p)) (p_now p) (l1 ++ l2)
              (p_timers p ++ [p_now p + 3000]%Z))
| step_timer p l1 due l2 :
    p_timers p = l1 ++ due :: l2 → (due ≤ p_now p)%Z →
    step p (Page (reset (p_form p)) (p_now p) (p_inflight p) (l1 ++ l2)).

Definition reachable (p : page) : Prop := rtc step opened p.
End machine.

(** Whatever the network and the server do. *)
Definition any_reply (email : string) (response : jsval) : Prop :=
  ∃ t, exec (subscribeNewsletter email) t (Ok response).

(** ** Lemmas *)

(** What holds of the page at all times: the form is loading only while a
    request is in flight, shows an outcome only while a timer will clear it,
    and has no message at rest. *)
Definition form_ok (p : page) : Prop :=
  match f_status (p_form p) with
  | Loading => p_inflight p ≠ []
  | Idle => f_msg (p_form p) = JStr ""
  | Success | Failed => p_timers p ≠ [] ∧ truthy (f_msg (p_form p)) = true
  end.

Lemma submit_done_ok response f :
  (f_status (submit_done response f) = Success ∨ f_status (submit_done response f) = Failed) ∧
  truthy (f_msg (submit_done response f)) = true.
Proof.
  unfold submit_done. destruct (truthy (opt_prop response "error")) eqn:He; simpl.
  - auto.
  - split; [auto|]. by apply js_or_truthy.
Qed.

Lemma step_form_ok constraints_ok replies p p' : step constraints_ok replies p p' → form_ok p → form_ok p'.
Proof.
  unfold form_ok. destruct 1 as [p d Hd|p v Hl|p Hl Hc|p l1 e l2 response Hin Hx|p l1 due l2 Hin Hdue];
    simpl; try done.
  - unfold submit_start. destruct (String.eqb (f_email (p_form p)) ""); simpl; [|by destruct (p_inflight p)].
    by rewrite app_nil_r.
  - intros _. destruct (submit_done_ok response (p_form p)) as [[-> | ->] Hm];
      (split; [by destruct (p_timers p)|done]).
Qed.

Lemma reachable_form_ok constraints_ok replies p : reachable constraints_ok replies p → form_ok p.
Proof.
  intros H. assert (Hok : form_ok opened) by done. revert Hok.
  induction H as [p|p1 p2 p3 Hs _ IH]; [done|]. intros Hok. by eapply IH, step_form_ok.
Qed.

(** A call can always resolve, at the latest with a network error. *)
Lemma subscribe_resolves email : any_reply email (JObj [("error", JStr "Network error")]).
Proof.
  eexists. unfold subscribeNewsletter, fetchApi. eexists (Throw (EForeign "fetch failed")), _.
  split; [reflexivity|]. cbn. done.
Qed.

Lemma page_settles constraints_ok p : ∃ p', rtc (step constraints_ok any_reply) p p' ∧
  p_inflight p' = [] ∧ p_timers p' = [].
Proof.
  remember (2 * length (p_inflight p) + length (p_timers p))%nat as k eqn:Hk.
  revert p Hk. induction (lt_wf k) as [k _ IH]. intros p ->.
  destruct (p_inflight p) as [|email l] eqn:Hf; [destruct (p_timers p) as [|due l] eqn:Ht|].
  - by exists p.
  - set (q := Page (p_form p) (p_now p + Z.max 0 (due - p_now p)) (p_inflight p) (p_timers p)).
    set (q' := Page (reset (p_form q)) (p_now q) (p_inflight q) l).
    destruct (IH (length l)) with (p := q') as (p' & H & ?); [simpl; lia|simpl; by rewrite Hf|].
    exists p'. split; [|done]. eapply rtc_l; [apply (step_wait _ _ p (Z.max 0 (due - p_now p))); lia|].
    fold q. eapply rtc_l; [|exact H]. apply (step_timer _ _ q [] due l); [done|]. simpl. lia.
  - pose proof (subscribe_resolves email) as Hx.
    pose proof (step_response constraints_ok any_reply p [] email l _ Hf Hx) as Hs. cbn [app] in Hs.
    match type of Hs with step _ _ _ ?q =>
      destruct (IH (2 * length l + S (length (p_timers p)))%nat) with (p := q) as (p' & H & ?) end.
    + simpl. lia.
    + simpl. rewrite length_app. simpl. lia.
    + exists p'. split; [|done]. by eapply rtc_l.
Qed.

(** ** Theorems *)

(** C30: at all times the form is disabled only while a request is in flight,
    and a form at rest shows no message.  When the last answer has arrived and
    the last timer has run, the form is at rest; and from every state the page
    gets there without the user. *)
Theorem newsletter_form_settles constraints_ok p :
  reachable constraints_ok any_reply p →
  (is_loading (p_form p) = true → p_inflight p ≠ []) ∧
  (p_inflight p = [] → p_timers p = [] →
   f_status (p_form p) = Idle ∧ elements "p" (Newsletter (p_form p)) =
     elements "p" (Newsletter initial)) ∧
  ∃ p', rtc (step constraints_ok any_reply) p p' ∧ p_inflight p' = [] ∧ p_timers p' = [] ∧
    f_status (p_form p') = Idle.
Proof.
  intros Hr. pose proof (reachable_form_ok _ _ _ Hr) as Hok. split_and!.
  - intros Hl%bool_decide_eq_true. unfold form_ok in Hok. by rewrite Hl in Hok.
  - intros Hf Ht. unfold form_ok in Hok. destruct (f_status (p_form p)) eqn:Hs; try naive_solver.
    split; [done|]. unfold Newsletter. rewrite Hok. reflexivity.
  - destruct (page_settles constraints_ok p) as (p' & Hs & Hf & Ht). exists p'. split_and!; try done.
    assert (Hr' : reachable constraints_ok any_reply p') by (unfold reachable in *; by etrans).
    apply reachable_form_ok in Hr'. unfold form_ok in Hr'. rewrite Hf, Ht in Hr'.
    destruct (f_status (p_form p')); naive_solver.
Qed.

Lemma newsletter_form_settles_witness :
  ∃ p', rtc (step (λ _, true) any_reply) opened p' ∧ f_status (p_form p') = Idle.
Proof.
  destruct (newsletter_form_settles (λ _, true) opened) as (_ & _ & p' & H & _ & _ & Hi);
    [apply rtc_refl|].
  exists p'. split; [exact H|exact Hi].
Defined.

(** C31: the timer of an earlier submission is not cancelled by a later one.
    Submitting again within three seconds of an answer, the form returns to
    rest while the second request is still in flight, its button is enabled
    again, and a third submission puts two requests for the same address in
    flight. *)
Theorem newsletter_early_reset constraints_ok email :
  email ≠ "" → constraints_ok email = true →
  ∃ p p', reachable constraints_ok any_reply p ∧ p_inflight p = [email] ∧ f_status (p_form p) = Idle ∧
    (∀ b, b ∈ elements "button" (Newsletter (p_form p)) → attribute "disabled" b = Some (JBool false)) ∧
    step constraints_ok any_reply p p' ∧ p_inflight p' = [email; email].
Proof.
  intros Hne Hc. pose proof (subscribe_resolves email) as Hx.
  assert (He : String.eqb email "" = false) by (by apply String.eqb_neq).
  set (err := JStr "Network error").
  exists (Page (Form email Idle (JStr "")) 3000 [email] []),
    (Page (Form email Loading (JStr "")) 3000 [email; email] []). split_and!.
  - eapply rtc_l; [by apply (step_type _ _ opened email)|].
    eapply rtc_l; [by apply step_submit|].
    unfold submit_start. simpl. rewrite He. simpl.
    eapply rtc_l; [by eapply (step_response _ _ _ [] email [])|].
    eapply rtc_l; [by apply step_submit|].
    unfold submit_start. simpl. rewrite He. simpl.
    eapply rtc_l; [by apply (step_wait _ _ _ 3000)|].
    eapply rtc_l; [by eapply (step_timer _ _ _ [] 3000 [])|]. apply rtc_refl.
  - done.
  - done.
  - intros b Hb. simpl in Hb. apply list_elem_of_singleton in Hb as ->. done.
  - pose proof (step_submit constraints_ok any_reply (Page (Form email Idle (JStr "")) 3000 [email] [])) as Hs.
    unfold submit_start in Hs. simpl in Hs. rewrite He in Hs. simpl in Hs. by apply Hs.
  - done.
Qed.

Lemma newsletter_early_reset_witness :
  ∃ p p', reachable (λ _, true) any_reply p ∧ p_inflight p = ["ann@example.org"] ∧ f_status (p_form p) = Idle ∧
    step (λ _, true) any_reply p p' ∧ p_inflight p' = ["ann@example.org"; "ann@example.org"].
Proof.
  destruct (newsletter_early_reset (λ _, true) "ann@example.org") as (p & p' & H);
    [discriminate|reflexivity|]. exists p, p'. tauto.
Defined.
