(* ===== verification/Calendar.v ===== *)
(** * The calendar behind [toISOString]

    [civil] computes a date from a day number with era arithmetic.  Here it is
    compared with the definition of the proleptic Gregorian calendar: leap
    years, lengths of months, and days counted from the year 1. *)

From S2P Require Import Prelude JsValue JsonPrint.
Local Open Scope Z_scope.

(** ** The calendar *)

Definition leap (y : Z) : bool :=
  (y mod 4 =? 0) && (negb (y mod 100 =? 0) || (y mod 400 =? 0)).

Definition month_length (y m : Z) : Z :=
  if m =? 2 then (if leap y then 29 else 28)
  else if (m =? 4) || (m =? 6) || (m =? 9) || (m =? 11) then 30
  else 31.

(** The days of the year before month [1 + k]. *)
Fixpoint days_before (y : Z) (k : nat) : Z :=
  match k with
  | O => 0
  | S k' => days_before y k' + month_length y (Z.of_nat k)
  end.

(** The number of a day, counted from 1970-01-01. *)
Definition day_number (y m d : Z) : Z :=
  365 * (y - 1) + (y - 1) / 4 - (y - 1) / 100 + (y - 1) / 400
  + days_before y (Z.to_nat (m - 1)) + d - 1 - 719162.

(** ** Years that start in March

    The algorithm counts years from the first of March, so that the leap day
    is the last day of a year: [yoe] is the year of a 400-year era, [doy] the
    day of that year. *)

Section era.
Variable doe : Z.
Hypothesis doe_range : 0 ≤ doe < 146097.
Let yoe := (doe - doe / 1460 + doe / 36524 - doe / 146096) / 365.
Let doy := doe - (365 * yoe + yoe / 4 - yoe / 100).

Lemma yoe_range : 0 ≤ yoe ≤ 399.
Proof. unfold yoe. Z.to_euclidean_division_equations; lia. Qed.

Lemma doy_range : 0 ≤ doy ≤ 365.
Proof. unfold doy, yoe. Z.to_euclidean_division_equations; lia. Qed.

(** The 366th day exists only when the following calendar year is a leap year. *)
Lemma doy_leap : doy = 365 → (yoe + 1) mod 4 = 0 ∧ ((yoe + 1) mod 100 ≠ 0 ∨ yoe = 399).
Proof. unfold doy, yoe. Z.to_euclidean_division_equations; lia. Qed.
End era.

Lemma leap_count y :
  (if leap y then 1 else 0) =
  y / 4 - (y - 1) / 4 - (y / 100 - (y - 1) / 100) + (y / 400 - (y - 1) / 400).
Proof.
  unfold leap.
  destruct (Z.eqb_spec (y mod 4) 0), (Z.eqb_spec (y mod 100) 0), (Z.eqb_spec (y mod 400) 0); simpl;
    Z.to_euclidean_division_equations; lia.
Qed.

Lemma leap_after yoe era :
  (yoe + 1) mod 4 = 0 → (yoe + 1) mod 100 ≠ 0 ∨ yoe = 399 → leap (yoe + era * 400 + 1) = true.
Proof.
  intros H4 H100. unfold leap.
  destruct (Z.eqb_spec ((yoe + era * 400 + 1) mod 4) 0),
    (Z.eqb_spec ((yoe + era * 400 + 1) mod 100) 0),
    (Z.eqb_spec ((yoe + era * 400 + 1) mod 400) 0); simpl; try done;
    exfalso; Z.to_euclidean_division_equations; lia.
Qed.

(** Month [mp] of a year from March: its calendar month, first day and length. *)
Lemma march_month doy :
  0 ≤ doy ≤ 365 →
  let mp := (5 * doy + 2) / 153 in
  0 ≤ mp ≤ 11 ∧ (153 * mp + 2) / 5 ≤ doy < (153 * (mp + 1) + 2) / 5.
Proof. intros H mp. unfold mp. Z.to_euclidean_division_equations; lia. Qed.

Lemma days_before_march y mp :
  0 ≤ mp ≤ 9 →
  days_before y (Z.to_nat (mp + 2)) = (153 * mp + 2) / 5 + 59 + (if leap y then 1 else 0) ∧
  (153 * (mp + 1) + 2) / 5 - (153 * mp + 2) / 5 = month_length y (mp + 3).
Proof.
  intros H. assert (Hc : mp = 0 ∨ mp = 1 ∨ mp = 2 ∨ mp = 3 ∨ mp = 4 ∨ mp = 5 ∨ mp = 6 ∨ mp = 7 ∨
    mp = 8 ∨ mp = 9) by lia.
  destruct (leap y) eqn:Hl; repeat destruct Hc as [->|Hc]; try subst mp;
    match goal with |- context [Z.to_nat ?a] =>
      let v := eval vm_compute in (Z.to_nat a) in change (Z.to_nat a) with v end;
    cbn [days_before]; unfold month_length; rewrite ?Hl; split; reflexivity.
Qed.

(** The date in a time stamp is right.  For every time, before or after
    1970, [civil] gives a date of the Gregorian calendar, and it is the date
    of that day. *)
Lemma civil_correct days :
  let '(y, m, d) := civil days in
  1 ≤ m ≤ 12 ∧ 1 ≤ d ≤ month_length y m ∧ day_number y m d = days.
Proof.
  unfold civil.
  pose proof (Z.mod_pos_bound (days + 719468) 146097 ltac:(lia)) as Hdoe.
  pose proof (Z.div_mod (days + 719468) 146097 ltac:(lia)) as Hdays.
  pose proof (yoe_range _ Hdoe) as Hyoe. pose proof (doy_range _ Hdoe) as Hdoy.
  pose proof (doy_leap _ Hdoe) as Hleap. revert Hdays Hyoe Hdoy Hleap.
  generalize ((days + 719468) / 146097). intros era.
  set (doe := (days + 719468) mod 146097).
  set (yoe := (doe - doe / 1460 + doe / 36524 - doe / 146096) / 365).
  set (doy := doe - (365 * yoe + yoe / 4 - yoe / 100)). intros Hdays Hyoe Hdoy Hleap.
  destruct (march_month doy Hdoy) as [Hmp Hd].
  assert (Hdoe' : doe = 365 * yoe + yoe / 4 - yoe / 100 + doy) by (unfold doy; lia).
  clearbody doy yoe doe. revert Hmp Hd. set (mp := (5 * doy + 2) / 153). clearbody mp. intros Hmp Hd.
  destruct (Z.ltb_spec mp 10) as [Hlt|Hge].
  - replace (mp + 3 <=? 2) with false by lia. rewrite Z.add_0_r.
    destruct (days_before_march (yoe + era * 400) mp) as [Hb Hl]; [lia|].
    rewrite <- Hl. split; [lia|]. split; [lia|]. unfold day_number.
    replace (mp + 3 - 1) with (mp + 2) by lia. rewrite Hb, leap_count.
    clear Hb Hl Hleap. Z.to_euclidean_division_equations; lia.
  - assert (mp = 10 ∨ mp = 11) as [->| ->] by lia.
    + change ((153 * 10 + 2) / 5) with 306 in *. change ((153 * (10 + 1) + 2) / 5) with 337 in Hd.
      change (10 - 9 <=? 2) with true. change (10 - 9) with 1. cbv match.
      change (month_length (yoe + era * 400 + 1) 1) with 31. split_and!; try lia.
      unfold day_number. cbn [days_before]. rewrite Z.add_simpl_r. clear Hleap.
      change (days_before _ (Z.to_nat (1 - 1))) with 0. Z.to_euclidean_division_equations; lia.
    + change ((153 * 11 + 2) / 5) with 337 in *.
      change (11 - 9 <=? 2) with true. change (11 - 9) with 2. cbv match.
      split; [lia|]. split.
      * unfold month_length. simpl. destruct (decide (doy = 365)) as [Heq|]; [|destruct (leap _); lia].
        destruct (Hleap Heq) as [H4 H100]. rewrite leap_after by done. lia.
      * unfold day_number. rewrite Z.add_simpl_r. clear Hleap.
        change (days_before _ (Z.to_nat (2 - 1))) with 31. Z.to_euclidean_division_equations; lia.
Qed.
