(* ===== verification/StatsPanel.v ===== *)
(** * The statistics panel (website/src/components/Stats.tsx)

    The figures the panel prints, with the conversions the language applies to
    them, and the component as a state machine around its polling effect. *)

From S2P Require Import Prelude JsValue Effects Foreign Http JsonPrint JsonParse RpcRoutes Jsx Api.
Local Open Scope Z_scope.

(** ** Conversions of the language *)

(** What ECMA-402 and the host's locale decide. *)
Record host := Host {
  locale_number : num → string;
  locale_date : Z → string;
  list_separator : string;
  date_string : Z → string;
}.

(** A finite number as a fraction. *)
Definition frac_num (sg : bool) (m : positive) (e : Z) : Z :=
  (if sg then -1 else 1) * (Zpos m * 2 ^ Z.max e 0).
Definition frac_den (e : Z) : Z := 2 ^ Z.max (- e) 0.

(** [Math.round]: the nearest integer, the upper one of a tie.  Negative zero
    is printed as zero and is not kept apart. *)
Definition math_round (x : num) : num :=
  match x with
  | S754_finite sg m e => num_of_Z ((2 * frac_num sg m e + frac_den e) / (2 * frac_den e))
  | S754_zero _ => S754_zero false
  | _ => x
  end.

(** The [n] nearest to [100 * m * 2^e], the larger one of a tie. *)
Definition hundredths (m : positive) (e : Z) : Z :=
  (200 * frac_num false m e + frac_den e) / (2 * frac_den e).

(** [x.toFixed(2)] on a number *)
Definition toFixed2 (x : num) : string :=
  match x with
  | S754_zero _ => "0.00"
  | S754_finite sg m e =>
      if 10 ^ 21 * frac_den e <=? frac_num false m e then num_to_string x
      else (if sg then "-" else "") +:+
           num_string (hundredths m e / 100) +:+ "." +:+ pad 2 (hundredths m e mod 100)
  | _ => num_to_string x
  end.

Definition not_a_function (name : string) : exn := ETypeError (name +:+ " is not a function").

(** All the elements, or the first exception. *)
Fixpoint collect (l : list (result string)) : result (list string) :=
  match l with
  | [] => Ok []
  | Throw e :: _ => Throw e
  | Ok s :: l' => match collect l' with Ok ss => Ok (s :: ss) | Throw e => Throw e end
  end.

Definition map_ok (f : list string → string) (r : result (list string)) : result string :=
  match r with Ok ss => Ok (f ss) | Throw e => Throw e end.

Definition boolean_string (b : bool) : string := if b then "true" else "false".

Section conversions.
Variable H : host.

(** [v.toString()], and the conversion of an object to a primitive: the values
    are data, so a property of their own by that name is not a function. *)
Fixpoint toString (v : jsval) : result string :=
  match v with
  | JUndef => Throw (ETypeError "undefined")
  | JNull => Throw (ETypeError "null")
  | JBool b => Ok (boolean_string b)
  | JNum n => Ok (num_to_string n)
  | JStr s => Ok s
  | JDate t => Ok (date_string H t)
  | JArr l => map_ok (join ",")
      (collect ((fix go l := match l with
        | [] => []
        | (JUndef | JNull) :: l' => Ok "" :: go l'
        | v :: l' => toString v :: go l'
        end) l))
  | JObj o => match assoc "toString" o with
              | Some _ => Throw (not_a_function "toString")
              | None => Ok "[object Object]"
              end
  end.

(** [v.toLocaleString()] *)
Fixpoint toLocaleString (v : jsval) : result string :=
  match v with
  | JUndef => Throw (ETypeError "undefined")
  | JNull => Throw (ETypeError "null")
  | JNum n => Ok (locale_number H n)
  | JDate t => Ok (locale_date H t)
  | JArr l => map_ok (join (list_separator H))
      (collect ((fix go l := match l with
        | [] => []
        | (JUndef | JNull) :: l' => Ok "" :: go l'
        | v :: l' => toLocaleString v :: go l'
        end) l))
  | JObj o => match assoc "toLocaleString" o with
              | Some _ => Throw (not_a_function "toLocaleString")
              | None => toString v
              end
  | JBool _ | JStr _ => toString v
  end.

(** [v.toFixed(2)]: a method of numbers only *)
Definition toFixed (v : jsval) : result string :=
  match v with
  | JNum n => Ok (toFixed2 n)
  | _ => Throw (not_a_function "toFixed")
  end.

(** The operand of an arithmetic operator *)
Definition toNumber (v : jsval) : result num :=
  match v with
  | JUndef => Ok S754_nan
  | JNull => Ok (S754_zero false)
  | JBool b => Ok (num_of_Z (if b then 1 else 0))
  | JNum n => Ok n
  | JStr s => Ok (string_to_number s)
  | JDate t => Ok (num_of_Z t)
  | JArr _ | JObj _ =>
      match toString v with
      | Ok s => Ok (string_to_number s)
      | Throw e => Throw e
      end
  end.

(** [v?.m()] for a method [m] *)
Definition opt_call (m : jsval → result string) (v : jsval) : result jsval :=
  match v with
  | JUndef | JNull => Ok JUndef
  | _ => match m v with Ok s => Ok (JStr s) | Throw e => Throw e end
  end.

(** ** The figures *)

Definition million : num := num_of_Z 1000000.

(** [`${Math.round((stats?.networkHashrate || 0) / 1000000)} MH/s`] *)
Definition megahashes (v : jsval) : result string :=
  match toNumber (js_or v (JNum (num_of_Z 0))) with
  | Ok x => Ok (num_to_string (math_round (SFdiv 53 1024 x million)) +:+ " MH/s")
  | Throw e => Throw e
  end.

(** [v?.m() || '0'] *)
Definition figure (m : jsval → result string) (v : jsval) : result jsval :=
  match opt_call m v with
  | Ok s => Ok (js_or s (JStr "0"))
  | Throw e => Throw e
  end.

(** The four cards, evaluated in order; the first exception is the render's. *)
Definition items (stats : jsval) : result (list (string * jsval)) :=
  match figure toLocaleString (opt_prop stats "blockHeight") with
  | Throw e => Throw e
  | Ok height =>
  match megahashes (opt_prop stats "networkHashrate") with
  | Throw e => Throw e
  | Ok hashrate =>
  match figure toFixed (opt_prop stats "difficulty") with
  | Throw e => Throw e
  | Ok difficulty =>
  match figure toString (opt_prop stats "connections") with
  | Throw e => Throw e
  | Ok connections =>
      Ok [("Block Height", height); ("Network Hashrate", JStr hashrate);
          ("Difficulty", difficulty); ("Connections", connections)]
  end end end end.

#[local] Open Scope hyl_scope.

Definition card (i : nat) (item : string * jsval) : node :=
  Elem "div" ["key" =# Z.of_nat i;
      css ["background" =: "#ffffff"; "borderRadius" =: "16px"; "padding" =: "32px";
        "textAlign" =: "center"; "border" =: "1px solid #e2e8f0"]] []
    [Elem "p" [css ["fontSize" =: "36px"; "fontWeight" =# 700; "color" =: "#00d4ff"]] [] [Value item.2];
     Elem "p" [css ["color" =: "#64748b"; "fontSize" =: "14px"; "marginTop" =: "8px"]] []
       [Value (JStr item.1)]].

Definition StatsView (stats : jsval) : result node :=
  match items stats with
  | Throw e => Throw e
  | Ok items => Ok
    (Elem "section" ["id" =: "stats"; css ["padding" =: "80px 24px"; "background" =: "#f8fafc"]] []
      [Elem "div" [css ["maxWidth" =: "1200px"; "margin" =: "0 auto"]] []
         [Elem "h2" [css ["textAlign" =: "center"; "fontSize" =: "32px"; "fontWeight" =# 700;
              "color" =: "#0f172a"; "marginBottom" =: "48px"]] [] [Text "Network Statistics"];
          Elem "div" [css ["display" =: "grid"; "gridTemplateColumns" =: "repeat(4, 1fr)";
              "gap" =: "24px"]] []
            (map_i card items)];
       Elem "style" [] []
         [Text "@media (max-width: 768px) { section > div > div { grid-template-columns: repeat(2, 1fr) !important; } }"]])
  end.
End conversions.

(** ** The component *)

(** [stats] of [useState]; when the interval of the effect is due next, if it
    is set; and what the browser keeps: the time, the requests in flight by
    their number, and how many requests and runs of the effect there were. *)
Record panel := Panel {
  stats : jsval;
  interval : option Z;
  now : Z;
  inflight : list nat;
  issued : nat;
  effects : nat;
}.

Definition panel_initial : panel := Panel JNull None 0 [] 0 0.

(** [fetchStats] up to its [await] *)
Definition fetch_start (p : panel) : panel :=
  Panel (stats p) (interval p) (now p) (inflight p ++ [issued p]) (S (issued p)) (effects p).

(** [fetchStats] after it: [if (data) setStats(data)] *)
Definition fetch_done (data : jsval) (p : panel) : panel :=
  Panel (if truthy data then data else stats p) (interval p) (now p) (inflight p) (issued p) (effects p).

Definition set_interval (i : option Z) (p : panel) : panel :=
  Panel (stats p) i (now p) (inflight p) (issued p) (effects p).

Definition set_inflight (l : list nat) (p : panel) : panel :=
  Panel (stats p) (interval p) (now p) l (issued p) (effects p).

(** The effect: [fetchStats(); setInterval(fetchStats, 30000)] *)
Definition run_effect (p : panel) : panel :=
  let p := fetch_start p in
  Panel (stats p) (Some (now p + 30000)) (now p) (inflight p) (issued p) (S (effects p)).

(** What a step delivers: the number of the answered request and the [data] of
    its answer. *)
Definition delivery : Type := nat * jsval.

(** React runs the effect when the panel is mounted and its cleanup when it is
    unmounted; in development [StrictMode] does so twice.  An interval calls
    back no earlier than it is due, the next call is due 30 seconds after that or
    later, and answers may arrive in any order. *)
Section machine.
(** What a poll may resolve to. *)
Variable replies : jsval → Prop.

Inductive panel_step : panel → list delivery → panel → Prop :=
| panel_wait p d :
    0 ≤ d → panel_step p [] (Panel (stats p) (interval p) (now p + d) (inflight p) (issued p) (effects p))
| panel_effect p :
    interval p = None → panel_step p [] (run_effect p)
| panel_cleanup p :
    panel_step p [] (set_interval None p)
| panel_tick p due due' :
    interval p = Some due → due ≤ now p → due + 30000 ≤ due' →
    panel_step p [] (fetch_start (set_interval (Some due') p))
| panel_response p l1 k l2 response :
    inflight p = l1 ++ k :: l2 → replies response →
    panel_step p [(k, opt_prop response "data")]
      (fetch_done (opt_prop response "data") (set_inflight (l1 ++ l2) p)).

Inductive panel_steps : panel → list delivery → panel → Prop :=
| panel_refl p : panel_steps p [] p
| panel_snoc p1 ds1 p2 ds2 p3 :
    panel_steps p1 ds1 p2 → panel_step p2 ds2 p3 → panel_steps p1 (ds1 ++ ds2) p3.
End machine.

(** Whatever the network and the server do. *)
Definition any_stats (response : jsval) : Prop := ∃ t, exec getStats t (Ok response).

(** ** Lemmas *)

Lemma frac_den_pos e : 0 < frac_den e.
Proof. unfold frac_den. apply Z.pow_pos_nonneg; lia. Qed.

(** Rounding half up gives a nearest integer. *)
Lemma nearest a b : 0 < b → let n := (2 * a + b) / (2 * b) in 2 * Z.abs (n * b - a) ≤ b.
Proof. intros Hb n. unfold n. Z.to_euclidean_division_equations. nia. Qed.

Lemma pretty_go_length x s : (String.length s ≤ String.length (pretty_N_go x s))%nat.
Proof.
  revert s. induction (N.lt_wf_0 x) as [x _ IH]; intros s.
  assert (x = 0 ∨ 0 < x)%N as [->|Hx] by lia; [by rewrite pretty_N_go_0|].
  rewrite pretty_N_go_step by done. etrans; [|apply IH; by apply N.div_lt]. simpl. lia.
Qed.

Lemma num_string_not_empty z : num_string z ≠ "".
Proof.
  destruct z as [|p|p]; [done| |done]. simpl. unfold pretty, pretty_N. rewrite decide_False by done.
  rewrite pretty_N_go_step by done. intros Heq.
  match type of Heq with pretty_N_go ?x ?s = _ => pose proof (pretty_go_length x s) as Hl end.
  rewrite Heq in Hl. simpl in Hl. lia.
Qed.

Lemma app_not_empty_l a b : a ≠ "" → a +:+ b ≠ "".
Proof. by destruct a. Qed.

Lemma app_not_empty_r a b : b ≠ "" → a +:+ b ≠ "".
Proof. by destruct a. Qed.

#[local] Hint Resolve num_string_not_empty app_not_empty_l app_not_empty_r : hyl.

Lemma num_to_string_not_empty x : num_to_string x ≠ "".
Proof.
  destruct x as [[]|[]| |sg m e]; try done. unfold num_to_string, decimal_text.
  destruct (shortest _ _ _ _ _) as [s k]. apply app_not_empty_r.
  destruct ((k <=? _) && _); [auto with hyl|]. destruct (split_at _ (num_string s)) as [a b].
  destruct ((0 <? _) && _); [by apply app_not_empty_r|]. destruct ((-6 <? _) && _); [done|].
  destruct (k =? 1); [auto with hyl|]. destruct (split_at 1 (num_string s)). by apply app_not_empty_r.
Qed.

Lemma toFixed2_not_empty x : toFixed2 x ≠ "".
Proof.
  destruct x as [[]|[]| |sg m e]; try done. unfold toFixed2.
  destruct (_ <=? _); [apply num_to_string_not_empty|]. apply app_not_empty_r, app_not_empty_l. auto with hyl.
Qed.

Lemma shown s : s ≠ "" → js_or (JStr s) (JStr "0") = JStr s.
Proof. intros Hs. apply js_or_l. simpl. by apply negb_true_iff, String.eqb_neq. Qed.

(** ** The state of the panel *)

(** The last truthy [data] delivered. *)
Definition last_good (ds : list delivery) : jsval :=
  default JNull (last (filter (λ v, truthy v = true) ds.*2)).

Record panel_ok (ds : list delivery) (p : panel) : Prop := {
  ok_stats : stats p = last_good ds;
  ok_requests : ds.*1 ++ inflight p ≡ₚ seq 0 (issued p);
  ok_rate : 30000 * (Z.of_nat (issued p) - Z.of_nat (effects p)) ≤ now p;
  ok_due : ∀ due, interval p = Some due →
    30000 * (Z.of_nat (issued p) - Z.of_nat (effects p) + 1) ≤ due;
}.

Lemma last_good_snoc ds k v :
  last_good (ds ++ [(k, v)]) = if truthy v then v else last_good ds.
Proof.
  unfold last_good. rewrite fmap_app, filter_app. simpl.
  destruct (truthy v) eqn:Hv; simpl.
  - rewrite filter_cons_True, filter_nil by done. by rewrite last_snoc.
  - rewrite filter_cons_False, filter_nil by congruence. by rewrite app_nil_r.
Qed.

Lemma requests_issue ds l n : ds ++ l ≡ₚ seq 0 n → ds ++ l ++ [n] ≡ₚ seq 0 (S n).
Proof. intros Hp. rewrite app_assoc, Hp, seq_S. done. Qed.

Lemma panel_step_ok replies ds p ds' p' : panel_ok ds p → panel_step replies p ds' p' → panel_ok (ds ++ ds') p'.
Proof.
  intros Hok Hstep.
  destruct Hstep as [p d Hw|p Hi|p|p due due' Hi Hle Hge|p l1 k l2 response Hin Hx];
    destruct Hok as [Hs Hq Hr Hd]; rewrite ?app_nil_r; split; cbn -[seq Z.of_nat Z.mul];
    auto using requests_issue; try lia.
  all: try (specialize (Hd _ Hi)); try (intros ? [= <-]); try lia; try done.
  - by rewrite last_good_snoc, Hs.
  - rewrite <- Hq, Hin, fmap_app. simpl. solve_Permutation.
Qed.

Lemma panel_steps_ok replies p0 ds p : panel_steps replies p0 ds p → panel_ok [] p0 → panel_ok ds p.
Proof. induction 1; eauto using panel_step_ok. Qed.

(** Rendering one figure. *)
Lemma figure_num m n s : m (JNum n) = Ok s → s ≠ "" → figure m (JNum n) = Ok (JStr s).
Proof. intros Hm Hs. unfold figure, opt_call. rewrite Hm. by rewrite shown. Qed.

Lemma getStats_answers data : ∃ t, exec getStats t (Ok (JObj [("data", data)])).
Proof.
  eexists. unfold getStats, fetchApi. eexists (Ok (HttpResponse true (Ok JNull))), _. split; [reflexivity|].
  cbn. eexists (Ok data), _. split; [reflexivity|]. done.
Qed.

(** The figures of a number or of what stands for a missing one. *)
Lemma or_zero_number v n : js_or v Stats.zero = JNum n → js_or (JNum n) Stats.zero = JNum n.
Proof.
  unfold js_or. destruct (truthy v) eqn:Hv; intros [= Hn]; subst.
  - by rewrite Hv.
  - done.
Qed.

(** A number with a finite quotient is not replaced by zero. *)
Lemma or_zero_finite r y sg m e :
  SFdiv 53 1024 r y = S754_finite sg m e → js_or (JNum r) (JNum (num_of_Z 0)) = JNum r.
Proof. by destruct r, y. Qed.

(** The figures of an answer of the backend. *)
Lemma items_of_stats H bi mi cc t h r c :
  js_or (opt_prop bi "blocks") Stats.zero = JNum h →
  js_or (opt_prop mi "networkhashps") Stats.zero = JNum r →
  js_or cc Stats.zero = JNum c →
  items H (JObj (Stats.make_stats bi mi cc t)) =
  match js_or (opt_prop bi "difficulty") Stats.zero with
  | JNum d =>
      Ok [("Block Height", js_or (JStr (locale_number H h)) (JStr "0"));
          ("Network Hashrate", JStr (num_to_string (math_round (SFdiv 53 1024 r million)) +:+ " MH/s"));
          ("Difficulty", JStr (toFixed2 d));
          ("Connections", JStr (num_to_string c))]
  | _ => Throw (not_a_function "toFixed")
  end.
Proof.
  intros Hh Hr Hc. unfold items, Stats.make_stats. simpl. rewrite Hh, Hr, Hc. unfold megahashes.
  fold Stats.zero. rewrite (or_zero_number _ _ Hr). cbn [toNumber].
  unfold figure at 1. cbn [opt_call toLocaleString].
  rewrite (figure_num (toString H) c (num_to_string c)); [|done|apply num_to_string_not_empty].
  destruct (js_or (opt_prop bi "difficulty") Stats.zero) as [| | |d| | | |] eqn:Hd;
    try (unfold js_or in Hd; destruct (truthy (opt_prop bi "difficulty")) eqn:Ht; [|done]; by rewrite Hd in Ht);
    try done.
  rewrite (figure_num toFixed d (toFixed2 d)); [|done|apply toFixed2_not_empty]. done.
Qed.

(** ** Theorems *)

(** C32: the panel shows the last good answer that arrived: an error or an
    empty answer never replaces the figures.  Every request is answered at most
    once, and apart from those of mounting there is at most one request per 30
    seconds.  Answers count in the order they arrive: the answer to an earlier
    request, arriving late, replaces newer figures. *)
Theorem panel_polling :
  (∀ ds p, panel_steps any_stats panel_initial ds p →
    stats p = last_good ds ∧
    ds.*1 ++ inflight p ≡ₚ seq 0 (issued p) ∧
    30000 * (Z.of_nat (issued p) - Z.of_nat (effects p)) ≤ now p) ∧
  (∀ older newer, truthy older = true → truthy newer = true →
    ∃ p, panel_steps any_stats panel_initial [(1%nat, newer); (0%nat, older)] p ∧ stats p = older).
Proof.
  split.
  - intros ds p Hs. apply panel_steps_ok in Hs as []; [done|]. by split.
  - intros older newer Ho Hn.
    pose proof (getStats_answers older) as H1. pose proof (getStats_answers newer) as H2.
    set (q1 := run_effect panel_initial).
    set (q2 := Panel (stats q1) (interval q1) (now q1 + 30000) (inflight q1) (issued q1) (effects q1)).
    set (q3 := fetch_start (set_interval (Some 60000) q2)).
    assert (Hq : panel_steps any_stats panel_initial [] q3).
    { apply (panel_snoc _ _ [] q2 []); [|by eapply (panel_tick _ q2 30000)].
      apply (panel_snoc _ _ [] q1 []); [|by apply (panel_wait _ q1 30000)].
      apply (panel_snoc _ _ [] panel_initial []); [apply panel_refl|by apply panel_effect]. }
    eexists. split.
    + eapply (panel_snoc _ _ [_] _ [_]).
      * eapply (panel_snoc _ _ [] _ [_]); [exact Hq|]. by apply (panel_response _ q3 [0%nat] 1 [] (JObj [("data", newer)])).
      * by apply (panel_response _ _ [] 0 [] (JObj [("data", older)])).
    + simpl. by rewrite Ho.
Qed.

(** What the site makes of an answer of the backend.  Where the node
    reports numbers, or nothing, the panel renders, with the block height in
    the reader's locale, the hash rate in millions, the difficulty with two
    decimals and the number of connections.  A difficulty of any other type
    makes the render throw. *)
Theorem panel_figures H bi mi cc t h r c :
  js_or (opt_prop bi "blocks") Stats.zero = JNum h →
  js_or (opt_prop mi "networkhashps") Stats.zero = JNum r →
  js_or cc Stats.zero = JNum c →
  items H (JObj (Stats.make_stats bi mi cc t)) =
  match js_or (opt_prop bi "difficulty") Stats.zero with
  | JNum d =>
      Ok [("Block Height", js_or (JStr (locale_number H h)) (JStr "0"));
          ("Network Hashrate", JStr (num_to_string (math_round (SFdiv 53 1024 r million)) +:+ " MH/s"));
          ("Difficulty", JStr (toFixed2 d));
          ("Connections", JStr (num_to_string c))]
  | _ => Throw (not_a_function "toFixed")
  end.
Proof. apply items_of_stats. Qed.

Lemma panel_figures_witness :
  let H := Host num_to_string (λ _, "") "," (λ _, "") in
  items H (JObj (Stats.make_stats JNull JNull JNull 0)) =
  Ok [("Block Height", JStr "0"); ("Network Hashrate", JStr "0 MH/s");
      ("Difficulty", JStr "0.00"); ("Connections", JStr "0")].
Proof.
  intros H. refine (eq_trans (panel_figures H JNull JNull JNull 0 (num_of_Z 0) (num_of_Z 0) (num_of_Z 0)
    eq_refl eq_refl eq_refl) _). reflexivity.
Defined.

(** C34: the figures on the cards are the node's, correctly rounded.  The hash
    rate is divided by a million and the card shows an integer at most one half
    away from the quotient; the difficulty is shown with two decimals, an
    integer number of hundredths at most half a hundredth away from it (its
    sign apart, and below 10^21); the block height is shown in the reader's
    locale and the number of connections as it is. *)
Theorem panel_rounding H v h r sg m e sg' m' e' c :
  opt_prop v "blockHeight" = JNum h → opt_prop v "networkHashrate" = JNum r →
  opt_prop v "difficulty" = JNum (S754_finite sg' m' e') → opt_prop v "connections" = JNum c →
  SFdiv 53 1024 r (num_of_Z 1000000) = S754_finite sg m e →
  frac_num false m' e' < 10 ^ 21 * frac_den e' →
  ∃ rate d,
    items H v = Ok
      [("Block Height", js_or (JStr (locale_number H h)) (JStr "0"));
       ("Network Hashrate", JStr (num_to_string (num_of_Z rate) +:+ " MH/s"));
       ("Difficulty", JStr ((if sg' then "-" else "") +:+ num_string (d / 100) +:+ "." +:+ pad 2 (d mod 100)));
       ("Connections", JStr (num_to_string c))] ∧
    2 * Z.abs (rate * frac_den e - frac_num sg m e) ≤ frac_den e ∧
    2 * Z.abs (d * frac_den e' - 100 * frac_num false m' e') ≤ frac_den e'.
Proof.
  intros Hh Hr Hd Hc Hq Hlt. eexists _, (hundredths m' e'). split_and!; cycle 1.
  - apply nearest, frac_den_pos.
  - unfold hundredths. replace (200 * frac_num false m' e') with (2 * (100 * frac_num false m' e')) by lia.
    apply nearest, frac_den_pos.
  - unfold items, megahashes. rewrite Hh, Hr, Hd, Hc.
    rewrite (or_zero_finite r _ _ _ _ Hq). cbn [toNumber]. unfold million. rewrite Hq.
    rewrite (figure_num (toString H) c (num_to_string c)); [|done|apply num_to_string_not_empty].
    rewrite (figure_num toFixed _ (toFixed2 (S754_finite sg' m' e'))); [|done|apply toFixed2_not_empty].
    unfold toFixed2. rewrite (proj2 (Z.leb_gt _ _) Hlt). done.
Qed.

Lemma panel_rounding_witness :
  let H := Host num_to_string (λ _, "") "," (λ _, "") in
  let num k n := (k, JNum (num_of_Z n)) in
  let v := JObj [num "blockHeight" 840000; num "networkHashrate" 1234567890; num "difficulty" 3;
                 num "connections" 8] in
  ∃ rate d, items H v = Ok
    [("Block Height", JStr "840000"); ("Network Hashrate", JStr (num_to_string (num_of_Z rate) +:+ " MH/s"));
     ("Difficulty", JStr (num_string (d / 100) +:+ "." +:+ pad 2 (d mod 100))); ("Connections", JStr "8")] ∧
    rate = 1235 ∧ d = 300.
Proof.
  intros H num v.
  destruct (panel_rounding H v (num_of_Z 840000) (num_of_Z 1234567890) false 5429687001335527 (-42)
    false 6755399441055744 (-51) (num_of_Z 8)) as (rate & d & Hi & H1 & H2); try reflexivity.
  exists rate, d. split; [exact Hi|].
  change (frac_den (-42)) with 4398046511104 in H1. change (frac_num _ _ _) with 5429687001335527 in H1.
  change (frac_den (-51)) with 2251799813685248 in H2. change (frac_num _ _ _) with 6755399441055744 in H2. lia.
Defined.
