(* ===== verification/Hologram.v ===== *)
(** * The model in the hero section (website/src/components/Scene3D.tsx)

    [HologramModel] loads a model, paints and places it, and shows it or a
    placeholder.  The loader, bounding boxes and the renderer are three.js,
    foreign code: a loaded object is a tree, its bounding box a parameter. *)

From S2P Require Import Prelude JsValue JsonPrint Jsx.
Local Open Scope Z_scope.
#[local] Open Scope hyl_scope.

Record vec := Vec { vx : num; vy : num; vz : num }.

Definition vec_map2 (f : num → num → num) (a b : vec) : vec :=
  Vec (f (vx a) (vx b)) (f (vy a) (vy b)) (f (vz a) (vz b)).

(** An object of the scene: is it a mesh, its material, what it contains. *)
Unset Elimination Schemes.
Inductive obj3d := Obj (is_mesh : bool) (material : jsval) (children : list obj3d).
Set Elimination Schemes.

Section obj3d_induction.
Variable P : obj3d → Prop.
Hypothesis P_obj : ∀ b m l, Forall P l → P (Obj b m l).

Fixpoint obj3d_ind (o : obj3d) : P o :=
  match o with
  | Obj b m l =>
      P_obj b m l ((fix go l : Forall P l :=
        match l with
        | [] => Forall_nil_2 _
        | o :: l' => Forall_cons_2 _ _ _ (obj3d_ind o) (go l')
        end) l)
  end.
End obj3d_induction.

(** A placed object: [obj.position] and [obj.scale]. *)
Record placed := Placed { object : obj3d; position : vec; scale : vec }.

(** [new THREE.MeshStandardMaterial({ ... })]; [THREE.DoubleSide] is 2. *)
Definition hologram_material : jsval :=
  JObj ["color" =: "#00d4ff"; "emissive" =: "#0891b2"; ("emissiveIntensity", JNum (num_of_dec 15 (-2)));
        ("transparent", JBool true); ("opacity", JNum (num_of_dec 95 (-2)));
        ("metalness", JNum (num_of_dec 5 (-1))); ("roughness", JNum (num_of_dec 4 (-1)));
        "side" =# 2].

(** [obj.traverse(child => ...)]: the object itself and all below it. *)
Fixpoint paint (o : obj3d) : obj3d :=
  match o with
  | Obj is_mesh material children =>
      Obj is_mesh (if is_mesh then hologram_material else material) (paint <$> children)
  end.

(** [Math.max(x, y)]: NaN if one is, and positive zero above negative zero. *)
Definition math_max (x y : num) : num :=
  match x, y with
  | S754_nan, _ | _, S754_nan => S754_nan
  | S754_zero a, S754_zero b => S754_zero (a && b)
  | _, _ => match SFcompare x y with Some Lt => y | _ => x end
  end.

Definition max_dim (size : vec) : num := math_max (math_max (vx size) (vy size)) (vz size).

Section hologram.
(** [new THREE.Box3().setFromObject(obj)] with [getCenter] and [getSize]. *)
Variable bounding_box : obj3d → vec * vec.

(** The success callback of [loader.load]. *)
Definition on_load (obj : placed) : placed :=
  let o := paint (object obj) in
  let '(center, size) := bounding_box o in
  let s := SFdiv 53 1024 (num_of_Z 5) (max_dim size) in
  Placed o (vec_map2 (SFsub 53 1024) (position obj) center) (Vec s s s).

Record hologram := Hologram { loaded : option placed; load_error : bool }.

Definition hologram_initial : hologram := Hologram None false.

Definition setModel (obj : placed) (h : hologram) : hologram := Hologram (Some obj) (load_error h).
Definition setError (h : hologram) : hologram := Hologram (loaded h) true.

(** The loader calls back once per run of the effect, with an object or with an
    error. *)
Inductive load_step : hologram → hologram → Prop :=
| load_ok h obj : load_step h (setModel (on_load obj) h)
| load_failed h : load_step h (setError h).
End hologram.

(** The rotation about the vertical axis set on each frame, by the elapsed time. *)
Definition rotation_y (elapsed : num) : num := SFmul 53 1024 elapsed (num_of_dec 25 (-2)).

(** The object of [primitive] is a reference to the loaded object; the tree
    keeps the element, and not the [ref] with which [useFrame] finds it. *)
Definition HologramModel (h : hologram) : option node :=
  if load_error h then
    Some (Elem "Float" [("speed", JNum (num_of_dec 15 (-1))); ("rotationIntensity", JNum (num_of_dec 2 (-1)));
        ("floatIntensity", JNum (num_of_dec 5 (-1)))] []
      [Elem "mesh" [] []
         [Elem "icosahedronGeometry" [("args", JArr [JNum (num_of_Z 3); JNum (num_of_Z 2)])] [] [];
          Elem "meshStandardMaterial" ["color" =: "#00d4ff"; "emissive" =: "#0891b2";
            ("emissiveIntensity", JNum (num_of_dec 15 (-2))); ("wireframe", JBool true)] [] []]])
  else match loaded h with
  | None => None
  | Some obj =>
      Some (Elem "Float" [("speed", JNum (num_of_dec 15 (-1)));
          ("rotationIntensity", JNum (num_of_dec 15 (-2))); ("floatIntensity", JNum (num_of_dec 4 (-1)))] []
        [Elem "primitive" [] [] []])
  end.

Definition vec3 (x y z : Z) : jsval := JArr [JNum (num_of_Z x); JNum (num_of_Z y); JNum (num_of_Z z)].

Definition Scene3D (h : hologram) : node :=
  Elem "Canvas" [css ["width" =: "100%"; "height" =: "100%"];
      ("camera", JObj [("position", vec3 0 0 7); "fov" =# 50]);
      ("gl", JObj [("antialias", JBool true); ("alpha", JBool true)])] []
    ([Elem "ambientLight" [("intensity", JNum (num_of_dec 8 (-1)))] [] [];
      Elem "directionalLight" [("position", vec3 5 5 5); ("intensity", JNum (num_of_dec 15 (-1)))] [] [];
      Elem "pointLight" [("position", vec3 0 0 5); "intensity" =# 2; "color" =: "#00d4ff";
        "distance" =# 15] [] []] ++
     option_list (HologramModel h) ++
     [Elem "OrbitControls" [("enableZoom", JBool false); ("enablePan", JBool false);
        ("autoRotate", JBool true); ("autoRotateSpeed", JNum (num_of_dec 6 (-1)))] [] []]).

(** Where the renderer draws a point of the object, before rotation: three.js
    scales about the object's origin and then moves it. *)
Definition drawn (p : placed) (v : vec) : vec :=
  vec_map2 (SFadd 53 1024) (vec_map2 (SFmul 53 1024) (scale p) v) (position p).

(** The materials of the meshes, and of everything else, in traversal order. *)
Fixpoint materials (meshes : bool) (o : obj3d) : list jsval :=
  match o with
  | Obj is_mesh material children =>
      (if Bool.eqb is_mesh meshes then [material] else []) ++
      (fix go (l : list obj3d) : list jsval :=
         match l with [] => [] | c :: l' => materials meshes c ++ go l' end) children
  end.

Definition materials_list (meshes : bool) (l : list obj3d) : list jsval := l ≫= materials meshes.

(** ** Lemmas *)

Lemma materials_unfold meshes b m l :
  materials meshes (Obj b m l) = (if Bool.eqb b meshes then [m] else []) ++ materials_list meshes l.
Proof. reflexivity. Qed.

Lemma paint_materials o :
  materials true (paint o) = (λ _, hologram_material) <$> materials true o ∧
  materials false (paint o) = materials false o.
Proof.
  induction o as [b m l IH] using obj3d_ind. cbn [paint]. rewrite !materials_unfold.
  assert (Hl : materials_list true (paint <$> l) = (λ _, hologram_material) <$> materials_list true l ∧
    materials_list false (paint <$> l) = materials_list false l).
  { unfold materials_list. induction IH as [|o l [Ht Hf] _ [IHt IHf]]; [done|].
    csimpl. rewrite fmap_app, Ht, Hf, IHt, IHf. done. }
  destruct Hl as [Ht Hf]. rewrite fmap_app, Ht, Hf. by destruct b.
Qed.

Lemma load_steps bb h h' :
  rtc (load_step bb) h h' →
  (load_error h = true → load_error h' = true) ∧ (is_Some (loaded h) → is_Some (loaded h')) ∧
  (h = h' ∨ load_error h' = true ∨ is_Some (loaded h')).
Proof.
  induction 1 as [h|h1 h2 h3 Hs _ (IHe & IHm & IH)]; [naive_solver|].
  destruct Hs as [h obj|h]; simpl in *; naive_solver eauto.
Qed.

(** ** Theorems *)

(** C35: the loaded model is painted everywhere: every mesh of it has the
    hologram's material, whatever is not a mesh keeps its own.  Once the loader
    has called back, the canvas shows the model or, after an error, the
    placeholder; and it never goes blank again. *)
Theorem hologram_shown bb obj h h' :
  load_step bb hologram_initial h → rtc (load_step bb) h h' →
  Forall (eq hologram_material) (materials true (object (on_load bb obj))) ∧
  materials false (object (on_load bb obj)) = materials false (object obj) ∧
  is_Some (HologramModel h') ∧ (load_error h = true → HologramModel h' = HologramModel h).
Proof.
  intros Hs Hr. apply load_steps in Hr as (He & Hm & _).
  assert (Ho : object (on_load bb obj) = paint (object obj)).
  { unfold on_load. by destruct (bb _). }
  rewrite Ho. destruct (paint_materials (object obj)) as [-> ->]. split_and!.
  - apply Forall_fmap, Forall_true. done.
  - done.
  - unfold HologramModel. destruct (load_error h') eqn:Heq; [eauto|].
    destruct Hs as [h0 o|h0]; simpl in *; [destruct Hm as [m ->]; eauto|naive_solver].
  - intros H. unfold HologramModel. by rewrite H, He.
Qed.

Lemma hologram_shown_witness :
  let o := Obj false JNull [Obj true (JStr "m") []; Obj false (JStr "l") []] in
  let bb := λ _ : obj3d, (Vec (num_of_Z 0) (num_of_Z 0) (num_of_Z 0), Vec (num_of_Z 2) (num_of_Z 2) (num_of_Z 2)) in
  let obj := Placed o (Vec (num_of_Z 0) (num_of_Z 0) (num_of_Z 0)) (Vec (num_of_Z 1) (num_of_Z 1) (num_of_Z 1)) in
  is_Some (HologramModel (setModel (on_load bb obj) hologram_initial)).
Proof.
  intros o bb obj.
  exact (proj1 (proj2 (proj2 (hologram_shown bb obj _ _ (load_ok bb hologram_initial obj) (rtc_refl _ _))))).
Defined.

(** The bounding box of public/models/Hologram.obj, to six decimals. *)
Definition shipped_box : vec * vec :=
  (Vec (num_of_dec 198396 (-6)) (num_of_dec 1285 (-6)) (SFopp (num_of_dec 52 (-6))),
   Vec (num_of_dec 12601773 (-6)) (num_of_dec 7948246 (-6)) (num_of_dec 11742197 (-6))).

Definition origin : vec := Vec (S754_zero false) (S754_zero false) (S754_zero false).
Definition unit_scale : vec := Vec (num_of_Z 1) (num_of_Z 1) (num_of_Z 1).

(** The model is moved by its centre before it is scaled, so that a model whose
    centre is not at the origin is not drawn centred; the shipped one is drawn
    more than a tenth of a unit off. *)
Theorem hologram_off_centre o :
  let p := on_load (λ _, shipped_box) (Placed o origin unit_scale) in
  SFltb (vx (drawn p (shipped_box.1))) (SFopp (num_of_dec 1 (-1))) = true.
Proof. vm_compute. reflexivity. Qed.

(** A model without extent is scaled by infinity. *)
Lemma hologram_flat o :
  scale (on_load (λ _, (origin, origin)) (Placed o origin unit_scale)) =
  Vec (S754_infinity false) (S754_infinity false) (S754_infinity false).
Proof. reflexivity. Qed.
