(* ===== verification/Page.v ===== *)
(** * The page (website/src/App.tsx and its components)

    The components without state of their own, the navigation bar, and the
    application that puts all of them on one page; what the links of the page
    lead to and which of them a screen shows. *)

From S2P Require Import Prelude JsValue JsonPrint JsonParse Jsx NewsletterForm StatsPanel Hologram.

#[local] Open Scope hyl_scope.

(** A property with a decimal fraction as value. *)
#[local] Notation "k =. ( m , e )" := (k%string, JNum (num_of_dec m%positive e%Z))
  (at level 1, only parsing) : hyl_scope.

(** ** Navbar.tsx *)

Definition nav_items : list string := ["Ecosystem"; "Technology"; "Roadmap"; "Stats"].

(** [`#${item.toLowerCase()}`] *)
Definition nav_href (item : string) : string := "#" +:+ toLowerCase item.

Definition desktop_link (item : string) : node :=
  Elem "a" [("key", JStr item); ("href", JStr (nav_href item));
      css ["color" =: "#475569"; "fontSize" =: "15px"; "fontWeight" =# 500]] []
    [Value (JStr item)].

Definition mobile_link (item : string) : node :=
  Elem "a" [("key", JStr item); ("href", JStr (nav_href item)); css ["color" =: "#475569"]] []
    [Value (JStr item)].

Definition mobile_menu : node :=
  Elem "div" [css ["padding" =: "16px 24px"; "borderTop" =: "1px solid #e2e8f0";
      "backgroundColor" =: "#ffffff"; "display" =: "flex"; "flexDirection" =: "column";
      "gap" =: "16px"]; "className" =: "md:hidden"] []
    ((mobile_link <$> nav_items) ++
     [Elem "button" [css ["marginTop" =: "8px"; "padding" =: "12px 24px"; "borderRadius" =: "12px";
         "backgroundColor" =: "#00d4ff"; "color" =: "#0f172a"; "fontSize" =: "14px";
         "fontWeight" =# 600; "border" =: "none"]] []
       [Text "Connect Wallet"]]).

Definition Navbar (isOpen : bool) : node :=
  Elem "nav" [css ["position" =: "fixed"; "top" =# 0; "left" =# 0; "right" =# 0;
      "zIndex" =# 50; "backgroundColor" =: "#ffffff"; "borderBottom" =: "1px solid #e2e8f0"]] []
    ([Elem "div" [css ["maxWidth" =: "1280px"; "margin" =: "0 auto"; "padding" =: "16px 24px";
         "display" =: "flex"; "alignItems" =: "center"; "justifyContent" =: "space-between"]] []
       [Elem "div" [css ["display" =: "flex"; "alignItems" =: "center"; "gap" =: "12px"]] []
          [Elem "img" ["src" =: "/logo.png"; "alt" =: "Hylium Logo";
               css ["width" =: "40px"; "height" =: "40px"; "objectFit" =: "contain"]] [] [];
           Elem "span" [css ["color" =: "#0f172a"; "fontWeight" =# 700; "fontSize" =: "22px"]] []
             [Text "Hylium"]];
        Elem "div" [css ["display" =: "flex"; "alignItems" =: "center"; "gap" =: "40px"];
            "className" =: "hidden md:flex"] []
          (desktop_link <$> nav_items);
        Elem "button" [css ["padding" =: "12px 24px"; "borderRadius" =: "12px";
            "backgroundColor" =: "#00d4ff"; "color" =: "#0f172a"; "fontSize" =: "14px";
            "fontWeight" =# 600; "cursor" =: "pointer"; "border" =: "none"];
            "className" =: "hidden md:block"] []
          [Text "Connect Wallet"];
        Elem "button" [css ["color" =: "#0f172a"; "background" =: "none"; "border" =: "none";
            "cursor" =: "pointer"]; "className" =: "md:hidden"] [("onClick", ToggleMenu)]
          [Elem (if isOpen then "X" else "Menu") ["size" =# 24] [] []]]] ++
     if isOpen then [mobile_menu] else []).

(** [setIsOpen(!isOpen)] *)
Definition toggle_menu (isOpen : bool) : bool := negb isOpen.

(** ** Hero.tsx *)

(** [<Suspense fallback={...}>]: the child, or the fallback while it suspends. *)
Definition Suspense (fallback : node) (child : option node) : node := default fallback child.

Definition Hero (scene : option node) : node :=
  Elem "section" ["id" =: "home"; css ["minHeight" =: "100vh"; "display" =: "flex";
      "alignItems" =: "center"; "paddingTop" =: "80px";
      "background" =: "linear-gradient(180deg, #ffffff 0%, #f0f9ff 100%)"]] []
    [Elem "div" [css ["maxWidth" =: "1400px"; "margin" =: "0 auto"; "padding" =: "40px 24px";
         "display" =: "grid"; "gridTemplateColumns" =: "1fr 1.5fr"; "gap" =: "24px";
         "alignItems" =: "center"]] []
       [Elem "div" [css ["display" =: "flex"; "flexDirection" =: "column"; "gap" =: "20px"]] []
          [Elem "p" [css ["color" =: "#0891b2"; "fontWeight" =# 600;
               "letterSpacing" =: "0.15em"; "fontSize" =: "13px"; "textTransform" =: "uppercase"]] []
             [Text "NEXT GENERATION PROTOCOL"];
           Elem "h1" [css ["fontSize" =: "clamp(28px, 4vw, 48px)"; "fontWeight" =# 800;
               "color" =: "#0f172a"; "lineHeight" =. (115, -2)]] []
             [Text "The Foundation Layer for Decentralized Energy"];
           Elem "p" [css ["color" =: "#64748b"; "fontSize" =: "17px";
               "lineHeight" =. (17, -1)]] []
             [Text "Hylium powers the next era of decentralized energy markets with secure, transparent, and efficient infrastructure."];
           Elem "div" [css ["display" =: "flex"; "flexWrap" =: "wrap"; "gap" =: "12px";
               "paddingTop" =: "12px"]] []
             [Elem "button" [css ["padding" =: "14px 28px"; "backgroundColor" =: "#00d4ff";
                  "color" =: "#0f172a"; "fontWeight" =# 600; "borderRadius" =: "12px";
                  "border" =: "none"; "display" =: "flex"; "alignItems" =: "center";
                  "gap" =: "8px"; "cursor" =: "pointer"; "fontSize" =: "15px"]] []
                [Text "Join Presale ";
                 Elem "ArrowRight" ["size" =# 18] [] []];
              Elem "button" [css ["padding" =: "14px 28px"; "border" =: "2px solid #e2e8f0";
                  "backgroundColor" =: "#ffffff"; "color" =: "#0f172a"; "fontWeight" =# 500;
                  "borderRadius" =: "12px"; "display" =: "flex"; "alignItems" =: "center";
                  "gap" =: "8px"; "cursor" =: "pointer"; "fontSize" =: "15px"]] []
                [Elem "FileText" ["size" =# 18] [] [];
                 Text " Whitepaper"]]];
        Elem "div" [css ["width" =: "100%"; "height" =: "650px"; "position" =: "relative"]] []
          [Suspense
             (Elem "div" [css ["width" =: "100%"; "height" =: "100%"; "display" =: "flex";
                  "alignItems" =: "center"; "justifyContent" =: "center"; "color" =: "#0891b2"]] []
                [Text "Loading..."])
             scene]];
     Elem "style" [] []
       [Text "
        @media (max-width: 900px) {
          section > div { grid-template-columns: 1fr !important; text-align: center; }
        }
      "]].

(** ** Features.tsx *)

Record feature := Feature { feature_icon : string; feature_title : string; feature_desc : string }.

Definition features : list feature :=
  [Feature "Zap" "Lightning Fast" "Process thousands of transactions per second with minimal latency.";
   Feature "Shield" "Secure by Design" "Enterprise-grade security with multi-layer protection.";
   Feature "Globe" "Global Network" "Decentralized infrastructure across multiple continents.";
   Feature "Cpu" "Smart Contracts" "Deploy and execute energy trading contracts seamlessly."].

Definition feature_card (i : nat) (f : feature) : node :=
  Elem "div" ["key" =# Z.of_nat i; css ["background" =: "#f8fafc"; "borderRadius" =: "16px";
      "padding" =: "32px"; "textAlign" =: "center"]] []
    [Elem "div" [css ["width" =: "56px"; "height" =: "56px"; "borderRadius" =: "12px";
         "background" =: "linear-gradient(135deg, #00d4ff 0%, #0891b2 100%)"; "display" =: "flex";
         "alignItems" =: "center"; "justifyContent" =: "center"; "margin" =: "0 auto 16px"]] []
       [Elem (feature_icon f) ["size" =# 28; "color" =: "white"] [] []];
     Elem "h3" [css ["fontSize" =: "18px"; "fontWeight" =# 600; "color" =: "#0f172a";
         "marginBottom" =: "8px"]] []
       [Value (JStr (feature_title f))];
     Elem "p" [css ["color" =: "#64748b"; "fontSize" =: "14px"; "lineHeight" =. (16, -1)]] []
       [Value (JStr (feature_desc f))]].

Definition Features : node :=
  Elem "section" ["id" =: "ecosystem"; css ["padding" =: "80px 24px";
      "background" =: "#ffffff"]] []
    [Elem "div" [css ["maxWidth" =: "1200px"; "margin" =: "0 auto"]] []
       [Elem "h2" [css ["textAlign" =: "center"; "fontSize" =: "32px"; "fontWeight" =# 700;
            "color" =: "#0f172a"; "marginBottom" =: "16px"]] []
          [Text "Why Choose Hylium?"];
        Elem "p" [css ["textAlign" =: "center"; "color" =: "#64748b"; "marginBottom" =: "48px";
            "maxWidth" =: "600px"; "marginLeft" =: "auto"; "marginRight" =: "auto"]] []
          [Text "Built for the future of decentralized energy trading"];
        Elem "div" [css ["display" =: "grid"; "gridTemplateColumns" =: "repeat(4, 1fr)";
            "gap" =: "24px"]] []
          (map_i feature_card features)];
     Elem "style" [] []
       [Text "@media (max-width: 900px) { section > div > div:last-child { grid-template-columns: repeat(2, 1fr) !important; } }"]].

(** ** Roadmap.tsx *)

Record phase := Phase { phase_q : string; phase_title : string; phase_items : list string; phase_done : bool }.

Definition phases : list phase :=
  [Phase "Q1 2024" "Foundation" ["Core protocol development"; "Testnet launch"; "Security audits"] true;
   Phase "Q2 2024" "Growth" ["Mainnet launch"; "Wallet integration"; "First partnerships"] true;
   Phase "Q3 2024" "Expansion" ["DEX integration"; "Mobile app beta"; "Staking rewards"] false;
   Phase "Q4 2024" "Scale" ["Enterprise solutions"; "Cross-chain bridges"; "Global expansion"] false].

Definition phase_item (done : bool) (j : nat) (item : string) : node :=
  Elem "div" ["key" =# Z.of_nat j; css ["display" =: "flex"; "alignItems" =: "center"; "gap" =: "8px";
      "marginBottom" =: "8px"]] []
    [if done then Elem "CheckCircle" ["size" =# 16; "color" =: "#00d4ff"] [] []
     else Elem "Circle" ["size" =# 16; "color" =: "#cbd5e1"] [] [];
     Elem "span" [css ["color" =: "#64748b"; "fontSize" =: "14px"]] [] [Value (JStr item)]].

Definition phase_card (i : nat) (p : phase) : node :=
  Elem "div" ["key" =# Z.of_nat i; css ["background" =: "#ffffff"; "borderRadius" =: "16px";
      "padding" =: "28px";
      "border" =: (if phase_done p then "2px solid #00d4ff" else "1px solid #e2e8f0")]] []
    ([Elem "p" [css ["color" =: "#00d4ff"; "fontWeight" =# 600; "fontSize" =: "13px";
         "marginBottom" =: "8px"]] []
       [Value (JStr (phase_q p))];
      Elem "h3" [css ["fontSize" =: "20px"; "fontWeight" =# 700; "color" =: "#0f172a";
         "marginBottom" =: "16px"]] []
       [Value (JStr (phase_title p))]] ++
     map_i (phase_item (phase_done p)) (phase_items p)).

Definition Roadmap : node :=
  Elem "section" ["id" =: "roadmap"; css ["padding" =: "80px 24px";
      "background" =: "#f8fafc"]] []
    [Elem "div" [css ["maxWidth" =: "1200px"; "margin" =: "0 auto"]] []
       [Elem "h2" [css ["textAlign" =: "center"; "fontSize" =: "32px"; "fontWeight" =# 700;
            "color" =: "#0f172a"; "marginBottom" =: "48px"]] []
          [Text "Roadmap"];
        Elem "div" [css ["display" =: "grid"; "gridTemplateColumns" =: "repeat(4, 1fr)";
            "gap" =: "24px"]] []
          (map_i phase_card phases)];
     Elem "style" [] []
       [Text "@media (max-width: 900px) { section > div > div:last-child { grid-template-columns: repeat(2, 1fr) !important; } }"]].

(** ** Footer.tsx *)

Definition footer_columns : list (string * list string) :=
  [("Protocol", ["Ecosystem"; "Technology"; "Roadmap"]);
   ("Resources", ["Documentation"; "Whitepaper"; "GitHub"]);
   ("Community", ["Discord"; "Twitter"; "Telegram"])].

Definition footer_link (j : nat) (link : string) : node :=
  Elem "a" ["key" =# Z.of_nat j; "href" =: "#"; css ["display" =: "block"; "color" =: "#64748b";
      "fontSize" =: "14px"; "marginBottom" =: "8px"]] []
    [Value (JStr link)].

Definition footer_column (i : nat) (col : string * list string) : node :=
  Elem "div" ["key" =# Z.of_nat i] []
    ([Elem "h4" [css ["fontWeight" =# 600; "color" =: "#0f172a"; "marginBottom" =: "16px"]] []
       [Value (JStr col.1)]] ++
     map_i footer_link col.2).

Definition Footer : node :=
  Elem "footer" [css ["backgroundColor" =: "#ffffff"; "borderTop" =: "1px solid #e2e8f0";
      "padding" =: "48px 24px 24px"]] []
    [Elem "div" [css ["maxWidth" =: "1200px"; "margin" =: "0 auto"]] []
       [Elem "div" [css ["display" =: "grid"; "gridTemplateColumns" =: "repeat(4, 1fr)";
            "gap" =: "32px"; "marginBottom" =: "32px"]] []
          ([Elem "div" [] []
             [Elem "div" [css ["display" =: "flex"; "alignItems" =: "center"; "gap" =: "10px";
                  "marginBottom" =: "16px"]] []
                [Elem "img" ["src" =: "/logo.png"; "alt" =: "Hylium";
                     css ["width" =: "32px"; "height" =: "32px"]] [] [];
                 Elem "span" [css ["fontWeight" =# 700; "fontSize" =: "18px";
                     "color" =: "#0f172a"]] []
                   [Text "Hylium"]];
              Elem "p" [css ["color" =: "#64748b"; "fontSize" =: "14px";
                  "lineHeight" =. (16, -1)]] []
                [Text "Decentralized energy infrastructure for the future."]]] ++
           map_i footer_column footer_columns);
        Elem "div" [css ["borderTop" =: "1px solid #e2e8f0"; "paddingTop" =: "24px";
            "display" =: "flex"; "justifyContent" =: "space-between"; "alignItems" =: "center"]] []
          [Elem "p" [css ["color" =: "#94a3b8"; "fontSize" =: "14px"]] []
             [Text "© 2024 Hylium. All rights reserved."];
           Elem "div" [css ["display" =: "flex"; "gap" =: "16px"]] []
             [Elem "a" ["href" =: "#"; css ["color" =: "#94a3b8"]] []
                [Elem "Github" ["size" =# 20] [] []];
              Elem "a" ["href" =: "#"; css ["color" =: "#94a3b8"]] []
                [Elem "Twitter" ["size" =# 20] [] []];
              Elem "a" ["href" =: "#"; css ["color" =: "#94a3b8"]] []
                [Elem "MessageCircle" ["size" =# 20] [] []]]]];
     Elem "style" [] []
       [Text "@media (max-width: 768px) { footer > div > div:first-child { grid-template-columns: repeat(2, 1fr) !important; } }"]].

(** ** App.tsx *)

(** What the components of the page keep.  [suspended] tells whether the 3D
    scene is being waited for. *)
Record site := Site {
  site_menu : bool;
  site_suspended : bool;
  site_hologram : hologram;
  site_stats : jsval;
  site_form : form;
}.

(** An exception while rendering a component takes the whole page down: there
    is no error boundary. *)
Definition App (H : host) (s : site) : result node :=
  match StatsView H (site_stats s) with
  | Throw e => Throw e
  | Ok stats => Ok
      (Elem "div" [css ["minHeight" =: "100vh"; "background" =: "#f8fafc"]] []
        [Navbar (site_menu s);
         Hero (if site_suspended s then None else Some (Scene3D (site_hologram s)));
         stats;
         Features;
         Roadmap;
         Newsletter (site_form s);
         Footer])
  end.

Definition site_initial : site := Site false true hologram_initial JNull initial.

(** ** Links *)

(** Where following a link of the page leads: the top of the page for an empty
    fragment, the element with that identifier, nowhere otherwise. *)
Inductive destination := Top | Section (id : string) | Nowhere.

Definition follow (page : node) (href : string) : destination :=
  match strip "#" href with
  | Some "" => Top
  | Some id => if bool_decide (JStr id ∈ attributes "id" page) then Section id else Nowhere
  | None => Nowhere
  end.

(** The [display] of an element: an inline style takes precedence over classes;
    of Tailwind's classes [hidden] hides, [md:flex] and [md:block] show on wide
    screens, and [md:hidden] hides on wide screens. *)
Definition inline_display (e : node) : option jsval :=
  match attribute "style" e with Some (JObj o) => assoc "display" o | _ => None end.

Definition classes (e : node) : list string :=
  match attribute "className" e with Some (JStr s) => split " " s | _ => [] end.

Definition is_displayed (wide : bool) (e : node) : bool :=
  match inline_display e with
  | Some v => negb (bool_decide (v = JStr "none"))
  | None =>
      let has c := bool_decide (c ∈ classes e) in
      if wide then (has "md:flex" || has "md:block" || negb (has "hidden")) && negb (has "md:hidden")
      else negb (has "hidden")
  end.

(** The links on a screen, in document order. *)
Fixpoint visible_links (wide : bool) (e : node) : list jsval :=
  match e with
  | Elem tag props _ children =>
      if is_displayed wide e then
        (if String.eqb tag "a" then option_list (assoc "href" props) else []) ++
        (fix go (l : list node) : list jsval :=
           match l with [] => [] | c :: l' => visible_links wide c ++ go l' end) children
      else []
  | _ => []
  end.

(** ** Lemmas *)

(** A render of the panel has four cards. *)
Lemma items_cards H v l : items H v = Ok l → ∃ a b c d, l = [a; b; c; d].
Proof. unfold items. intros Hi. repeat case_match; simplify_eq. eauto. Qed.

Lemma StatsView_attributes H v e k :
  StatsView H v = Ok e → k = "id" ∨ k = "href" →
  attributes k e = if String.eqb k "id" then [JStr "stats"] else [].
Proof.
  unfold StatsView. destruct (items H v) as [l|] eqn:Hi; [|done]. intros [= <-] Hk.
  apply items_cards in Hi as (a & b & c & d & ->). by destruct Hk as [-> | ->].
Qed.

Lemma Newsletter_attributes f k : k = "id" ∨ k = "href" → attributes k (Newsletter f) = [].
Proof. intros Hk. unfold Newsletter. by destruct (truthy (f_msg f)), Hk as [-> | ->]. Qed.

Lemma Scene3D_attributes h k : k = "id" ∨ k = "href" → attributes k (Scene3D h) = [].
Proof.
  intros Hk. unfold Scene3D, HologramModel.
  by destruct (load_error h), (loaded h), Hk as [-> | ->].
Qed.

Lemma attributes_children k tag props on l :
  attributes k (Elem tag props on l) =
  match assoc k props with Some v => [v] | None => [] end ++ (l ≫= attributes k).
Proof. reflexivity. Qed.

Lemma Hero_attributes suspended h k :
  k = "id" ∨ k = "href" →
  attributes k (Hero (if suspended : bool then None else Some (Scene3D h))) =
  if String.eqb k "id" then [JStr "home"] else [].
Proof.
  intros Hk. pose proof (Scene3D_attributes h k Hk) as Hs. destruct suspended.
  - by destruct Hk as [-> | ->].
  - unfold Hero, Suspense. cbn [default]. remember (Scene3D h) as e eqn:He. clear He.
    destruct Hk as [-> | ->]; simpl; by rewrite Hs.
Qed.

Lemma App_attributes H s page k :
  App H s = Ok page → k = "id" ∨ k = "href" →
  attributes k page =
  attributes k (Navbar (site_menu s)) ++ (if String.eqb k "id" then [JStr "home"; JStr "stats"] else []) ++
  attributes k Features ++ attributes k Roadmap ++ attributes k Footer.
Proof.
  unfold App. destruct (StatsView H (site_stats s)) as [e|] eqn:Hv; [|done]. intros [= <-] Hk.
  rewrite attributes_children. cbn [mbind list_bind].
  rewrite (Hero_attributes _ _ _ Hk), (StatsView_attributes _ _ _ _ Hv Hk), (Newsletter_attributes _ _ Hk).
  rewrite app_nil_r. by destruct Hk as [-> | ->].
Qed.

Lemma App_ids H s page :
  App H s = Ok page →
  attributes "id" page = [JStr "home"; JStr "stats"; JStr "ecosystem"; JStr "roadmap"].
Proof. intros Ha. rewrite (App_attributes _ _ _ _ Ha) by auto. by destruct (site_menu s). Qed.

(** ** Theorems *)

(** C36: whatever the state of the components, the page has the four sections
    home, stats, ecosystem and roadmap, and every link on it leads to one of
    them or to the top of the page, except the "Technology" links of the
    navigation, which lead nowhere. *)
Theorem site_links H s page :
  App H s = Ok page →
  attributes "id" page = [JStr "home"; JStr "stats"; JStr "ecosystem"; JStr "roadmap"] ∧
  (∀ v, v ∈ attributes "href" page → ∃ href, v = JStr href ∧
     (follow page href = Nowhere ↔ href = "#technology")) ∧
  JStr "#technology" ∈ attributes "href" page.
Proof.
  intros Ha. pose proof (App_ids _ _ _ Ha) as Hids.
  rewrite (App_attributes _ _ _ "href" Ha) by auto. split_and!; [done| |].
  - assert (Hf : ∀ href, href ∈ ["#ecosystem"; "#technology"; "#roadmap"; "#stats"; "#"] →
      follow page href = Nowhere ↔ href = "#technology").
    { unfold follow. rewrite Hids. clear. intros href Hin.
      repeat (apply elem_of_cons in Hin as [-> | Hin]; [vm_compute; done|]). by apply elem_of_nil in Hin. }
    intros v Hv. assert (Hall : Forall (λ v, ∃ href, v = JStr href ∧
      href ∈ ["#ecosystem"; "#technology"; "#roadmap"; "#stats"; "#"])
      (attributes "href" (Navbar (site_menu s)) ++ [] ++ attributes "href" Features ++
       attributes "href" Roadmap ++ attributes "href" Footer)).
    { clear. destruct (site_menu s); simpl;
        repeat (apply Forall_cons; split; [eexists; split; [reflexivity|]; apply (bool_decide_eq_true_1 _);
          vm_compute; reflexivity|]); apply Forall_nil; done. }
    rewrite Forall_forall in Hall. destruct (Hall v Hv) as (href & -> & Hin). eauto.
  - destruct (site_menu s); right; left.
Qed.

Lemma site_links_witness :
  ∃ page, App (Host num_to_string (λ _, "") "," (λ _, "")) site_initial = Ok page ∧
    attributes "id" page = [JStr "home"; JStr "stats"; JStr "ecosystem"; JStr "roadmap"].
Proof.
  eexists. split; [reflexivity|].
  refine (proj1 (site_links (Host num_to_string (λ _, "") "," (λ _, "")) site_initial _ _)). reflexivity.
Defined.

(** The links of the navigation bar that a screen shows.  The classes that
    should hide the desktop links on narrow screens, and the menu on wide ones,
    have no effect, because both elements set [display] inline: every screen
    shows the desktop links, and the links of an open menu a second time. *)
Theorem navbar_links wide isOpen :
  visible_links wide (Navbar isOpen) =
  (JStr ∘ nav_href <$> nav_items) ++ (if isOpen then JStr ∘ nav_href <$> nav_items else []).
Proof. by destruct wide, isOpen. Qed.
