(* ===== verification/Service.v ===== *)
(** * The service, abstractly

    What the server promises to its clients, without database, tokens, hashes
    and interleavings: a service whose state is a directory of members, a set
    of subscribers, an inbox and a catalogue of downloads, and whose calls are
    atomic.  [Linearize] proves that the server refines it. *)

From S2P Require Import Prelude JsValue Effects Foreign Http.

(** ** State *)

Record service := Service {
  members : gmap string jsobj;           (* accounts by address *)
  subscribers : gset string;
  inbox : list (jsval * jsval * jsval);  (* address, subject, message *)
  catalogue : gmap string jsobj;         (* downloads by identifier *)
}.

Definition set_members (x : gmap string jsobj) (σ : service) : service :=
  Service x (subscribers σ) (inbox σ) (catalogue σ).
Definition set_subscribers (x : gset string) (σ : service) : service :=
  Service (members σ) x (inbox σ) (catalogue σ).
Definition set_inbox (x : list (jsval * jsval * jsval)) (σ : service) : service :=
  Service (members σ) (subscribers σ) x (catalogue σ).
Definition set_catalogue (x : gmap string jsobj) (σ : service) : service :=
  Service (members σ) (subscribers σ) (inbox σ) x.

(** A member with an identifier. *)
Definition has_id (σ : service) (id : jsval) (account : jsobj) : Prop :=
  ∃ email, members σ !! email = Some account ∧ assoc "id" account = Some id.

(** ** Calls *)

Inductive call :=
| Register (email : jsval)
| Login (email password : jsval)
| Refresh (id : jsval)
| Me (id : jsval)
| Subscribe (email : jsval)
| Contact (email subject message : jsval)
| List
| Publish (fields : jsobj)
| Withdraw (id : jsval)
| NoCall.                        (* whatever does not touch the state *)

Abbreviation response := (Z * jsval)%type.

Definition fault : response := (500%Z, error_json "Internal server error").

(** No member has the address. *)
Definition no_member (σ : service) (email : jsval) : Prop :=
  ∀ e, email = JStr e → members σ !! e = None.

Section serve.
(** What comparing a password with a hash may yield. *)
Variable compares : jsval → jsval → bool → Prop.

(** A call, its response and its effect, in one atomic step.  What a call
    relies on may fail at any time; then it is answered as a fault and has no
    effect. *)
Inductive serve : service → call → response → service → Prop :=
| register_new σ email account id :
    members σ !! email = None → assoc "id" account = Some id →
    assoc "email" account = Some (JStr email) → assoc "role" account = Some (JStr "USER") →
    serve σ (Register (JStr email))
      (201%Z, JObj [("message", JStr "User created successfully"); ("userId", id)])
      (set_members (<[email := account]> (members σ)) σ)
| register_taken σ email account :
    members σ !! email = Some account →
    serve σ (Register (JStr email)) (400%Z, error_json "Email already registered") σ
| register_fault σ email : serve σ (Register email) fault σ
| login_accepted σ email password account hash access refresh :
    members σ !! email = Some account → assoc "password" account = Some hash →
    compares password hash true →
    serve σ (Login (JStr email) password)
      (200%Z, JObj [("accessToken", access); ("refreshToken", refresh)]) σ
| login_unknown σ email password :
    no_member σ email → serve σ (Login email password) (401%Z, error_json "Invalid credentials") σ
| login_wrong σ email password account hash :
    members σ !! email = Some account → assoc "password" account = Some hash →
    compares password hash false →
    serve σ (Login (JStr email) password) (401%Z, error_json "Invalid credentials") σ
| login_fault σ email password : serve σ (Login email password) fault σ
| refresh_accepted σ id account access :
    has_id σ id account → serve σ (Refresh id) (200%Z, JObj [("accessToken", access)]) σ
| refresh_denied σ id : serve σ (Refresh id) (401%Z, error_json "Invalid refresh token") σ
| me_found σ id account :
    has_id σ id account →
    serve σ (Me id) (200%Z, JObj (project (Some ["id"; "email"; "role"; "createdAt"]) account)) σ
| me_unknown σ id :
    (∀ account, ¬ has_id σ id account) → serve σ (Me id) (404%Z, error_json "User not found") σ
| me_fault σ id : serve σ (Me id) fault σ
| subscribe_new σ email :
    email ∉ subscribers σ →
    serve σ (Subscribe (JStr email)) (201%Z, message_json "Subscribed successfully")
      (set_subscribers ({[ email ]} ∪ subscribers σ) σ)
| subscribe_again σ email :
    email ∈ subscribers σ →
    serve σ (Subscribe (JStr email)) (200%Z, message_json "Already subscribed") σ
| subscribe_fault σ email : serve σ (Subscribe email) fault σ
| contact_stored σ email subject message :
    serve σ (Contact email subject message) (201%Z, message_json "Message sent successfully")
      (set_inbox (inbox σ ++ [(email, subject, message)]) σ)
| contact_fault σ email subject message : serve σ (Contact email subject message) fault σ
| list_all σ entries :
    entries ≡ₚ (map_to_list (catalogue σ)).*2 → serve σ List (200%Z, JArr (JObj <$> entries)) σ
| list_fault σ : serve σ List fault σ
| publish_new σ fields id entry :
    catalogue σ !! id = None → assoc "id" entry = Some (JStr id) →
    Forall (λ kv, kv.2 ≠ JUndef → assoc kv.1 entry = Some kv.2) fields →
    serve σ (Publish fields) (201%Z, JObj entry) (set_catalogue (<[id := entry]> (catalogue σ)) σ)
| publish_fault σ fields : serve σ (Publish fields) fault σ
| withdraw_entry σ id entry :
    catalogue σ !! id = Some entry →
    serve σ (Withdraw (JStr id)) (200%Z, message_json "Download deleted")
      (set_catalogue (delete id (catalogue σ)) σ)
| withdraw_fault σ id : serve σ (Withdraw id) fault σ
| no_call σ resp : serve σ NoCall resp σ.

(** A sequence of calls, one after the other. *)
Inductive serve_all : service → list (call * response) → service → Prop :=
| serve_nil σ : serve_all σ [] σ
| serve_cons σ1 c resp σ2 ls σ3 :
    serve σ1 c resp σ2 → serve_all σ2 ls σ3 → serve_all σ1 ((c, resp) :: ls) σ3.
End serve.
