(* ===== verification/Linearize.v ===== *)
(** * The server refines the abstract service

    Every request has one event at which it takes effect; all its other events
    leave the abstract state alone.  Ordering the requests by these events
    turns any interleaving of any number of requests into a sequence of atomic
    calls of [Service] with the same responses and the same final state. *)

From S2P Require Import Prelude JsValue Effects Foreign Http Config Validate AuthMw AuthRoutes ContentRoutes RpcRoutes App AppSafety Concurrency Reference Service.

(** ** Which call a request makes *)

(** The call an accepted body asks for. *)
Definition body_call (sc : schema) (body : jsval) (c : call) : Prop :=
  match c with
  | Register email => sc = register_schema ∧ prop body "email" = Ok email
  | Login email password =>
      sc = login_schema ∧ prop body "email" = Ok email ∧ prop body "password" = Ok password
  | Subscribe email => sc = newsletter_schema ∧ prop body "email" = Ok email
  | Contact email subject message =>
      sc = contact_schema ∧ prop body "email" = Ok email ∧ prop body "subject" = Ok subject ∧
      prop body "message" = Ok message
  | Publish fields =>
      sc = download_schema ∧ fields.*1 = ["name"; "version"; "platform"; "url"; "checksum"] ∧
      Forall (λ kv, prop body kv.1 = Ok kv.2) fields
  | _ => False
  end.

Definition db_event (e : event) : Prop :=
  match e with
  | Ev (DbFindUnique _ _ _) _ | Ev (DbFindMany _ _) _ | Ev (DbCreate _ _) _ | Ev (DbDelete _ _) _ => True
  | _ => False
  end.

(** The call of an execution: what its validated body asks for, or the
    identifier it looks up or deletes; no call only if it leaves the database
    alone. *)
Definition asks (t : trace) (c : call) : Prop :=
  match c with
  | NoCall => Forall (λ e, ¬ db_event e) t
  | Refresh id => ∃ x, Ev (DbFindUnique MUser [("id", id)] None) x ∈ t
  | Me id => ∃ x, Ev (DbFindUnique MUser [("id", id)] (Some ["id"; "email"; "role"; "createdAt"])) x ∈ t
  | List => ∃ ord x, Ev (DbFindMany MDownload ord) x ∈ t
  | Withdraw id => ∃ x, Ev (DbDelete MDownload [("id", id)]) x ∈ t
  | _ => ∃ sc body y, Ev (ZodParse sc body) (Ok y) ∈ t ∧ body_call sc body c
  end.

(** ** The abstract state of the database *)

(** A row under the string in a column. *)
Definition keyed (k : string) (r : jsobj) : option (string * jsobj) :=
  match assoc k r with Some (JStr s) => Some (s, r) | _ => None end.

Definition by_key (k : string) (l : list jsobj) : list (string * jsobj) := omap (keyed k) l.

Definition cell (k : string) (r : jsobj) : jsval := default JUndef (assoc k r).

Section abstraction.
Context {E : Env} {PL : PrismaLaws E}.
Implicit Types s : sys E.

Definition abstract s : service :=
  {| members := list_to_map (by_key "email" (rows s MUser));
     subscribers := list_to_set (by_key "email" (rows s MNewsletter)).*1;
     inbox := (λ r, (cell "email" r, cell "subject" r, cell "message" r)) <$> rows s MContact;
     catalogue := list_to_map (by_key "id" (rows s MDownload)) |}.

(** The tables keep to the schema. *)
Definition db_ok s : Prop := ∀ m, Forall (row_typed m) (rows s m) ∧ no_conflicts m (rows s m).

(** [bcrypt.compare] can answer so. *)
Definition compares (password hash : jsval) (b : bool) : Prop :=
  ∃ w v, answer E (BcryptCompare password hash) w = Ok v ∧ truthy v = b.

(** ** Linearization points *)

Definition silent (e : event) : Prop :=
  let '(Ev o x) := e in
  ∀ s, db_ok s → (perform o s).1 = x → abstract (perform o s).2 = abstract s.

Definition effective (l : call * response) (e : event) : Prop :=
  let '(Ev o x) := e in
  ∀ s, db_ok s → (perform o s).1 = x → serve compares (abstract s) l.1 l.2 (abstract (perform o s).2).

Definition explained (t : trace) (l : call * response) : Prop :=
  ∃ t1 e t2, t = t1 ++ e :: t2 ∧ Forall silent t1 ∧ effective l e ∧ Forall silent t2.

(** A request still to take effect, or one that has. *)
Definition outstanding (t : trace) (l : option (call * response)) : Prop :=
  match l with Some l => explained t l | None => Forall silent t end.

(** ** Ordering by the points *)

Lemma db_ok_kept cfg o s : good_event cfg (Ev o (perform o s).1) → db_ok s → db_ok (perform o s).2.
Proof.
  intros Hg Hs m. destruct (Hs m) as [Ht Hc].
  split; [by eapply row_typed_kept|by eapply no_conflicts_kept].
Qed.

Lemma linearize cfg ts u :
  shuffle ts u → ∀ ls s s', Forall2 outstanding ts ls → Forall (good_event cfg) u → db_ok s →
  replays s u s' → ∃ serial, serial ≡ₚ omap id ls ∧ serve_all compares (abstract s) serial (abstract s').
Proof.
  induction 1 as [ts Hts|ts1 e t ts2 u _ IH]; intros ls s s' Hls Hg Hs Hr.
  - destruct Hr. exists []. split; [|constructor].
    assert (Hn : omap id ls = []); [|by rewrite Hn].
    clear -Hts Hls. induction Hls as [|t l ts ls Ho _ IH]; [done|].
    apply Forall_cons in Hts as [-> Hts]. destruct l as [l|]; [|by apply IH].
    destruct Ho as ([|] & ? & ? & ? & _); done.
  - apply Forall2_app_inv_l in Hls as (ls1 & ls' & H1 & Hls & ->).
    apply Forall2_cons_inv_l in Hls as (l & ls2 & Ho & H2 & ->).
    apply Forall_cons in Hg as [Hg Hgu]. destruct e as [o x]. destruct Hr as [<- Hr].
    assert (Hs' : db_ok (perform o s).2) by (by eapply db_ok_kept).
    assert (Hgo : ∀ l', outstanding t l' →
      ∃ serial, serial ≡ₚ omap id (ls1 ++ l' :: ls2) ∧
        serve_all compares (abstract (perform o s).2) serial (abstract s')).
    { intros l' Ho'. apply (IH (ls1 ++ l' :: ls2)); try done. by apply Forall2_app, Forall2_cons. }
    destruct l as [[c resp]|].
    + destruct Ho as ([|e1 t1] & e & t2 & Heq & Hs1 & He & Hs2); simplify_eq/=.
      * destruct (Hgo None Hs2) as (serial & Hp & Hall). exists ((c, resp) :: serial).
        split; [|econstructor; [by apply He|done]].
        rewrite Hp, !omap_app. simpl. by rewrite Permutation_middle.
      * apply Forall_cons in Hs1 as [Hs0 Hs1]. rewrite <- (Hs0 s Hs eq_refl).
        apply Hgo. by exists t1, e, t2.
    + apply Forall_cons in Ho as [Hs0 Ho]. rewrite <- (Hs0 s Hs eq_refl).
      destruct (Hgo None Ho) as (serial & Hp & Hall). by exists serial.
Qed.
End abstraction.

(** ** Tables as maps *)

Lemma by_key_app k l1 l2 : by_key k (l1 ++ l2) = by_key k l1 ++ by_key k l2.
Proof. apply omap_app. Qed.

Lemma elem_of_by_key k l s r : (s, r) ∈ by_key k l ↔ r ∈ l ∧ assoc k r = Some (JStr s).
Proof.
  unfold by_key. rewrite list_elem_of_omap. unfold keyed. split.
  - intros (r' & Hin & Hk). repeat case_match; simplify_eq. done.
  - intros [Hin Hk]. exists r. by rewrite Hk.
Qed.

Lemma elem_of_keys k l s : s ∈ (by_key k l).*1 ↔ ∃ r, r ∈ l ∧ assoc k r = Some (JStr s).
Proof.
  rewrite list_elem_of_fmap. split.
  - intros ([s' r] & -> & [? ?]%elem_of_by_key). eauto.
  - intros (r & ? & ?). exists (s, r). split; [done|]. by apply elem_of_by_key.
Qed.

Lemma by_key_single k r s : assoc k r = Some (JStr s) → by_key k [r] = [(s, r)].
Proof. intros Hk. unfold by_key, keyed. simpl. by rewrite Hk. Qed.

Lemma fresh_key m k l r s :
  k ∈ unique_columns m → Forall (λ r0, ¬ conflict m r0 r) l → assoc k r = Some (JStr s) →
  s ∉ (by_key k l).*1.
Proof.
  intros Hk Hc Hr (r0 & Hin & Hr0)%elem_of_keys. rewrite Forall_forall in Hc.
  apply (Hc r0 Hin), Exists_exists. exists k. by rewrite Hr, Hr0.
Qed.

Lemma keys_NoDup m k l : k ∈ unique_columns m → no_conflicts m l → NoDup (by_key k l).*1.
Proof.
  intros Hk. induction 1 as [|r l _ IH Hall]; [constructor|].
  change (r :: l) with ([r] ++ l). rewrite by_key_app, fmap_app. apply NoDup_app. split_and!; [| |done].
  - unfold by_key, keyed. simpl. repeat case_match; simpl; auto using NoDup_nil_2, NoDup_singleton.
  - intros s (r1 & ->%list_elem_of_singleton & Hr1)%elem_of_keys (r2 & Hin & Hr2)%elem_of_keys.
    rewrite Forall_forall in Hall. apply (Hall r2 Hin), Exists_exists. exists k. by rewrite Hr1, Hr2.
Qed.

(** A column of strings. *)
Lemma string_column m k r :
  row_typed m r → k ∈ (columns m).*1 → k ∉ ["createdAt"; "updatedAt"; "read"; "checksum"] →
  ∃ s, assoc k r = Some (JStr s).
Proof.
  intros [Hc Ht] Hk Hne. rewrite <- Hc in Hk. clear Hc.
  induction Ht as [|[k' v] r Hv _ IH]; [by inversion Hk|]. simpl in *.
  destruct (String.eqb_spec k k') as [->|Hd].
  - destruct v; cbn [typed] in Hv; try discriminate Hv; [| |eauto|];
      apply bool_decide_eq_true in Hv; exfalso; set_solver.
  - apply elem_of_cons in Hk as [->|Hk]; [done|]. auto.
Qed.

Lemma assoc_NoDup k v (o : jsobj) : NoDup o.*1 → (k, v) ∈ o → assoc k o = Some v.
Proof.
  induction o as [|[k' v'] o IH]; simpl; [by inversion 2|].
  intros [Hk Hn]%NoDup_cons [[= -> ->]|Hin]%elem_of_cons; [by rewrite String.eqb_refl|].
  destruct (String.eqb_spec k k') as [->|]; [|by apply IH].
  destruct Hk. by apply (list_elem_of_fmap_2 fst) in Hin.
Qed.

Section points.
Context {E : Env} {PL : PrismaLaws E}.
Implicit Types s : sys E.

Lemma abstract_rows s s' : (∀ m, rows s' m = rows s m) → abstract s' = abstract s.
Proof. intros H. unfold abstract. by rewrite !H. Qed.

Lemma read_silent o s : writes_db o = false → abstract (perform o s).2 = abstract s.
Proof.
  intros Hw. apply abstract_rows. intros m. unfold rows.
  destruct (perform_ext o s) as [->|[-> _]]; [done|]. by apply tbl_frame.
Qed.

Lemma silent_read o x : writes_db o = false → silent (Ev o x).
Proof. intros Hw s _ _. by apply read_silent. Qed.

Lemma perform_db o s :
  match o with CacheGet | CacheSet _ => True
  | _ => (perform o s).1 = answer E o (ext s) ∧ ext (perform o s).2 = after E o (ext s) end.
Proof. destruct o; try done; unfold perform, answer, after; by destruct (handle _ _). Qed.

Lemma silent_create_throw m dat e : silent (Ev (DbCreate m dat) (Throw e)).
Proof.
  intros s _ Hx. apply abstract_rows. intros m'. unfold rows.
  destruct (perform_db (DbCreate m dat) s) as [Ha ->]. rewrite Ha in Hx.
  pose proof (create_law E m dat (ext s)) as Hl. rewrite Hx in Hl. apply Hl.
Qed.

Lemma silent_delete_throw m wh e : silent (Ev (DbDelete m wh) (Throw e)).
Proof.
  intros s _ Hx. apply abstract_rows. intros m'. unfold rows.
  destruct (perform_db (DbDelete m wh) s) as [Ha ->]. rewrite Ha in Hx.
  pose proof (delete_law E m wh (ext s)) as Hl. rewrite Hx in Hl. apply Hl.
Qed.

(** A call without effect can take place at any silent event. *)
Lemma effective_silent l e : silent e → (∀ σ, serve compares σ l.1 l.2 σ) → effective l e.
Proof. destruct e as [o x]. intros He Hl s Hs Hx. by rewrite (He s Hs Hx). Qed.

(** What a creation does. *)
Lemma create_effect m dat v s :
  (perform (DbCreate m dat) s).1 = Ok v →
  ∃ r, v = JObj r ∧ new_row m dat r ∧ Forall (λ r0, ¬ conflict m r0 r) (rows s m) ∧
    rows (perform (DbCreate m dat) s).2 m = rows s m ++ [r] ∧
    ∀ m', m' ≠ m → rows (perform (DbCreate m dat) s).2 m' = rows s m'.
Proof.
  destruct (perform_db (DbCreate m dat) s) as [-> He]. intros Hx. unfold rows. rewrite He.
  pose proof (create_law E m dat (ext s)) as Hl. rewrite Hx in Hl. exact Hl.
Qed.

Lemma delete_effect m wh v s :
  (perform (DbDelete m wh) s).1 = Ok v →
  ∃ l1 r l2, v = JObj r ∧ row_matches wh r ∧ rows s m = l1 ++ r :: l2 ∧
    rows (perform (DbDelete m wh) s).2 m = l1 ++ l2 ∧
    ∀ m', m' ≠ m → rows (perform (DbDelete m wh) s).2 m' = rows s m'.
Proof.
  destruct (perform_db (DbDelete m wh) s) as [-> He]. intros Hx. unfold rows. rewrite He.
  pose proof (delete_law E m wh (ext s)) as Hl. rewrite Hx in Hl. exact Hl.
Qed.

Lemma find_effect m wh sel v s :
  (perform (DbFindUnique m wh sel) s).1 = Ok v →
  match v with
  | JNull => Forall (λ r, ¬ row_matches wh r) (rows s m)
  | _ => ∃ r, r ∈ rows s m ∧ row_matches wh r ∧ v = JObj (project sel r)
  end.
Proof.
  destruct (perform_db (DbFindUnique m wh sel) s) as [-> He]. intros Hx. unfold rows.
  pose proof (find_unique_law E m wh sel (ext s)) as Hl. rewrite Hx in Hl. by destruct v.
Qed.

(** A key of a table, and the map of its rows. *)
Definition table_map (k : string) (m : model) s : gmap string jsobj := list_to_map (by_key k (rows s m)).

Lemma table_lookup k m s key r :
  k ∈ unique_columns m → db_ok s → r ∈ rows s m → assoc k r = Some (JStr key) →
  table_map k m s !! key = Some r.
Proof.
  intros Hk Hs Hin Hr. apply elem_of_list_to_map_1; [|by apply elem_of_by_key].
  apply (keys_NoDup m); [done|]. apply Hs.
Qed.

Lemma table_lookup_inv k m s key r :
  table_map k m s !! key = Some r → r ∈ rows s m ∧ assoc k r = Some (JStr key).
Proof. intros H%elem_of_list_to_map_2. by apply elem_of_by_key. Qed.

Lemma table_create k m s s' r key :
  k ∈ unique_columns m → Forall (λ r0, ¬ conflict m r0 r) (rows s m) → assoc k r = Some (JStr key) →
  rows s' m = rows s m ++ [r] →
  table_map k m s !! key = None ∧ table_map k m s' = <[key := r]> (table_map k m s).
Proof.
  intros Hk Hc Hr Hrows. pose proof (fresh_key _ _ _ _ _ Hk Hc Hr) as Hf. unfold table_map. split.
  - by apply not_elem_of_list_to_map_1.
  - rewrite Hrows, by_key_app, (by_key_single _ _ _ Hr). by apply list_to_map_snoc.
Qed.

Lemma table_delete k m s s' l1 r l2 key :
  k ∈ unique_columns m → db_ok s → assoc k r = Some (JStr key) →
  rows s m = l1 ++ r :: l2 → rows s' m = l1 ++ l2 →
  table_map k m s !! key = Some r ∧ table_map k m s' = delete key (table_map k m s).
Proof.
  intros Hk Hs Hr H1 H2. split; [apply table_lookup; [done..| |done]; rewrite H1; set_solver|].
  assert (Hn : NoDup (by_key k (rows s m)).*1) by (apply (keys_NoDup m); [done|apply Hs]).
  unfold table_map. rewrite H2. rewrite H1 in *.
  change (r :: l2) with ([r] ++ l2) in *. rewrite !by_key_app, (by_key_single _ _ _ Hr) in *.
  rewrite !fmap_app in Hn. apply NoDup_app in Hn as (Hn1 & Hd1 & (_ & Hd2 & _)%NoDup_app).
  rewrite (list_to_map_app (by_key k l1)), (list_to_map_app (by_key k l1)), delete_union.
  change ([(key, r)] ++ by_key k l2) with ((key, r) :: by_key k l2).
  rewrite list_to_map_cons, delete_insert_id.
  - rewrite delete_id; [done|]. apply not_elem_of_list_to_map_1. set_solver.
  - apply not_elem_of_list_to_map_1. set_solver.
Qed.
End points.

(** ** The points of the calls *)

Section calls.
Context {E : Env} {PL : PrismaLaws E}.
Implicit Types s : sys E.

Lemma row_matches_one k v r : row_matches [(k, v)] r ↔ assoc k r = Some v.
Proof. unfold row_matches. by rewrite Forall_singleton. Qed.

(** Looking a row up by a unique column of strings. *)
Lemma found m k v sel x s :
  k ∈ unique_columns m → db_ok s → (perform (DbFindUnique m [(k, v)] sel) s).1 = Ok x →
  truthy x = true →
  ∃ key r, v = JStr key ∧ r ∈ rows s m ∧ assoc k r = Some (JStr key) ∧ x = JObj (project sel r).
Proof.
  intros Hk Hs Hx%find_effect Ht.
  assert (∃ r, r ∈ rows s m ∧ row_matches [(k, v)] r ∧ x = JObj (project sel r)) as (r & Hin & Hr & ->)
    by (by destruct x).
  apply row_matches_one in Hr. destruct (Hs m) as [Hty _]. rewrite Forall_forall in Hty.
  destruct (string_column m k r) as [key Hkey]; [by apply Hty|by apply unique_is_column| |].
  - destruct m; set_solver.
  - exists key, r. split; [congruence|done].
Qed.

Lemma lookup_absent m k v sel x s :
  (perform (DbFindUnique m [(k, v)] sel) s).1 = Ok x → truthy x = false →
  ∀ r, r ∈ rows s m → assoc k r ≠ Some v.
Proof.
  intros Hx%find_effect Ht. destruct x; try by destruct Hx as (? & _ & _ & ?); simplify_eq.
  intros r Hin Hr. rewrite Forall_forall in Hx. by apply (Hx r Hin), row_matches_one.
Qed.

(** A string given to [create] for a required column. *)
Lemma created_string m dat r k v :
  new_row m dat r → (k, Required) ∈ columns m → k ∉ ["createdAt"; "updatedAt"; "read"; "checksum"] →
  assoc k dat = Some v → ∃ key, v = JStr key ∧ assoc k r = Some (JStr key).
Proof.
  intros Hn Hk Hne Hv. assert (Hcol : k ∈ (columns m).*1) by (by apply (list_elem_of_fmap_2 fst) in Hk).
  destruct (string_column m k r) as [key Hkey]; [apply Hn|done|done|].
  assert (Hg : given k dat = Some v).
  { destruct Hn as [_ Hall]. rewrite Forall_forall in Hall. specialize (Hall _ Hk). simpl in Hall.
    unfold given in *. rewrite Hv in *. by destruct v. }
  exists key. split; [|done]. pose proof (new_row_given _ _ _ _ _ Hn Hcol Hg). congruence.
Qed.

Lemma register_new_point email h v id :
  prop v "id" = Ok id →
  effective (Register email, (201%Z, JObj [("message", JStr "User created successfully"); ("userId", id)]))
    (Ev (DbCreate MUser [("email", email); ("password", h)]) (Ok v)).
Proof.
  intros Hid s Hs (r & -> & Hn & Hc & Hr & Ho)%create_effect.
  destruct (created_string _ _ _ "email" email Hn) as (key & -> & Hkey); [set_solver..|done|].
  destruct (table_create "email" MUser s _ r key ltac:(set_solver) Hc Hkey Hr) as [Hnone Hmap].
  assert (Ha : abstract (perform (DbCreate MUser [("email", JStr key); ("password", h)]) s).2 =
    set_members (<[key := r]> (members (abstract s))) (abstract s)).
  { unfold abstract, set_members. cbn [members subscribers inbox catalogue]. rewrite (Ho MNewsletter), (Ho MContact), (Ho MDownload) by done. f_equal. exact Hmap. }
  rewrite Ha. destruct (string_column MUser "id" r) as [i Hi]; [apply Hn|set_solver..|].
  unfold prop in Hid. rewrite Hi in Hid. injection Hid as <-.
  constructor; [exact Hnone|done|done|]. by eapply new_row_default; [exact Hn|set_solver|].
Qed.

Lemma register_taken_point email v :
  truthy v = true →
  effective (Register email, (400%Z, error_json "Email already registered"))
    (Ev (DbFindUnique MUser [("email", email)] None) (Ok v)).
Proof.
  intros Ht s Hs Hx. rewrite read_silent by done.
  destruct (found MUser "email" _ _ _ _ ltac:(set_solver) Hs Hx Ht) as (key & r & -> & Hin & Hr & _).
  eapply register_taken. by apply (table_lookup "email" MUser s key r); [set_solver|..].
Qed.

(** The account a login finds, and its hash. *)
Lemma login_found email v hash s :
  truthy v = true → prop v "password" = Ok hash → db_ok s →
  (perform (DbFindUnique MUser [("email", email)] None) s).1 = Ok v →
  ∃ key account, email = JStr key ∧ members (abstract s) !! key = Some account ∧
    assoc "password" account = Some hash.
Proof.
  intros Ht Hp Hs Hx.
  destruct (found MUser "email" _ _ _ _ ltac:(set_solver) Hs Hx Ht) as (key & r & -> & Hin & Hr & ->).
  exists key, r. split; [done|]. split; [by apply (table_lookup "email" MUser s key r); [set_solver|..]|].
  destruct (Hs MUser) as [Hty _]. rewrite Forall_forall in Hty.
  destruct (string_column MUser "password" r) as [h Hh]; [by apply Hty|set_solver..|].
  unfold prop in Hp. cbn [project] in Hp. rewrite Hh in Hp. by injection Hp as <-.
Qed.

Lemma login_point email password hash v access refresh :
  truthy v = true → prop v "password" = Ok hash → compares password hash true →
  effective (Login email password, (200%Z, JObj [("accessToken", access); ("refreshToken", refresh)]))
    (Ev (DbFindUnique MUser [("email", email)] None) (Ok v)).
Proof.
  intros Ht Hp Hc s Hs Hx. rewrite read_silent by done.
  destruct (login_found _ _ _ _ Ht Hp Hs Hx) as (key & account & -> & Hm & Ha). by eapply login_accepted.
Qed.

Lemma login_wrong_point email password hash v :
  truthy v = true → prop v "password" = Ok hash → compares password hash false →
  effective (Login email password, (401%Z, error_json "Invalid credentials"))
    (Ev (DbFindUnique MUser [("email", email)] None) (Ok v)).
Proof.
  intros Ht Hp Hc s Hs Hx. rewrite read_silent by done.
  destruct (login_found _ _ _ _ Ht Hp Hs Hx) as (key & account & -> & Hm & Ha). by eapply login_wrong.
Qed.

Lemma login_unknown_point email password v :
  truthy v = false →
  effective (Login email password, (401%Z, error_json "Invalid credentials"))
    (Ev (DbFindUnique MUser [("email", email)] None) (Ok v)).
Proof.
  intros Ht s Hs Hx. rewrite read_silent by done. apply login_unknown. intros e ->.
  destruct (members (abstract s) !! e) as [r|] eqn:Hm; [|done].
  apply table_lookup_inv in Hm as [Hin Hr]. by destruct (lookup_absent _ _ _ _ _ _ Hx Ht r Hin).
Qed.

(** A comparison of an execution. *)
Lemma compared t password hash v b :
  answered_by E t → Ev (BcryptCompare password hash) (Ok v) ∈ t → truthy v = b → compares password hash b.
Proof. intros Ha Hin Hv. destruct (Ha _ _ Hin eq_refl) as [w Hw]. by exists w, v. Qed.

(** A stored account is a member under its identifier. *)
Lemma row_has_id s r id :
  db_ok s → r ∈ rows s MUser → assoc "id" r = Some id → has_id (abstract s) id r.
Proof.
  intros Hs Hin Hid. destruct (Hs MUser) as [Hty _]. rewrite Forall_forall in Hty.
  destruct (string_column MUser "email" r) as [email He]; [by apply Hty|set_solver..|].
  exists email. split; [|done]. apply (table_lookup "email" MUser s email r); [set_solver|done..].
Qed.

Lemma refresh_point id v access :
  truthy v = true →
  effective (Refresh id, (200%Z, JObj [("accessToken", access)]))
    (Ev (DbFindUnique MUser [("id", id)] None) (Ok v)).
Proof.
  intros Ht s Hs Hx. rewrite read_silent by done.
  destruct (found MUser "id" _ _ _ _ ltac:(set_solver) Hs Hx Ht) as (key & r & -> & Hin & Hr & _).
  eapply refresh_accepted. by apply row_has_id.
Qed.

Lemma me_found_point id v :
  truthy v = true →
  effective (Me id, (200%Z, v))
    (Ev (DbFindUnique MUser [("id", id)] (Some ["id"; "email"; "role"; "createdAt"])) (Ok v)).
Proof.
  intros Ht s Hs Hx. rewrite read_silent by done.
  destruct (found MUser "id" _ _ _ _ ltac:(set_solver) Hs Hx Ht) as (key & r & -> & Hin & Hr & ->).
  apply me_found. by apply row_has_id.
Qed.

Lemma me_unknown_point id v :
  truthy v = false →
  effective (Me id, (404%Z, error_json "User not found"))
    (Ev (DbFindUnique MUser [("id", id)] (Some ["id"; "email"; "role"; "createdAt"])) (Ok v)).
Proof.
  intros Ht s Hs Hx. rewrite read_silent by done.
  apply me_unknown. intros r (email & [Hin _]%table_lookup_inv & Hid).
  by eapply (lookup_absent _ _ _ _ _ _ Hx Ht).
Qed.

(** The set of subscribers. *)
Lemma elem_of_subscribers s email :
  email ∈ subscribers (abstract s) ↔ ∃ r, r ∈ rows s MNewsletter ∧ assoc "email" r = Some (JStr email).
Proof. cbn [subscribers abstract]. rewrite elem_of_list_to_set. apply elem_of_keys. Qed.

Lemma subscribe_new_point email v :
  effective (Subscribe email, (201%Z, message_json "Subscribed successfully"))
    (Ev (DbCreate MNewsletter [("email", email)]) (Ok v)).
Proof.
  intros s Hs (r & -> & Hn & Hc & Hr & Ho)%create_effect.
  destruct (created_string _ _ _ "email" email Hn) as (key & -> & Hkey); [set_solver..|done|].
  assert (Ha : abstract (perform (DbCreate MNewsletter [("email", JStr key)]) s).2 =
    set_subscribers ({[ key ]} ∪ subscribers (abstract s)) (abstract s)).
  { unfold abstract, set_subscribers. cbn [members subscribers inbox catalogue].
    rewrite (Ho MUser), (Ho MContact), (Ho MDownload), Hr by done. f_equal.
    rewrite by_key_app, (by_key_single _ _ _ Hkey), fmap_app, list_to_set_app_L.
    csimpl. clear. set_solver. }
  rewrite Ha. apply subscribe_new. cbn [subscribers abstract]. rewrite elem_of_list_to_set.
  apply (fresh_key MNewsletter "email" _ r); [set_solver|done..].
Qed.

Lemma subscribe_again_point email v :
  truthy v = true →
  effective (Subscribe email, (200%Z, message_json "Already subscribed"))
    (Ev (DbFindUnique MNewsletter [("email", email)] None) (Ok v)).
Proof.
  intros Ht s Hs Hx. rewrite read_silent by done.
  destruct (found MNewsletter "email" _ _ _ _ ltac:(set_solver) Hs Hx Ht) as (key & r & -> & Hin & Hr & _).
  apply subscribe_again, elem_of_subscribers. eauto.
Qed.

Lemma contact_point email subject message v :
  effective (Contact email subject message, (201%Z, message_json "Message sent successfully"))
    (Ev (DbCreate MContact [("email", email); ("subject", subject); ("message", message)]) (Ok v)).
Proof.
  intros s Hs (r & -> & Hn & Hc & Hr & Ho)%create_effect.
  destruct (created_string _ _ _ "email" email Hn) as (e & -> & He); [set_solver..|done|].
  destruct (created_string _ _ _ "subject" subject Hn) as (sj & -> & Hsj); [set_solver..|done|].
  destruct (created_string _ _ _ "message" message Hn) as (msg & -> & Hmsg); [set_solver..|done|].
  match goal with |- serve _ _ _ _ ?σ =>
    assert (Ha : σ = set_inbox (inbox (abstract s) ++ [(JStr e, JStr sj, JStr msg)]) (abstract s)) end.
  { unfold abstract, set_inbox. cbn [members subscribers inbox catalogue].
    rewrite (Ho MUser), (Ho MNewsletter), (Ho MDownload), Hr by done. f_equal.
    rewrite fmap_app. unfold cell. csimpl. by rewrite He, Hsj, Hmsg. }
  rewrite Ha. constructor.
Qed.

Lemma by_key_rows k m l :
  Forall (row_typed m) l → k ∈ unique_columns m → (by_key k l).*2 = l.
Proof.
  intros Hl Hk. induction Hl as [|r l Hr _ IH]; [done|].
  destruct (string_column m k r) as [key Hkey]; [done|by apply unique_is_column|by destruct m; set_solver|].
  change (r :: l) with ([r] ++ l). rewrite by_key_app, (by_key_single _ _ _ Hkey). simpl. by f_equal.
Qed.

Lemma list_point v :
  effective (List, (200%Z, v)) (Ev (DbFindMany MDownload [("createdAt", "desc")]) (Ok v)).
Proof.
  intros s Hs Hx. rewrite read_silent by done.
  destruct (perform_db (DbFindMany MDownload [("createdAt", "desc")]) s) as [Ha _]. rewrite Hx in Ha.
  pose proof (find_many_law E MDownload (ext s)) as Hl. rewrite <- Ha in Hl.
  destruct Hl as (entries & -> & Hp & _). apply list_all. rewrite Hp. cbn [catalogue abstract].
  destruct (Hs MDownload) as [Hty Hc].
  rewrite map_to_list_to_map by (apply (keys_NoDup MDownload); [set_solver|done]).
  by rewrite (by_key_rows "id" MDownload) by (done || set_solver).
Qed.

Lemma publish_point fields v :
  fields.*1 = ["name"; "version"; "platform"; "url"; "checksum"] →
  effective (Publish fields, (201%Z, v)) (Ev (DbCreate MDownload fields) (Ok v)).
Proof.
  intros Hf s Hs (r & -> & Hn & Hc & Hr & Ho)%create_effect.
  destruct (string_column MDownload "id" r) as [i Hi]; [apply Hn|set_solver..|].
  destruct (table_create "id" MDownload s _ r i ltac:(set_solver) Hc Hi Hr) as [Hnone Hmap].
  match goal with |- serve _ _ _ _ ?σ =>
    assert (Ha : σ = set_catalogue (<[i := r]> (catalogue (abstract s))) (abstract s)) end.
  { unfold abstract, set_catalogue. cbn [members subscribers inbox catalogue].
    rewrite (Ho MUser), (Ho MNewsletter), (Ho MContact) by done. f_equal. exact Hmap. }
  rewrite Ha. apply publish_new; [exact Hnone|done|].
  apply Forall_forall. intros [k x] Hin Hx. cbn [fst snd] in *.
  assert (Hk : k ∈ fields.*1) by (by apply (list_elem_of_fmap_2 fst) in Hin).
  apply (new_row_given _ _ _ _ _ Hn); [rewrite Hf in Hk; set_solver|].
  assert (Hassoc : assoc k fields = Some x); [|unfold given; rewrite Hassoc; by destruct x].
  apply assoc_NoDup; [|done]. rewrite Hf. repeat constructor; set_solver.
Qed.

Lemma withdraw_point id v :
  effective (Withdraw id, (200%Z, message_json "Download deleted"))
    (Ev (DbDelete MDownload [("id", id)]) (Ok v)).
Proof.
  intros s Hs (l1 & r & l2 & -> & Hid%row_matches_one & H1 & H2 & Ho)%delete_effect.
  destruct (Hs MDownload) as [Hty _]. rewrite Forall_forall in Hty.
  destruct (string_column MDownload "id" r) as [i Hi]; [apply Hty; rewrite H1; set_solver|set_solver..|].
  rewrite Hi in Hid. injection Hid as <-.
  destruct (table_delete "id" MDownload s _ l1 r l2 i ltac:(set_solver) Hs Hi H1 H2) as [Hsome Hmap].
  match goal with |- serve _ _ _ _ ?σ =>
    assert (Ha : σ = set_catalogue (delete i (catalogue (abstract s))) (abstract s)) end.
  { unfold abstract, set_catalogue. cbn [members subscribers inbox catalogue].
    rewrite (Ho MUser), (Ho MNewsletter), (Ho MContact) by done. f_equal. exact Hmap. }
  rewrite Ha. eapply withdraw_entry. exact Hsome.
Qed.
End calls.
