(* ===== verification/Refinement.v ===== *)
(** * The refinement theorem

    The linearization point of every handler, carried through the layers of
    the application, and the theorem: every run of the server is a sequence of
    atomic calls of the abstract service. *)

From S2P Require Import Prelude JsValue Effects Foreign Http Config Validate AuthMw AuthRoutes ContentRoutes RpcRoutes App AppSafety Concurrency Reference Service Linearize.

Section refinement.
Context {X : Express} {XL : ExpressLaws X} {P : Packages} {PaL : PackagesLaws P}.
Context {E : Env} {PL : PrismaLaws E}.

(** An execution is a call with the response it sends. *)
Definition refined (_ : option string) (t : trace) : Prop :=
  answered_by E t → ∃ c resp, responses t = [resp] ∧ asks t c ∧ explained t (c, resp).

Lemma answered_cons e t : answered_by E (e :: t) → answered_by E t.
Proof. intros Ha o x Hin. apply Ha. by right. Qed.

Lemma explained_here e t l : effective l e → Forall silent t → explained (e :: t) l.
Proof. intros He Ht. exists [], e, t. by repeat constructor. Qed.

Lemma explained_skip e t l : silent e → explained t l → explained (e :: t) l.
Proof. intros He (t1 & e' & t2 & -> & H1 & H2 & H3). exists (e :: t1), e', t2. by repeat constructor. Qed.

Lemma asks_cons e t c : ¬ db_event e → asks t c → asks (e :: t) c.
Proof. intros He. destruct c; simpl; try (by constructor); set_solver. Qed.

#[export] Instance refined_policy : Policy refined.
Proof.
  split.
  - intros h st body _. exists NoCall, (st, body). split_and!; [done|by repeat constructor; intros []|].
    apply explained_here; [|constructor].
    apply effective_silent; [by apply silent_read|constructor].
  - intros h [o x] t He Ht Hans%answered_cons. destruct (Ht Hans) as (c & resp & Hr & Ha & Hx).
    exists c, resp. split_and!.
    + by destruct o.
    + apply asks_cons; [|done]. destruct o; try destruct He; by intros [].
    + apply explained_skip; [|done]. destruct o; try destruct He; by apply silent_read.
Qed.

(** A handler whose call comes from its body. *)
Lemma refined_stack sc h :
  (∀ rq t r, exec (h rq) t r → r = Ok tt ∧ (answered_by E t → ∃ c resp, responses t = [resp] ∧
     (body_call sc (rq_body rq) c ∨ asks t c) ∧ explained t (c, resp))) →
  stack_ok refined [Sync (validate sc); Async h].
Proof.
  intros Hh. apply (validate_stack_ok refined). intros rq y t r Hx.
  apply Hh in Hx as (-> & Hx). split; [done|]. intros Hans%answered_cons.
  destruct (Hx Hans) as (c & resp & Hr & Ha & Hx'). exists c, resp. split_and!.
  - done.
  - destruct Ha as [Hb|Ha]; [|by apply asks_cons; [intros []|]].
    assert (Hz : ∃ sc' body y', Ev (ZodParse sc' body) (Ok y') ∈ Ev (ZodParse sc (rq_body rq)) (Ok y) :: t ∧
      body_call sc' body c) by (exists sc, (rq_body rq), y; split; [left|done]).
    by destruct c; try destruct Hb.
  - apply explained_skip; [by apply silent_read|done].
Qed.

(** An execution that leaves the database alone. *)
Lemma refined_no_call h t :
  length (responses t) = 1%nat → Forall (λ e, silent e ∧ ¬ db_event e) t → refined h t.
Proof.
  intros Hr Ht _. destruct (responses t) as [|resp [|]] eqn:Heq; try done.
  apply Forall_and in Ht as [Hs Hd]. exists NoCall, resp. split_and!; [done|done|].
  destruct Hs as [|e t He Ht]; [done|]. apply explained_here; [|done].
  apply effective_silent; [done|constructor].
Qed.

(** An object has no property whose reading throws. *)
Lemma created_object_point m dat v k e l :
  prop v k = Throw e → effective l (Ev (DbCreate m dat) (Ok v)).
Proof. intros Hp s Hs (r & -> & _)%create_effect. done. Qed.
End refinement.

Ltac silent_event :=
  first [apply silent_create_throw | apply silent_delete_throw | apply silent_read; reflexivity].

Ltac silent_events := repeat (apply Forall_cons; split; [silent_event|]); apply Forall_nil_2; done.

Ltac comparison := match goal with Hans : answered_by _ _ |- _ =>
  eapply compared; [exact Hans|right; left|];
  first [by apply negb_false_iff | by apply negb_true_iff] end.

Ltac effective_event := first
  [ eapply register_new_point; eassumption
  | apply register_taken_point; assumption
  | eapply login_point; [by apply negb_false_iff|eassumption|comparison]
  | eapply login_wrong_point; [by apply negb_false_iff|eassumption|comparison]
  | apply login_unknown_point; by apply negb_true_iff
  | apply refresh_point; by apply negb_false_iff
  | apply me_found_point; by apply negb_false_iff
  | apply me_unknown_point; by apply negb_true_iff
  | apply subscribe_new_point
  | apply subscribe_again_point; assumption
  | apply contact_point
  | apply list_point
  | apply publish_point; reflexivity
  | apply withdraw_point
  | eapply created_object_point; eassumption
  | apply effective_silent; [silent_event|solve [intros; constructor]] ].

(** The first event at which the call can take effect. *)
Ltac point := first
  [ apply explained_here; [effective_event|silent_events]
  | apply explained_skip; [silent_event|point] ].

(** The call is none, as the database is not used. *)
Ltac no_call :=
  exists NoCall; eexists; split; [reflexivity|]; split;
  [|point]; lazymatch goal with |- _ ∨ _ => right | _ => idtac end; simpl;
  repeat (apply Forall_cons; split; [by intros []|]); by apply Forall_nil_2.

Ltac body_fields := repeat (apply Forall_cons; split; [simpl; eassumption|]); by apply Forall_nil_2.

(** The call that the body asks for. *)
Tactic Notation "call_of_body" open_constr(c) :=
  exists c; eexists; split; [reflexivity|]; split;
  [left; simpl; split_and?; first [reflexivity | eassumption | body_fields]|point].

Section handlers.
Context {X : Express} {XL : ExpressLaws X} {P : Packages} {PaL : PackagesLaws P}.
Context {E : Env} {PL : PrismaLaws E}.
Variable cfg : config.

Ltac by_body := intros rq t r H; symex H; (split; [done|intros Hans]).

Lemma register_refined : stack_ok refined [Sync (validate register_schema); Async register].
Proof.
  apply refined_stack. unfold register. by_body; first [no_call | call_of_body (Register _)].
Qed.

Lemma login_refined : stack_ok refined [Sync (validate login_schema); Async (login cfg)].
Proof.
  apply refined_stack. unfold login, sign_access, sign_refresh.
  by_body; first [no_call | call_of_body (Login _ _)].
Qed.

Lemma subscribe_refined :
  stack_ok refined [Sync (validate newsletter_schema); Async Newsletter.subscribe].
Proof.
  apply refined_stack. unfold Newsletter.subscribe. by_body; first [no_call | call_of_body (Subscribe _)].
Qed.

Lemma submit_refined : stack_ok refined [Sync (validate contact_schema); Async Contact.submit].
Proof.
  apply refined_stack. unfold Contact.submit. by_body; first [no_call | call_of_body (Contact _ _ _)].
Qed.

Lemma add_refined : stack_ok refined [Sync (validate download_schema); Async Downloads.add].
Proof.
  apply refined_stack. unfold Downloads.add. by_body;
    first [no_call | call_of_body (Publish [("name", _); ("version", _); ("platform", _); ("url", _); ("checksum", _)])].
Qed.

Lemma proxy_refined : stack_ok refined [Sync (validate rpc_schema); Async (Rpc.proxy cfg)].
Proof. apply refined_stack. unfold Rpc.proxy, Rpc.callRpc. by_body; no_call. Qed.

(** The call that a lookup or a deletion asks for. *)
Tactic Notation "call_of_event" open_constr(c) :=
  exists c; eexists; split; [reflexivity|]; split; [simpl; repeat eexists; (left || (right; left))|point].

Lemma refresh_refined : handler_ok refined (refresh cfg).
Proof.
  unfold refresh, sign_access. by_body; first [no_call | call_of_event (Refresh _)].
Qed.

Lemma me_refined : handler_ok refined me.
Proof. unfold me. by_body; call_of_event (Me _). Qed.

Lemma list_refined : handler_ok refined Downloads.list_all.
Proof. unfold Downloads.list_all. by_body; call_of_event List. Qed.

Lemma remove_refined : handler_ok refined Downloads.remove.
Proof. unfold Downloads.remove. by_body; call_of_event (Withdraw _). Qed.

Lemma get_stats_refined : handler_ok refined (Stats.get_stats cfg).
Proof.
  intros rq t r Hx. destruct (get_stats_sound cfg rq t r Hx) as (-> & Hr & _). split; [done|].
  apply refined_no_call; [done|]. eapply get_stats_Forall; [| | | | |exact Hx];
    intros; try (split; [by apply silent_read|by intros []]).
  destruct e as [[] ?]; try done; (split; [by apply silent_read|by intros []]).
Qed.

Lemma app_refined rq out t a :
  exec (run_layers (app cfg) rq out) t a → refined (rq_authorization rq) t.
Proof.
  apply app_policy_routes; unfold Downloads.add_stack, Downloads.remove_stack;
    eauto 10 using refined_policy, register_refined, login_refined, subscribe_refined, submit_refined,
      add_refined, proxy_refined, refresh_refined, me_refined, list_refined, remove_refined,
      get_stats_refined, stack_sync_ok, stack_async_ok, authenticate_ok, requireAdmin_ok.
Qed.
End handlers.

(** ** Theorem *)

(** An execution makes a call and sends its response. *)
Definition answers_call (t : trace) (l : call * (Z * jsval)) : Prop :=
  responses t = [l.2] ∧ asks t l.1.

(** C1: the server refines the abstract service.  However the executions of any
    number of requests interleave, there is an order of the requests in which
    the abstract service, handling one call at a time, gives every request the
    response it got and ends in the state the database is in. *)
Theorem server_refines_service {X : Express} {XL : ExpressLaws X} {P : Packages} {PaL : PackagesLaws P}
    {E : Env} {PL : PrismaLaws E} cfg out rqs ts u (s s' : sys E) :
  Forall2 (λ rq t, ∃ a, exec (run_layers (app cfg) rq out) t a) rqs ts →
  shuffle ts u → replays s u s' → db_ok s →
  ∃ calls order, Forall2 answers_call ts calls ∧ order ≡ₚ calls ∧
    serve_all compares (abstract s) order (abstract s').
Proof.
  intros Hts Hsh Hr Hs.
  assert (∃ calls, Forall2 answers_call ts calls ∧ Forall2 outstanding ts (Some <$> calls))
    as (calls & Hcalls & Hout).
  { assert (Hans : Forall (answered_by E) ts).
    { apply Forall_forall. intros t Ht o x Hin Ho. eapply replays_answer; [exact Hr| |done].
      apply (shuffle_elem _ _ _ Hsh). by exists t. }
    clear -Hts XL PaL Hans. induction Hts as [|rq t rqs ts [a Hx] _ IH]; [by exists []|].
    - apply Forall_cons in Hans as [Ht Hans]. destruct (IH Hans) as (calls & H1 & H2).
      destruct (app_refined _ _ _ _ _ Hx Ht) as (c & resp & Hr & Ha & Hx'). exists ((c, resp) :: calls).
      split; by constructor. }
  destruct (linearize cfg ts u Hsh _ s s' Hout) as (order & Hp & Hall); [|done..|].
  - apply (serves_good cfg out rqs). by exists ts.
  - exists calls, order. split_and!; [done| |done]. rewrite Hp.
    clear. induction calls as [|l calls IH]; [done|]. csimpl. by rewrite IH.
Qed.

Lemma server_refines_service_witness :
  let rqs := [escalation_request; escalation_request] in
  let ts := (run_all default_config no_next rqs ref_sys).1 in
  let s' := (run_all default_config no_next rqs ref_sys).2 in
  (responses <$> ts) =
    [[(201%Z, JObj [("message", JStr "User created successfully"); ("userId", JStr "0")])];
     [(400%Z, error_json "Email already registered")]] ∧
  ∃ calls order, Forall2 answers_call ts calls ∧ order ≡ₚ calls ∧
    serve_all compares (abstract ref_sys) order (abstract s').
Proof.
  intros rqs ts s'. split; [vm_compute; reflexivity|].
  apply (server_refines_service default_config no_next rqs ts (concat ts) ref_sys s'
    (run_all_execs _ _ _ _) (shuffle_concat _) (run_all_replays _ _ _ _)).
  intros m. split; constructor.
Defined.
