(* ===== verification/Routes.v ===== *)
(** * The routes the site uses

    Where the application takes a request for the statistics, the newsletter,
    the contact form and the list of downloads, once it has passed the
    middleware in front of all routes; and what becomes of an error there. *)

From S2P Require Import Prelude JsValue Effects Foreign Http Config Validate AuthMw AuthRoutes ContentRoutes RpcRoutes App AppSafety Reference.

(** The layers behind the middleware of the packages. *)
Definition inner (cfg : config) `{P : Packages} : list layer := drop 5 (app cfg).

Definition too_many : Z * jsval := (429%Z, error_json "Too many requests, please try again later").
Definition server_error : Z * jsval := (500%Z, error_json "Internal server error").

(** [next(err)] ends in the error handler. *)
Definition fails_safely (out : nextfn) : Prop :=
  ∀ e rq t a, exec (out (Some e) rq) t a → responses t = [server_error].

(** The request is taken by a stack, at the root of its router. *)
Definition taken_by (cfg : config) `{X : Express} `{P : Packages} (fs : list handler) (rq : request) : Prop :=
  ∃ out, run_layers (inner cfg) rq no_next = run_stack fs (set_params [] (with_path "/" rq)) out ∧ fails_safely out.

Definition newsletter_stack : list handler :=
  [Sync (validate newsletter_schema); Async Newsletter.subscribe].
Definition contact_stack : list handler :=
  [Sync (validate contact_schema); Async Contact.submit].

Section routes.
Context `{X : Express} {XL : ExpressLaws X} `{P : Packages}.
Variable cfg : config.

Ltac take_route :=
  intros Hm Hp; unfold taken_by, inner; cbn [drop app];
  rewrite layers_route_no by first [left; by rewrite Hm|right; rewrite Hp; by apply route_other];
  repeat (rewrite layers_mount_no by (rewrite Hp; by apply mount_other));
  rewrite (layers_mount _ _ _ _ _ _ "/") by (rewrite Hp; apply mount_self); rewrite stack_nil;
  unfold Stats.router, Newsletter.router, Contact.router, Downloads.router;
  rewrite (layers_route _ _ _ _ _ _ []) by ((cbn; by rewrite Hm) || apply route_root);
  eexists; (split; [reflexivity|]); intros e rq' t a H; simpl in H; unfold error_handler in H; by symex H.

Lemma stats_taken rq :
  rq_method rq = "GET" → rq_path rq = "/api/stats" → taken_by cfg [Async (Stats.get_stats cfg)] rq.
Proof. take_route. Qed.

Lemma newsletter_taken rq :
  rq_method rq = "POST" → rq_path rq = "/api/newsletter" → taken_by cfg newsletter_stack rq.
Proof. take_route. Qed.

Lemma contact_taken rq :
  rq_method rq = "POST" → rq_path rq = "/api/contact" → taken_by cfg contact_stack rq.
Proof. take_route. Qed.

Lemma downloads_taken rq :
  rq_method rq = "GET" → rq_path rq = "/api/downloads" → taken_by cfg [Async Downloads.list_all] rq.
Proof. take_route. Qed.
End routes.
