(* ===== verification/Wire.v ===== *)
(** * Requests on the wire

    How a request arrives at the server and what the packages in front of the
    routes do with it: the headers, the rate limiter and the two body parsers.
    The body parsers are the ones the server configures: [express.json] reads
    bodies of the type application/json up to 10240 bytes, and
    [express.urlencoded] leaves every other type but its own alone. *)

From S2P Require Import Prelude JsValue Effects Foreign Http JsonParse Config App Concurrency.

(** ** Requests *)

(** A request as it arrives. *)
Definition wire_request (verb path : string) (content_type body : option string) : request :=
  Request verb path "127.0.0.1" None content_type body [] JUndef JUndef JUndef.

(** A request whose body, if it has one, is declared to be JSON. *)
Definition json_request (verb path : string) (body : option string) : request :=
  wire_request verb path (Some "application/json") body.

(** ** Bodies *)

(** The limit '10kb' in bytes. *)
Definition body_limit : Z := 10240.

Definition fits (text : string) : bool := (Z.of_nat (String.length text) <=? body_limit)%Z.

(** What the body parser makes of a JSON body: an object or an array within the
    limit; an empty body, or none, is an empty object. *)
Definition body_value (body : option string) : option jsval :=
  match body with
  | None | Some EmptyString => Some (JObj [])
  | Some text =>
      if fits text then
        match JSON_parse text with
        | Some (JObj o) => Some (JObj o)
        | Some (JArr l) => Some (JArr l)
        | _ => None
        end
      else None
  end.

(** [req.body] after [express.json], [None] if it reports an error. *)
Definition read_json (rq : request) : option jsval :=
  if bool_decide (rq_content_type rq = Some "application/json" ∧ is_Some (rq_raw rq))
  then body_value (rq_raw rq)
  else Some (js_or (rq_body rq) (JObj [])).

Lemma read_json_request verb path body : read_json (json_request verb path body) = body_value body.
Proof.
  unfold read_json. destruct body as [text|]; cbn [json_request wire_request rq_content_type rq_raw].
  - by rewrite bool_decide_eq_true_2 by eauto.
  - rewrite bool_decide_eq_false_2; [done|]. by intros [_ []].
Qed.

Lemma body_value_parsed text o :
  JSON_parse text = Some (JObj o) → body_value (Some text) = if fits text then Some (JObj o) else None.
Proof. intros Hp. destruct text; [discriminate Hp|]. unfold body_value. by rewrite Hp. Qed.

Lemma body_value_truthy body v : body_value body = Some v → truthy v = true.
Proof.
  destruct body as [[|a text]|]; simpl; try by intros [= <-].
  destruct (fits _); [|done]. destruct (JSON_parse _) as [[]|]; try done; by intros [= <-].
Qed.

(** ** What is relied on in the packages *)

(** helmet and cors set headers (cors answers the requests of the method
    OPTIONS); the limiter answers 429 with its message; [express.json] reads
    the body or reports that it is malformed or too long; [express.urlencoded]
    keeps the body of a request of another type. *)
Class WireLaws (P : Packages) := {
  helmet_wire o rq : decides (helmet o) rq (eq (Pass rq));
  cors_wire o rq : rq_method rq ≠ "OPTIONS" → decides (cors o) rq (eq (Pass rq));
  limit_wire o rq :
    decides (rate_limit o) rq (λ v, v = Pass rq ∨ v = Refuse 429 (opt_prop o "message"));
  json_wire rq :
    decides (body_json (JObj [("limit", JStr "10kb")])) rq (λ v,
      match read_json rq with
      | Some b => v = Pass (set_body b rq)
      | None => ∃ e, v = Fault e
      end);
  form_wire rq :
    rq_content_type rq ≠ Some "application/x-www-form-urlencoded" →
    decides (body_urlencoded (JObj [("extended", JBool true); ("limit", JStr "10kb")])) rq
      (eq (Pass (set_body (js_or (rq_body rq) (JObj [])) rq)));
}.

(** ** Consequences *)

Lemma decides_exec f rq ok next t r :
  decides f rq ok → exec (f rq next) t r → r = Ok tt ∧
  ∃ t0 t1 v, t = t0 ++ t1 ∧ Forall foreign_event t0 ∧ ok v ∧ exec (conclude rq next v) t1 (Ok tt).
Proof.
  intros (consult & Hc & Hf) H. rewrite Hf in H. apply exec_pbind in H as (v & t0 & t1 & -> & [H0 Hv]%Hc & H1).
  assert (r = Ok tt) as ->.
  { destruct v; [apply exec_lift in H1 as ([] & -> & _)|symex H1|apply exec_lift in H1 as ([] & -> & _)]; done. }
  split; [done|]. by exists t0, t1, v.
Qed.

(** The same for a request of the JSON type: once its body is read, the second
    parser leaves it alone. *)
Lemma form_after_json {P : Packages} {WL : WireLaws P} verb path body v :
  body_value body = Some v → let rq := set_body v (json_request verb path body) in
  decides (body_urlencoded form_options) rq (eq (Pass rq)).
Proof.
  intros Hv rq. pose proof (form_wire rq ltac:(done)) as H.
  change (rq_body rq) with v in H. unfold js_or in H. by rewrite (body_value_truthy _ _ Hv) in H.
Qed.

Section through.
Context {E : Env}.
Implicit Types s : sys E.

(** In the state [s] the middleware comes to the verdict [v], having consulted
    its own state. *)
Definition comes_to (f : mw) (rq : request) (v : verdict) s s1 : Prop :=
  ∃ t0, Forall foreign_event t0 ∧ replays s t0 s1 ∧
  ∀ next, run (f rq next) s =
    ((run (conclude rq next v) s1).1.1, t0 ++ (run (conclude rq next v) s1).1.2, (run (conclude rq next v) s1).2).

Lemma decides_comes_to f rq ok s : decides f rq ok → ∃ v s1, ok v ∧ comes_to f rq v s s1.
Proof.
  intros (consult & Hc & Hf). destruct (run consult s) as [[v t0] s1] eqn:Hrun.
  pose proof (run_is_exec consult s) as Hx. pose proof (run_replays consult s) as Hr.
  rewrite Hrun in Hx, Hr. destruct (Hc _ _ Hx) as [H0 Hv]. exists v, s1. split; [done|].
  exists t0. split_and!; [done|done|]. intros next. rewrite Hf, run_pbind, Hrun.
  by destruct (run (conclude rq next v) s1) as [[]].
Qed.

(** The middleware passes the request on, as [rq']. *)
Definition lets_through (f : mw) (rq rq' : request) s s1 : Prop :=
  ∃ t0, Forall foreign_event t0 ∧ replays s t0 s1 ∧
  ∀ next, run (f rq next) s =
    (Ok tt, t0 ++ (run (next None rq') s1).1.2, (run (next None rq') s1).2).

Lemma comes_to_pass f rq rq' s s1 : comes_to f rq (Pass rq') s s1 → lets_through f rq rq' s s1.
Proof.
  intros (t0 & H0 & Hr & Hf). exists t0. split_and!; [done..|]. intros next. rewrite Hf. simpl. unfold lift.
  rewrite run_pbind. destruct (run (next None rq') s1) as [[[] t] s']. cbn. by rewrite app_nil_r.
Qed.

Lemma decides_through f rq rq' s : decides f rq (eq (Pass rq')) → ∃ s1, lets_through f rq rq' s s1.
Proof. intros (v & s1 & <- & H)%(decides_comes_to _ _ _ s). exists s1. by apply comes_to_pass. Qed.
End through.

(** ** The packages with a body parser, for concrete runs *)

Definition json_verdict (rq : request) : verdict :=
  match read_json rq with
  | Some v => Pass (set_body v rq)
  | None => Fault (EForeign "SyntaxError")
  end.

Definition read_body : mw := λ rq next, conclude rq next (json_verdict rq).

Definition keep_body : mw := λ rq next,
  lift (next None (set_body (js_or (rq_body rq) (JObj [])) rq)).

Definition wire_packages : Packages :=
  {| helmet _ := pass_through; cors _ := pass_through; rate_limit := ref_limiter;
     body_json _ := read_body; body_urlencoded _ := keep_body |}.

(** A middleware that consults nothing. *)
Lemma decides_at_once f rq v (ok : verdict → Prop) :
  (∀ next, f rq next = conclude rq next v) → ok v → decides f rq ok.
Proof.
  intros Hf Hv. exists (Ret v). split; [|exact Hf]. intros t v' [-> ->]. by split.
Qed.

#[export] Instance wire_packages_wire : WireLaws wire_packages.
Proof.
  split.
  - intros o rq. by apply (decides_at_once _ _ (Pass rq)).
  - intros o rq _. by apply (decides_at_once _ _ (Pass rq)).
  - intros o rq. exists (ask_limiter o rq). split; [|done].
    intros t v (x & t' & -> & [-> ->]). split; [by repeat constructor|].
    destruct x as [[| |[]| | | | |]|]; auto.
  - intros rq. apply (decides_at_once _ _ (json_verdict rq)); [done|].
    unfold json_verdict. destruct (read_json rq); eauto.
  - intros rq _. by apply (decides_at_once _ _ (Pass (set_body (js_or (rq_body rq) (JObj [])) rq))).
Qed.

Lemma conclude_well_behaved f v :
  (∀ rq next, f rq next = conclude rq next (v rq)) →
  (∀ rq rq', v rq = Pass rq' → rq_authorization rq' = rq_authorization rq) → well_behaved f.
Proof.
  intros Hf Hv rq next t r H. rewrite Hf in H. destruct (v rq) as [rq'|st b|e] eqn:Hvr.
  - apply exec_lift in H as ([] & -> & H). split; [done|]. right. exists None, rq', [], t. split_and!; try done. by apply Hv.
  - symex H. split; [done|]. left. by exists [], st, b.
  - apply exec_lift in H as ([] & -> & H). split; [done|]. right. by exists (Some e), rq, [], t.
Qed.

#[export] Instance wire_packages_laws : PackagesLaws wire_packages.
Proof.
  split; intros o; [apply pass_through_well_behaved|apply pass_through_well_behaved|
    apply ref_limiter_well_behaved| |].
  - apply (conclude_well_behaved _ json_verdict); [done|]. intros rq rq'. unfold json_verdict.
    destruct (read_json rq); [|done]. by intros [= <-].
  - apply (conclude_well_behaved _ (λ rq, Pass (set_body (js_or (rq_body rq) (JObj [])) rq))); [done|].
    by intros rq rq' [= <-].
Qed.
