(* ===== verification/EndToEnd.v ===== *)
(** * From the site to the server and back

    The site and the server composed.  The environment of the site's client is
    the server itself: a request of the browser is handled by the application,
    its body read with [JSON.parse] and the response written with
    [JSON.stringify] and read back.  The network delivers requests and
    responses, and the rate limits are not reached; everything else is the
    code of both sides. *)

From S2P Require Import Prelude JsValue Effects Foreign Http Config Validate AuthMw AuthRoutes ContentRoutes RpcRoutes JsonPrint JsonParse JsonNumber JsonRoundTrip App AppSafety Concurrency AuthFlow Validation Content Node Reference Jsx Api StatsPanel NewsletterForm Routes Wire.

(** ** The wire *)

(** The response the browser sees. *)
Definition wire_response (resp : Z * jsval) : http_response :=
  HttpResponse ((200 <=? resp.1)%Z && (resp.1 <? 300)%Z)
    match stringify resp.2 ≫= JSON_parse with
    | Some v => Ok v
    | None => Throw (EForeign "SyntaxError")
    end.

(** An answer for what the browser does not do. *)
Definition unused (o : op) : reply o :=
  match o with
  | DbFindUnique _ _ _ | DbFindMany _ _ | DbCreate _ _ | DbDelete _ _
  | BcryptHash _ _ | BcryptCompare _ _ | JwtSign _ _ _ | JwtVerify _ _
  | ZodParse _ _ | RespJson _ | ForeignCall _ _ => Throw (EForeign "unused")
  | Fetch _ _ => Throw (EForeign "unused")
  | DateNow => 0%Z
  | CacheGet => None
  | ConsoleError _ _ | UnhandledRejection _ | CacheSet _ | Respond _ _ => tt
  end.

Definition server_origin : string := "http://localhost:3001".

Section wire.
Context {X : Express} {P : Packages} {E : Env}.
Variable cfg : config.

(** One request, handled by the application. *)
Definition exchange (url : string) (init : fetch_init) (s : sys E) : result http_response * sys E :=
  match strip server_origin url with
  | None => (Throw (EForeign "connection refused"), s)
  | Some path =>
      let '(_, t, s') := run (run_layers (app cfg) (wire_request (fi_method init) path
        (assoc "Content-Type" (fi_headers init)) (fi_body init)) no_next) s in
      match responses t with
      | [resp] => (Ok (wire_response resp), s')
      | _ => (Throw (EForeign "socket hang up"), s')
      end
  end.

(** The environment of the browser: its world is the server. *)
Instance browser : Env := {
  world := sys E;
  handle o s :=
    match o as o return reply o * sys E with
    | Fetch url init => exchange url init s
    | RespJson r => (resp_body r, s)
    | o => (unused o, s)
    end;
}.

(** The request passes the packages in front of the body parsers: no limit is
    reached. *)
Definition admitted (verb path : string) (body : option string) (s s' : sys E) : Prop :=
  let rq := json_request verb path body in
  ∃ s1 s2,
    lets_through (helmet helmet_options) rq rq s s1 ∧
    lets_through (cors (cors_options cfg)) rq rq s1 s2 ∧
    lets_through (limiter cfg) rq rq s2 s'.

(** The packages let a request in: no limit is reached, and the body parsers
    set [req.body] to the value of the body. *)
Definition let_in (verb path : string) (body : option string) (s s' : sys E) : Prop :=
  let rq := json_request verb path body in
  ∃ v s3 s4, body_value body = Some v ∧ admitted verb path body s s3 ∧
    lets_through (body_json json_options) rq (set_body v rq) s3 s4 ∧
    lets_through (body_urlencoded form_options) (set_body v rq) (set_body v rq) s4 s'.
End wire.

(** ** The route of a request *)

Section route.
Context {X : Express} {XL : ExpressLaws X} {P : Packages} {E : Env} {PL : PrismaLaws E}.
Implicit Types s : sys E.

Lemma answers_through f ls rq rq' out s s1 resp s' :
  lets_through f rq rq' s s1 →
  answers (run_layers ls rq' out) s1 resp s' →
  answers (run_layers (Use [Sync f] :: ls) rq out) s resp s'.
Proof.
  intros (t0 & Ht0 & _ & Hf) (a & t & Hr & Ht). eexists _, (t0 ++ t). split.
  - rewrite layers_use, stack_sync, run_pbind, Hf, stack_nil, Hr. cbn. by rewrite app_nil_r.
  - by rewrite responses_app, (responses_foreign t0).
Qed.

Lemma answers_fault f ls rq e out s s1 resp s' :
  comes_to f rq (Fault e) s s1 →
  answers (to_error_handler ls e rq out) s1 resp s' →
  answers (run_layers (Use [Sync f] :: ls) rq out) s resp s'.
Proof.
  intros (t0 & Ht0 & _ & Hf) (a & t & Hr & Ht). eexists _, (t0 ++ t). split.
  - rewrite layers_use, stack_sync, run_pbind, Hf. cbn [conclude]. unfold lift. rewrite run_pbind, Hr.
    cbn. by rewrite !app_nil_r.
  - by rewrite responses_app, (responses_foreign t0).
Qed.

Lemma foreign_rows t0 s s1 m : Forall foreign_event t0 → replays s t0 s1 → rows s1 m = rows s m.
Proof.
  intros Ht0 Hr.
  apply (replays_invariant foreign_event (λ s', rows s' m = rows s m) t0 s s1); [|done..].
  intros o s2 Ho <-. destruct o; try done. unfold rows.
  destruct (perform_ext (ForeignCall who arg) s2) as [->|[-> _]]; [done|]. by apply tbl_frame.
Qed.

Lemma lets_through_rows f rq rq' s s1 m : lets_through f rq rq' s s1 → rows s1 m = rows s m.
Proof.
  intros (t0 & Ht0 & Hr & _). by eapply foreign_rows.
Qed.

Lemma lets_through_up {PU : PrismaUp E PL} f rq rq' s s1 :
  lets_through f rq rq' s s1 → up E (ext s) → up E (ext s1).
Proof. intros (t0 & _ & Hr%replays_reaches & _). by apply up_reaches. Qed.

Lemma admitted_up {PU : PrismaUp E PL} cfg verb path body s s0 :
  admitted cfg verb path body s s0 → up E (ext s) → up E (ext s0).
Proof. intros (s1 & s2 & ? & ? & ?) Hu. by repeat (eapply lets_through_up; [eassumption|]). Qed.

Lemma admitted_rows cfg verb path body s s0 m : admitted cfg verb path body s s0 → rows s0 m = rows s m.
Proof. intros (s1 & s2 & ? & ? & ?). by repeat (erewrite lets_through_rows by eassumption). Qed.

Lemma admitted_answers cfg verb path body s s0 resp s' :
  admitted cfg verb path body s s0 →
  answers (run_layers (drop 3 (app cfg)) (json_request verb path body) no_next) s0 resp s' →
  answers (run_layers (app cfg) (json_request verb path body) no_next) s resp s'.
Proof.
  intros (s1 & s2 & ? & ? & ?) Ha. unfold app. do 3 (eapply answers_through; [eassumption|]). exact Ha.
Qed.

(** With a body that is read, the body parsers let the request in. *)
Lemma admitted_let_in {WL : WireLaws P} cfg verb path body s s3 v :
  admitted cfg verb path body s s3 → body_value body = Some v → ∃ s0, let_in cfg verb path body s s0.
Proof.
  intros Ha Hv. pose proof (json_wire (json_request verb path body)) as Hj. rewrite read_json_request, Hv in Hj.
  destruct (decides_comes_to _ _ _ s3 Hj) as (? & s4 & -> & H4%comes_to_pass).
  destruct (decides_through _ _ _ s4 (form_after_json verb path body v Hv)) as [s0 H0].
  by exists s0, v, s3, s4.
Qed.

(** With a body that is not, the error handler answers. *)
Lemma admitted_unreadable {WL : WireLaws P} cfg verb path body s s3 :
  admitted cfg verb path body s s3 → body_value body = None →
  ∃ s', answers (run_layers (app cfg) (json_request verb path body) no_next) s
    (500%Z, error_json "Internal server error") s' ∧ ∀ m, rows s' m = rows s m.
Proof.
  intros Ha Hv. set (rq := json_request verb path body).
  pose proof (json_wire rq) as Hj. unfold rq in Hj. rewrite read_json_request, Hv in Hj. fold rq in Hj.
  destruct (decides_comes_to _ _ _ s3 Hj) as (? & s4 & [e ->] & Hc).
  destruct (run_total (to_error_handler (drop 4 (app cfg)) e rq no_next) s4) as (x & t & s' & Hrun & Hx & Hrep).
  exists s'. cbn in Hx. unfold error_handler in Hx. symex Hx. split.
  - eapply admitted_answers; [exact Ha|]. cbn [drop app]. eapply answers_fault; [exact Hc|].
    eexists _, _. split; [exact Hrun|reflexivity].
  - intros m. rewrite <- (admitted_rows _ _ _ _ _ _ m Ha). destruct Hc as (t0 & H0 & Hr & _).
    rewrite <- (foreign_rows t0 s3 s4 m H0 Hr). replay Hrep. unfold rows. simpl. by frame_tables.
Qed.

Lemma let_in_up {PU : PrismaUp E PL} cfg verb path body s s0 :
  let_in cfg verb path body s s0 → up E (ext s) → up E (ext s0).
Proof.
  intros (v & s3 & s4 & _ & Ha & ? & ?) Hu. apply (admitted_up _ _ _ _ _ _ Ha) in Hu.
  by repeat (eapply lets_through_up; [eassumption|]).
Qed.

Lemma let_in_rows cfg verb path body s s0 m : let_in cfg verb path body s s0 → rows s0 m = rows s m.
Proof.
  intros (v & s3 & s4 & _ & Ha & ? & ?). rewrite <- (admitted_rows _ _ _ _ _ _ m Ha).
  by repeat (erewrite lets_through_rows by eassumption).
Qed.

(** A request that is let in reaches the routes. *)
Lemma let_in_routed cfg verb path body s s0 v resp s' :
  let_in cfg verb path body s s0 → body_value body = Some v →
  answers (run_layers (inner cfg) (set_body v (json_request verb path body)) no_next) s0 resp s' →
  answers (run_layers (app cfg) (json_request verb path body) no_next) s resp s'.
Proof.
  intros (v' & s3 & s4 & Hv' & Hadm & H4 & H5) Hv Ha. rewrite Hv in Hv'. injection Hv' as <-.
  eapply admitted_answers; [exact Hadm|]. cbn [drop app].
  do 2 (eapply answers_through; [eassumption|]). exact Ha.
Qed.

(** A request that is let in and taken by a route. *)
Lemma let_in_taken cfg verb path body s s0 v fs resp s' :
  let rq := set_body v (json_request verb path body) in
  let_in cfg verb path body s s0 → body_value body = Some v → taken_by cfg fs rq →
  (∀ out, answers (run_stack fs (set_params [] (with_path "/" rq)) out) s0 resp s') →
  answers (run_layers (app cfg) (json_request verb path body) no_next) s resp s'.
Proof.
  intros rq Hin Hv (out & Hr & _) Ha. eapply let_in_routed; [exact Hin|exact Hv|]. fold rq. by rewrite Hr.
Qed.

(** ** Responses *)

(** The browser reads the image of what the server wrote. *)
Lemma wire_image st v v' :
  serializable v → json_image v = Some v' →
  wire_response (st, v) = HttpResponse ((200 <=? st)%Z && (st <? 300)%Z) (Ok v').
Proof.
  intros Hs (txt & Ht & Hp)%JSON_parse_image; [|done]. unfold wire_response. cbn [fst snd].
  rewrite Ht. cbn [mbind option_bind]. by rewrite Hp.
Qed.

(** What the client makes of a response; an error is an object. *)
Definition api_of (st : Z) (v : jsval) : jsval :=
  if (200 <=? st)%Z && (st <? 300)%Z then JObj [("data", v)]
  else JObj [("error", js_or (opt_prop v "error") (JStr "Request failed"))].

Definition legible (resp : Z * jsval) (v : jsval) : Prop :=
  serializable resp.2 ∧ json_image resp.2 = Some v ∧
  ((200 <=? resp.1)%Z && (resp.1 <? 300)%Z = false → ∃ o, v = JObj o).

Lemma plain_legible st o : plain (JObj o) → legible (st, JObj o) (JObj o).
Proof. intros Hp. split_and!; [by apply plain_serializable|by apply plain_image|by exists o]. Qed.

(** A call of the client, given how the server answers it. *)
Lemma client_exchange cfg endpoint path options s resp v s' :
  strip server_origin (API_BASE +:+ endpoint) = Some path →
  default [] (ri_headers <$> options) = [] →
  answers (run_layers (app cfg) (json_request (default "GET" (options ≫= ri_method)) path
    (options ≫= ri_body)) no_next) s resp s' → legible resp v →
  let r := run (fetchApi endpoint options) (@Sys (browser cfg) None s) in
  r.1.1 = Ok (api_of resp.1 v) ∧ ext r.2 = s'.
Proof.
  intros Hpath Hh (a & t & Hr & Ht) (Hs & Hi & Ho) r. destruct resp as [st body]. cbn [fst snd] in *.
  assert (Hx : @handle (browser cfg) (fetch_op endpoint options) s = (Ok (wire_response (st, body)), s')).
  { unfold fetch_op. cbn [handle browser]. unfold exchange. rewrite Hpath.
    cbn [fi_method fi_body fi_headers]. rewrite Hh. unfold json_request in Hr.
    change (assoc "Content-Type" (with_headers [])) with (Some "application/json"). by rewrite Hr, Ht. }
  destruct (@fetchApi_run (browser cfg) endpoint options (@Sys (browser cfg) None s)) as [H1 H2].
  unfold answer, after in H1, H2. cbn [ext] in H1, H2.
  rewrite Hx, (wire_image st body v Hs Hi) in H1, H2. split; [|exact H2].
  etrans; [exact H1|]. unfold api_of. cbn. destruct (_ && _); [done|]. by destruct Ho as [o ->].
Qed.

(** ** Requests with a body *)

(** The request as its route sees it. *)
Definition posted (path : string) (body : jsval) (text : string) : request :=
  set_params [] (with_path "/" (set_body body (json_request "POST" path (Some text)))).

(** The packages let the request in. *)
Definition post_let_in cfg (path : string) (body : jsval) s s0 : Prop :=
  ∀ text, stringify body = Some text → let_in cfg "POST" path (Some text) s s0.

(** A body sent by the client: its route answers, and the client resolves. *)
Lemma post_exchange cfg endpoint path body fs text s s0 resp v s' :
  strip server_origin (API_BASE +:+ endpoint) = Some path →
  stringify (JObj body) = Some text → JSON_parse text = Some (JObj body) →
  let_in cfg "POST" path (Some text) s s0 →
  (∀ rq, rq_method rq = "POST" → rq_path rq = path → taken_by cfg fs rq) →
  (∀ out, answers (run_stack fs (posted path (JObj body) text) out) s0 resp s') → legible resp v →
  let r := run (fetchApi endpoint (Some (post (JObj body)))) (@Sys (browser cfg) None s) in
  r.1.1 = Ok (api_of resp.1 v) ∧ ext r.2 = s'.
Proof.
  intros Hpath Htxt Hparse Hin Ht Ha Hl. apply (client_exchange cfg endpoint path); [done|done| |done].
  unfold post. cbn [mbind option_bind ri_method ri_body default]. rewrite Htxt.
  eapply let_in_taken; [exact Hin| |by apply Ht|exact Ha]. destruct Hin as (v' & _ & _ & Hv & _).
  rewrite (body_value_parsed _ _ Hparse) in Hv |- *. by destruct (fits text).
Qed.
End route.

(** ** Theorem *)

Section newsletter.
Context {X : Express} {XL : ExpressLaws X} {P : Packages}.
Context {E : Env} {PL : PrismaLaws E} {ZL : ZodLaws E}.
Implicit Types s : sys E.
Variable cfg : config.

(** The body the client sends. *)
Definition subscription (email : string) : jsval := JObj [("email", JStr email)].

Lemma subscription_plain email : plain (subscription email).
Proof. by repeat split. Qed.

Lemma message_plain msg : plain (message_json msg).
Proof. by repeat split. Qed.

Lemma failure_plain msg issues :
  plain (JObj [("error", JStr msg); ("details", JArr (issue_json <$> issues))]).
Proof. split; [by repeat split|]. split; [done|]. split; [|done]. simpl. induction issues; by repeat split. Qed.

Lemma subscribe_accepted email :
  accepts email_ok url_ok newsletter_schema (subscription email) = email_ok email.
Proof. simpl. by rewrite !andb_true_r. Qed.

(** The server's answer to a subscription with a valid address. *)
Lemma subscribe_served {PU : PrismaUp E PL} email text s :
  up E (ext s) → email_ok email = true →
  ∃ resp s', (∀ out, answers (run_stack newsletter_stack (posted "/api/newsletter" (subscription email) text) out) s resp s') ∧
    resp.1 ≠ 500%Z ∧ subscribe_post email s s' resp.
Proof.
  intros Hup Hem. set (rq := posted "/api/newsletter" (subscription email) text).
  set (s0 := Sys (cache s) (after E (ZodParse newsletter_schema (rq_body rq)) (ext s))).
  destruct (run (Newsletter.subscribe rq) s0) as [[x t] s'] eqn:Hrun.
  pose proof (run_is_exec (Newsletter.subscribe rq) s0) as Hx. rewrite Hrun in Hx.
  destruct (subscribe_sound cfg rq t x Hx) as (-> & _ & _).
  destruct (subscribe_post_holds rq email s0 (Ok ()) t s' eq_refl Hrun) as (resp & Hresp & Hpost).
  assert (Hrows : ∀ m, rows s0 m = rows s m) by (intros m; by apply tbl_frame).
  exists resp, s'. split_and!.
  - intros out. eexists _, _. split; [apply (validate_accepts_run newsletter_schema Newsletter.subscribe rq s out () t s')|exact Hresp];
      [by etrans; [apply subscribe_accepted|]|exact Hrun].
  - eapply (subscribe_not_failed rq email s0); [|done..]. by apply up_after.
  - destruct Hpost as [r Hin He Hs|r Hn Hr He Hs|Hs]; rewrite ?Hrows in *.
    + eapply subscribe_known; [done..|]. intros m. by rewrite Hs.
    + eapply subscribe_new; [done..|]. intros m Hm. by rewrite Hs, Hrows.
    + apply subscribe_failed. intros m. by rewrite Hs.
Qed.
End newsletter.

(** C4: a subscription on the site, from the form to the database and back.  A
    valid address that is not subscribed is stored and the form reports
    "Subscribed successfully"; one that is subscribed changes nothing and is
    reported as "Already subscribed"; any other address changes nothing and
    the form reports "Validation failed". *)
Theorem subscribe_end_to_end {X : Express} {XL : ExpressLaws X} {P : Packages} {E : Env}
    {PL : PrismaLaws E} {ZL : ZodLaws E} {PU : PrismaUp E PL} cfg email (s s0 : sys E) f :
  post_let_in cfg "/api/newsletter" (subscription email) s s0 → up E (ext s) →
  let r := run (subscribeNewsletter email) (@Sys (browser cfg) None s) in
  let s' := ext r.2 in
  ∃ response, r.1.1 = Ok response ∧
  if email_ok email then
    (∃ row, rows s' MNewsletter = rows s MNewsletter ++ [row] ∧ has_email email row ∧
       Forall (λ row, ¬ has_email email row) (rows s MNewsletter) ∧
       (∀ m, m ≠ MNewsletter → rows s' m = rows s m) ∧
       submit_done response f = Form "" Success (JStr "Subscribed successfully")) ∨
    (∃ row, row ∈ rows s MNewsletter ∧ has_email email row ∧ (∀ m, rows s' m = rows s m) ∧
       submit_done response f = Form "" Success (JStr "Already subscribed"))
  else
    (∀ m, rows s' m = rows s m) ∧
    submit_done response f = Form (f_email f) Failed (JStr "Validation failed").
Proof.
  intros Hin Hup r s'.
  destruct (JSON_parse_stringify _ (subscription_plain email)) as (text & Htxt & Hparse).
  pose proof (λ m, let_in_rows cfg _ _ _ _ _ m (Hin _ Htxt)) as Hrows.
  pose proof (λ resp v s1, post_exchange cfg "/newsletter" "/api/newsletter" [("email", JStr email)] newsletter_stack
    text s s0 resp v s1 eq_refl Htxt Hparse (Hin _ Htxt) (newsletter_taken cfg)) as Hroute.
  pose proof (let_in_up cfg _ _ _ _ _ (Hin _ Htxt) Hup) as Hup0. destruct (email_ok email) eqn:Hem.
  - destruct (subscribe_served cfg email text s0 Hup0 Hem) as (resp & s1 & Ha & Hok & Hpost).
    destruct Hpost as [row Hrow He Hs|row Hn Hr He Hs|Hs]; [| |done];
      destruct (Hroute _ _ _ Ha (plain_legible _ _ (message_plain _))) as [H1 H2];
      (eexists; split; [exact H1|]); assert (s' = s1) as -> by exact H2; rewrite ?Hrows in *; [right|left];
      exists row; split_and!; try done; intros m; [|intros Hm]; by rewrite Hs.
  - destruct (validate_rejects_run newsletter_schema Newsletter.subscribe
      (posted "/api/newsletter" (subscription email) text) s0) as (i & l & s1 & Ha & Hs);
      [by etrans; [apply subscribe_accepted|]|].
    destruct (Hroute _ _ _ Ha (plain_legible _ _ (failure_plain _ (i :: l)))) as [H1 H2].
    eexists. split; [exact H1|]. assert (s' = s1) as -> by exact H2. split; [|done].
    intros m. by rewrite Hs, Hrows.
Qed.

(** ** The statistics panel *)

Section statistics.
Context {X : Express} {XL : ExpressLaws X} {P : Packages} {E : Env} {CL : ClockLaws E}.
Variable cfg : config.

Lemma stats_routed (s s0 : sys E) resp s' :
  let_in cfg "GET" "/api/stats" None s s0 →
  (∀ rq, answers (Stats.get_stats cfg rq) s0 resp s') →
  answers (run_layers (app cfg) (json_request "GET" "/api/stats" None) no_next) s resp s'.
Proof.
  intros Hin Hr. eapply let_in_taken; [exact Hin|reflexivity|by apply stats_taken|].
  intros out. rewrite stack_async. set (rq := set_params _ _). destruct (Hr rq) as (a & t & Hrun & Ht).
  pose proof (run_is_exec (Stats.get_stats cfg rq) s0) as Hx. rewrite Hrun in Hx. cbn [fst snd] in Hx.
  apply get_stats_exec in Hx as [-> _]. eexists _, _. rewrite run_pbind, Hrun. split; [reflexivity|].
  cbn. by rewrite app_nil_r.
Qed.

Lemma stats_plain bi mi cc d :
  Forall plain [js_or (opt_prop bi "blocks") Stats.zero; js_or (opt_prop bi "difficulty") Stats.zero;
    js_or (opt_prop bi "chain") (JStr "unknown"); js_or (opt_prop mi "networkhashps") Stats.zero;
    js_or cc Stats.zero] → plain (JObj (Stats.make_stats bi mi cc d)).
Proof. rewrite !Forall_cons. intros (? & ? & ? & ? & ? & _). split; [by repeat split|by split_and!]. Qed.
End statistics.

(** C5: the statistics, from the node to the panel.  When the node answers with
    numbers and no fresh entry is cached, a poll of the site makes the panel
    show the node's block height, hash rate, difficulty and connections, and
    the server caches what it sent. *)
Theorem stats_end_to_end {X : Express} {XL : ExpressLaws X} {P : Packages} {E : Env} {CL : ClockLaws E}
    cfg (s s0 : sys E) bi mi cc h dif chain hps c H p :
  let_in cfg "GET" "/api/stats" None s s0 → cache_miss s0 →
  node_result E cfg "getblockchaininfo" bi → node_result E cfg "getmininginfo" mi →
  node_result E cfg "getconnectioncount" cc →
  js_or (opt_prop bi "blocks") Stats.zero = JNum h →
  js_or (opt_prop bi "difficulty") Stats.zero = JNum dif →
  js_or (opt_prop bi "chain") (JStr "unknown") = JStr chain →
  js_or (opt_prop mi "networkhashps") Stats.zero = JNum hps →
  js_or cc Stats.zero = JNum c →
  Forall (λ x, printable x = true) [h; dif; hps; c] →
  let r := run getStats (@Sys (browser cfg) None s) in
  ∃ response d n, r.1.1 = Ok response ∧
    cache (ext r.2) = Some (StatsCache (Stats.make_stats bi mi cc d) n) ∧
    items H (stats (fetch_done (opt_prop response "data") p)) =
    Ok [("Block Height", js_or (JStr (locale_number H h)) (JStr "0"));
        ("Network Hashrate", JStr (num_to_string (math_round (SFdiv 53 1024 hps million)) +:+ " MH/s"));
        ("Difficulty", JStr (toFixed2 dif));
        ("Connections", JStr (num_to_string c))].
Proof.
  intros Hin Hmiss Hbi Hmi Hcc Hh Hdif Hch Hhps Hc Hpr r.
  destruct (run (Stats.get_stats cfg stats_request) s0) as [[x t] s'] eqn:Hrun.
  pose proof (run_is_exec (Stats.get_stats cfg stats_request) s0) as Hx.
  pose proof (run_replays (Stats.get_stats cfg stats_request) s0) as Hr. rewrite Hrun in Hx, Hr.
  destruct (stats_on_miss cfg bi mi cc stats_request t x s0 s') as (d & n & Ht & Hcache);
    [intros t0 r0; by apply call_result..|done|done|done|].
  assert (Hp : plain (JObj (Stats.make_stats bi mi cc d))).
  { apply stats_plain. rewrite Hh, Hdif, Hch, Hhps, Hc. rewrite !Forall_cons in Hpr. destruct Hpr as (? & ? & ? & ? & _).
    by repeat constructor. }
  destruct (client_exchange cfg "/stats" "/api/stats" None s (200%Z, JObj (Stats.make_stats bi mi cc d))
    (JObj (Stats.make_stats bi mi cc d)) s' eq_refl eq_refl) as [H1 H2]; [|by apply plain_legible|].
  { apply (stats_routed cfg s s0); [done|]. intros rq. by exists x, t. }
  eexists _, d, n. split; [exact H1|]. unfold r, getStats. rewrite H2. split; [done|].
  etrans; [by apply (items_of_stats H bi mi cc d h hps c)|]. by rewrite Hdif.
Qed.

(** ** A concrete site and server *)

Lemma at_once_through {E : Env} f rq rq' (s : sys E) :
  (∀ next, f rq next = conclude rq next (Pass rq')) → lets_through f rq rq' s s.
Proof.
  intros Hf. apply comes_to_pass. exists []. split_and!; [done..|]. intros next. rewrite Hf.
  by destruct (run (conclude rq next (Pass rq')) s) as [[]].
Qed.

Lemma limiter_through {E : Env} o rq (s : sys E) :
  let call := ForeignCall "rate-limit" (JStr (rq_ip rq)) in
  answer E call (ext s) = Ok (JBool true) →
  lets_through (ref_limiter o) rq rq s (Sys (cache s) (after E call (ext s))).
Proof.
  intros call Hc. apply comes_to_pass. exists [Ev call (Ok (JBool true))]. split_and!.
  - by repeat constructor.
  - rewrite replays_cons, replays_nil by done. by rewrite Hc.
  - intros next. unfold ref_limiter, ask_limiter. rewrite run_pbind, run_vis by done. fold call. rewrite Hc.
    cbn. by destruct (run (lift (next None rq)) _) as [[]].
Qed.

(** With a limiter that is not reached every request with a readable body is
    let in. *)
Lemma wire_admitted {E : Env} cfg verb path body (s : sys E) :
  let call := ForeignCall "rate-limit" (JStr "127.0.0.1") in
  answer E call (ext s) = Ok (JBool true) →
  admitted (P:=wire_packages) cfg verb path body s (Sys (cache s) (after E call (ext s))).
Proof.
  intros call Hc. exists s, s. split_and!; [by apply at_once_through..|by apply limiter_through].
Qed.

Lemma wire_let_in {E : Env} cfg verb path body (s : sys E) v :
  let call := ForeignCall "rate-limit" (JStr "127.0.0.1") in
  answer E call (ext s) = Ok (JBool true) → body_value body = Some v →
  let_in (P:=wire_packages) cfg verb path body s (Sys (cache s) (after E call (ext s))).
Proof.
  intros call Hc Hv. eexists v, _, _. split_and!; [done|by apply wire_admitted| |].
  - apply at_once_through. intros next. cbn [body_json wire_packages]. unfold read_body, json_verdict.
    by rewrite read_json_request, Hv.
  - apply at_once_through. intros next. cbn [body_urlencoded wire_packages]. unfold keep_body.
    change (rq_body _) with v. unfold js_or. by rewrite (body_value_truthy _ _ Hv).
Qed.

Lemma subscribe_end_to_end_witness :
  let r := run (subscribeNewsletter "ann@example.org")
    (@Sys (browser (P:=wire_packages) default_config) None ref_sys) in
  ∃ response row, r.1.1 = Ok response ∧ rows (ext r.2) MNewsletter = [row] ∧
    has_email "ann@example.org" row ∧
    submit_done response (Form "" Idle (JStr "")) = Form "" Success (JStr "Subscribed successfully").
Proof.
  intros r. destruct (subscribe_end_to_end (P:=wire_packages) default_config "ann@example.org" ref_sys ref_sys
    (Form "" Idle (JStr ""))) as (response & H1 & [H|H]).
  - intros text Htxt. destruct (JSON_parse_stringify _ (subscription_plain "ann@example.org")) as (txt & H1 & H2).
    rewrite Htxt in H1. injection H1 as <-.
    apply (wire_let_in default_config "POST" "/api/newsletter" (Some text) ref_sys (subscription "ann@example.org") eq_refl).
    vm_compute in Htxt. injection Htxt as <-. vm_compute. reflexivity.
  - exact I.
  - destruct H as (row & H2 & H3 & _ & _ & H4). exists response, row.
    exact (conj H1 (conj H2 (conj H3 H4))).
  - destruct H as (row & []%elem_of_nil & _).
Defined.

Lemma stats_end_to_end_witness :
  let s := @Sys (node_env up_reply) None ref_world in
  let r := run getStats (@Sys (browser (P:=wire_packages) default_config) None s) in
  let H := Host num_to_string (λ _, "") "," (λ _, "") in
  ∃ response, r.1.1 = Ok response ∧
    items H (stats (fetch_done (opt_prop response "data") panel_initial)) =
    Ok [("Block Height", JStr "840000"); ("Network Hashrate", JStr "0 MH/s");
        ("Difficulty", JStr "0.00"); ("Connections", JStr "8")].
Proof.
  intros s r H. set (bi := JObj [("blocks", JNum (num_of_Z 840000)); ("chain", JStr "main")]).
  destruct (stats_end_to_end (P:=wire_packages) default_config s s bi bi (JNum (num_of_Z 8))
    (num_of_Z 840000) (num_of_Z 0) "main" (num_of_Z 0) (num_of_Z 8) H panel_initial)
    as (response & d & n & H1 & _ & H2).
  - exact (wire_let_in default_config "GET" "/api/stats" None s _ eq_refl eq_refl).
  - intros c Hc. discriminate Hc.
  - intros w. eexists _, _. split; [reflexivity|]. split; [intros w'; reflexivity|]. split; reflexivity.
  - intros w. eexists _, _. split; [reflexivity|]. split; [intros w'; reflexivity|]. split; reflexivity.
  - intros w. eexists _, _. split; [reflexivity|]. split; [intros w'; reflexivity|]. split; reflexivity.
  - reflexivity.
  - reflexivity.
  - reflexivity.
  - reflexivity.
  - reflexivity.
  - repeat constructor; apply printable_int; lia.
  - exists response. split; [exact H1|]. refine (eq_trans H2 _). vm_compute. reflexivity.
Defined.
