(* ===== verification/ClientCalls.v ===== *)
(** * The other calls of the client, end to end

    [submitContact] and [getDownloads], from the call in the browser to the
    database and back. *)

From S2P Require Import Prelude JsValue Effects Foreign Http Config Validate AuthMw AuthRoutes ContentRoutes RpcRoutes JsonPrint JsonParse JsonNumber JsonRoundTrip App AppSafety Concurrency AuthFlow Validation Content Node Reference Api ClientTypes Routes Wire EndToEnd.

(** ** The contact form *)

(** The body the client sends. *)
Definition contact_body (email subject message : string) : jsval :=
  JObj [("email", JStr email); ("subject", JStr subject); ("message", JStr message)].

Section contact.
Context {X : Express} {XL : ExpressLaws X} {P : Packages}.
Context {E : Env} {PL : PrismaLaws E} {ZL : ZodLaws E}.
Implicit Types s : sys E.
Variable cfg : config.

(** Which messages are accepted; lengths are in UTF-16 code units. *)
Definition message_ok (email subject message : string) : bool :=
  email_ok email && ((1 <=? utf16_length subject)%nat && (utf16_length subject <=? 200)%nat) &&
  ((10 <=? utf16_length message)%nat && (utf16_length message <=? 5000)%nat).

Lemma contact_accepted email subject message :
  accepts email_ok url_ok contact_schema (contact_body email subject message) = message_ok email subject message.
Proof. unfold message_ok. cbn -[Nat.leb]. by rewrite !andb_true_r, !andb_assoc. Qed.

Lemma contact_plain email subject message : plain (contact_body email subject message).
Proof. by repeat split. Qed.

(** The server's answer to a message that is accepted. *)
Lemma contact_served {PU : PrismaUp E PL} email subject message text s :
  up E (ext s) → message_ok email subject message = true →
  ∃ resp s', (∀ out, answers (run_stack contact_stack
      (posted "/api/contact" (contact_body email subject message) text) out) s resp s') ∧
    resp.1 ≠ 500%Z ∧ submit_post email subject message s s' resp.
Proof.
  intros Hup Hok. set (rq := posted _ _ text).
  set (s0 := Sys (cache s) (after E (ZodParse contact_schema (rq_body rq)) (ext s))).
  destruct (run (Contact.submit rq) s0) as [[x t] s'] eqn:Hrun.
  pose proof (run_is_exec (Contact.submit rq) s0) as Hx. rewrite Hrun in Hx.
  destruct (submit_sound cfg rq t x Hx) as (-> & _ & _).
  destruct (submit_post_holds rq email subject message s0 (Ok ()) t s' eq_refl eq_refl eq_refl Hrun) as (resp & Hresp & Hpost).
  assert (Hrows : ∀ m, rows s0 m = rows s m) by (intros m; by apply tbl_frame).
  exists resp, s'. split_and!.
  - intros out. eexists _, _.
    split; [apply (validate_accepts_run contact_schema Contact.submit rq s out () t s')|exact Hresp];
      [by etrans; [apply contact_accepted|]|exact Hrun].
  - eapply (submit_not_failed rq email subject message s0); [|done..]. by apply up_after.
  - destruct Hpost as [r Hr Hs ????|Hs]; rewrite ?Hrows in *.
    + eapply submit_stored; [done|intros m Hm; by rewrite Hs|done..].
    + apply submit_failed. intros m. by rewrite Hs.
Qed.

(** A message that is let in. *)
Lemma contact_let_in {PU : PrismaUp E PL} email subject message text s s0 :
  stringify (contact_body email subject message) = Some text →
  JSON_parse text = Some (contact_body email subject message) →
  let_in cfg "POST" "/api/contact" (Some text) s s0 → up E (ext s) →
  let r := run (submitContact email subject message) (@Sys (browser cfg) None s) in
  let s' := ext r.2 in
  if message_ok email subject message then
    ∃ row, rows s' MContact = rows s MContact ++ [row] ∧ (∀ m, m ≠ MContact → rows s' m = rows s m) ∧
      has_email email row ∧ assoc "subject" row = Some (JStr subject) ∧
      assoc "message" row = Some (JStr message) ∧ assoc "read" row = Some (JBool false) ∧
      r.1.1 = Ok (JObj [("data", message_json "Message sent successfully")])
  else (∀ m, rows s' m = rows s m) ∧ r.1.1 = Ok (JObj [("error", JStr "Validation failed")]).
Proof.
  intros Htxt Hparse Hin Hup r s'.
  pose proof (λ m, let_in_rows cfg _ _ _ _ _ m Hin) as Hrows.
  pose proof (λ resp v s1, post_exchange cfg "/contact" "/api/contact"
    [("email", JStr email); ("subject", JStr subject); ("message", JStr message)]
    contact_stack text s s0 resp v s1 eq_refl Htxt Hparse Hin (contact_taken cfg)) as Hroute.
  pose proof (let_in_up cfg _ _ _ _ _ Hin Hup) as Hup0.
  destruct (message_ok email subject message) eqn:Hok.
  - destruct (contact_served email subject message text s0 Hup0 Hok) as (resp & s1 & Ha & H5 & Hpost).
    destruct Hpost as [row Hr Hs He Hsub Hmsg Hread|Hs]; [|done].
    destruct (Hroute _ _ _ Ha (plain_legible _ _ (message_plain _))) as [H1 H2].
    assert (s' = s1) as -> by exact H2. rewrite ?Hrows in *. exists row.
    split_and!; try done. intros m Hm. by rewrite Hs, Hrows.
  - destruct (validate_rejects_run contact_schema Contact.submit
      (posted "/api/contact" (contact_body email subject message) text) s0) as (i & l & s1 & Ha & Hs);
      [by etrans; [apply contact_accepted|]|].
    destruct (Hroute _ _ _ Ha (plain_legible _ _ (failure_plain _ (i :: l)))) as [H1 H2].
    assert (s' = s1) as -> by exact H2. split; [|exact H1]. intros m. by rewrite Hs, Hrows.
Qed.
End contact.

(** C8: a message of the contact form, from the client to the database and back,
    with the database up and no limit of requests reached.  If the text of the
    request is at most 10240 bytes long, a message with a valid address, a
    subject of 1 to 200 and a text of 10 to 5000 UTF-16 code units is stored
    once, unread, and reported as sent, and any other changes nothing and is
    reported as "Validation failed".  A longer request is refused before it is
    validated: it changes nothing and is reported as "Internal server error",
    also if the message is valid. *)
Theorem contact_end_to_end {X : Express} {XL : ExpressLaws X} {P : Packages} {WL : WireLaws P} {E : Env}
    {PL : PrismaLaws E} {ZL : ZodLaws E} {PU : PrismaUp E PL} cfg email subject message text (s s0 : sys E) :
  stringify (contact_body email subject message) = Some text →
  admitted cfg "POST" "/api/contact" (Some text) s s0 → up E (ext s) →
  let r := run (submitContact email subject message) (@Sys (browser cfg) None s) in
  let s' := ext r.2 in
  if (Z.of_nat (String.length text) <=? 10240)%Z then
    if message_ok email subject message then
      ∃ row, rows s' MContact = rows s MContact ++ [row] ∧ (∀ m, m ≠ MContact → rows s' m = rows s m) ∧
        has_email email row ∧ assoc "subject" row = Some (JStr subject) ∧
        assoc "message" row = Some (JStr message) ∧ assoc "read" row = Some (JBool false) ∧
        r.1.1 = Ok (JObj [("data", message_json "Message sent successfully")])
    else (∀ m, rows s' m = rows s m) ∧ r.1.1 = Ok (JObj [("error", JStr "Validation failed")])
  else (∀ m, rows s' m = rows s m) ∧ r.1.1 = Ok (JObj [("error", JStr "Internal server error")]).
Proof.
  intros Htxt Hadm Hup r s'. change (Z.of_nat (String.length text) <=? 10240)%Z with (fits text).
  destruct (JSON_parse_stringify _ (contact_plain email subject message)) as (text' & Htxt' & Hparse).
  rewrite Htxt in Htxt'. injection Htxt' as <-. pose proof (body_value_parsed _ _ Hparse) as Hv.
  destruct (fits text).
  - destruct (admitted_let_in _ _ _ _ _ _ _ Hadm Hv) as [s1 Hin].
    exact (contact_let_in cfg email subject message text s s1 Htxt Hparse Hin Hup).
  - destruct (admitted_unreadable _ _ _ _ _ _ Hadm Hv) as (s1 & Ha & Hs).
    destruct (client_exchange cfg "/contact" "/api/contact" (Some (post (contact_body email subject message))) s
      (500%Z, error_json "Internal server error") (error_json "Internal server error") s1 eq_refl eq_refl)
      as [H1 H2]; [|by apply plain_legible; repeat split|].
    + unfold post. cbn [mbind option_bind ri_method ri_body default]. rewrite Htxt. exact Ha.
    + assert (s' = s1) as -> by exact H2. split; [exact Hs|exact H1].
Qed.

(** A valid message can be too long for the limit: for example 5000 times the
    sign U+20AC, which is one UTF-16 code unit and three bytes. *)
Fixpoint euros (n : nat) : string :=
  match n with
  | O => ""
  | S n => String "226" (String "130" (String "172" (euros n)))
  end.

Lemma euros_length n : utf16_length (euros n) = n ∧ String.length (euros n) = (3 * n)%nat.
Proof. induction n as [|n [IH1 IH2]]; [done|]. cbn [euros utf16_length String.length]. rewrite IH1, IH2. simpl. lia. Qed.

(** Escaping never shortens a text. *)
Lemma escape_length s : (String.length s ≤ String.length (escape s))%nat.
Proof.
  induction s as [|a s IH]; [done|]. cbn [escape]. rewrite str_length_app. cbn [String.length].
  assert (1 ≤ String.length (escape_char a))%nat; [|lia].
  by destruct a as [[] [] [] [] [] [] [] []]; apply Nat.leb_le.
Qed.

Lemma contact_text_length email subject message text :
  stringify (contact_body email subject message) = Some text → (String.length message ≤ String.length text)%nat.
Proof.
  intros Htxt. pose proof (escape_length message).
  cbn [stringify contact_body] in Htxt. injection Htxt as <-. unfold quote.
  cbn [join]. repeat (rewrite !str_length_app || cbn [String.length]). lia.
Qed.

Lemma valid_too_long email subject n text :
  email_ok email = true → (1 ≤ utf16_length subject ≤ 200)%nat → (3414 ≤ n ≤ 5000)%nat →
  stringify (contact_body email subject (euros n)) = Some text →
  message_ok email subject (euros n) = true ∧ (Z.of_nat (String.length text) <=? 10240)%Z = false.
Proof.
  intros Hem Hs Hn Hl%contact_text_length. destruct (euros_length n) as [H1 H2]. split.
  - unfold message_ok. rewrite Hem, H1.
    repeat (apply andb_true_intro; split); try reflexivity; apply Nat.leb_le; lia.
  - apply Z.leb_gt. lia.
Qed.

(** ** The downloads *)

(** A typed row, column by column. *)
Lemma download_row r :
  row_typed MDownload r → ∃ id name version platform url checksum created updated,
    r = [("id", JStr id); ("name", JStr name); ("version", JStr version); ("platform", JStr platform);
         ("url", JStr url); ("checksum", checksum); ("createdAt", JDate created); ("updatedAt", JDate updated)] ∧
    (checksum = JNull ∨ ∃ x, checksum = JStr x).
Proof.
  intros [Hk Ht]. cbn in Hk.
  do 8 (destruct r as [|[? ?] r]; [discriminate Hk|]; injection Hk as -> Hk).
  destruct r; [|discriminate Hk]. rewrite !Forall_cons in Ht. cbn [fst snd] in Ht.
  destruct Ht as (H1 & H2 & H3 & H4 & H5 & H6 & H7 & H8 & _).
  repeat match goal with H : typed _ ?v = true |- _ => destruct v; try discriminate H; clear H end;
    eexists _, _, _, _, _, _, _, _; (split; [reflexivity|]); eauto.
Qed.

Lemma download_sent r :
  row_typed MDownload r →
  serializable (JObj r) ∧ conforms SentDownload (JObj (image_object r)) = true ∧
  (conforms Download (JObj (image_object r)) = true ↔ assoc "checksum" r ≠ Some JNull).
Proof.
  intros (id & name & version & platform & url & checksum & created & updated & -> & [->|[x ->]])%download_row;
    (split_and!; [by repeat split|reflexivity|split; [done|]]).
  - by intros [].
  - reflexivity.
Qed.

(** The list as the client reads it. *)
Definition sent_list (l : list jsobj) : jsval := JArr ((λ r, JObj (image_object r)) <$> l).

Lemma sent_cons t r l :
  conforms (TArray t) (sent_list (r :: l)) =
  conforms t (JObj (image_object r)) && conforms (TArray t) (sent_list l).
Proof. reflexivity. Qed.

Lemma list_sent l :
  Forall (row_typed MDownload) l →
  legible (200%Z, JArr (JObj <$> l)) (sent_list l) ∧ conforms (TArray SentDownload) (sent_list l) = true ∧
  (conforms (TArray Download) (sent_list l) = true ↔ Forall (λ r, assoc "checksum" r ≠ Some JNull) l).
Proof.
  intros Hl. split_and!.
  - split_and!; [|cbn [snd json_image]; unfold sent_list; do 2 f_equal|done].
    + induction Hl as [|r l Hr _ IH]; [done|]. split; [by apply download_sent|exact IH].
    + rewrite <- list_fmap_compose. apply list_fmap_ext. intros i r _. cbn [compose].
      by rewrite json_image_object.
  - induction Hl as [|r l Hr _ IH]; [done|]. rewrite sent_cons, IH.
    by destruct (download_sent r Hr) as (_ & -> & _).
  - induction Hl as [|r l Hr _ IH]; [done|]. rewrite sent_cons, andb_true_iff, Forall_cons, IH.
    by rewrite (proj2 (proj2 (download_sent r Hr))).
Qed.

(** A conforming result of a call that got data. *)
Lemma response_conforms t v : v ≠ JUndef → conforms (ApiResponse t) (JObj [("data", v)]) = conforms t v.
Proof. intros Hv. cbn. rewrite andb_true_r. by destruct v. Qed.

(** The route of the list. *)
Lemma list_answers {X : Express} {XL : ExpressLaws X} {E : Env} {PL : PrismaLaws E} {PU : PrismaUp E PL} rq (s : sys E) :
  up E (ext s) →
  ∃ l s', (∀ out, answers (run_stack [Async Downloads.list_all] rq out) s (200%Z, JArr (JObj <$> l)) s') ∧
  (∀ m, rows s' m = rows s m) ∧ l ≡ₚ rows s MDownload ∧ newest_first l.
Proof.
  intros Hup. destruct (list_spec rq s Hup) as (l & s' & (x & t & Hrun & Ht) & Hpost). exists l, s'. split; [|done].
  intros out. rewrite stack_async. pose proof (run_is_exec (Downloads.list_all rq) s) as Hx. rewrite Hrun in Hx.
  destruct (list_all_sound default_config rq t x Hx) as (-> & _ & _).
  eexists _, _. rewrite run_pbind, Hrun. split; [reflexivity|]. cbn. by rewrite app_nil_r.
Qed.

(** C9: the list of downloads, from the database to the client, with the
    database up and no limit of requests reached.  The client gets the whole
    table, newest first, with the dates as time stamps, and nothing is changed.
    The list has the type the client declares exactly if every download has a
    checksum: a missing one arrives as null, which [checksum?: string] does not
    allow. *)
Theorem downloads_end_to_end {X : Express} {XL : ExpressLaws X} {P : Packages} {E : Env} {PL : PrismaLaws E}
    {PU : PrismaUp E PL} cfg (s s0 : sys E) :
  let_in cfg "GET" "/api/downloads" None s s0 → up E (ext s) →
  Forall (row_typed MDownload) (rows s MDownload) →
  let r := run getDownloads (@Sys (browser cfg) None s) in
  (∀ m, rows (ext r.2) m = rows s m) ∧
  ∃ l, r.1.1 = Ok (JObj [("data", sent_list l)]) ∧ l ≡ₚ rows s MDownload ∧ newest_first l ∧
    (conforms (ApiResponse (TArray Download)) (JObj [("data", sent_list l)]) = true ↔
     Forall (λ d, assoc "checksum" d ≠ Some JNull) (rows s MDownload)).
Proof.
  intros Hin Hup Hty r. pose proof (λ m, let_in_rows cfg _ _ _ _ _ m Hin) as Hrows.
  set (rq := set_params [] (with_path "/" (set_body (JObj []) (json_request "GET" "/api/downloads" None)))).
  destruct (list_answers rq s0 (let_in_up cfg _ _ _ _ _ Hin Hup)) as (l & s' & Ha & Hs & Hp & Hl).
  assert (Hans : answers (run_layers (app cfg) (json_request "GET" "/api/downloads" None) no_next) s
    (200%Z, JArr (JObj <$> l)) s')
    by (eapply let_in_taken; [exact Hin|reflexivity|by apply downloads_taken|exact Ha]).
  rewrite Hrows in Hp. assert (Htl : Forall (row_typed MDownload) l) by by rewrite Hp.
  destruct (list_sent l Htl) as (Hleg & _ & Hc).
  destruct (client_exchange cfg "/downloads" "/api/downloads" None s _ _ s' eq_refl eq_refl Hans Hleg) as [H1 H2].
  assert (Hr : ext r.2 = s') by exact H2. rewrite Hr. split; [intros m; by rewrite Hs, Hrows|].
  exists l. split_and!; [exact H1|done|done|]. rewrite response_conforms, Hc by done. by rewrite Hp.
Qed.

(** ** Concrete runs *)

Lemma contact_end_to_end_witness :
  let r message := run (submitContact "ann@example.org" "Hello" message)
    (@Sys (browser (P:=wire_packages) default_config) None ref_sys) in
  (∃ row, rows (ext (r "A long message").2) MContact = [row] ∧ assoc "subject" row = Some (JStr "Hello") ∧
     (r "A long message").1.1 = Ok (JObj [("data", message_json "Message sent successfully")])) ∧
  ∃ message, message_ok "ann@example.org" "Hello" message = true ∧
    (r message).1.1 = Ok (JObj [("error", JStr "Internal server error")]).
Proof.
  intros r.
  assert (Hadm : ∀ text, admitted (P:=wire_packages) default_config "POST" "/api/contact" (Some text) ref_sys ref_sys)
    by (intros text; apply (wire_admitted default_config "POST" "/api/contact" (Some text) ref_sys); reflexivity).
  split.
  - destruct (stringify (contact_body "ann@example.org" "Hello" "A long message")) as [text|] eqn:Htxt;
      [|discriminate Htxt].
    pose proof (contact_end_to_end (P:=wire_packages) default_config "ann@example.org" "Hello" "A long message" text
      ref_sys ref_sys Htxt (Hadm text) I) as H.
    assert (Hlen : (Z.of_nat (String.length text) <=? 10240)%Z = true)
      by (vm_compute in Htxt; injection Htxt as <-; reflexivity).
    rewrite Hlen in H. destruct H as (row & H1 & _ & _ & H2 & _ & _ & H3).
    exists row. exact (conj H1 (conj H2 H3)).
  - destruct (JSON_parse_stringify _ (contact_plain "ann@example.org" "Hello" (euros 5000))) as (text & Htxt & _).
    destruct (valid_too_long "ann@example.org" "Hello" 5000 text eq_refl
      ltac:(split; apply Nat.leb_le; reflexivity) ltac:(split; apply Nat.leb_le; reflexivity) Htxt) as [Hok Hlen].
    pose proof (contact_end_to_end (P:=wire_packages) default_config "ann@example.org" "Hello" (euros 5000) text
      ref_sys ref_sys Htxt (Hadm text) I) as H.
    rewrite Hlen in H. exists (euros 5000). exact (conj Hok (proj2 H)).
Defined.

(** A server with one download, added without a checksum. *)
Definition unchecked : jsobj :=
  [("id", JStr "42"); ("name", JStr "wallet"); ("version", JStr "1.0"); ("platform", JStr "linux");
   ("url", JStr "https://example.org/w"); ("checksum", JNull); ("createdAt", JDate 0); ("updatedAt", JDate 0)].

Definition unchecked_sys : sys ref_env :=
  Sys None (RWorld (λ m, match m with MDownload => [unchecked] | _ => [] end) 0 []
    (λ _, Throw (EForeign "fetch failed")) false 1).

Lemma downloads_end_to_end_witness :
  let r := run getDownloads (@Sys (browser (P:=wire_packages) default_config) None unchecked_sys) in
  ∃ l, r.1.1 = Ok (JObj [("data", sent_list l)]) ∧ l ≡ₚ [unchecked] ∧
    conforms (ApiResponse (TArray Download)) (JObj [("data", sent_list l)]) ≠ true.
Proof.
  intros r. destruct (downloads_end_to_end (P:=wire_packages) default_config unchecked_sys unchecked_sys)
    as (_ & l & H1 & H2 & _ & H3).
  - exact (wire_let_in default_config "GET" "/api/downloads" None unchecked_sys _ eq_refl eq_refl).
  - exact I.
  - apply Forall_singleton. split; [reflexivity|]. by repeat constructor.
  - exists l. split; [exact H1|]. split; [exact H2|]. intros Hc.
    apply (proj1 H3) in Hc. inversion Hc as [|? ? Hn]. by apply Hn.
Defined.
