(* ===== verification/Site.v ===== *)
(** * The page as a machine

    All components of the page with their state, run together: the menu, the
    scene, the statistics panel and the newsletter form take steps in any
    order.  What the calls to the server may resolve to is the class
    [Backend]; what the page relies on in them is [BackendLaws].  Under these
    laws the page can be rendered in every state it reaches. *)

From S2P Require Import Prelude JsValue Effects Foreign Http JsonPrint JsonParse RpcRoutes Jsx Api NewsletterForm StatsPanel Hologram Page.

(** ** What the page relies on *)

Class Backend := {
  stats_reply : jsval → Prop;
  subscribe_reply : string → jsval → Prop;
}.

(** The four figures of the panel are numbers. *)
Definition four_numbers (v : jsval) : Prop :=
  Forall (λ k, ∃ n, opt_prop v k = JNum n) ["blockHeight"; "networkHashrate"; "difficulty"; "connections"].

Definition text_or_nothing (v : jsval) : Prop := v = JUndef ∨ ∃ s, v = JStr s.

(** A poll gives numbers or nothing, a subscription gives texts. *)
Class BackendLaws (B : Backend) := {
  stats_promise r : stats_reply r →
    truthy (opt_prop r "data") = false ∨ four_numbers (opt_prop r "data");
  subscribe_promise email r : subscribe_reply email r →
    text_or_nothing (opt_prop r "error") ∧ text_or_nothing (opt_prop (opt_prop r "data") "message");
}.

(** ** What React can render *)

(** A value in braces: an object that is no element makes React throw. *)
Fixpoint valid_child (v : jsval) : bool :=
  match v with
  | JObj _ | JDate _ => false
  | JArr l => forallb valid_child l
  | _ => true
  end.

Fixpoint renderable (e : node) : bool :=
  match e with
  | Text _ => true
  | Value v => valid_child v
  | Elem _ _ _ children => forallb renderable children
  end.

(** ** The machine *)

Record window := Window {
  w_menu : bool;
  w_suspended : bool;
  w_hologram : hologram;
  w_panel : panel;
  w_page : page;
}.

Definition window_opened : window := Window false true hologram_initial panel_initial opened.

Definition view (w : window) : site :=
  Site (w_menu w) (w_suspended w) (w_hologram w) (stats (w_panel w)) (p_form (w_page w)).

Section window.
Context {B : Backend}.
(** The bounding boxes of three.js and the browser's check of the address. *)
Variables (bounding_box : obj3d → vec * vec) (constraints_ok : string → bool).

Inductive window_step : window → window → Prop :=
| window_toggle w :
    window_step w (Window (toggle_menu (w_menu w)) (w_suspended w) (w_hologram w) (w_panel w) (w_page w))
(* the chunk of the scene has arrived *)
| window_scene w :
    window_step w (Window (w_menu w) false (w_hologram w) (w_panel w) (w_page w))
| window_hologram w h :
    load_step bounding_box (w_hologram w) h →
    window_step w (Window (w_menu w) (w_suspended w) h (w_panel w) (w_page w))
| window_panel w ds p :
    panel_step stats_reply (w_panel w) ds p →
    window_step w (Window (w_menu w) (w_suspended w) (w_hologram w) p (w_page w))
| window_form w p :
    step constraints_ok subscribe_reply (w_page w) p →
    window_step w (Window (w_menu w) (w_suspended w) (w_hologram w) (w_panel w) p).
End window.

(** ** The invariant *)

Definition panel_sound (p : panel) : Prop := stats p = JNull ∨ four_numbers (stats p).
Definition form_sound (f : form) : Prop := ∃ s, f_msg f = JStr s.
Definition window_sound (w : window) : Prop := panel_sound (w_panel w) ∧ form_sound (p_form (w_page w)).

Section invariant.
Context {B : Backend} {BL : BackendLaws B}.

Lemma panel_step_sound p ds p' : panel_step stats_reply p ds p' → panel_sound p → panel_sound p'.
Proof.
  unfold panel_sound. destruct 1 as [| | | |p l1 k l2 r Hin Hr]; try done. simpl.
  destruct (truthy (opt_prop r "data")) eqn:Ht; [|done]. intros _. right.
  destruct (stats_promise r Hr) as [Hf|Hn]; [by rewrite Ht in Hf|done].
Qed.

Lemma submit_done_sound email r f : subscribe_reply email r → form_sound (submit_done r f).
Proof.
  intros [He Hm]%subscribe_promise. unfold submit_done, form_sound.
  destruct (truthy (opt_prop r "error")) eqn:Ht; simpl.
  - destruct He as [He|[s He]]; rewrite He in *; [done|eauto].
  - unfold js_or. destruct Hm as [->|[s ->]]; [eauto|]. destruct (truthy (JStr s)); eauto.
Qed.

Lemma form_step_sound constraints_ok p p' :
  step constraints_ok subscribe_reply p p' → form_sound (p_form p) → form_sound (p_form p').
Proof.
  destruct 1 as [p d Hd|p v Hl|p Hl Hc|p l1 e l2 r Hin Hr|p l1 due l2 Hin Hdue]; simpl; try done.
  - unfold submit_start. by destruct (String.eqb _ _).
  - intros _. by eapply submit_done_sound.
  - intros _. by exists "".
Qed.

Lemma window_step_sound bb constraints_ok w w' :
  window_step bb constraints_ok w w' → window_sound w → window_sound w'.
Proof.
  destruct 1; intros [Hp Hf]; split; simpl; eauto using panel_step_sound, form_step_sound.
Qed.

Lemma window_sound_reachable bb constraints_ok w :
  rtc (window_step bb constraints_ok) window_opened w → window_sound w.
Proof.
  intros H. assert (H0 : window_sound window_opened) by (split; [by left|by exists ""]). revert H0.
  induction H; eauto using window_step_sound.
Qed.
End invariant.

(** ** Rendering *)

(** The cards of a sound panel are texts. *)
Lemma items_sound H v :
  v = JNull ∨ four_numbers v → ∃ l, items H v = Ok l ∧ Forall (λ kv, ∃ s, kv.2 = JStr s) l.
Proof.
  intros [->|Hn].
  - eexists. split; [reflexivity|]. repeat constructor; eexists; reflexivity.
  - unfold four_numbers in Hn. rewrite !Forall_cons in Hn. destruct Hn as ([h Hh] & [r Hr] & [d Hd] & [c Hc] & _).
    unfold items, figure, megahashes. rewrite Hh, Hr, Hd, Hc. cbn [opt_call toLocaleString toFixed toString].
    assert (Hj : ∀ s, ∃ s', js_or (JStr s) (JStr "0") = JStr s') by (intros s; unfold js_or; destruct (truthy _); eauto).
    assert (Hm : ∃ x, toNumber H (js_or (JNum r) (JNum (num_of_Z 0))) = Ok x)
      by (unfold js_or; destruct (truthy _); eexists; reflexivity).
    destruct Hm as [x ->]. eexists. split; [reflexivity|]. repeat constructor; simpl; auto. eexists; reflexivity.
Qed.

Lemma StatsView_renders H v :
  v = JNull ∨ four_numbers v → ∃ e, StatsView H v = Ok e ∧ renderable e = true.
Proof.
  intros (l & Hl & Ht)%(items_sound H). unfold StatsView. rewrite Hl. eexists. split; [reflexivity|].
  apply items_cards in Hl as (a & b & c & d & ->). rewrite !Forall_cons in Ht.
  destruct Ht as ([s1 H1] & [s2 H2] & [s3 H3] & [s4 H4] & _). cbn -[num_of_Z]. by rewrite H1, H2, H3, H4.
Qed.

Lemma Newsletter_renders f : form_sound f → renderable (Newsletter f) = true.
Proof.
  intros [s Hs]. unfold Newsletter. rewrite Hs. by destruct (truthy (JStr s)), (is_loading f).
Qed.

Lemma Hero_renders suspended h :
  renderable (Hero (if suspended : bool then None else Some (Scene3D h))) = true.
Proof.
  destruct suspended; [reflexivity|]. unfold Scene3D, HologramModel.
  by destruct (load_error h); [|destruct (loaded h)].
Qed.

Lemma view_renders H w :
  window_sound w → ∃ page, App H (view w) = Ok page ∧ renderable page = true.
Proof.
  intros [Hp Hf]. destruct (StatsView_renders H _ Hp) as (e & He & Hr).
  unfold App, view. cbn [site_stats site_menu site_suspended site_hologram site_form]. rewrite He.
  eexists. split; [reflexivity|]. cbn [renderable forallb].
  rewrite Hr, Hero_renders, Newsletter_renders by done. by destruct (w_menu w).
Qed.

(** A difficulty that is there and is no number makes the panel, and with it the
    page, throw. *)
Lemma items_throw H v :
  match opt_prop v "difficulty" with JUndef | JNull | JNum _ => False | _ => True end →
  ∃ e, items H v = Throw e.
Proof.
  intros Hd. unfold items. destruct (figure _ _); [|eauto]. destruct (megahashes _ _); [|eauto].
  unfold figure, opt_call, toFixed. destruct (opt_prop v "difficulty"); try done; eauto.
Qed.

Lemma view_throws H w :
  match opt_prop (stats (w_panel w)) "difficulty" with JUndef | JNull | JNum _ => False | _ => True end →
  ∃ e, App H (view w) = Throw e.
Proof.
  intros (e & He)%(items_throw H). exists e. unfold App, view, StatsView. cbn [site_stats]. by rewrite He.
Qed.

(** ** Theorems *)

(** The page never goes down.  With a server that keeps its promise, in
    every state the components reach together the whole page can be rendered:
    no component throws and every value put into the page is one React can
    show. *)
Theorem site_renders {B : Backend} {BL : BackendLaws B} bb constraints_ok H w :
  rtc (window_step bb constraints_ok) window_opened w →
  ∃ page, App H (view w) = Ok page ∧ renderable page = true.
Proof. intros Hw. by eapply view_renders, window_sound_reachable. Qed.

(** A server that is down: no poll and no subscription gets through. *)
Definition silent_backend : Backend :=
  {| stats_reply r := r = JObj [("error", JStr "Network error")];
     subscribe_reply _ r := r = JObj [("error", JStr "Network error")] |}.

#[export] Instance silent_laws : BackendLaws silent_backend.
Proof. split; [by intros ? ->; left|]. intros ? ? ->. split; [right; by eexists|by left]. Qed.

Definition plain_host : host := Host num_to_string (λ _, "") "," (λ _, "").

Lemma site_renders_witness :
  ∃ page, App plain_host (view window_opened) = Ok page ∧ renderable page = true.
Proof.
  exact (site_renders (B:=silent_backend) (λ _, (origin, origin)) (λ _, true) plain_host window_opened (rtc_refl _ _)).
Defined.
