(* ===== verification/StatsContract.v ===== *)
(** * What the server promises about the statistics

    As long as the node reports numbers where it reports anything, every
    statistics object the server sends or caches has the type the client
    declares for it, through every interleaving of requests. *)

From S2P Require Import Prelude JsValue Effects Foreign Http Config Validate AuthMw AuthRoutes ContentRoutes RpcRoutes JsonPrint JsonParse JsonNumber JsonRoundTrip App AppSafety Concurrency Node Reference Jsx Api ClientTypes StatsPanel NewsletterForm Hologram Page Site.
Import Stats.

(** ** The promise of the node *)

Definition number_or_nothing (v : jsval) : Prop :=
  truthy v = false ∨ ∃ n, v = JNum n ∧ printable n = true.

Definition chain_info (v : jsval) : Prop :=
  number_or_nothing (opt_prop v "blocks") ∧ number_or_nothing (opt_prop v "difficulty") ∧
  (truthy (opt_prop v "chain") = false ∨ ∃ s, opt_prop v "chain" = JStr s).

Definition mining_info (v : jsval) : Prop := number_or_nothing (opt_prop v "networkhashps").

Section node.
Context (E : Env).
Variable cfg : config.

(** Where the node answers a method, its result satisfies [Q]. *)
Definition node_answers (method : string) (Q : jsval → Prop) : Prop :=
  ∀ w w' resp v x,
    answer E (Fetch (url (hyliumRpc cfg)) (rpc_init cfg (JStr method) (JArr []))) w = Ok resp →
    answer E (RespJson resp) w' = Ok v → prop v "result" = Ok x → Q x.

Definition node_numeric : Prop :=
  node_answers "getblockchaininfo" chain_info ∧ node_answers "getmininginfo" mining_info ∧
  node_answers "getconnectioncount" number_or_nothing.
End node.

(** ** The promise of the server *)

(** A statistics object that survives the wire and has the type the client
    declares for it. *)
Definition good_stats (o : jsobj) : Prop := plain (JObj o) ∧ conforms NetworkStats (JObj o) = true.

Definition cache_good {E : Env} (s : sys E) : Prop := ∀ c, cache s = Some c → good_stats (data c).

Definition cache_event_good (e : event) : Prop :=
  match e with Ev (CacheSet c) _ => good_stats (data c) | _ => True end.

Definition cache_seen_good (e : event) : Prop :=
  match e with Ev CacheGet (Some c) => good_stats (data c) | _ => True end.

(** ** Lemmas *)

Lemma or_zero v : number_or_nothing v → ∃ n, js_or v zero = JNum n ∧ printable n = true.
Proof.
  unfold js_or. intros [->|(n & -> & Hn)]; [by exists (num_of_Z 0)|].
  destruct (truthy (JNum n)); [eauto|by exists (num_of_Z 0)].
Qed.

Lemma make_stats_good bi mi cc d :
  chain_info bi → mining_info mi → number_or_nothing cc → good_stats (make_stats bi mi cc d).
Proof.
  intros (Hb & Hd & Hc) Hm Hn. unfold make_stats.
  destruct (or_zero _ Hb) as (h & -> & ?), (or_zero _ Hd) as (df & -> & ?), (or_zero _ Hm) as (r & -> & ?),
    (or_zero _ Hn) as (c & -> & ?).
  assert (∃ s, js_or (opt_prop bi "chain") (JStr "unknown") = JStr s) as [s ->].
  { unfold js_or. destruct Hc as [->|[s ->]]; [eauto|]. destruct (truthy _); eauto. }
  split; [split; [by repeat split|by split_and!]|reflexivity].
Qed.

Section server.
Context {E : Env}.
Variable cfg : config.
Hypothesis Hnode : node_numeric E cfg.

Lemma call_answers method (Q : jsval → Prop) t r :
  node_answers E cfg method Q → Q JNull → exec (call_or_null cfg method) t r → answered_by E t →
  ∃ v, r = Ok v ∧ Q v.
Proof.
  intros Hq H0 H Ha. unfold call_or_null, callRpc in H.
  destruct H as (x & t' & -> & H). destruct (Ha _ _ ltac:(left) eq_refl) as [w Hw].
  destruct x as [resp|e]; [|by symex H; eauto].
  destruct H as (y & t2 & -> & H). destruct (Ha _ _ ltac:(right; left) eq_refl) as [w' Hw'].
  destruct y as [v|e]; [|by symex H; eauto]. cbn in H.
  symex H; eauto.
Qed.

Lemma fetch_all_good t r :
  exec (fetch_all cfg) t r → answered_by E t →
  ∃ bi mi cc, r = Ok (bi, mi, cc) ∧ chain_info bi ∧ mining_info mi ∧ number_or_nothing cc.
Proof.
  destruct Hnode as (H1 & H2 & H3).
  apply fetch_all_post; intros u x Hx Hu; eapply call_answers; try done; [split_and!; by left|by left|by left].
Qed.

(** The handler caches only good objects. *)
Lemma get_stats_good rq t r :
  exec (get_stats cfg rq) t r → answered_by E t → Forall cache_event_good t.
Proof.
  intros [_ H]%get_stats_exec Ha. destruct H as [c now Hlt|t0 t1 bi mi cc d now Ht0 Hf]; [by repeat constructor|].
  assert (Ha1 : answered_by E t1) by (intros o x Hin; apply Ha; set_solver).
  destruct (fetch_all_good _ _ Hf Ha1) as (bi' & mi' & cc' & [= <- <- <-] & Hb & Hm & Hn).
  apply Forall_app. split; [by destruct Ht0 as [->|(c & m & -> & _)]; repeat constructor|].
  apply Forall_app. split.
  - eapply Forall_impl; [by eapply fetch_all_node|]. by intros [[] ?].
  - repeat (apply Forall_cons_2; [try exact I|]); [by apply make_stats_good|constructor].
Qed.

(** A request for the statistics is answered with a good object, if what it
    reads from the cache is one. *)
Lemma stats_good_answer rq t r :
  exec (get_stats cfg rq) t r → answered_by E t → Forall cache_seen_good t →
  ∃ o, responses t = [(200%Z, JObj o)] ∧ good_stats o.
Proof.
  intros [_ H]%get_stats_exec Ha Hs. destruct H as [c now Hlt|t0 t1 bi mi cc d now Ht0 Hf].
  - exists (data c). split; [done|]. by apply Forall_cons in Hs as [? _].
  - assert (Ha1 : answered_by E t1) by (intros o x Hin; apply Ha; set_solver).
    destruct (fetch_all_good _ _ Hf Ha1) as (bi' & mi' & cc' & [= <- <- <-] & Hb & Hm & Hn).
    exists (make_stats bi mi cc d). split; [|by apply make_stats_good].
    rewrite !responses_app, (responses_nil t1).
    + by destruct Ht0 as [->|(c0 & m & -> & _)].
    + eapply Forall_impl; [by eapply fetch_all_node|]. by intros [[] ?].
Qed.

(** ** The application caches only good objects *)

Definition caches_good (_ : option string) (t : trace) : Prop :=
  answered_by E t → Forall cache_event_good t.

#[export] Instance caches_policy : Policy caches_good.
Proof.
  split; [by repeat constructor|].
  intros h e t He Ht Ha. constructor; [by destruct e as [[] ?]|].
  apply Ht. intros o x Hin. apply Ha. set_solver.
Qed.

Ltac no_caching := intros rq t r H; symex H; (split; [done|]); intros _;
  repeat (apply Forall_cons_2; [exact I|]); constructor.

Lemma register_caches : handler_ok caches_good register.
Proof. unfold register. no_caching. Qed.
Lemma login_caches : handler_ok caches_good (login cfg).
Proof. unfold login, sign_access, sign_refresh. no_caching. Qed.
Lemma refresh_caches : handler_ok caches_good (refresh cfg).
Proof. unfold refresh, sign_access. no_caching. Qed.
Lemma me_caches : handler_ok caches_good me.
Proof. unfold me. no_caching. Qed.
Lemma subscribe_caches : handler_ok caches_good Newsletter.subscribe.
Proof. unfold Newsletter.subscribe. no_caching. Qed.
Lemma submit_caches : handler_ok caches_good Contact.submit.
Proof. unfold Contact.submit. no_caching. Qed.
Lemma list_all_caches : handler_ok caches_good Downloads.list_all.
Proof. unfold Downloads.list_all. no_caching. Qed.
Lemma add_caches : handler_ok caches_good Downloads.add.
Proof. unfold Downloads.add. no_caching. Qed.
Lemma remove_caches : handler_ok caches_good Downloads.remove.
Proof. unfold Downloads.remove. no_caching. Qed.
Lemma proxy_caches : handler_ok caches_good (Rpc.proxy cfg).
Proof. unfold Rpc.proxy, Rpc.callRpc. no_caching. Qed.
Lemma get_stats_caches : handler_ok caches_good (get_stats cfg).
Proof.
  intros rq t r H. split; [by apply get_stats_exec in H as [-> _]|]. intros Ha. by eapply get_stats_good.
Qed.

#[local] Hint Resolve register_caches login_caches refresh_caches me_caches subscribe_caches
  submit_caches list_all_caches add_caches remove_caches proxy_caches get_stats_caches
  stack_sync_ok stack_async_ok authenticate_ok requireAdmin_ok validate_ok caches_policy : hyl.

Lemma app_caches `{X : Express} {XL : ExpressLaws X} `{P : Packages} {PL : PackagesLaws P} rq out t a :
  exec (run_layers (app cfg) rq out) t a → caches_good (rq_authorization rq) t.
Proof.
  apply app_policy; [apply caches_policy|..];
    unfold Downloads.add_stack, Downloads.remove_stack; eauto 10 with hyl.
Qed.

(** ** Along a run *)

Lemma cache_good_replays t (s s' : sys E) :
  Forall cache_event_good t → replays s t s' → cache_good s → Forall cache_seen_good t.
Proof.
  intros Ht. revert s. induction Ht as [|[o x] t He _ IH]; intros s Hr Hs; [constructor|].
  unfold replays in Hr; fold (replays (E:=E)) in Hr. destruct Hr as [Hx Hr]. constructor.
  - destruct o; try exact I. destruct x as [c|]; [|exact I]. by apply Hs.
  - apply (IH _ Hr). intros c. unfold perform.
    destruct o; try (destruct (handle _ _); simpl; apply Hs); simpl; try apply Hs. by intros [= <-].
Qed.
End server.

(** ** Concurrent requests *)

Section concurrent.
Context {X : Express} {P : Packages} {E : Env}.

(** [t] is the execution of the request [rq] in a run of the server from [s]
    that serves it concurrently with others. *)
Definition handled (cfg : config) (s : sys E) (rq : request) (t : trace) : Prop :=
  ∃ rqs ts u s', Forall2 (λ rq t, ∃ a, exec (run_layers (app cfg) rq no_next) t a) rqs ts ∧
    (rq, t) ∈ zip rqs ts ∧ shuffle ts u ∧ replays s u s'.

Lemma handled_exec cfg s rq t : handled cfg s rq t → ∃ a, exec (run_layers (app cfg) rq no_next) t a.
Proof.
  intros (rqs & ts & u & s' & Hx & Hin & _). apply elem_of_lookup_zip_with in Hin as (i & rq' & t' & [= <- <-] & H1 & H2).
  by eapply Forall2_lookup_lr in Hx.
Qed.

Lemma handled_in cfg s rq t :
  handled cfg s rq t → ∃ rqs ts u s', t ∈ ts ∧ shuffle ts u ∧ replays s u s' ∧
    Forall2 (λ rq t, ∃ a, exec (run_layers (app cfg) rq no_next) t a) rqs ts.
Proof.
  intros (rqs & ts & u & s' & Hx & Hin & Hs & Hr). exists rqs, ts, u, s'. split_and!; try done.
  apply elem_of_lookup_zip_with in Hin as (i & rq' & t' & [= <- <-] & H1 & H2). by eapply list_elem_of_lookup_2.
Qed.

(** What a handled request is answered by the environment, and what it sees in
    the cache. *)
Lemma handled_answered cfg s rq t : handled cfg s rq t → answered_by E t.
Proof.
  intros (rqs & ts & u & s' & Ht & Hs & Hr & _)%handled_in o x Hin.
  apply (replays_answered _ _ _ Hr). apply (shuffle_elem _ _ _ Hs). eauto.
Qed.

Lemma handled_cache {XL : ExpressLaws X} {PL : PackagesLaws P} cfg s rq t :
  node_numeric E cfg → cache_good s → handled cfg s rq t → Forall cache_seen_good t.
Proof.
  intros Hnode Hs (rqs & ts & u & s' & Ht & Hsh & Hr & Hx)%handled_in.
  assert (Hu : Forall cache_event_good u).
  { eapply shuffle_Forall; [exact Hsh|]. apply Forall_forall. intros t' Hin.
    apply list_elem_of_lookup in Hin as Hi. destruct Hi as [i Hi].
    destruct (Forall2_lookup_r _ _ _ _ _ Hx Hi) as (rq' & _ & a & H').
    apply (app_caches cfg Hnode rq' no_next t' a H'). intros o x Ho.
    apply (replays_answered _ _ _ Hr), (shuffle_elem _ _ _ Hsh). eauto. }
  pose proof (cache_good_replays u s s' Hu Hr Hs) as Hseen.
  rewrite Forall_forall in Hseen |- *. intros e He. apply Hseen, (shuffle_elem _ _ _ Hsh). eauto.
Qed.
End concurrent.
