(* ===== verification/Contract.v ===== *)
(** * The server keeps its promise to the site

    What the site relies on in its server, the laws [BackendLaws], is
    discharged by the model of the server: a call of the client may fail on the
    way, be turned away by the rate limiter or be answered by the application
    while it serves any number of other requests.  Composed with the theorem on
    the page this gives the whole system: as long as the node reports numbers,
    the page never goes down. *)

From S2P Require Import Prelude JsValue Effects Foreign Http Config Validate AuthMw AuthRoutes ContentRoutes RpcRoutes JsonPrint JsonParse JsonNumber JsonRoundTrip App AppSafety Concurrency AuthFlow Validation Content Node Reference Jsx Api ClientTypes StatsPanel NewsletterForm Hologram Page Routes Wire EndToEnd ClientCalls Site StatsContract.

(** ** The network *)

Section network.
Context {X : Express} {P : Packages} {E : Env}.
Variables (cfg : config) (s0 : sys E).

(** An event of the client: a request fails, or is handled by the server, which
    was started in [s0]. *)
Definition net_event (e : event) : Prop :=
  match e with
  | Ev (Fetch url init) (Ok response) =>
      ∃ path t resp, strip server_origin url = Some path ∧
        handled cfg s0 (wire_request (fi_method init) path (assoc "Content-Type" (fi_headers init)) (fi_body init)) t ∧
        responses t = [resp] ∧ response = wire_response resp
  | Ev (Fetch _ _) (Throw _) => True
  | Ev (RespJson r) x => x = resp_body r
  | _ => False
  end.

(** What a call of the client may resolve to. *)
Definition resolves (call : M jsval) (r : jsval) : Prop :=
  ∃ u, exec call u (Ok r) ∧ Forall net_event u.

Definition server_backend : Backend :=
  {| stats_reply := resolves getStats;
     subscribe_reply email := resolves (subscribeNewsletter email) |}.
End network.

(** ** What the types give the site *)

Lemma conforms_four_numbers v : conforms NetworkStats v = true → four_numbers v.
Proof.
  intros Hv. pose proof (λ k, conforms_field _ _ k false TNumber Hv) as Hf.
  repeat apply Forall_cons_2; [..|apply Forall_nil_2];
    (edestruct Hf as [[_ ?]|?%conforms_number]; [|done|done]); set_solver.
Qed.

Lemma stats_response r :
  conforms (ApiResponse NetworkStats) r = true →
  truthy (opt_prop r "data") = false ∨ four_numbers (opt_prop r "data").
Proof.
  intros [[-> _]|Hd]%(conforms_field _ _ "data" true NetworkStats); [by left| |by left].
  right. by apply conforms_four_numbers.
Qed.

Lemma message_response r :
  conforms (ApiResponse Message) r = true →
  text_or_nothing (opt_prop r "error") ∧ text_or_nothing (opt_prop (opt_prop r "data") "message").
Proof.
  intros Hr. split.
  - destruct (conforms_field _ _ "error" true TString Hr) as [[-> _]|Hs%conforms_string];
      [by right; left|by left|by right].
  - destruct (conforms_field _ _ "data" true Message Hr) as [[-> _]|Hm]; [by left|by left|].
    destruct (conforms_field _ _ "message" false TString Hm) as [[_ ?]|Hs%conforms_string]; [by left|done|by right].
Qed.

(** ** Admission *)

Section admission.
Context {X : Express} {XL : ExpressLaws X} {P : Packages} {WL : WireLaws P}.
Variable cfg : config.

Lemma exec_decides f ls rq ok out t a :
  decides f rq ok → exec (run_layers (Use [Sync f] :: ls) rq out) t a →
  ∃ t0 t1 v, t = t0 ++ t1 ∧ Forall foreign_event t0 ∧ ok v ∧
    match v with
    | Pass rq' => exec (run_layers ls rq' out) t1 tt
    | Refuse st body => t1 = [Ev (Respond st body) tt]
    | Fault e => exec (to_error_handler ls e rq out) t1 tt
    end.
Proof.
  rewrite layers_use, stack_sync. intros Hd (r & t1 & t2 & -> & H1 & H2)%exec_pbind.
  destruct (decides_exec _ _ _ _ _ _ Hd H1) as (-> & t3 & t4 & v & -> & H3 & Hv & H4).
  destruct H2 as [-> _]. rewrite app_nil_r. exists t3, t4, v. split_and!; [done..|].
  destruct v as [rq'|st body|e].
  - apply exec_lift in H4 as ([] & _ & H4). by rewrite stack_nil in H4.
  - by symex H4.
  - by apply exec_lift in H4 as ([] & _ & H4).
Qed.

(** The events in front of the routes: no call to the database, to the node or
    to the code of a route. *)
Definition front_event (e : event) : Prop :=
  match e with
  | Ev (ForeignCall _ _) _ | Ev (ConsoleError _ _) _ | Ev (Respond _ _) _ => True
  | _ => False
  end.

Definition refused (t : trace) : Prop :=
  Forall front_event t ∧ (responses t = [too_many] ∨ responses t = [server_error]).

Lemma refused_app t0 t1 : Forall foreign_event t0 → refused t1 → refused (t0 ++ t1).
Proof.
  intros H0 [H1 Hr]. split.
  - apply Forall_app. split; [|done]. eapply Forall_impl; [exact H0|]. by intros [[] ?].
  - by rewrite responses_app, (responses_foreign t0).
Qed.

(** Up to the body parser. *)
Lemma to_body_parser rq t a :
  rq_method rq ≠ "OPTIONS" → exec (run_layers (app cfg) rq no_next) t a →
  refused t ∨ ∃ t0 t1, t = t0 ++ t1 ∧ Forall foreign_event t0 ∧
    exec (run_layers (drop 3 (app cfg)) rq no_next) t1 tt.
Proof.
  intros Hv H. unfold app in H.
  apply (exec_decides _ _ _ _ _ _ _ (helmet_wire _ rq)) in H as (t0 & t1 & v & -> & H0 & <- & H).
  apply (exec_decides _ _ _ _ _ _ _ (cors_wire _ rq Hv)) in H as (t2 & t3 & v & -> & H2 & <- & H).
  apply (exec_decides _ _ _ _ _ _ _ (limit_wire _ rq)) in H as (t4 & t5 & v & -> & H4 & [-> | ->] & H).
  - right. exists (t0 ++ t2 ++ t4), t5. split_and!; [by rewrite !app_assoc|by rewrite !Forall_app|exact H].
  - left. subst t5. do 3 (apply refused_app; [done|]). split; [by repeat constructor|by left].
Qed.

(** A JSON request with a body that cannot be read is turned away; any other
    is turned away or reaches the routes with its body. *)
Lemma admission verb path body t a :
  verb ≠ "OPTIONS" → exec (run_layers (app cfg) (json_request verb path body) no_next) t a →
  match body_value body with
  | Some v => refused t ∨ ∃ t0 t1, t = t0 ++ t1 ∧ Forall foreign_event t0 ∧
      exec (run_layers (inner cfg) (set_body v (json_request verb path body)) no_next) t1 tt
  | None => refused t
  end.
Proof.
  intros Hv [Hr|(t0 & t1 & -> & H0 & H)]%to_body_parser; [by destruct (body_value body); [left|]| |done].
  cbn [drop app] in H. pose proof (json_wire (json_request verb path body)) as Hj.
  rewrite read_json_request in Hj. destruct (body_value body) as [v|] eqn:Hb.
  - destruct (exec_decides _ _ _ _ _ _ _ Hj H) as (t2 & t3 & x & Ht1 & H2 & Hx & H3). subst t1 x.
    destruct (exec_decides _ _ _ _ _ _ _ (form_after_json verb path body v Hb) H3)
      as (t4 & t5 & x & Ht3 & H4 & Hx & H5). subst t3 x.
    right. exists (t0 ++ t2 ++ t4), t5. split_and!; [by rewrite !app_assoc|by rewrite !Forall_app|exact H5].
  - destruct (exec_decides _ _ _ _ _ _ _ Hj H) as (t2 & t3 & x & Ht1 & H2 & [e Hx] & H3). subst t1 x.
    do 2 (apply refused_app; [done|]). cbn in H3. unfold error_handler in H3. symex H3.
    split; [by repeat constructor|by right].
Qed.
End admission.

(** ** The answers to the site *)

(** A response the client can read: a value of the type it expects, or an error
    text. *)
Definition readable (t : ts_type) (resp : Z * jsval) : Prop :=
  ∃ v, legible resp v ∧
    if (200 <=? resp.1)%Z && (resp.1 <? 300)%Z then conforms t v = true
    else ∃ msg, opt_prop v "error" = JStr msg.

Lemma readable_plain t st o :
  plain (JObj o) →
  (if (200 <=? st)%Z && (st <? 300)%Z then conforms t (JObj o) = true
   else ∃ msg, opt_prop (JObj o) "error" = JStr msg) →
  readable t (st, JObj o).
Proof. intros Hp H. exists (JObj o). split; [by apply plain_legible|exact H]. Qed.

Lemma error_readable t st msg :
  (200 <=? st)%Z && (st <? 300)%Z = false → readable t (st, error_json msg).
Proof. intros Hst. apply readable_plain; [by repeat split|]. rewrite Hst. by exists msg. Qed.

Lemma message_readable st msg :
  (200 <=? st)%Z && (st <? 300)%Z = true → readable Message (st, message_json msg).
Proof. intros Hst. apply readable_plain; [by repeat split|]. by rewrite Hst. Qed.

Lemma readable_api t st v msg :
  (if (200 <=? st)%Z && (st <? 300)%Z then conforms t v = true else opt_prop v "error" = JStr msg) →
  conforms (ApiResponse t) (api_of st v) = true.
Proof.
  unfold api_of. destruct (_ && _); [apply data_conforms|]. intros ->.
  unfold js_or. by destruct (truthy (JStr msg)).
Qed.

(** One readable response. *)
Definition answered (t : ts_type) (tr : trace) : Prop := ∃ resp, responses tr = [resp] ∧ readable t resp.

Lemma answered_app t t0 t1 : Forall foreign_event t0 → answered t t1 → answered t (t0 ++ t1).
Proof. intros H0 (resp & Hr & H). exists resp. by rewrite responses_app, (responses_foreign t0). Qed.

Lemma refused_answered t tr : refused tr → answered t tr.
Proof. unfold answered. intros [_ [-> | ->]]; eexists; (split; [reflexivity|]); by apply error_readable. Qed.

(** The stack of a route with validation, given the answer of its handler. *)
Lemma validated_answered {X : Express} {XL : ExpressLaws X} ty sc h rq out t a :
  (∀ rq t r, exec (h rq) t r → r = Ok tt ∧ answered ty t) → fails_safely out →
  exec (run_stack [Sync (validate sc); Async h] rq out) t a → answered ty t.
Proof.
  intros Hh Hout H. rewrite stack_sync in H.
  apply exec_pbind in H as (x & t1 & t2 & -> & H1 & H2). unfold validate in H1.
  destruct H1 as (y & t3 & -> & H1). destruct y as [v|e].
  - cbn in H1. apply exec_pbind in H1 as (x' & t4 & t5 & -> & (u & -> & H1)%exec_lift & [-> ->]).
    destruct H2 as [-> _]. rewrite !app_nil_r. rewrite stack_async in H1.
    apply exec_pbind in H1 as (x & t6 & t7 & -> & [-> Ha]%Hh & [-> _]). by rewrite app_nil_r.
  - destruct e; cbn in H1; try (apply exec_lift in H1 as (u & -> & H1); destruct H2 as [-> _];
      rewrite app_nil_r; apply Hout in H1; eexists; split; [exact H1|by apply error_readable]).
    symex H1. symex H2. eexists. split; [reflexivity|].
    apply readable_plain; [apply failure_plain|]. by eexists.
Qed.

Lemma subscribe_answered rq t r : exec (Newsletter.subscribe rq) t r → r = Ok tt ∧ answered Message t.
Proof.
  unfold Newsletter.subscribe. intros H. symex H; (split; [done|]); eexists; (split; [reflexivity|]);
    by (apply error_readable || apply message_readable).
Qed.

Lemma submit_answered rq t r : exec (Contact.submit rq) t r → r = Ok tt ∧ answered Message t.
Proof.
  unfold Contact.submit. intros H. symex H; (split; [done|]); eexists; (split; [reflexivity|]);
    by (apply error_readable || apply message_readable).
Qed.

Section answers.
Context {X : Express} {XL : ExpressLaws X} {P : Packages} {WL : WireLaws P} {PL : PackagesLaws P}.
Context {E : Env}.
Variables (cfg : config) (s0 : sys E).

(** A call whose requests are answered readably has the type it declares. *)
Lemma call_typed ty endpoint options path r :
  strip server_origin (API_BASE +:+ endpoint) = Some path → default [] (ri_headers <$> options) = [] →
  (∀ t, handled cfg s0 (json_request (default "GET" (options ≫= ri_method)) path (options ≫= ri_body)) t →
     answered ty t) →
  resolves cfg s0 (fetchApi endpoint options) r → conforms (ApiResponse ty) r = true.
Proof.
  intros Hpath Hhd Hans (u & H & Hu). unfold fetchApi in H.
  destruct H as ([response|e] & u1 & -> & H); [|by symex H].
  apply Forall_cons in Hu as [(path' & t & resp & Hs & Hh & Ht & ->) Hu]. rewrite Hpath in Hs. injection Hs as <-.
  cbn [fi_method fi_headers fi_body] in Hh. rewrite Hhd in Hh.
  destruct (Hans t Hh) as (resp' & Ht' & v & (Hser & Hi & Ho) & Hok). rewrite Ht in Ht'. injection Ht' as <-.
  destruct H as (x & u2 & -> & H). apply Forall_cons in Hu as [Hx _]. destruct resp as [st body]. cbn [fst snd] in *.
  change (x = resp_body (wire_response (st, body))) in Hx.
  rewrite (wire_image st body v Hser Hi) in Hx, H. simpl in Hx. subst x.
  assert (Hr : r = api_of st v).
  { unfold api_of. destruct ((200 <=? st)%Z && (st <? 300)%Z); [by symex H|].
    destruct Ho as [o ->]; [done|]. symex H.
    match goal with Hq : prop _ _ = _ |- _ => injection Hq as <- end. reflexivity. }
  subst r. destruct ((200 <=? st)%Z && (st <? 300)%Z) eqn:Hst.
  - apply (readable_api ty st v ""). by rewrite Hst.
  - destruct Hok as [msg Hmsg]. apply (readable_api ty st v msg). by rewrite Hst.
Qed.

(** A request of the site is turned away or taken by its route. *)
Lemma handled_taken verb path body v fs t :
  verb ≠ "OPTIONS" → body_value body = Some v → handled cfg s0 (json_request verb path body) t →
  taken_by cfg fs (set_body v (json_request verb path body)) →
  refused t ∨ ∃ t0 t1 rq out, t = t0 ++ t1 ∧ Forall foreign_event t0 ∧
    exec (run_stack fs rq out) t1 tt ∧ fails_safely out.
Proof.
  intros Hv Hb [a H]%handled_exec (out & Hr & Hout).
  pose proof (admission cfg verb path body t a Hv H) as Ha. rewrite Hb in Ha.
  destruct Ha as [?|(t0 & t1 & -> & H0 & H1)]; [by left|].
  right. rewrite Hr in H1. by exists t0, t1, (set_params [] (with_path "/" (set_body v (json_request verb path body)))), out.
Qed.

Lemma stats_handled t :
  node_numeric E cfg → cache_good s0 → handled cfg s0 (json_request "GET" "/api/stats" None) t →
  answered NetworkStats t.
Proof.
  intros Hn Hc Hh.
  destruct (handled_taken "GET" "/api/stats" None (JObj []) [Async (Stats.get_stats cfg)] t)
    as [Hr|(t0 & t1 & rq & out & -> & H0 & H1 & _)]; [done|done|done|by apply stats_taken|by apply refused_answered|].
  apply answered_app; [done|]. rewrite stack_async in H1. apply exec_pbind in H1 as (x & t2 & t3 & -> & H1 & H2).
  pose proof H1 as [-> _]%get_stats_exec. destruct H2 as [-> _]. rewrite app_nil_r in *.
  destruct (stats_good_answer cfg Hn rq t2 (Ok ()) H1) as (o & Ho & Hp & Hty).
  - intros o x Hin. apply (handled_answered _ _ _ _ Hh). set_solver.
  - pose proof (handled_cache _ _ _ _ Hn Hc Hh) as Hs. by apply Forall_app in Hs as [_ ?].
  - eexists. split; [exact Ho|]. by apply readable_plain.
Qed.

(** A body posted to a route with validation. *)
Lemma post_handled ty path body text sc h t :
  (∀ rq t r, exec (h rq) t r → r = Ok tt ∧ answered ty t) →
  (∀ rq, rq_method rq = "POST" → rq_path rq = path → taken_by cfg [Sync (validate sc); Async h] rq) →
  JSON_parse text = Some (JObj body) → handled cfg s0 (json_request "POST" path (Some text)) t → answered ty t.
Proof.
  intros Hh Htk Hp Hha. pose proof (body_value_parsed _ _ Hp) as Hv. destruct (fits text).
  2: { pose proof Hha as [a Hx]%handled_exec. apply admission in Hx; [|done]. rewrite Hv in Hx.
       by apply refused_answered. }
  destruct (handled_taken "POST" path (Some text) (JObj body) _ t ltac:(done) Hv Hha
    (Htk (set_body (JObj body) (json_request "POST" path (Some text))) eq_refl eq_refl))
    as [Hr|(t0 & t1 & rq & out & -> & H0 & H1 & Hout)]; [by apply refused_answered|].
  apply answered_app; [done|]. by eapply validated_answered.
Qed.

Lemma post_typed ty endpoint path body sc h r :
  (∀ rq t r, exec (h rq) t r → r = Ok tt ∧ answered ty t) →
  (∀ rq, rq_method rq = "POST" → rq_path rq = path → taken_by cfg [Sync (validate sc); Async h] rq) →
  strip server_origin (API_BASE +:+ endpoint) = Some path → plain (JObj body) →
  resolves cfg s0 (fetchApi endpoint (Some (post (JObj body)))) r → conforms (ApiResponse ty) r = true.
Proof.
  intros Hh Htk Hpath (text & Htxt & Hparse)%JSON_parse_stringify.
  apply (call_typed ty endpoint _ path); [done|done|]. intros t Ht.
  unfold post in Ht. cbn [mbind option_bind ri_method ri_body default] in Ht. rewrite Htxt in Ht.
  by eapply (post_handled ty path body text).
Qed.

(** ** The calls of the client *)

Lemma stats_typed r :
  node_numeric E cfg → cache_good s0 → resolves cfg s0 getStats r → conforms (ApiResponse NetworkStats) r = true.
Proof. intros Hn Hc. apply (call_typed _ _ _ "/api/stats"); [done|done|]. intros t. by apply stats_handled. Qed.

Lemma subscribe_typed email r :
  resolves cfg s0 (subscribeNewsletter email) r → conforms (ApiResponse Message) r = true.
Proof.
  apply (post_typed Message "/newsletter" "/api/newsletter" [("email", JStr email)] newsletter_schema Newsletter.subscribe);
    [apply subscribe_answered|apply newsletter_taken|done|apply subscription_plain].
Qed.

Lemma contact_typed email subject message r :
  resolves cfg s0 (submitContact email subject message) r → conforms (ApiResponse Message) r = true.
Proof.
  apply (post_typed Message "/contact" "/api/contact" [("email", JStr email); ("subject", JStr subject); ("message", JStr message)] contact_schema Contact.submit);
    [apply submit_answered|apply contact_taken|done|apply contact_plain].
Qed.

(** The server discharges the laws of the site. *)
Lemma server_laws :
  node_numeric E cfg → cache_good s0 → BackendLaws (server_backend cfg s0).
Proof.
  intros Hn Hc. split.
  - intros r Hr%stats_typed; [|done..]. by apply stats_response.
  - intros email r Hr%subscribe_typed. by apply message_response.
Qed.
End answers.

(** ** A poll that is answered *)

(** One request, served alone. *)
Lemma handled_alone {X : Express} {P : Packages} {E : Env} cfg (s : sys E) rq :
  handled cfg s rq (run (run_layers (app cfg) rq no_next) s).1.2.
Proof.
  set (t := _.1.2). exists [rq], [t], t, (run (run_layers (app cfg) rq no_next) s).2. split_and!.
  - repeat constructor. eexists. apply run_is_exec.
  - by left.
  - pose proof (shuffle_concat [t]) as Hs. simpl in Hs. by rewrite app_nil_r in Hs.
  - apply run_replays.
Qed.

Lemma poll_resolves {X : Express} {P : Packages} {E : Env} cfg (s : sys E) o :
  responses (run (run_layers (app cfg) (json_request "GET" "/api/stats" None) no_next) s).1.2 = [(200%Z, JObj o)] →
  plain (JObj o) → resolves cfg s getStats (JObj [("data", JObj o)]).
Proof.
  intros Ht Hp. set (response := wire_response (200%Z, JObj o)).
  assert (Hr : response = HttpResponse true (Ok (JObj o))) by (apply (wire_image 200); [by apply plain_serializable|by apply plain_image]).
  exists [Ev (fetch_op "/stats" None) (Ok response); Ev (RespJson response) (Ok (JObj o))]. split.
  - eexists _, _. split; [reflexivity|]. eexists _, _. split; [reflexivity|]. by rewrite Hr.
  - repeat apply Forall_cons_2; [| |constructor].
    + exists "/api/stats". eexists _, _. split_and!; [reflexivity|apply handled_alone|exact Ht|reflexivity].
    + change (Ok (JObj o) = resp_body response). by rewrite Hr.
Qed.

(** The server's answer to a poll when nothing fresh is cached. *)
Lemma stats_polled {X : Express} {XL : ExpressLaws X} {P : Packages} {E : Env} {CL : ClockLaws E}
    cfg (s s0 : sys E) bi mi cc :
  let_in cfg "GET" "/api/stats" None s s0 → cache_miss s0 →
  node_result E cfg "getblockchaininfo" bi → node_result E cfg "getmininginfo" mi →
  node_result E cfg "getconnectioncount" cc →
  ∃ d, responses (run (run_layers (app cfg) (json_request "GET" "/api/stats" None) no_next) s).1.2 =
    [(200%Z, JObj (Stats.make_stats bi mi cc d))].
Proof.
  intros Hin Hmiss Hbi Hmi Hcc. destruct (run (Stats.get_stats cfg stats_request) s0) as [[x t] s'] eqn:Hrun.
  pose proof (run_is_exec (Stats.get_stats cfg stats_request) s0) as Hx.
  pose proof (run_replays (Stats.get_stats cfg stats_request) s0) as Hr. rewrite Hrun in Hx, Hr.
  destruct (stats_on_miss cfg bi mi cc stats_request t x s0 s') as (d & n & Ht & _);
    [intros t0 r0; by apply call_result..|done|done|done|].
  destruct (stats_routed cfg s s0 (200%Z, JObj (Stats.make_stats bi mi cc d)) s' Hin) as (a & u & Hu & Hresp);
    [intros rq; by exists x, t|]. exists d. by rewrite Hu.
Qed.

(** The page after its first poll. *)
Lemma poll_reaches {B : Backend} bb constraints_ok data :
  stats_reply (JObj [("data", data)]) →
  rtc (window_step bb constraints_ok) window_opened
    (Window false true hologram_initial (fetch_done data (set_inflight [] (run_effect panel_initial))) opened).
Proof.
  intros Hr. set (p1 := run_effect panel_initial). set (w1 := Window false true hologram_initial p1 opened).
  eapply (rtc_l _ _ w1); [by apply (window_panel _ _ window_opened [] p1), panel_effect|].
  apply rtc_once, (window_panel _ _ w1 [(0%nat, data)]).
  exact (panel_response _ p1 [] 0 [] (JObj [("data", data)]) eq_refl Hr).
Qed.

(** ** Theorems *)

(** C6: the site and the server together never go down.  If the node reports
    numbers where it reports anything, then in every state the components of
    the page reach together, each call to the server failing on the way, being
    turned away, or being answered by the server among any number of concurrent
    requests, the whole page can be rendered. *)
Theorem site_with_server {X : Express} {XL : ExpressLaws X} {P : Packages} {PaL : PackagesLaws P}
    {WL : WireLaws P} {E : Env} cfg (s0 : sys E) bb constraints_ok H w :
  node_numeric E cfg → cache s0 = None →
  rtc (window_step (B:=server_backend cfg s0) bb constraints_ok) window_opened w →
  ∃ page, App H (view w) = Ok page ∧ renderable page = true.
Proof.
  intros Hn Hc Hw. apply view_renders. eapply (window_sound_reachable (BL:=server_laws cfg s0 Hn _)). exact Hw.
  Unshelve. intros c Hc'. by rewrite Hc in Hc'.
Qed.

(** C22: a JSON request whose body cannot be read is answered as a failure of
    the server.  If the body is declared as application/json and is not empty,
    and it is no JSON text or is longer than 10240 bytes, the answer is 500
    "Internal server error", unless the limiter turns the request away first;
    neither the database nor the node is asked. *)
Theorem unreadable_body {X : Express} {XL : ExpressLaws X} {P : Packages} {WL : WireLaws P}
    cfg verb path text t a :
  verb ≠ "OPTIONS" → text ≠ "" → JSON_parse text = None ∨ (10240 < Z.of_nat (String.length text))%Z →
  exec (run_layers (app cfg) (wire_request verb path (Some "application/json") (Some text)) no_next) t a →
  Forall front_event t ∧ (responses t = [too_many] ∨ responses t = [server_error]).
Proof.
  intros Hv Hne Hb H. apply (admission cfg verb path (Some text)) in H; [|done].
  assert (Hn0 : body_value (Some text) = None); [|by rewrite Hn0 in H].
  unfold body_value. destruct text; [done|]. destruct Hb as [-> | Hl]; [by destruct (fits _)|].
  unfold fits, body_limit. by rewrite (proj2 (Z.leb_gt _ _) Hl).
Qed.

(** C33: the promise is needed.  If the node reports a difficulty that is there
    and is not a number, the server passes it on, whatever else it serves, and
    a poll of the page that is answered takes the whole page down. *)
Theorem site_crash {X : Express} {XL : ExpressLaws X} {P : Packages} {E : Env} {CL : ClockLaws E}
    cfg (s s0 : sys E) bb constraints_ok H bi mi cc :
  let_in cfg "GET" "/api/stats" None s s0 → cache_miss s0 →
  node_result E cfg "getblockchaininfo" bi → node_result E cfg "getmininginfo" mi →
  node_result E cfg "getconnectioncount" cc →
  (∀ d, plain (JObj (Stats.make_stats bi mi cc d))) →
  match js_or (opt_prop bi "difficulty") Stats.zero with JNum _ => False | _ => True end →
  ∃ w d, rtc (window_step (B:=server_backend cfg s) bb constraints_ok) window_opened w ∧
    stats (w_panel w) = JObj (Stats.make_stats bi mi cc d) ∧ ∃ e, App H (view w) = Throw e.
Proof.
  intros Hin Hmiss Hbi Hmi Hcc Hp Hd.
  destruct (stats_polled cfg s s0 bi mi cc Hin Hmiss Hbi Hmi Hcc) as (d & Ht).
  pose proof (poll_resolves cfg s _ Ht (Hp d)) as Hres.
  exists (Window false true hologram_initial
    (fetch_done (JObj (Stats.make_stats bi mi cc d)) (set_inflight [] (run_effect panel_initial))) opened), d.
  split; [by apply poll_reaches|]. split; [done|]. apply view_throws.
  change (opt_prop _ "difficulty") with (js_or (opt_prop bi "difficulty") Stats.zero).
  unfold js_or in *. destruct (truthy (opt_prop bi "difficulty")) eqn:Htr; [|done].
  by destruct (opt_prop bi "difficulty").
Qed.

(** ** A concrete system *)

Lemma node_env_answers f cfg method v (Q : jsval → Prop) :
  f (rpc_init cfg (JStr method) (JArr [])) =
    Ok (HttpResponse true (Ok (JObj [("result", v); ("error", JNull)]))) →
  Q v → node_answers (node_env f) cfg method Q.
Proof.
  intros Hf HQ w w' resp y x H1 H2 H3.
  change (f (rpc_init cfg (JStr method) (JArr [])) = Ok resp) in H1. rewrite Hf in H1. injection H1 as <-.
  injection H2 as <-. by injection H3 as <-.
Qed.

Lemma up_numeric : node_numeric (node_env up_reply) default_config.
Proof.
  set (bi := JObj [("blocks", JNum (num_of_Z 840000)); ("chain", JStr "main")]).
  split_and!; [eapply (node_env_answers _ _ _ bi)|eapply (node_env_answers _ _ _ bi)|
    eapply (node_env_answers _ _ _ (JNum (num_of_Z 8)))]; try reflexivity.
  - split_and!; [right|by left|right; by eexists]. eexists. split; [reflexivity|]. apply printable_int; lia.
  - by left.
  - right. eexists. split; [reflexivity|]. apply printable_int; lia.
Qed.

(** The statistics of the node at block 840000, and the page that shows them. *)
Definition polled : jsobj :=
  let bi := JObj [("blocks", JNum (num_of_Z 840000)); ("chain", JStr "main")] in
  Stats.make_stats bi bi (JNum (num_of_Z 8)) 0.

Lemma polled_resolves :
  resolves (P:=wire_packages) default_config (@Sys (node_env up_reply) None ref_world) getStats
    (JObj [("data", JObj polled)]).
Proof.
  apply poll_resolves; [vm_compute; reflexivity|].
  apply stats_plain. repeat apply Forall_cons_2; try exact I; try apply Forall_nil_2; apply printable_int; lia.
Qed.

Definition polled_window : window :=
  Window false true hologram_initial (fetch_done (JObj polled) (set_inflight [] (run_effect panel_initial))) opened.

Lemma polled_reached :
  let s0 := @Sys (node_env up_reply) None ref_world in
  rtc (window_step (B:=server_backend (P:=wire_packages) default_config s0) (λ _, (origin, origin)) (λ _, true))
    window_opened polled_window.
Proof.
  intros s0. apply poll_reaches, polled_resolves.
Qed.

Lemma site_with_server_witness :
  ∃ page, stats (w_panel polled_window) = JObj polled ∧
    App plain_host (view polled_window) = Ok page ∧ renderable page = true.
Proof.
  destruct (site_with_server (P:=wire_packages) default_config (@Sys (node_env up_reply) None ref_world)
    (λ _, (origin, origin)) (λ _, true) plain_host polled_window up_numeric eq_refl polled_reached) as (page & H).
  exists page. split; [reflexivity|exact H].
Defined.

Lemma unreadable_body_witness :
  let rq := wire_request "POST" "/api/newsletter" (Some "application/json") (Some "{oops") in
  responses (run (run_layers (app (P:=wire_packages) default_config) rq no_next) ref_sys).1.2 = [server_error].
Proof.
  intros rq. destruct (unreadable_body (P:=wire_packages) default_config "POST" "/api/newsletter" "{oops" _ _
    ltac:(discriminate) ltac:(discriminate) (or_introl eq_refl)
    (run_is_exec (run_layers (app (P:=wire_packages) default_config) rq no_next) ref_sys))
    as [_ [H|H]]; [|exact H].
  vm_compute in H. discriminate H.
Defined.

(** A node that reports its difficulty as a text. *)
Definition text_reply (init : fetch_init) : result http_response :=
  Ok (HttpResponse true (Ok (JObj [("result", JObj [("difficulty", JStr "1")]); ("error", JNull)]))).

Lemma site_crash_witness :
  let bi := JObj [("difficulty", JStr "1")] in
  let s := @Sys (node_env text_reply) None ref_world in
  ∃ w d e, rtc (window_step (B:=server_backend (P:=wire_packages) default_config s) (λ _, (origin, origin)) (λ _, true))
      window_opened w ∧
    stats (w_panel w) = JObj (Stats.make_stats bi bi bi d) ∧ App plain_host (view w) = Throw e.
Proof.
  intros bi s.
  destruct (site_crash (P:=wire_packages) default_config s s (λ _, (origin, origin)) (λ _, true) plain_host bi bi bi)
    as (w & d & H1 & H2 & e & H3).
  - exact (wire_let_in default_config "GET" "/api/stats" None s _ eq_refl eq_refl).
  - intros c Hc. discriminate Hc.
  - intros w. eexists _, _. split; [reflexivity|]. split; [intros w'; reflexivity|]. split; reflexivity.
  - intros w. eexists _, _. split; [reflexivity|]. split; [intros w'; reflexivity|]. split; reflexivity.
  - intros w. eexists _, _. split; [reflexivity|]. split; [intros w'; reflexivity|]. split; reflexivity.
  - intros d. apply stats_plain. repeat apply Forall_cons_2; try apply Forall_nil_2; by repeat split.
  - exact I.
  - exists w, d, e. exact (conj H1 (conj H2 H3)).
Defined.
