(* ===== verification/TypedClient.v ===== *)
(** * The declared types of the client are those of the server

    [fetchApi] casts what it reads.  Whatever a call resolves to, with the
    server handling any number of other requests, has the type its caller
    declares, except that a missing checksum of a download is null. *)

From S2P Require Import Prelude JsValue Effects Foreign Http Config Validate AuthMw AuthRoutes ContentRoutes RpcRoutes JsonPrint JsonParse JsonNumber JsonRoundTrip App AppSafety Concurrency Node Reference Api ClientTypes Routes Wire EndToEnd ClientCalls StatsContract Contract.

Section downloads.
Context {X : Express} {XL : ExpressLaws X} {P : Packages} {WL : WireLaws P} {PL : PackagesLaws P}.
Context {E : Env} {DL : PrismaLaws E}.
Implicit Types s : sys E.
Variable cfg : config.

Definition list_op : op := DbFindMany MDownload [("createdAt", "desc")].

(** Along a run every list read from the table has typed rows. *)
Lemma listed_typed u s s' v :
  Forall (good_event cfg) u → replays s u s' → Forall (row_typed MDownload) (rows s MDownload) →
  Ev list_op (Ok v) ∈ u → ∃ l, v = JArr (JObj <$> l) ∧ Forall (row_typed MDownload) l.
Proof.
  intros Hg Hr Hty (u1 & u2 & ->)%list_elem_of_split. apply Forall_app in Hg as [Hg _].
  apply replays_app in Hr as (s1 & Hr1 & Hr2).
  assert (Hty1 : Forall (row_typed MDownload) (rows s1 MDownload)).
  { apply (replays_invariant (good_event cfg) (λ s, Forall (row_typed MDownload) (rows s MDownload)) u1 s s1);
      [|done..]. intros o s2. apply row_typed_kept. }
  unfold list_op in Hr2. rewrite replays_cons in Hr2 by done. destruct Hr2 as [Ha _].
  pose proof (find_many_law E MDownload (ext s1)) as Hl. rewrite Ha in Hl. destruct Hl as (l & -> & Hp & _).
  exists l. split; [done|]. by rewrite Hp.
Qed.

Lemma handled_listed s rq t v :
  Forall (row_typed MDownload) (rows s MDownload) → handled cfg s rq t → Ev list_op (Ok v) ∈ t →
  ∃ l, v = JArr (JObj <$> l) ∧ Forall (row_typed MDownload) l.
Proof.
  intros Hty (rqs & ts & u & s' & Ht & Hs & Hr & Hx)%handled_in Hin.
  eapply listed_typed; [|exact Hr|exact Hty|apply (shuffle_elem _ _ _ Hs); by exists t].
  apply (serves_good cfg no_next rqs). by exists ts.
Qed.

Lemma downloads_handled s t :
  Forall (row_typed MDownload) (rows s MDownload) →
  handled cfg s (json_request "GET" "/api/downloads" None) t → answered (TArray SentDownload) t.
Proof.
  intros Hty Hh.
  destruct (handled_taken cfg s "GET" "/api/downloads" None (JObj []) [Async Downloads.list_all] t)
    as [Hr|(t0 & t1 & rq & out & -> & H0 & H1 & _)]; [done|done|done|by apply downloads_taken|by apply refused_answered|].
  pose proof (λ v Hin, handled_listed s _ _ v Hty Hh (proj2 (elem_of_app t0 t1 _) (or_intror Hin))) as Hl.
  apply answered_app; [done|]. rewrite stack_async in H1. apply exec_pbind in H1 as (x & t2 & t3 & -> & H1 & H2).
  unfold Downloads.list_all in H1. symex H1; symex H2; eexists; (split; [reflexivity|]).
  - edestruct Hl as (l & -> & Htl); [left|]. destruct (list_sent l Htl) as (Hleg & Hc & _). by exists (sent_list l).
  - by apply error_readable.
Qed.

Lemma downloads_typed s r :
  Forall (row_typed MDownload) (rows s MDownload) → resolves cfg s getDownloads r →
  conforms (ApiResponse (TArray SentDownload)) r = true.
Proof. intros Hty. apply (call_typed _ _ _ _ _ "/api/downloads"); [done|done|]. intros t. by apply downloads_handled. Qed.
End downloads.

(** ** Theorem *)

(** C7: the types across the wire.  If the node reports numbers where it reports
    anything and the table of downloads keeps to the schema, then whatever a call
    of the client resolves to has the type written in its declaration, with the
    call failing on the way, being turned away, or being answered among any
    number of concurrent requests.  Only the type of a download is another one:
    its checksum may be null, and it carries the dates. *)
Theorem client_types {X : Express} {XL : ExpressLaws X} {P : Packages} {PaL : PackagesLaws P} {WL : WireLaws P}
    {E : Env} {PL : PrismaLaws E} cfg (s0 : sys E) :
  node_numeric E cfg → cache s0 = None → Forall (row_typed MDownload) (rows s0 MDownload) →
  (∀ r, resolves cfg s0 getStats r → conforms (ApiResponse NetworkStats) r = true) ∧
  (∀ email r, resolves cfg s0 (subscribeNewsletter email) r → conforms (ApiResponse Message) r = true) ∧
  (∀ email subject message r,
     resolves cfg s0 (submitContact email subject message) r → conforms (ApiResponse Message) r = true) ∧
  (∀ r, resolves cfg s0 getDownloads r → conforms (ApiResponse (TArray SentDownload)) r = true).
Proof.
  intros Hn Hc Hty. split_and!.
  - intros r. apply stats_typed; [done|]. intros c Hc'. by rewrite Hc in Hc'.
  - intros email r. apply subscribe_typed.
  - intros email subject message r. apply contact_typed.
  - intros r. by apply downloads_typed.
Qed.

(** ** A concrete system *)

(** The reference database beside a node that always answers in one way. *)
#[export] Instance node_prisma f : PrismaLaws (node_env f).
Proof.
  refine {| tbl := r_tbl : world (Env:=node_env f) → _ |}.
  - intros o w m Ho. pose proof (@tbl_frame ref_env ref_prisma o w m Ho) as H. by destruct o.
  - intros m wh sel w. exact (@find_unique_law ref_env ref_prisma m wh sel w).
  - intros m w. exact (@find_many_law ref_env ref_prisma m w).
  - intros m dat w. exact (@create_law ref_env ref_prisma m dat w).
  - intros m wh w. exact (@delete_law ref_env ref_prisma m wh w).
Defined.

Lemma client_types_witness :
  let s0 := @Sys (node_env up_reply) None ref_world in
  conforms (ApiResponse NetworkStats) (JObj [("data", JObj polled)]) = true ∧
  resolves (P:=wire_packages) default_config s0 getStats (JObj [("data", JObj polled)]).
Proof.
  intros s0. assert (Hr : resolves (P:=wire_packages) default_config s0 getStats (JObj [("data", JObj polled)]))
    by exact polled_resolves.
  split; [|exact Hr].
  exact (proj1 (client_types (P:=wire_packages) default_config s0 up_numeric eq_refl (Forall_nil_2 _)) _ Hr).
Defined.
