(* ===== verification/Scenery.v ===== *)
(** * The scenery (website/src/components/Scene.tsx, ParticlesBackground.tsx and
    TrustFooter.tsx)

    Components the site keeps but does not put on the page: a crystal in a ring
    of particles, a field of particles, and a footer.  The particle buffers are
    filled by loops that draw random numbers; the draws of [Math.random] are a
    sequence, and the functions of [Math] the standard leaves to the
    implementation are a parameter. *)

From S2P Require Import Prelude JsValue JsonPrint Jsx Hologram.

#[local] Open Scope hyl_scope.

(** ** The language *)

Class Maths := {
  math_sin : num → num;
  math_cos : num → num;
  math_cbrt : num → num;
  math_acos : num → num;
}.

(** [Math.PI] *)
Definition math_pi : num := S754_finite false 7074237752028440 (-51).

(** Rounding to a binary format. *)
Definition round_to (prec emax : Z) (x : num) : num :=
  match x with
  | S754_finite s m e => binary_normalize prec emax (if s then Zneg m else Zpos m) e s
  | x => x
  end.

(** What reading an entry of a [Float32Array] gives after [x] was stored in it:
    single precision, as a double. *)
Definition fround (x : num) : num := round_to 53 1024 (round_to 24 128 x).

(** [new Float32Array(n)], and [a[i] = x], which does nothing out of range. *)
Definition float32_array (n : nat) : list num := replicate n (S754_zero false).
Definition store (i : nat) (x : num) (a : list num) : list num := <[i := fround x]> a.

(** [for (let i = 0; i < count; i++) body] *)
Definition for_i {A} (count : nat) (body : nat → A → A) (s : A) : A :=
  foldl (λ s i, body i s) s (seq 0 count).

#[local] Notation "x ⊗ y" := (SFmul 53 1024 x y) (at level 40, left associativity) : hyl_scope.
#[local] Notation "x ⊘ y" := (SFdiv 53 1024 x y) (at level 40, left associativity) : hyl_scope.
#[local] Notation "x ⊕ y" := (SFadd 53 1024 x y) (at level 50, left associativity) : hyl_scope.
#[local] Notation "x ⊖ y" := (SFsub 53 1024 x y) (at level 50, left associativity) : hyl_scope.
#[local] Abbreviation int := num_of_Z.
#[local] Abbreviation dec := num_of_dec.

(** A property with a decimal fraction as value. *)
#[local] Notation "k =. ( m , e )" := (k%string, JNum (num_of_dec m%positive e%Z))
  (at level 1, only parsing) : hyl_scope.

Definition on (k : string) : string * jsval := (k, JBool true).
Definition off (k : string) : string * jsval := (k, JBool false).

(** ** Scene.tsx *)

Section scene.
Context {M : Maths}.

(** The rotations of the outer and the inner crystal on a frame, where the
    references are set; each call of [getElapsedTime] reads the clock. *)
Definition crystal_frame (elapsed : nat → num) (mesh inner : option vec) : option vec * option vec :=
  let '(mesh', read) :=
    match mesh with
    | Some r => (Some (Vec (math_sin (elapsed 1%nat ⊗ dec 15 (-2)) ⊗ dec 5 (-2))
                           (elapsed 0%nat ⊗ dec 2 (-1)) (vz r)), 2%nat)
    | None => (None, 0%nat)
    end in
  (mesh', (λ r, Vec (vx r) (SFopp (elapsed read) ⊗ dec 15 (-2)) (vz r)) <$> inner).

Definition HyliumCrystal : node :=
  Elem "Float" ["speed" =. (12, -1); "rotationIntensity" =. (2, -1); "floatIntensity" =. (6, -1)] []
    [Elem "group" [] []
      [Elem "mesh" ["scale" =# 2] []
         [Elem "icosahedronGeometry" [("args", JArr [JNum (int 1); JNum (int 1)])] [] [];
          Elem "meshPhysicalMaterial" ["color" =: "#6366f1"; "metalness" =. (1, -1); "roughness" =. (1, -1);
            "transmission" =. (6, -1); "thickness" =. (15, -1); "ior" =. (24, -1); "envMapIntensity" =# 1;
            "clearcoat" =# 1; "clearcoatRoughness" =. (1, -1); on "transparent"; "opacity" =. (9, -1)] [] []];
       Elem "mesh" ["scale" =. (12, -1)] []
         [Elem "icosahedronGeometry" [("args", JArr [JNum (int 1); JNum (int 0)])] [] [];
          Elem "meshBasicMaterial" ["color" =: "#8b5cf6"; on "transparent"; "opacity" =. (3, -1)] [] []]]].

Definition ring_count : nat := 400.

(** The [i]-th particle of the ring, from two draws. *)
Definition ring_particle (i : nat) (draw1 draw2 : num) : vec :=
  let angle := int (Z.of_nat i) ⊘ int (Z.of_nat ring_count) ⊗ math_pi ⊗ int 2 in
  let radius := dec 35 (-1) ⊕ draw1 ⊗ dec 3 (-1) in
  Vec (math_cos angle ⊗ radius) ((draw2 ⊖ dec 5 (-1)) ⊗ dec 2 (-1)) (math_sin angle ⊗ radius).

(** The body of the loop: the buffer, and how many numbers have been drawn. *)
Definition ring_step (draw : nat → num) (i : nat) (st : list num * nat) : list num * nat :=
  let '(positions, k) := st in
  let p := ring_particle i (draw k) (draw (k + 1)%nat) in
  (store (i * 3 + 2) (vz p) (store (i * 3 + 1) (vy p) (store (i * 3) (vx p) positions)), (k + 2)%nat).

Definition ring_positions (draw : nat → num) : list num :=
  (for_i ring_count (ring_step draw) (float32_array (ring_count * 3), 0%nat)).1.

Definition ring_frame (elapsed : num) (points : option vec) : option vec :=
  (λ r, Vec (vx r) (elapsed ⊗ dec 8 (-2)) (vz r)) <$> points.

(** A typed array among the properties is written as the array of its entries. *)
Definition ParticleRing (particles : list num) : node :=
  Elem "points" [] []
    [Elem "bufferGeometry" [] []
       [Elem "bufferAttribute" ["attach" =: "attributes-position";
          ("args", JArr [JArr (JNum <$> particles); JNum (int 3)])] [] []];
     Elem "pointsMaterial" ["size" =. (15, -3); "color" =: "#a5b4fc"; on "transparent"; "opacity" =. (5, -1);
       on "sizeAttenuation"] [] []].

Definition Scene (particles : list num) : node :=
  Elem "Canvas" [css ["height" =: "100%"; "width" =: "100%"];
      ("camera", JObj [("position", vec3 0 0 6); "fov" =# 50]);
      ("gl", JObj [on "antialias"; on "alpha"])] []
    [Elem "Environment" ["preset" =: "night"] [] [];
     Elem "ambientLight" ["intensity" =. (3, -1); "color" =: "#e0e7ff"] [] [];
     Elem "directionalLight" [("position", vec3 5 4 3); "intensity" =# 1; "color" =: "#f8fafc"] [] [];
     Elem "Suspense" [("fallback", JNull)] [] [HyliumCrystal; ParticleRing particles];
     Elem "OrbitControls" [off "enableZoom"; off "enablePan"; on "autoRotate"; "autoRotateSpeed" =. (3, -1)] [] []].
End scene.

(** ** ParticlesBackground.tsx *)

Section background.
Context {M : Maths}.

Definition field_count : nat := 2000.

(** A point in a ball of radius 20, from three draws. *)
Definition field_particle (draw1 draw2 draw3 : num) : vec :=
  let r := int 20 ⊗ math_cbrt draw1 in
  let theta := draw2 ⊗ int 2 ⊗ math_pi in
  let phi := math_acos (int 2 ⊗ draw3 ⊖ int 1) in
  Vec (r ⊗ math_sin phi ⊗ math_cos theta) (r ⊗ math_sin phi ⊗ math_sin theta) (r ⊗ math_cos phi).

Definition field_step (draw : nat → num) (i : nat) (st : list num * nat) : list num * nat :=
  let '(positions, k) := st in
  let p := field_particle (draw k) (draw (k + 1)%nat) (draw (k + 2)%nat) in
  (store (i * 3 + 2) (vz p) (store (i * 3 + 1) (vy p) (store (i * 3) (vx p) positions)), (k + 3)%nat).

Definition field_positions (draw : nat → num) : list num :=
  (for_i field_count (field_step draw) (float32_array (field_count * 3), 0%nat)).1.

(** [rotation.x -= delta / 30; rotation.y -= delta / 40] *)
Definition field_frame (delta : num) (points : option vec) : option vec :=
  (λ r, Vec (vx r ⊖ delta ⊘ int 30) (vy r ⊖ delta ⊘ int 40) (vz r)) <$> points.

(** [THREE.AdditiveBlending] is 2; properties given from outside come last. *)
Definition ParticleField (props : jsobj) (positions : list num) : node :=
  Elem "group" [("rotation", JArr [JNum (int 0); JNum (int 0); JNum (math_pi ⊘ int 4)])] []
    [Elem "Points" ([("positions", JArr (JNum <$> positions)); "stride" =# 3; off "frustumCulled"] ++ props) []
      [Elem "PointMaterial" [on "transparent"; "color" =: "#3b82f6"; "size" =. (3, -2); on "sizeAttenuation";
         off "depthWrite"; "opacity" =. (6, -1); "blending" =# 2] [] []]].

Definition ParticlesBackground (positions : list num) : node :=
  Elem "div" [css ["position" =: "fixed"; "top" =# 0; "left" =# 0; "width" =: "100%"; "height" =: "100%";
      "zIndex" =# (-1); "pointerEvents" =: "none";
      "background" =: "radial-gradient(circle at 50% 50%, #111111 0%, #000000 100%)"]] []
    [Elem "Canvas" [("camera", JObj [("position", vec3 0 0 5); "fov" =# 60])] [] [ParticleField [] positions]].
End background.

(** ** TrustFooter.tsx *)

Record trust_item := TrustItem { icon : string; label : string; value : string }.

Definition trust_items : list trust_item :=
  [TrustItem "Shield" "AUDITED BY" "Certik"; TrustItem "Newspaper" "FEATURED IN" "CoinDesk";
   TrustItem "Activity" "TOTAL TRANSACTIONS" "1.2M+"; TrustItem "Server" "ACTIVE NODES" "4,500"].

Definition trust_card (index : nat) (item : trust_item) : node :=
  Elem "div" ["key" =# (Z.of_nat index);
      css ["display" =: "flex"; "alignItems" =: "center"; "gap" =: "12px"]] []
    [Elem (icon item) [css ["width" =: "24px"; "height" =: "24px"; "color" =: "#94a3b8"]] [] [];
     Elem "div" [] []
       [Elem "p" [css ["color" =: "#94a3b8"; "fontSize" =: "11px"; "textTransform" =: "uppercase";
            "letterSpacing" =: "0.05em"]] [] [Value (JStr (label item))];
        Elem "p" [css ["color" =: "#0f172a"; "fontWeight" =# 600]] [] [Value (JStr (value item))]]].

Definition TrustFooter : node :=
  Elem "section" [css ["backgroundColor" =: "rgba(255, 255, 255, 0.7)"; "backdropFilter" =: "blur(10px)";
      "borderTop" =: "1px solid rgba(0, 0, 0, 0.05)"; "position" =: "fixed"; "bottom" =# 0; "left" =# 0;
      "right" =# 0]] []
    [Elem "div" [css ["maxWidth" =: "1280px"; "margin" =: "0 auto"; "padding" =: "24px"; "display" =: "grid";
         "gridTemplateColumns" =: "repeat(4, 1fr)"; "gap" =: "32px"]] []
       (map_i trust_card trust_items);
     Elem "style" [] []
       [Text "
        @media (max-width: 768px) {
          section > div {
            grid-template-columns: repeat(2, 1fr) !important;
          }
        }
      "]].

(** ** Lemmas *)

(** A loop that stores a point per round and draws [d] numbers for it. *)
Definition fill_step (d : nat) (f : nat → nat → vec) (i : nat) (st : list num * nat) : list num * nat :=
  let '(positions, k) := st in
  (store (i * 3 + 2) (vz (f i k)) (store (i * 3 + 1) (vy (f i k)) (store (i * 3) (vx (f i k)) positions)), (k + d)%nat).

(** The point is where the renderer looks for it. *)
Definition point_at (positions : list num) (i : nat) (p : vec) : Prop :=
  positions !! (i * 3)%nat = Some (fround (vx p)) ∧ positions !! (i * 3 + 1)%nat = Some (fround (vy p)) ∧
  positions !! (i * 3 + 2)%nat = Some (fround (vz p)).

Lemma for_i_S {A} n (body : nat → A → A) s : for_i (S n) body s = body n (for_i n body s).
Proof. unfold for_i. by rewrite seq_S, foldl_app. Qed.

Lemma fill_spec d f n a :
  (n * 3 ≤ length a)%nat →
  let st := for_i n (fill_step d f) (a, 0%nat) in
  length st.1 = length a ∧ st.2 = (n * d)%nat ∧ ∀ i, (i < n)%nat → point_at st.1 i (f i (i * d)%nat).
Proof.
  induction n as [|n IH]; intros Hn; cbn zeta; [split_and!; [done..|lia]|].
  rewrite for_i_S. destruct IH as (Hl & Hk & IH); [lia|].
  destruct (for_i n (fill_step d f) (a, 0%nat)) as [b k]. cbn [fst snd] in *. subst k.
  unfold fill_step, store. cbn [fst snd]. rewrite !length_insert. split_and!; [done|lia|].
  intros i Hi. unfold point_at. destruct (decide (i = n)) as [->|Hne].
  - split_and!.
    + rewrite !list_lookup_insert_ne by lia. apply list_lookup_insert_eq. lia.
    + rewrite list_lookup_insert_ne by lia. apply list_lookup_insert_eq. rewrite length_insert. lia.
    + apply list_lookup_insert_eq. rewrite !length_insert. lia.
  - rewrite !list_lookup_insert_ne by lia. apply IH. lia.
Qed.

Lemma ring_step_fill {M : Maths} draw :
  ring_step draw = fill_step 2 (λ i k, ring_particle i (draw k) (draw (k + 1)%nat)).
Proof. reflexivity. Qed.

Lemma field_step_fill {M : Maths} draw :
  field_step draw = fill_step 3 (λ i k, field_particle (draw k) (draw (k + 1)%nat) (draw (k + 2)%nat)).
Proof. reflexivity. Qed.

(** ** Theorem *)

(** C38: the particle buffers are complete.  The loops of the ring and of the
    field fill their buffers exactly: three entries per particle, none left
    unset and none stored out of range, the coordinates of particle [i] in
    entries [3i] to [3i+2] in single precision, and every particle from random
    numbers of its own. *)
Theorem particle_buffers {M : Maths} draw :
  length (ring_positions draw) = (400 * 3)%nat ∧
  (∀ i, (i < 400)%nat →
    point_at (ring_positions draw) i (ring_particle i (draw (i * 2)) (draw (i * 2 + 1)))%nat) ∧
  length (field_positions draw) = (2000 * 3)%nat ∧
  (∀ i, (i < 2000)%nat →
    point_at (field_positions draw) i (field_particle (draw (i * 3)) (draw (i * 3 + 1)) (draw (i * 3 + 2))))%nat.
Proof.
  unfold ring_positions, field_positions. rewrite ring_step_fill, field_step_fill.
  destruct (fill_spec 2 (λ i k, ring_particle i (draw k) (draw (k + 1)%nat)) ring_count
    (float32_array (ring_count * 3))) as (Hl & _ & Hp); [unfold float32_array; by rewrite length_replicate|].
  destruct (fill_spec 3 (λ i k, field_particle (draw k) (draw (k + 1)%nat) (draw (k + 2)%nat)) field_count
    (float32_array (field_count * 3))) as (Hl' & _ & Hp'); [unfold float32_array; by rewrite length_replicate|].
  unfold float32_array in Hl, Hl' |- *. rewrite length_replicate in Hl, Hl'.
  split_and!; [exact Hl|exact Hp|exact Hl'|exact Hp'].
Qed.
