(* ===== verification/Entry.v ===== *)
(** * Where the two programs start (backend/src/index.ts, website/index.html and
    website/src/main.tsx)

    The server listens and announces its address; the page is loaded, adds a
    style sheet and hands the application to React.  Node's [listen] and the
    DOM are foreign code: a document is its tree. *)

From S2P Require Import Prelude JsValue Effects Http Config JsonPrint JsonParse JsonNumber Jsx Api NewsletterForm StatsPanel Hologram Page Site.

#[local] Open Scope hyl_scope.

(** ** The server *)

(** [app.listen(config.port, ...)]: the port asked for (for 0 the system picks
    one), and the lines logged once it is open. *)
Definition listen (cfg : config) : num * list string :=
  (port cfg,
   ["🚀 Hylium Backend running on http://localhost:" +:+ num_to_string (port cfg);
    "   Environment: " +:+ cfg_env cfg]).

(** The address in the first line. *)
Definition announced (cfg : config) : option string :=
  head (listen cfg).2 ≫= strip "🚀 Hylium Backend running on ".

(** ** The page *)

Record document := Document { doc_head : list node; doc_body : node }.

Definition index_html : document :=
  Document
    [Elem "meta" ["charset" =: "UTF-8"] [] [];
     Elem "link" ["rel" =: "icon"; "type" =: "image/png"; "href" =: "/logo.png"] [] [];
     Elem "meta" ["name" =: "viewport"; "content" =: "width=device-width, initial-scale=1.0"] [] [];
     Elem "meta" ["name" =: "description"; "content" =: "Hylium is the future of decentralized mining. Join the network, secure the blockchain, and earn rewards with our advanced mining technology."] [] [];
     Elem "meta" ["name" =: "theme-color"; "content" =: "#000000"] [] [];
     Elem "title" [] [] [Text "Hylium | Decentralized Mining Network"]]
    (Elem "body" [] []
       [Elem "div" ["id" =: "root"] [] [];
        Elem "script" ["type" =: "module"; "src" =: "/src/main.tsx"] [] []]).

(** [createRoot(document.getElementById(id)).render(...)]: the first element with
    the id gets the tree as its only child; without one React throws. *)
Fixpoint render_into (id : string) (tree e : node) : option node :=
  match e with
  | Elem tag props on children =>
      if bool_decide (assoc "id" props = Some (JStr id)) then Some (Elem tag props on [tree])
      else Elem tag props on <$>
        (fix go (l : list node) : option (list node) :=
           match l with
           | [] => None
           | c :: l' =>
               match render_into id tree c with
               | Some c' => Some (c' :: l')
               | None => cons c <$> go l'
               end
           end) children
  | _ => None
  end.

Definition font_link : node :=
  Elem "link" ["href" =: "https://fonts.googleapis.com/css2?family=Inter:wght@400;500;600;700;800&display=swap";
    "rel" =: "stylesheet"] [] [].

(** The module main.tsx, given what [App] renders. *)
Definition main (app : node) (d : document) : result unit * document :=
  let d1 := Document (doc_head d ++ [font_link]) (doc_body d) in
  match render_into "root" (Elem "StrictMode" [] [] [app]) (doc_body d1) with
  | Some body => (Ok tt, Document (doc_head d1) body)
  | None => (Throw (EForeign "createRoot"), d1)
  end.

(** ** Lemmas *)

Lemma strip_prefix pre s r : strip pre s = Some r ↔ s = pre +:+ r.
Proof.
  split; [|intros ->; apply strip_app].
  revert s. induction pre as [|a pre IH]; intros s; simpl; [by intros [= ->]|].
  destruct s as [|b s]; [done|]. destruct (Ascii.eqb_spec a b) as [->|]; [|done]. intros ->%IH. done.
Qed.

Lemma port_read x :
  printable x = true → API_BASE = "http://localhost:" +:+ num_to_string x +:+ "/api" → x = num_of_Z 3001.
Proof.
  intros Hx Heq. apply strip_prefix in Heq. pose proof (read_printed x "/api" Hx eq_refl) as Hr.
  change (strip "http://localhost:" API_BASE) with (Some "3001/api") in Heq. injection Heq as Heq.
  rewrite <- Heq in Hr. assert (H0 : read_json_number "3001/api" = Some (num_of_Z 3001, "/api")) by reflexivity.
  rewrite H0 in Hr. by injection Hr as <-.
Qed.

Lemma num_of_N_inj (n : N) (p : positive) :
  (Z.of_N n < 2 ^ 53 → Zpos p < 2 ^ 53 → num_of_Z (Z.of_N n) = num_of_Z (Zpos p) → n = Npos p)%Z.
Proof.
  intros Hn Hp Heq. destruct (num_of_safe p Hp) as (m & d & Hm & Hd & Hv & _). rewrite Hm in Heq.
  destruct n as [|q]; [discriminate Heq|].
  destruct (num_of_safe q Hn) as (m' & d' & Hm' & _ & Hv' & _).
  pose proof (eq_trans (eq_sym Hm') Heq) as [= -> Hdd]. assert (d' = d) as -> by lia.
  rewrite Hv in Hv'. apply Z.mul_cancel_r in Hv'; [congruence|]. apply Z.pow_nonzero; lia.
Qed.

(** React is given a root exactly if the document has an element with the id. *)
Lemma render_into_found id tree e : is_Some (render_into id tree e) ↔ JStr id ∈ attributes "id" e.
Proof.
  induction e as [s|v|tag props on children IH] using node_ind; [|..]; try (split; [by intros []|set_solver]).
  rewrite attributes_children, elem_of_app, list_elem_of_bind. cbn [render_into]. case_bool_decide as Hid.
  - rewrite Hid. split; [intros _; left; by left|by eexists].
  - rewrite fmap_is_Some. transitivity (Exists (λ c, JStr id ∈ attributes "id" c) children).
    + clear Hid. induction IH as [|c l Hc _ IHl]; [split; [by intros []|by intros ?%Exists_nil]|].
      rewrite Exists_cons, <- IHl, <- Hc. destruct (render_into id tree c) as [c'|].
      * split; [intros _; left; by eexists|by eexists].
      * rewrite fmap_is_Some. split; [by right|]. by intros [[]|].
    + rewrite Exists_exists. split; [intros (c & ? & ?); right; eauto|]. intros [H|(c & ? & ?)]; [|eauto].
      destruct (assoc "id" props) as [v|]; [|by apply elem_of_nil in H].
      by apply list_elem_of_singleton in H as <-.
Qed.

(** ** Theorems *)

(** C37: the client finds the server.  Without a PORT the address the server
    announces is the one the client calls.  A PORT that is set is the port
    asked for, and the client, which has the address built in, finds the
    server only if it is 3001. *)
Theorem addresses_agree penv :
  let cfg := load_config penv in
  let meets := (λ address, address +:+ "/api") <$> announced cfg = Some API_BASE in
  (penv "PORT" = None ∨ penv "PORT" = Some "" → meets) ∧
  (∀ n : N, (n < 65536)%N → penv "PORT" = Some (pretty n) →
     (listen cfg).1 = num_of_Z (Z.of_N n) ∧ (meets ↔ n = 3001%N)).
Proof.
  intros cfg meets. assert (Hmeets : meets ↔ API_BASE = "http://localhost:" +:+ num_to_string (port cfg) +:+ "/api").
  { unfold meets. assert (announced cfg = Some ("http://localhost:" +:+ num_to_string (port cfg))) as ->
      by exact (strip_app "🚀 Hylium Backend running on " _).
    set (x := num_to_string (port cfg)).
    change (Some ("http://localhost:" +:+ x +:+ "/api") = Some API_BASE ↔ API_BASE = "http://localhost:" +:+ x +:+ "/api").
    generalize API_BASE. intros base. clearbody x. split; [by intros [= <-]|by intros ->]. }
  split.
  - intros Hp. apply Hmeets. assert (port cfg = parseInt "3001") as ->; [|reflexivity].
    unfold cfg, load_config, env_or. cbn [port]. by destruct Hp as [-> | ->].
  - intros n Hn Hp. assert (Hport : port cfg = num_of_Z (Z.of_N n)) by by apply parseInt_env.
    split; [exact Hport|]. rewrite Hmeets, Hport. split; [|by intros ->].
    intros H%port_read; [|apply printable_int; lia]. by apply num_of_N_inj in H; [|lia..].
Qed.

Lemma addresses_agree_witness :
  (listen (load_config (λ k, if String.eqb k "PORT" then Some (pretty 8080%N) else None))).1 = num_of_Z 8080.
Proof.
  exact (proj1 (proj2 (addresses_agree (λ k, if String.eqb k "PORT" then Some (pretty 8080%N) else None))
    8080%N eq_refl eq_refl)).
Defined.

(** The page starts exactly on documents with an element for it; the style sheet
    is added in any case. *)
Theorem main_spec app d :
  ((main app d).1 = Ok tt ↔ JStr "root" ∈ attributes "id" (doc_body d)) ∧
  doc_head (main app d).2 = doc_head d ++ [font_link].
Proof.
  unfold main. pose proof (render_into_found "root" (Elem "StrictMode" [] [] [app]) (doc_body d)) as Hf.
  cbn [doc_body]. destruct (render_into _ _ _) as [b|] eqn:Hr; (split; [|done]); rewrite <- Hf; simpl.
  - split; [by eexists|done].
  - split; [done|by intros []].
Qed.

(** Opened in a browser, the page shows the application in its root. *)
Example index_starts app :
  main app index_html =
  (Ok tt, Document (doc_head index_html ++ [font_link])
    (Elem "body" [] []
      [Elem "div" ["id" =: "root"] [] [Elem "StrictMode" [] [] [app]];
       Elem "script" ["type" =: "module"; "src" =: "/src/main.tsx"] [] []])).
Proof. reflexivity. Qed.
